(** * Ketabestan POS: stock, ledger and backup logic

    A shallow embedding of the application-state container (AppContext:
    completeSale, addSaleReturn, addPurchaseInvoice, processAndPaySalaries,
    exportData/importData) and of the data-access adapter
    (services/supabaseService: createSale, updateSale, createSaleReturn,
    createPurchase, createPurchaseReturn, processPayroll,
    clearAndRestoreData and the row mappers).

    Conventions of the embedding:
    - a JavaScript [number] that counts units (stock, quantity) is a [Z];
      a [number] that holds money or an exchange rate is an exact rational
      [Q].  Rounding of IEEE doubles is not modelled by [Q]: where an
      identity of the rationals would not survive rounding, a figure of
      money is stated as the expression the source computes, its terms
      in the order of the source.  The totals of a sale are also given
      over any type of numbers (section [Totals]) and run on binary64
      floats (module [Binary64]);
    - an ISO date string is represented by the instant it denotes, the
      value of [new Date(s).getTime()], a [Z] in milliseconds;
    - an optional or nullable field is an [option];
    - user-facing messages and generated descriptions are the constructors
      of [Text], one per string template of the source;
    - [crypto.randomUUID()], [new Date()], [navigator.onLine] and the
      browser's local storage are read from an explicit environment [Env];
    - the hosted database is a record of tables, each a list of rows in
      storage order. *)

From Stdlib Require Import ZArith NArith QArith Qminmax Lqa Lia Ascii String.
From Stdlib Require PrimFloat.
From stdpp Require Import base decidable option list strings pretty sorting.

Set Default Proof Using "Type".

(** ** Entities (types.ts) *)

Record ProductBatch := mkBatch {
  batch_id : string;
  batch_lotNumber : string;
  batch_stock : Z;
  batch_purchasePrice : Q;
  batch_purchaseDate : Z;
  batch_expiryDate : option Z
}.

Record Product := mkProduct {
  prod_id : string;
  prod_name : string;
  prod_salePrice : Q;
  prod_batches : list ProductBatch;
  prod_barcode : option string;
  prod_manufacturer : option string;
  prod_itemsPerPackage : option Z
}.

Inductive ItemType := TProduct | TService.

(** A cart or invoice line.  [CartItem] is the union of [InvoiceItem & {type:
    'product'}] and [Service & {quantity; type: 'service'}]; a line loaded
    from the database carries the fields of both, so the record lists them
    all and a field an object does not have is [None]. *)
Record CartItem := mkItem {
  item_id : string;
  item_type : ItemType;
  item_name : string;
  item_quantity : Z;
  item_salePrice : option Q;
  item_price : option Q;
  item_finalPrice : option Q;
  item_purchasePrice : option Q;
  item_itemsPerPackage : option Z;
  item_batches : option (list ProductBatch);
  item_barcode : option string;
  item_manufacturer : option string
}.

Inductive SaleKind := KSale | KReturn.

Record SaleInvoice := mkSaleInvoice {
  inv_id : string;
  inv_type : SaleKind;
  inv_originalInvoiceId : option string;
  inv_items : list CartItem;
  inv_subtotal : Q;
  inv_totalDiscount : Q;
  inv_totalAmount : Q;
  inv_timestamp : Z;
  inv_cashier : string;
  inv_customerId : option string
}.

Record PurchaseInvoiceItem := mkPItem {
  pitem_productId : string;
  pitem_productName : string;
  pitem_quantity : Z;
  pitem_purchasePrice : Q;
  pitem_lotNumber : string;
  pitem_expiryDate : option Z
}.

Inductive PurchaseKind := KPurchase | KPurchaseReturn.
Inductive Currency := AFN | USD.

Record PurchaseInvoice := mkPurchaseInvoice {
  pinv_id : string;
  pinv_type : PurchaseKind;
  pinv_originalInvoiceId : option string;
  pinv_supplierId : string;
  pinv_invoiceNumber : string;
  pinv_items : list PurchaseInvoiceItem;
  pinv_totalAmount : Q;
  pinv_timestamp : Z;
  pinv_currency : option Currency;
  pinv_exchangeRate : option Q
}.

(** Messages, toasts and generated descriptions.  Each constructor stands
    for one string template of the source; [Lit] is a stored free text. *)
Inductive Text :=
| Lit (s : string)
| MsgOffline                      (* "you are offline" *)
| MsgCartEmpty                    (* "the cart is empty" *)
| MsgProductNotFound (name : string)    (* "product <name> not found" *)
| MsgInsufficientStock (name : string)  (* "stock of product <name> is not enough" *)
| MsgSavingInvoice                (* "saving the invoice..." *)
| MsgInvoiceSaved                 (* toast: invoice saved *)
| MsgInvoiceSaveFailed            (* toast: error saving the invoice on the server *)
| MsgInvoiceEdited                (* toast: invoice edited *)
| MsgOriginalInvoiceNotFound      (* "original invoice not found" *)
| MsgInvoiceNotFound              (* "invoice not found" *)
| MsgSavingReturn
| MsgReturnSaved
| MsgReturnFailed
| MsgInvalidSupplier
| MsgSaving
| MsgPurchaseSaved
| MsgPurchaseFailed
| MsgPurchaseReturnSaved
| MsgNoSalaryDue                  (* "there is no salary to pay" *)
| MsgProcessing
| MsgSalariesPaid
| MsgFetchFailed                  (* toast: error fetching data from the server *)
| DescSaleInvoice (id : string)           (* "sale invoice #<id>" *)
| DescSaleInvoiceEdited (id : string)     (* "sale invoice #<id> (edited)" *)
| DescSaleReturn (originalId : option string)  (* "return of invoice #<id>" *)
| DescPurchaseInvoice (number : string) (usdFace : option Q)
| DescPurchaseReturn (originalId : option string)
| DescMonthlySalary
| ActSaleCreated (id : string) (total : Q)
| ActSaleEdited (id : string)
| ActSaleReturned (originalId : string)
| ActPurchaseCreated
| ActPurchaseReturned
| ActPayroll (total : Q).

Inductive ActivityType := ActSale | ActPurchase | ActInventory | ActLogin | ActPayrollT.
Inductive RefType := RefSaleInvoice | RefPurchaseInvoice | RefProduct.

Record ActivityLog := mkActivity {
  act_id : string;
  act_type : ActivityType;
  act_description : Text;
  act_timestamp : Z;
  act_user : string;
  act_refId : option string;
  act_refType : option RefType
}.

Record Supplier := mkSupplier {
  sup_id : string;
  sup_name : string;
  sup_contactPerson : option string;
  sup_phone : option string;
  sup_address : option string;
  sup_balance : Q
}.

Inductive SupplierTxType := STPurchase | STPayment | STPurchaseReturn.

Record SupplierTransaction := mkSupplierTx {
  stx_id : string;
  stx_supplierId : string;
  stx_type : SupplierTxType;
  stx_amount : Q;
  stx_date : Z;
  stx_description : Text;
  stx_invoiceId : option string;
  stx_currency : option Currency
}.

Record Employee := mkEmployee {
  emp_id : string;
  emp_name : string;
  emp_position : string;
  emp_monthlySalary : Q;
  emp_balance : Q
}.

Inductive PayrollTxType := PTAdvance | PTSalaryPayment.

Record PayrollTransaction := mkPayrollTx {
  ptx_id : string;
  ptx_employeeId : string;
  ptx_type : PayrollTxType;
  ptx_amount : Q;
  ptx_date : Z;
  ptx_description : Text
}.

Record Customer := mkCustomer {
  cust_id : string;
  cust_name : string;
  cust_phone : option string;
  cust_creditLimit : option Q;
  cust_balance : Q
}.

Inductive CustomerTxType := CTCreditSale | CTPayment | CTSaleReturn.

Record CustomerTransaction := mkCustomerTx {
  ctx_id : string;
  ctx_customerId : string;
  ctx_type : CustomerTxType;
  ctx_amount : Q;
  ctx_date : Z;
  ctx_description : Text;
  ctx_invoiceId : option string
}.

Inductive ExpenseCategory := CatRent | CatUtilities | CatSupplies | CatSalary | CatOther.

Record Expense := mkExpense {
  exp_id : string;
  exp_category : ExpenseCategory;
  exp_description : Text;
  exp_amount : Q;
  exp_date : Z
}.

Record Service := mkService {
  svc_id : string;
  svc_name : string;
  svc_price : Q
}.

Record StoreSettings := mkSettings {
  storeName : string;
  address : string;
  phone : string;
  lowStockThreshold : Z;
  expiryThresholdMonths : Z;
  currencyName : string;
  currencySymbol : string
}.

Record Role := mkRole {
  role_id : string;
  role_name : string;
  role_permissions : list string
}.

Record User := mkUser {
  user_id : string;
  user_username : string;
  user_password : option string;
  user_roleId : string
}.

Record AppState := mkState {
  products : list Product;
  saleInvoices : list SaleInvoice;
  purchaseInvoices : list PurchaseInvoice;
  customers : list Customer;
  suppliers : list Supplier;
  employees : list Employee;
  expenses : list Expense;
  services : list Service;
  storeSettings : StoreSettings;
  cart : list CartItem;
  customerTransactions : list CustomerTransaction;
  supplierTransactions : list SupplierTransaction;
  payrollTransactions : list PayrollTransaction;
  activities : list ActivityLog;
  saleInvoiceCounter : Z;
  editingSaleInvoiceId : option string;
  editingPurchaseInvoiceId : option string;
  isAuthenticated : bool;
  currentUser : option User;
  users : list User;
  roles : list Role
}.

(** Equality on the enumerations is decidable. *)
#[global] Instance ItemType_eq_dec : EqDecision ItemType.
Proof. solve_decision. Defined.
#[global] Instance SaleKind_eq_dec : EqDecision SaleKind.
Proof. solve_decision. Defined.
#[global] Instance PurchaseKind_eq_dec : EqDecision PurchaseKind.
Proof. solve_decision. Defined.
#[global] Instance Currency_eq_dec : EqDecision Currency.
Proof. solve_decision. Defined.
#[global] Instance CustomerTxType_eq_dec : EqDecision CustomerTxType.
Proof. solve_decision. Defined.
#[global] Instance SupplierTxType_eq_dec : EqDecision SupplierTxType.
Proof. solve_decision. Defined.
#[global] Instance PayrollTxType_eq_dec : EqDecision PayrollTxType.
Proof. solve_decision. Defined.
#[global] Instance ExpenseCategory_eq_dec : EqDecision ExpenseCategory.
Proof. solve_decision. Defined.

(** The environment an action reads: [navigator.onLine], the clock, and
    the identifiers [crypto.randomUUID()] hands out, in call order, and the
    session entry of the browser's local storage. *)
Record Env := mkEnv {
  env_online : bool;
  env_now : Z;
  env_uuid : nat -> string;
  env_storedUserId : option string   (* localStorage 'stationery_user_id' *)
}.

(** ** Small helpers *)

(** Reading a numeric field.  Every field read this way is one the
    TypeScript type of the object declares as required. *)
Definition num (x : option Q) : Q := default 0%Q x.

(** JavaScript truthiness of an optional string: [undefined], [null] and
    the empty string are falsy. *)
Definition truthy (o : option string) : option string :=
  match o with
  | Some s => if bool_decide (s = "") then None else Some s
  | None => None
  end.

Definition set_stock (s : Z) (b : ProductBatch) : ProductBatch :=
  mkBatch (batch_id b) (batch_lotNumber b) s (batch_purchasePrice b)
          (batch_purchaseDate b) (batch_expiryDate b).

Definition set_batches (bs : list ProductBatch) (p : Product) : Product :=
  mkProduct (prod_id p) (prod_name p) (prod_salePrice p) bs (prod_barcode p)
            (prod_manufacturer p) (prod_itemsPerPackage p).

Definition set_purchasePrice (c : option Q) (i : CartItem) : CartItem :=
  mkItem (item_id i) (item_type i) (item_name i) (item_quantity i)
         (item_salePrice i) (item_price i) (item_finalPrice i) c
         (item_itemsPerPackage i) (item_batches i) (item_barcode i)
         (item_manufacturer i).

Definition set_quantity (q : Z) (i : CartItem) : CartItem :=
  mkItem (item_id i) (item_type i) (item_name i) q
         (item_salePrice i) (item_price i) (item_finalPrice i)
         (item_purchasePrice i) (item_itemsPerPackage i) (item_batches i)
         (item_barcode i) (item_manufacturer i).

Definition is_product (i : CartItem) : bool :=
  match item_type i with TProduct => true | TService => false end.

(** [Array.prototype.sort] with the comparator [(a, b) => key a - key b]:
    ascending and stable.  Insertion from the right keeps equal keys in
    their original order. *)
Fixpoint insertBy {A} (key : A -> Z) (x : A) (l : list A) : list A :=
  match l with
  | [] => [x]
  | y :: r => if (key x <=? key y)%Z then x :: y :: r
              else y :: insertBy key x r
  end.

Definition sortBy {A} (key : A -> Z) (l : list A) : list A :=
  foldr (insertBy key) [] l.

(** *** generateNextId: short sequential ids (F1, F2, ...) *)

Definition digit_of (c : ascii) : option N :=
  let n := N_of_ascii c in
  if ((48 <=? n) && (n <=? 57))%N then Some (n - 48)%N else None.

Fixpoint parse_digits (s : string) (acc : N) : option N :=
  match s with
  | EmptyString => Some acc
  | String c r =>
      match digit_of c with
      | Some d => parse_digits r (10 * acc + d)%N
      | None => None
      end
  end.

Fixpoint strip_prefix (p s : string) : option string :=
  match p with
  | EmptyString => Some s
  | String a p' =>
      match s with
      | String b s' => if bool_decide (a = b) then strip_prefix p' s' else None
      | EmptyString => None
      end
  end.

(** [id.match(/^prefix(\d+)$/)] followed by [parseInt(match[1], 10)]. *)
Definition match_id (prefix id : string) : option N :=
  match strip_prefix prefix id with
  | Some rest => if bool_decide (rest = "") then None else parse_digits rest 0
  | None => None
  end.

Definition generateNextId (prefix : string) (ids : list string) : string :=
  let max :=
    fold_left (fun max id =>
      match match_id prefix id with
      | Some n => if (n <? 100000000000)%N
                  then (if (max <? n)%N then n else max) else max
      | None => max
      end) ids 0%N in
  prefix +:+ pretty (max + 1)%N.

(** ** Requests to the data-access adapter *)

Record StockUpdate := mkStockUpdate { su_batchId : string; su_newStock : Z }.

Record CustomerUpdate := mkCustomerUpdate {
  cu_id : string;
  cu_newBalance : Q;
  cu_transaction : CustomerTransaction
}.

Record StockRestore := mkStockRestore { sr_productId : string; sr_quantity : Z }.

Record StockDeduction := mkStockDeduction { sd_batchId : string; sd_quantity : Z }.

Record CustomerEdit := mkCustomerEdit {
  ce_id : string;
  ce_oldAmount : Q;
  ce_newAmount : Q;
  ce_transactionDescription : Text
}.

Record Refund := mkRefund { rf_id : string; rf_amount : Q }.

Record NewBatch := mkNewBatch {
  nb_id : string;
  nb_productId : string;
  nb_lotNumber : string;
  nb_stock : Z;
  nb_purchasePrice : Q;
  nb_purchaseDate : Z;
  nb_expiryDate : option Z
}.

Record SupplierUpdate := mkSupplierUpdate {
  spu_id : string;
  spu_newBalance : Q;
  spu_transaction : SupplierTransaction
}.

Record LotDeduction := mkLotDeduction {
  ld_productId : string;
  ld_quantity : Z;
  ld_lotNumber : string
}.

Inductive ApiCall :=
| CreateSale (invoice : SaleInvoice) (stockUpdates : list StockUpdate)
             (customerUpdate : option CustomerUpdate)
| UpdateSale (invoiceId : string) (newInvoiceData : SaleInvoice)
             (stockRestores : list StockRestore)
             (stockDeductions : list StockDeduction)
             (customerUpdate : option CustomerEdit)
| CreateSaleReturn (returnInvoice : SaleInvoice)
                   (stockRestores : list StockRestore)
                   (customerRefund : option Refund)
| CreatePurchase (invoice : PurchaseInvoice) (supplierUpdate : SupplierUpdate)
                 (newBatches : list NewBatch)
| CreatePurchaseReturn (returnInvoice : PurchaseInvoice)
                       (stockDeductions : list LotDeduction)
                       (supplierRefund : option Refund)
| ProcessPayroll (updates : list string)
                 (transactions : list PayrollTransaction) (expense : Expense).

(** ** Actions

    An action of the state container runs a synchronous part, which may
    call [setState] and returns a result to the view, and at most one
    adapter call with a [then] handler and possibly a [catch] handler.
    A handler is a list of effects. *)

Inductive Effect :=
| AddActivityLocal (ty : ActivityType) (description : Text)
                   (user : option string)
                   (* [None]: [state.currentUser!.username] with no user *)
                   (refId : option string) (refType : option RefType)
| SetState (update : AppState -> option AppState)
    (* [None]: the updater dereferences [undefined] and throws *)
| FetchData
| ShowToast (message : Text).

Record Result := mkResult {
  success : bool;
  invoice : option SaleInvoice;
  message : Text
}.

Record Outcome := mkOutcome {
  out_result : option Result;     (* [None]: the action threw a TypeError *)
  out_state : AppState;           (* the state after the synchronous part *)
  out_call : option ApiCall;
  out_then : list Effect;
  out_catch : option (list Effect)  (* [None]: no [catch] handler *)
}.

Definition refuse (state : AppState) (m : Text) : Outcome :=
  mkOutcome (Some (mkResult false None m)) state None [] None.

Definition threw (state : AppState) : Outcome :=
  mkOutcome None state None [] None.

(** ** POS: completing a sale (AppContext) *)

(** [getPrice]: the pair (final, original) of a cart line. *)
Definition getPrice (item : CartItem) : Q * Q :=
  match item_type item with
  | TProduct =>
      let original := num (item_salePrice item) in
      let final := match item_finalPrice item with
                   | Some f => f
                   | None => original
                   end in
      (final, original)
  | TService => (num (item_price item), num (item_price item))
  end.

(** The deduction order of a product's batches.  The arrays built by
    [filter] and [sort] hold references to the batch objects of
    [product.batches]; a reference is the position of the batch in that
    array, paired here with the batch as it is when the order is built. *)
Definition expiry_key (ib : nat * ProductBatch) : Z :=
  default 0%Z (batch_expiryDate ib.2).

Definition purchase_key (ib : nat * ProductBatch) : Z :=
  batch_purchaseDate ib.2.

Definition batchesWithExpiry (bs : list ProductBatch) : list (nat * ProductBatch) :=
  sortBy expiry_key
    (filter (fun ib => is_Some (batch_expiryDate ib.2) /\ (0 < batch_stock ib.2)%Z)
            (imap pair bs)).

Definition batchesWithoutExpiry (bs : list ProductBatch) : list (nat * ProductBatch) :=
  sortBy purchase_key
    (filter (fun ib => ~ is_Some (batch_expiryDate ib.2) /\ (0 < batch_stock ib.2)%Z)
            (imap pair bs)).

Definition deductionOrder (bs : list ProductBatch) : list nat :=
  (batchesWithExpiry bs ++ batchesWithoutExpiry bs).*1.

(** The inner loop [for (const batch of deductionOrder)]: it mutates the
    batch objects in place, so the store of batches is threaded through
    and each read of [batch.stock] is a read of the current store. *)
Fixpoint deductLoop (order : list nat) (bs : list ProductBatch)
    (quantityToDeduct : Z) (totalPurchaseValue : Q)
    (stockUpdates : list StockUpdate)
  : list ProductBatch * Z * Q * list StockUpdate :=
  match order with
  | [] => (bs, quantityToDeduct, totalPurchaseValue, stockUpdates)
  | i :: rest =>
      if (quantityToDeduct <=? 0)%Z
      then (bs, quantityToDeduct, totalPurchaseValue, stockUpdates)
      else
        match bs !! i with
        | None => (bs, quantityToDeduct, totalPurchaseValue, stockUpdates)
        | Some batch =>
            let deductAmount := Z.min quantityToDeduct (batch_stock batch) in
            let batch' := set_stock (batch_stock batch - deductAmount) batch in
            deductLoop rest (<[i := batch']> bs)
              (quantityToDeduct - deductAmount)
              (totalPurchaseValue + inject_Z deductAmount * batch_purchasePrice batch)%Q
              (stockUpdates ++ [mkStockUpdate (batch_id batch') (batch_stock batch')])
        end
  end.

(** The outer loop [for (const item of cart)] over the deep copy
    [updatedProducts]; an early [return] of a failure is [inl]. *)
Fixpoint prepareLines (cart : list CartItem) (updatedProducts : list Product)
    (stockUpdates : list StockUpdate) (saleItems : list CartItem)
  : Text + (list Product * list StockUpdate * list CartItem) :=
  match cart with
  | [] => inr (updatedProducts, stockUpdates, saleItems)
  | item :: rest =>
      match item_type item with
      | TService => prepareLines rest updatedProducts stockUpdates (saleItems ++ [item])
      | TProduct =>
          match list_find (fun p => prod_id p = item_id item) updatedProducts with
          | None => inl (MsgProductNotFound (item_name item))
          | Some (productIndex, product) =>
              let '(bs, quantityToDeduct, totalPurchaseValue, stockUpdates') :=
                deductLoop (deductionOrder (prod_batches product))
                           (prod_batches product) (item_quantity item) 0%Q
                           stockUpdates in
              if (0 <? quantityToDeduct)%Z
              then inl (MsgInsufficientStock (item_name item))
              else
                prepareLines rest
                  (<[productIndex := set_batches bs product]> updatedProducts)
                  stockUpdates'
                  (saleItems ++
                     [set_purchasePrice
                        (Some (totalPurchaseValue / inject_Z (item_quantity item))%Q)
                        item])
          end
      end
  end.

Definition newSubtotal (cart : list CartItem) : Q :=
  fold_left (fun total item =>
    ((getPrice item).2 * inject_Z (item_quantity item) + total)%Q) cart 0%Q.

Definition newTotalAmount (cart : list CartItem) : Q :=
  fold_left (fun total item =>
    ((getPrice item).1 * inject_Z (item_quantity item) + total)%Q) cart 0%Q.

Definition find_batch (products : list Product) (batchId : string)
  : option ProductBatch :=
  match list_find (fun p => Exists (fun b => batch_id b = batchId) (prod_batches p))
                  products with
  | Some (_, p) => snd <$> list_find (fun b => batch_id b = batchId) (prod_batches p)
  | None => None
  end.

(** The quantities sent to [api.updateSale]: the stock of the batch in the
    state minus the new stock computed by the loop. *)
Definition editDeductions (products : list Product) (stockUpdates : list StockUpdate)
  : list StockDeduction :=
  map (fun u =>
    mkStockDeduction (su_batchId u)
      (match find_batch products (su_batchId u) with
       | Some b => batch_stock b - su_newStock u
       | None => 0
       end)%Z) stockUpdates.

Definition add_balance (customerId : string) (amount : Q) (c : Customer) : Customer :=
  if bool_decide (cust_id c = customerId)
  then mkCustomer (cust_id c) (cust_name c) (cust_phone c) (cust_creditLimit c)
                  (cust_balance c + amount)%Q
  else c.

Definition completeSale (env : Env) (state : AppState) (cashier : string)
    (customerId : option string) : Outcome :=
  if negb (env_online env) then refuse state MsgOffline else
  if bool_decide (cart state = []) then refuse state MsgCartEmpty else
  let subtotal := newSubtotal (cart state) in
  let totalAmount := newTotalAmount (cart state) in
  let totalDiscount := (subtotal - totalAmount)%Q in
  match prepareLines (cart state) (products state) [] [] with
  | inl m => refuse state m
  | inr (updatedProducts, stockUpdates, saleItemsWithPurchasePrice) =>
      let editing := truthy (editingSaleInvoiceId state) in
      let invoiceId :=
        match editing with
        | Some id => id
        | None => generateNextId "F" (map inv_id (saleInvoices state))
        end in
      let oldInvoice :=
        snd <$> list_find (fun i => inv_id i = invoiceId) (saleInvoices state) in
      match editing, oldInvoice with
      | Some _, None => threw state
      | _, _ =>
          let finalInvoice :=
            mkSaleInvoice invoiceId KSale None saleItemsWithPurchasePrice
              subtotal totalDiscount totalAmount
              (match editing, oldInvoice with
               | Some _, Some old => inv_timestamp old
               | _, _ => env_now env
               end)
              cashier customerId in
          let customerUpdate :=
            match truthy customerId with
            | Some cid =>
                match list_find (fun c => cust_id c = cid) (customers state) with
                | Some (_, customer) =>
                    Some (mkCustomerUpdate cid
                            (cust_balance customer + totalAmount)%Q
                            (mkCustomerTx (env_uuid env 0) cid CTCreditSale
                               totalAmount (env_now env)
                               (DescSaleInvoice invoiceId) (Some invoiceId)))
                | None => None
                end
            | None => None
            end in
          match editing, oldInvoice with
          | Some editingId, Some old =>
              (* edit mode *)
              let stockRestores :=
                map (fun i => mkStockRestore (item_id i) (item_quantity i))
                    (List.filter is_product (inv_items old)) in
              let custUpdateParams :=
                match truthy customerId with
                | Some cid =>
                    if bool_decide (inv_customerId old = Some cid)
                    then Some (mkCustomerEdit cid (inv_totalAmount old) totalAmount
                                 (DescSaleInvoiceEdited invoiceId))
                    else Some (mkCustomerEdit cid 0%Q totalAmount
                                 (DescSaleInvoice invoiceId))
                | None => None
                end in
              mkOutcome
                (Some (mkResult true (Some finalInvoice) MsgSavingInvoice))
                (mkState (products state) (saleInvoices state)
                   (purchaseInvoices state) (customers state) (suppliers state)
                   (employees state) (expenses state) (services state)
                   (storeSettings state) [] (customerTransactions state)
                   (supplierTransactions state) (payrollTransactions state)
                   (activities state) (saleInvoiceCounter state) None
                   (editingPurchaseInvoiceId state) (isAuthenticated state)
                   (currentUser state) (users state) (roles state))
                (Some (UpdateSale invoiceId finalInvoice stockRestores
                         (editDeductions (products state) stockUpdates)
                         custUpdateParams))
                [AddActivityLocal ActSale (ActSaleEdited invoiceId) (Some cashier)
                   (Some invoiceId) (Some RefSaleInvoice);
                 FetchData;
                 ShowToast MsgInvoiceEdited]
                None
          | _, _ =>
              (* create mode *)
              let optimistic (prev : AppState) : option AppState :=
                match truthy customerId, customerUpdate with
                | Some _, None => None
                | _, _ =>
                    Some (mkState updatedProducts
                      (finalInvoice :: saleInvoices prev)
                      (purchaseInvoices prev)
                      (match truthy customerId with
                       | Some cid => map (add_balance cid totalAmount) (customers prev)
                       | None => customers prev
                       end)
                      (suppliers prev) (employees prev) (expenses prev)
                      (services prev) (storeSettings prev) []
                      (match customerUpdate with
                       | Some cu => cu_transaction cu :: customerTransactions prev
                       | None => customerTransactions prev
                       end)
                      (supplierTransactions prev) (payrollTransactions prev)
                      (activities prev) (saleInvoiceCounter prev)
                      (editingSaleInvoiceId prev) (editingPurchaseInvoiceId prev)
                      (isAuthenticated prev) (currentUser prev) (users prev)
                      (roles prev))
                end in
              mkOutcome
                (Some (mkResult true (Some finalInvoice) MsgSavingInvoice))
                state
                (Some (CreateSale finalInvoice stockUpdates customerUpdate))
                [AddActivityLocal ActSale (ActSaleCreated invoiceId totalAmount)
                   (Some cashier) (Some invoiceId) (Some RefSaleInvoice);
                 SetState optimistic;
                 ShowToast MsgInvoiceSaved]
                (Some [ShowToast MsgInvoiceSaveFailed])
          end
      end
  end.

(** ** Totals of a sale invoice *)

(** The list price and the effective price of a line, in the words of the
    specification: a product line is priced at its override [finalPrice]
    when it has one and at its list price otherwise; a service line has no
    override. *)
Definition list_price (i : CartItem) : Q :=
  match item_type i with
  | TProduct => num (item_salePrice i)
  | TService => num (item_price i)
  end.

Definition effective_price (i : CartItem) : Q :=
  match item_type i with
  | TProduct => default (list_price i) (item_finalPrice i)
  | TService => list_price i
  end.

Definition Qsum (l : list Q) : Q := foldr Qplus 0%Q l.

Definition line_total (price : CartItem -> Q) (i : CartItem) : Q :=
  (price i * inject_Z (item_quantity i))%Q.

(** The sum of [f] over a list, added up from the first element on: each
    term is added to the sum of the terms before it. *)
Definition sum_over {A} (f : A -> Q) (l : list A) : Q :=
  fold_left (fun total x => (f x + total)%Q) l 0%Q.

(** Amounts added up in the order of the list. *)
Definition added_up (l : list Q) : Q := fold_left Qplus l 0%Q.

(** ** The totals over any numbers

    The amounts of the source are JavaScript numbers, IEEE binary64
    doubles.  The totals of [completeSale] are given here once more, for
    any type of numbers with its zero, addition, subtraction and
    multiplication: [newSubtotal] and [newTotalAmount] are these totals at
    the rationals, and [Binary64] takes them at the doubles. *)
Section Totals.

Context {N : Type} (zero : N) (add sub mul : N -> N -> N).

(** What the totals read of a cart line: [getPrice(item).original],
    [getPrice(item).final] and [item.quantity]. *)
Record Priced := mkPriced {
  pl_original : N;
  pl_final : N;
  pl_quantity : N
}.

(** [cart.reduce((total, item) => getPrice(item).original * item.quantity
    + total, 0)] *)
Definition subtotal_of (lines : list Priced) : N :=
  fold_left (fun total item => add (mul (pl_original item) (pl_quantity item)) total)
            lines zero.

(** [cart.reduce((total, item) => getPrice(item).final * item.quantity
    + total, 0)] *)
Definition totalAmount_of (lines : list Priced) : N :=
  fold_left (fun total item => add (mul (pl_final item) (pl_quantity item)) total)
            lines zero.

(** [newSubtotal - newTotalAmount] *)
Definition totalDiscount_of (lines : list Priced) : N :=
  sub (subtotal_of lines) (totalAmount_of lines).

End Totals.

Definition priced (item : CartItem) : @Priced Q :=
  mkPriced (getPrice item).2 (getPrice item).1 (inject_Z (item_quantity item)).

(** The totals at the doubles, and the amounts of the examples. *)
Module Binary64.

Import PrimFloat.

#[local] Set Warnings "-inexact-float".

Definition subtotal : list (@Priced float) -> float := subtotal_of 0%float add mul.

Definition totalAmount : list (@Priced float) -> float := totalAmount_of 0%float add mul.

Definition totalDiscount : list (@Priced float) -> float :=
  totalDiscount_of 0%float add sub mul.

(** Seven pieces listed at 50 and sold at 12.35 each. *)
Definition marked_down_cart : list (@Priced float) :=
  [mkPriced 50%float 12.35%float 7%float].

Definition amount_350 : float := 350%float.

Definition amount_86_45 : float := 86.45%float.

Definition amount_263_55 : float := 263.55%float.

Definition amount_86_44999999999999 : float := 86.44999999999999%float.

End Binary64.

(** ** The hosted database (services/supabaseService)

    A table is the list of its rows in storage order; [insert] appends,
    [update ... eq] rewrites the matching rows, [select ... limit(1)] takes
    the first matching row and [select ... single()] succeeds only on
    exactly one row.  The tables employees, expenses, services, the three
    transaction tables, activity_logs, users and roles have the columns of
    the entity in snake_case, and their rows are the entity records. *)

Record ProductRow := mkProductRow {
  pr_id : string;
  pr_name : string;
  pr_sale_price : Q;
  pr_barcode : option string;
  pr_manufacturer : option string;
  pr_items_per_package : option Z
}.

Record BatchRow := mkBatchRow {
  br_id : string;
  br_product_id : string;
  br_lot_number : string;
  br_stock : Z;
  br_purchase_price : Q;
  br_purchase_date : Z;
  br_expiry_date : option Z
}.

Record SaleInvoiceRow := mkSaleInvoiceRow {
  si_id : string;
  si_type : SaleKind;
  si_original_invoice_id : option string;
  si_subtotal : Q;
  si_total_discount : Q;
  si_total_amount : Q;
  si_timestamp : Z;
  si_cashier : string;
  si_customer_id : option string
}.

Record SaleItemRow := mkSaleItemRow {
  sit_invoice_id : string;
  sit_item_id : string;
  sit_type : ItemType;
  sit_name : string;
  sit_quantity : Z;
  sit_price : option Q;
  sit_final_price : option Q;
  sit_purchase_price : option Q
}.

Record PurchaseInvoiceRow := mkPurchaseInvoiceRow {
  pir_id : string;
  pir_type : PurchaseKind;
  pir_original_invoice_id : option string;
  pir_supplier_id : string;
  pir_invoice_number : string;
  pir_total_amount : Q;
  pir_timestamp : Z;
  pir_currency : option Currency;
  pir_exchange_rate : option Q
}.

Record PurchaseItemRow := mkPurchaseItemRow {
  pit_invoice_id : string;
  pit_product_id : string;
  pit_product_name : string;
  pit_quantity : Z;
  pit_purchase_price : Q;
  pit_lot_number : string;
  pit_expiry_date : option Z
}.

Record CustomerRow := mkCustomerRow {
  cr_id : string;
  cr_name : string;
  cr_phone : option string;
  cr_credit_limit : option Q;
  cr_balance : Q
}.

Record SupplierRow := mkSupplierRow {
  spr_id : string;
  spr_name : string;
  spr_contact_person : option string;
  spr_phone : option string;
  spr_address : option string;
  spr_balance : Q
}.

Record DB := mkDB {
  t_store_settings : option StoreSettings;   (* the row with id 1, if any *)
  t_users : list User;
  t_roles : list Role;
  t_products : list ProductRow;
  t_product_batches : list BatchRow;
  t_services : list Service;
  t_customers : list CustomerRow;
  t_suppliers : list SupplierRow;
  t_employees : list Employee;
  t_expenses : list Expense;
  t_customer_transactions : list CustomerTransaction;
  t_supplier_transactions : list SupplierTransaction;
  t_payroll_transactions : list PayrollTransaction;
  t_sale_invoices : list SaleInvoiceRow;
  t_sale_invoice_items : list SaleItemRow;
  t_purchase_invoices : list PurchaseInvoiceRow;
  t_purchase_invoice_items : list PurchaseItemRow;
  t_activity_logs : list ActivityLog
}.

Definition single {A} (rows : list A) : option A :=
  match rows with
  | [r] => Some r
  | _ => None
  end.

(** Setters of one table. *)
Definition with_batches (f : list BatchRow -> list BatchRow) (d : DB) : DB :=
  mkDB (t_store_settings d) (t_users d) (t_roles d) (t_products d)
       (f (t_product_batches d)) (t_services d) (t_customers d) (t_suppliers d)
       (t_employees d) (t_expenses d) (t_customer_transactions d)
       (t_supplier_transactions d) (t_payroll_transactions d) (t_sale_invoices d)
       (t_sale_invoice_items d) (t_purchase_invoices d)
       (t_purchase_invoice_items d) (t_activity_logs d).

Definition with_customers (f : list CustomerRow -> list CustomerRow) (d : DB) : DB :=
  mkDB (t_store_settings d) (t_users d) (t_roles d) (t_products d)
       (t_product_batches d) (t_services d) (f (t_customers d)) (t_suppliers d)
       (t_employees d) (t_expenses d) (t_customer_transactions d)
       (t_supplier_transactions d) (t_payroll_transactions d) (t_sale_invoices d)
       (t_sale_invoice_items d) (t_purchase_invoices d)
       (t_purchase_invoice_items d) (t_activity_logs d).

Definition with_suppliers (f : list SupplierRow -> list SupplierRow) (d : DB) : DB :=
  mkDB (t_store_settings d) (t_users d) (t_roles d) (t_products d)
       (t_product_batches d) (t_services d) (t_customers d) (f (t_suppliers d))
       (t_employees d) (t_expenses d) (t_customer_transactions d)
       (t_supplier_transactions d) (t_payroll_transactions d) (t_sale_invoices d)
       (t_sale_invoice_items d) (t_purchase_invoices d)
       (t_purchase_invoice_items d) (t_activity_logs d).

Definition with_employees (f : list Employee -> list Employee) (d : DB) : DB :=
  mkDB (t_store_settings d) (t_users d) (t_roles d) (t_products d)
       (t_product_batches d) (t_services d) (t_customers d) (t_suppliers d)
       (f (t_employees d)) (t_expenses d) (t_customer_transactions d)
       (t_supplier_transactions d) (t_payroll_transactions d) (t_sale_invoices d)
       (t_sale_invoice_items d) (t_purchase_invoices d)
       (t_purchase_invoice_items d) (t_activity_logs d).

Definition with_expenses (f : list Expense -> list Expense) (d : DB) : DB :=
  mkDB (t_store_settings d) (t_users d) (t_roles d) (t_products d)
       (t_product_batches d) (t_services d) (t_customers d) (t_suppliers d)
       (t_employees d) (f (t_expenses d)) (t_customer_transactions d)
       (t_supplier_transactions d) (t_payroll_transactions d) (t_sale_invoices d)
       (t_sale_invoice_items d) (t_purchase_invoices d)
       (t_purchase_invoice_items d) (t_activity_logs d).

Definition with_customer_transactions
    (f : list CustomerTransaction -> list CustomerTransaction) (d : DB) : DB :=
  mkDB (t_store_settings d) (t_users d) (t_roles d) (t_products d)
       (t_product_batches d) (t_services d) (t_customers d) (t_suppliers d)
       (t_employees d) (t_expenses d) (f (t_customer_transactions d))
       (t_supplier_transactions d) (t_payroll_transactions d) (t_sale_invoices d)
       (t_sale_invoice_items d) (t_purchase_invoices d)
       (t_purchase_invoice_items d) (t_activity_logs d).

Definition with_supplier_transactions
    (f : list SupplierTransaction -> list SupplierTransaction) (d : DB) : DB :=
  mkDB (t_store_settings d) (t_users d) (t_roles d) (t_products d)
       (t_product_batches d) (t_services d) (t_customers d) (t_suppliers d)
       (t_employees d) (t_expenses d) (t_customer_transactions d)
       (f (t_supplier_transactions d)) (t_payroll_transactions d) (t_sale_invoices d)
       (t_sale_invoice_items d) (t_purchase_invoices d)
       (t_purchase_invoice_items d) (t_activity_logs d).

Definition with_payroll_transactions
    (f : list PayrollTransaction -> list PayrollTransaction) (d : DB) : DB :=
  mkDB (t_store_settings d) (t_users d) (t_roles d) (t_products d)
       (t_product_batches d) (t_services d) (t_customers d) (t_suppliers d)
       (t_employees d) (t_expenses d) (t_customer_transactions d)
       (t_supplier_transactions d) (f (t_payroll_transactions d)) (t_sale_invoices d)
       (t_sale_invoice_items d) (t_purchase_invoices d)
       (t_purchase_invoice_items d) (t_activity_logs d).

Definition with_sale_invoices
    (f : list SaleInvoiceRow -> list SaleInvoiceRow) (d : DB) : DB :=
  mkDB (t_store_settings d) (t_users d) (t_roles d) (t_products d)
       (t_product_batches d) (t_services d) (t_customers d) (t_suppliers d)
       (t_employees d) (t_expenses d) (t_customer_transactions d)
       (t_supplier_transactions d) (t_payroll_transactions d) (f (t_sale_invoices d))
       (t_sale_invoice_items d) (t_purchase_invoices d)
       (t_purchase_invoice_items d) (t_activity_logs d).

Definition with_sale_invoice_items
    (f : list SaleItemRow -> list SaleItemRow) (d : DB) : DB :=
  mkDB (t_store_settings d) (t_users d) (t_roles d) (t_products d)
       (t_product_batches d) (t_services d) (t_customers d) (t_suppliers d)
       (t_employees d) (t_expenses d) (t_customer_transactions d)
       (t_supplier_transactions d) (t_payroll_transactions d) (t_sale_invoices d)
       (f (t_sale_invoice_items d)) (t_purchase_invoices d)
       (t_purchase_invoice_items d) (t_activity_logs d).

Definition with_purchase_invoices
    (f : list PurchaseInvoiceRow -> list PurchaseInvoiceRow) (d : DB) : DB :=
  mkDB (t_store_settings d) (t_users d) (t_roles d) (t_products d)
       (t_product_batches d) (t_services d) (t_customers d) (t_suppliers d)
       (t_employees d) (t_expenses d) (t_customer_transactions d)
       (t_supplier_transactions d) (t_payroll_transactions d) (t_sale_invoices d)
       (t_sale_invoice_items d) (f (t_purchase_invoices d))
       (t_purchase_invoice_items d) (t_activity_logs d).

Definition with_purchase_invoice_items
    (f : list PurchaseItemRow -> list PurchaseItemRow) (d : DB) : DB :=
  mkDB (t_store_settings d) (t_users d) (t_roles d) (t_products d)
       (t_product_batches d) (t_services d) (t_customers d) (t_suppliers d)
       (t_employees d) (t_expenses d) (t_customer_transactions d)
       (t_supplier_transactions d) (t_payroll_transactions d) (t_sale_invoices d)
       (t_sale_invoice_items d) (t_purchase_invoices d)
       (f (t_purchase_invoice_items d)) (t_activity_logs d).

Definition with_activity_logs (f : list ActivityLog -> list ActivityLog) (d : DB) : DB :=
  mkDB (t_store_settings d) (t_users d) (t_roles d) (t_products d)
       (t_product_batches d) (t_services d) (t_customers d) (t_suppliers d)
       (t_employees d) (t_expenses d) (t_customer_transactions d)
       (t_supplier_transactions d) (t_payroll_transactions d) (t_sale_invoices d)
       (t_sale_invoice_items d) (t_purchase_invoices d)
       (t_purchase_invoice_items d) (f (t_activity_logs d)).

(** *** Row mappers (database snake_case to application camelCase) *)

(** [Number(x)] of a nullable numeric column: [Number(null)] is 0. *)
Definition Number (x : option Q) : Q := default 0%Q x.

Definition mapBatch (b : BatchRow) : ProductBatch :=
  mkBatch (br_id b) (br_lot_number b) (br_stock b) (br_purchase_price b)
          (br_purchase_date b) (br_expiry_date b).

(** [Number(data.items_per_package) || 1] *)
Definition itemsPerPackage_or_1 (x : option Z) : Z :=
  match x with
  | Some n => if (n =? 0)%Z then 1%Z else n
  | None => 1%Z
  end.

Definition mapProduct (batches : list BatchRow) (data : ProductRow) : Product :=
  mkProduct (pr_id data) (pr_name data) (pr_sale_price data)
    (map mapBatch
       (List.filter (fun b => bool_decide (br_product_id b = pr_id data)) batches))
    (pr_barcode data) (pr_manufacturer data)
    (Some (itemsPerPackage_or_1 (pr_items_per_package data))).

Definition mapSaleItem (item : SaleItemRow) : CartItem :=
  mkItem (sit_item_id item) (sit_type item) (sit_name item) (sit_quantity item)
    (Some (Number (sit_price item)))          (* salePrice *)
    (Some (Number (sit_price item)))          (* price *)
    (Some (Number (sit_final_price item)))
    (Some (Number (sit_purchase_price item)))
    (Some 1%Z) None None None.

Definition mapSaleInvoice (items : list SaleItemRow) (data : SaleInvoiceRow)
  : SaleInvoice :=
  mkSaleInvoice (si_id data) (si_type data) (si_original_invoice_id data)
    (map mapSaleItem
       (List.filter (fun i => bool_decide (sit_invoice_id i = si_id data)) items))
    (si_subtotal data) (si_total_discount data) (si_total_amount data)
    (si_timestamp data) (si_cashier data) (si_customer_id data).

Definition mapPurchaseItem (item : PurchaseItemRow) : PurchaseInvoiceItem :=
  mkPItem (pit_product_id item) (pit_product_name item) (pit_quantity item)
          (pit_purchase_price item) (pit_lot_number item) (pit_expiry_date item).

(** [Number(data.exchange_rate || 1)]: a null or zero rate reads as 1. *)
Definition exchange_rate_or_1 (x : option Q) : Q :=
  match x with
  | Some r => if Qeq_bool r 0 then 1%Q else r
  | None => 1%Q
  end.

Definition mapPurchaseInvoice (items : list PurchaseItemRow)
    (data : PurchaseInvoiceRow) : PurchaseInvoice :=
  mkPurchaseInvoice (pir_id data) (pir_type data) (pir_original_invoice_id data)
    (pir_supplier_id data) (pir_invoice_number data)
    (map mapPurchaseItem
       (List.filter (fun i => bool_decide (pit_invoice_id i = pir_id data)) items))
    (pir_total_amount data) (pir_timestamp data)
    (Some (default AFN (pir_currency data)))
    (Some (exchange_rate_or_1 (pir_exchange_rate data))).

(** *** Reads *)

Definition getProducts (d : DB) : list Product :=
  map (mapProduct (t_product_batches d)) (t_products d).

(** [order('timestamp', { ascending: false })] *)
Definition newest_first {A} (timestamp : A -> Z) (rows : list A) : list A :=
  sortBy (fun r => (- timestamp r)%Z) rows.

Definition getSaleInvoices (d : DB) : list SaleInvoice :=
  map (mapSaleInvoice (t_sale_invoice_items d))
      (newest_first si_timestamp (t_sale_invoices d)).

Definition getPurchaseInvoices (d : DB) : list PurchaseInvoice :=
  map (mapPurchaseInvoice (t_purchase_invoice_items d))
      (newest_first pir_timestamp (t_purchase_invoices d)).

(** [getEntities]: a row is spread into the entity, so a column whose
    name differs from the field (credit_limit, contact_person) does not
    reach the field. *)
Definition getCustomers (d : DB) : list Customer :=
  map (fun c => mkCustomer (cr_id c) (cr_name c) (cr_phone c) None (cr_balance c))
      (t_customers d).

Definition getSuppliers (d : DB) : list Supplier :=
  map (fun s => mkSupplier (spr_id s) (spr_name s) None (spr_phone s)
                           (spr_address s) (spr_balance s))
      (t_suppliers d).

Definition getSupplierTransactions (d : DB) : list SupplierTransaction :=
  map (fun t => mkSupplierTx (stx_id t) (stx_supplierId t) (stx_type t)
                  (stx_amount t) (stx_date t) (stx_description t)
                  (stx_invoiceId t) (Some (default AFN (stx_currency t))))
      (t_supplier_transactions d).

(** [getTransactions]: each row is spread into the transaction, and the
    columns [customer_id], [employee_id] and [invoice_id] are copied to
    their fields. *)
Definition getCustomerTransactions (d : DB) : list CustomerTransaction :=
  map (fun t => mkCustomerTx (ctx_id t) (ctx_customerId t) (ctx_type t)
                  (ctx_amount t) (ctx_date t) (ctx_description t) (ctx_invoiceId t))
      (t_customer_transactions d).

Definition getPayrollTransactions (d : DB) : list PayrollTransaction :=
  map (fun t => mkPayrollTx (ptx_id t) (ptx_employeeId t) (ptx_type t)
                  (ptx_amount t) (ptx_date t) (ptx_description t))
      (t_payroll_transactions d).

Definition getActivities (d : DB) : list ActivityLog :=
  take 100 (newest_first act_timestamp (t_activity_logs d)).

(** *** Writes *)

Definition update_where {A} (P : A -> bool) (f : A -> A) (rows : list A) : list A :=
  map (fun r => if P r then f r else r) rows.

Definition set_row_stock (s : Z) (r : BatchRow) : BatchRow :=
  mkBatchRow (br_id r) (br_product_id r) (br_lot_number r) s
             (br_purchase_price r) (br_purchase_date r) (br_expiry_date r).

Definition set_customer_balance (b : Q) (r : CustomerRow) : CustomerRow :=
  mkCustomerRow (cr_id r) (cr_name r) (cr_phone r) (cr_credit_limit r) b.

Definition set_supplier_balance (b : Q) (r : SupplierRow) : SupplierRow :=
  mkSupplierRow (spr_id r) (spr_name r) (spr_contact_person r) (spr_phone r)
                (spr_address r) b.

Definition set_employee_balance (b : Q) (e : Employee) : Employee :=
  mkEmployee (emp_id e) (emp_name e) (emp_position e) (emp_monthlySalary e) b.

Definition saleInvoiceRow (kind : SaleKind) (i : SaleInvoice) : SaleInvoiceRow :=
  mkSaleInvoiceRow (inv_id i) kind (inv_originalInvoiceId i) (inv_subtotal i)
    (inv_totalDiscount i) (inv_totalAmount i) (inv_timestamp i) (inv_cashier i)
    (inv_customerId i).

(** [final_price] as written for a sale: the override of a product line,
    else [salePrice]. *)
Definition sale_final_price (item : CartItem) : option Q :=
  match item_type item, item_finalPrice item with
  | TProduct, Some f => Some f
  | _, _ => item_salePrice item
  end.

Definition saleItemRow (final_price : CartItem -> option Q) (invoiceId : string)
    (item : CartItem) : SaleItemRow :=
  mkSaleItemRow invoiceId (item_id item) (item_type item) (item_name item)
    (item_quantity item)
    (match item_type item with
     | TProduct => item_salePrice item
     | TService => item_price item
     end)
    (final_price item)
    (match item_type item with
     | TProduct => item_purchasePrice item
     | TService => Some 0%Q
     end).

Definition purchaseInvoiceRow (kind : PurchaseKind) (currency : option Currency)
    (rate : option Q) (i : PurchaseInvoice) : PurchaseInvoiceRow :=
  mkPurchaseInvoiceRow (pinv_id i) kind (pinv_originalInvoiceId i)
    (pinv_supplierId i) (pinv_invoiceNumber i) (pinv_totalAmount i)
    (pinv_timestamp i) currency rate.

Definition purchaseItemRow (invoiceId : string) (item : PurchaseInvoiceItem)
  : PurchaseItemRow :=
  mkPurchaseItemRow invoiceId (pitem_productId item) (pitem_productName item)
    (pitem_quantity item) (pitem_purchasePrice item) (pitem_lotNumber item)
    (pitem_expiryDate item).

Definition batchRow_of_new (b : NewBatch) : BatchRow :=
  mkBatchRow (nb_id b) (nb_productId b) (nb_lotNumber b) (nb_stock b)
             (nb_purchasePrice b) (nb_purchaseDate b) (nb_expiryDate b).

Definition set_stock_by_id (batchId : string) (s : Z) (rows : list BatchRow)
  : list BatchRow :=
  update_where (fun r => bool_decide (br_id r = batchId)) (set_row_stock s) rows.

Definition api_createSale (invoice : SaleInvoice) (stockUpdates : list StockUpdate)
    (customerUpdate : option CustomerUpdate) (d : DB) : DB :=
  let d1 := with_sale_invoices (fun t => t ++ [saleInvoiceRow (inv_type invoice) invoice]) d in
  let d2 := with_sale_invoice_items
              (fun t => t ++ map (saleItemRow sale_final_price (inv_id invoice))
                                 (inv_items invoice)) d1 in
  let d3 := with_batches
              (fun t => fold_left (fun t u => set_stock_by_id (su_batchId u) (su_newStock u) t)
                                  stockUpdates t) d2 in
  match customerUpdate with
  | Some cu =>
      with_customer_transactions (fun t => t ++ [cu_transaction cu])
        (with_customers
           (update_where (fun r => bool_decide (cr_id r = cu_id cu))
                         (set_customer_balance (cu_newBalance cu))) d3)
  | None => d3
  end.

(** Stock given back by a sale edit or a sale return: the first batch
    row of the product ([select ... eq('product_id', id).limit(1)]). *)
Definition restore_to_first_batch (rows : list BatchRow) (restore : StockRestore)
  : list BatchRow :=
  match list_find (fun r => br_product_id r = sr_productId restore) rows with
  | Some (_, batch) =>
      set_stock_by_id (br_id batch) (br_stock batch + sr_quantity restore) rows
  | None => rows
  end.

(** Stock taken by a sale edit: the batch is read again and the quantity
    is subtracted from what was read. *)
Definition deduct_from_batch (rows : list BatchRow) (deduct : StockDeduction)
  : list BatchRow :=
  match single (List.filter (fun r => bool_decide (br_id r = sd_batchId deduct)) rows) with
  | Some batch => set_stock_by_id (sd_batchId deduct) (br_stock batch - sd_quantity deduct) rows
  | None => rows
  end.

(** The header update of a sale edit.  An [undefined] customer id is left
    out of the request, so the column keeps its value. *)
Definition set_invoice_header (n : SaleInvoice) (r : SaleInvoiceRow) : SaleInvoiceRow :=
  mkSaleInvoiceRow (si_id r) (si_type r) (si_original_invoice_id r)
    (inv_subtotal n) (inv_totalDiscount n) (inv_totalAmount n)
    (si_timestamp r) (si_cashier r)
    (match inv_customerId n with
     | Some c => Some c
     | None => si_customer_id r
     end).

Definition set_tx_amount (amount : Q) (description : Text) (t : CustomerTransaction)
  : CustomerTransaction :=
  mkCustomerTx (ctx_id t) (ctx_customerId t) (ctx_type t) amount (ctx_date t)
               description (ctx_invoiceId t).

Definition is_credit_sale_of (invoiceId : string) (t : CustomerTransaction) : bool :=
  bool_decide (ctx_invoiceId t = Some invoiceId) &&
  bool_decide (ctx_type t = CTCreditSale).

Definition api_updateSale (invoiceId : string) (newInvoiceData : SaleInvoice)
    (stockRestores : list StockRestore) (stockDeductions : list StockDeduction)
    (customerUpdate : option CustomerEdit) (d : DB) : DB :=
  (* 1. restore stock; 2. deduct stock *)
  let d1 := with_batches (fun t => fold_left restore_to_first_batch stockRestores t) d in
  let d2 := with_batches (fun t => fold_left deduct_from_batch stockDeductions t) d1 in
  (* 3. invoice header *)
  let d3 := with_sale_invoices
              (update_where (fun r => bool_decide (si_id r = invoiceId))
                            (set_invoice_header newInvoiceData)) d2 in
  (* 4. items: delete the old rows, insert the new ones *)
  let d4 := with_sale_invoice_items
              (fun t => List.filter (fun r => negb (bool_decide (sit_invoice_id r = invoiceId))) t
                        ++ map (saleItemRow sale_final_price invoiceId)
                               (inv_items newInvoiceData)) d3 in
  (* 5. customer *)
  match customerUpdate with
  | Some cu =>
      match single (List.filter (fun r => bool_decide (cr_id r = ce_id cu)) (t_customers d4)) with
      | Some customer =>
          let newBalance := (cr_balance customer - ce_oldAmount cu + ce_newAmount cu)%Q in
          with_customer_transactions
            (update_where (is_credit_sale_of invoiceId)
                          (set_tx_amount (ce_newAmount cu) (ce_transactionDescription cu)))
            (with_customers
               (update_where (fun r => bool_decide (cr_id r = ce_id cu))
                             (set_customer_balance newBalance)) d4)
      | None => d4
      end
  | None => d4
  end.

Definition api_createSaleReturn (env : Env) (returnInvoice : SaleInvoice)
    (stockRestores : list StockRestore) (customerRefund : option Refund) (d : DB) : DB :=
  let d1 := with_sale_invoices (fun t => t ++ [saleInvoiceRow KReturn returnInvoice]) d in
  let d2 := with_sale_invoice_items
              (fun t => t ++ map (saleItemRow (fun _ => Some 0%Q) (inv_id returnInvoice))
                                 (inv_items returnInvoice)) d1 in
  let d3 := with_batches (fun t => fold_left restore_to_first_batch stockRestores t) d2 in
  match customerRefund with
  | Some rf =>
      match single (List.filter (fun r => bool_decide (cr_id r = rf_id rf)) (t_customers d3)) with
      | Some customer =>
          with_customer_transactions
            (fun t => t ++ [mkCustomerTx (env_uuid env 0) (rf_id rf) CTSaleReturn
                              (rf_amount rf) (env_now env)
                              (DescSaleReturn (inv_originalInvoiceId returnInvoice))
                              (Some (inv_id returnInvoice))])
            (with_customers
               (update_where (fun r => bool_decide (cr_id r = rf_id rf))
                             (set_customer_balance (cr_balance customer - rf_amount rf)%Q)) d3)
      | None => d3
      end
  | None => d3
  end.

Definition api_createPurchase (invoice : PurchaseInvoice)
    (supplierUpdate : SupplierUpdate) (newBatches : list NewBatch) (d : DB) : DB :=
  let d1 := with_purchase_invoices
              (fun t => t ++ [purchaseInvoiceRow (pinv_type invoice) (pinv_currency invoice)
                                (pinv_exchangeRate invoice) invoice]) d in
  let d2 := with_purchase_invoice_items
              (fun t => t ++ map (purchaseItemRow (pinv_id invoice)) (pinv_items invoice)) d1 in
  let d3 := with_batches (fun t => t ++ map batchRow_of_new newBatches) d2 in
  let d4 := with_suppliers
              (update_where (fun r => bool_decide (spr_id r = spu_id supplierUpdate))
                            (set_supplier_balance (spu_newBalance supplierUpdate))) d3 in
  with_supplier_transactions (fun t => t ++ [spu_transaction supplierUpdate]) d4.

(** Stock taken back by a purchase return: the first batch row of the
    product with the lot number, never below zero. *)
Definition return_from_lot (rows : list BatchRow) (deduct : LotDeduction)
  : list BatchRow :=
  match list_find (fun r => br_product_id r = ld_productId deduct /\
                            br_lot_number r = ld_lotNumber deduct) rows with
  | Some (_, batch) =>
      set_stock_by_id (br_id batch) (Z.max 0 (br_stock batch - ld_quantity deduct)) rows
  | None => rows
  end.

Definition api_createPurchaseReturn (env : Env) (returnInvoice : PurchaseInvoice)
    (stockDeductions : list LotDeduction) (supplierRefund : option Refund) (d : DB) : DB :=
  let d1 := with_purchase_invoices
              (fun t => t ++ [purchaseInvoiceRow KPurchaseReturn None None returnInvoice]) d in
  let d2 := with_purchase_invoice_items
              (fun t => t ++ map (purchaseItemRow (pinv_id returnInvoice))
                                 (pinv_items returnInvoice)) d1 in
  let d3 := with_batches (fun t => fold_left return_from_lot stockDeductions t) d2 in
  match supplierRefund with
  | Some rf =>
      match single (List.filter (fun r => bool_decide (spr_id r = rf_id rf)) (t_suppliers d3)) with
      | Some supplier =>
          with_supplier_transactions
            (fun t => t ++ [mkSupplierTx (env_uuid env 0) (rf_id rf) STPurchaseReturn
                              (rf_amount rf) (env_now env)
                              (DescPurchaseReturn (pinv_originalInvoiceId returnInvoice))
                              (Some (pinv_id returnInvoice)) None])
            (with_suppliers
               (update_where (fun r => bool_decide (spr_id r = rf_id rf))
                             (set_supplier_balance (spr_balance supplier - rf_amount rf)%Q)) d3)
      | None => d3
      end
  | None => d3
  end.

Definition api_processPayroll (updates : list string)
    (transactions : list PayrollTransaction) (expense : Expense) (d : DB) : DB :=
  let d1 := with_employees
              (fun t => fold_left (fun t id =>
                 update_where (fun e => bool_decide (emp_id e = id))
                              (set_employee_balance 0%Q) t) updates t) d in
  let d2 := with_payroll_transactions (fun t => t ++ transactions) d1 in
  with_expenses (fun t => t ++ [expense]) d2.

Definition api_addActivity (log : ActivityLog) (d : DB) : DB :=
  with_activity_logs (fun t => t ++ [log]) d.

Definition exec (env : Env) (call : ApiCall) (d : DB) : DB :=
  match call with
  | CreateSale i su cu => api_createSale i su cu d
  | UpdateSale id i rs ds cu => api_updateSale id i rs ds cu d
  | CreateSaleReturn i rs rf => api_createSaleReturn env i rs rf d
  | CreatePurchase i su nb => api_createPurchase i su nb d
  | CreatePurchaseReturn i ds rf => api_createPurchaseReturn env i ds rf d
  | ProcessPayroll us ts e => api_processPayroll us ts e d
  end.

(** *** fetchData: reload the state from the database *)

(** Hydration: the pack size of a product line is looked up in the
    current product definitions ([product.itemsPerPackage || 1]). *)
Definition hydrate_item (products : list Product) (item : CartItem) : CartItem :=
  match item_type item with
  | TProduct =>
      match list_find (fun p => prod_id p = item_id item) products with
      | Some (_, product) =>
          mkItem (item_id item) (item_type item) (item_name item)
            (item_quantity item) (item_salePrice item) (item_price item)
            (item_finalPrice item) (item_purchasePrice item)
            (Some (itemsPerPackage_or_1 (prod_itemsPerPackage product)))
            (item_batches item) (item_barcode item) (item_manufacturer item)
      | None => item
      end
  | TService => item
  end.

Definition hydrate_invoice (products : list Product) (i : SaleInvoice) : SaleInvoice :=
  mkSaleInvoice (inv_id i) (inv_type i) (inv_originalInvoiceId i)
    (map (hydrate_item products) (inv_items i)) (inv_subtotal i)
    (inv_totalDiscount i) (inv_totalAmount i) (inv_timestamp i) (inv_cashier i)
    (inv_customerId i).

(** [getSettings] fails unless the settings row exists; [fetchData] then
    reports an error and leaves the state as it is. *)
Definition fetchData (env : Env) (d : DB) (prev : AppState) : AppState * list Text :=
  match t_store_settings d with
  | None => (prev, [MsgFetchFailed])
  | Some settings =>
      let restoredUser :=
        match truthy (env_storedUserId env) with
        | Some id => snd <$> list_find (fun u => user_id u = id) (t_users d)
        | None => None
        end in
      let products := getProducts d in
      let sales := getSaleInvoices d in
      (mkState products (map (hydrate_invoice products) sales)
         (getPurchaseInvoices d) (getCustomers d) (getSuppliers d)
         (t_employees d) (t_expenses d) (t_services d) settings (cart prev)
         (getCustomerTransactions d) (getSupplierTransactions d)
         (getPayrollTransactions d) (getActivities d)
         (Z.of_nat (length sales)) (editingSaleInvoiceId prev)
         (editingPurchaseInvoiceId prev)
         (bool_decide (is_Some restoredUser)) restoredUser (t_users d) (t_roles d),
       [])
  end.

(** ** Running an action

    The world is the local state, the database and the toasts shown so
    far.  [dispatch] runs the synchronous part of an action, then the
    adapter call, in one of two runs: the call resolves with every write
    applied and the [then] handler runs, or the call rejects with nothing
    written and the [catch] handler runs, if there is one.  A handler
    that throws stops; after a throw in [then] the [catch] handler runs.
    A run in which the database fails after some of the writes of a call
    is not one of the two: [api.updateSale] rejects only after its stock
    writes, and [api.createSale] and [api.createPurchase] resolve when a
    later write fails. *)

Record World := mkWorld {
  w_state : AppState;
  w_db : DB;
  w_toasts : list Text
}.

Definition add_activity (a : ActivityLog) (s : AppState) : AppState :=
  mkState (products s) (saleInvoices s) (purchaseInvoices s) (customers s)
    (suppliers s) (employees s) (expenses s) (services s) (storeSettings s)
    (cart s) (customerTransactions s) (supplierTransactions s)
    (payrollTransactions s) (a :: activities s) (saleInvoiceCounter s)
    (editingSaleInvoiceId s) (editingPurchaseInvoiceId s) (isAuthenticated s)
    (currentUser s) (users s) (roles s).

Definition run_effect (env : Env) (e : Effect) (w : World) : option World :=
  match e with
  | AddActivityLocal ty description user refId refType =>
      match user with
      | Some u =>
          let a := mkActivity (env_uuid env 1) ty description (env_now env) u
                              refId refType in
          Some (mkWorld (add_activity a (w_state w)) (api_addActivity a (w_db w))
                        (w_toasts w))
      | None => None
      end
  | SetState update =>
      match update (w_state w) with
      | Some s => Some (mkWorld s (w_db w) (w_toasts w))
      | None => None
      end
  | FetchData =>
      let '(s, toasts) := fetchData env (w_db w) (w_state w) in
      Some (mkWorld s (w_db w) (w_toasts w ++ toasts))
  | ShowToast m => Some (mkWorld (w_state w) (w_db w) (w_toasts w ++ [m]))
  end.

(** Runs a handler; the boolean tells whether it ran to its end. *)
Fixpoint run_effects (env : Env) (es : list Effect) (w : World) : World * bool :=
  match es with
  | [] => (w, true)
  | e :: rest =>
      match run_effect env e w with
      | Some w' => run_effects env rest w'
      | None => (w, false)
      end
  end.

Definition run_catch (env : Env) (handler : option (list Effect)) (w : World) : World :=
  match handler with
  | Some es => (run_effects env es w).1
  | None => w
  end.

Definition dispatch (env : Env) (resolves : bool) (o : Outcome) (w : World) : World :=
  let w1 := mkWorld (out_state o) (w_db w) (w_toasts w) in
  match out_call o with
  | None => w1
  | Some call =>
      if resolves then
        let w2 := mkWorld (w_state w1) (exec env call (w_db w1)) (w_toasts w1) in
        match run_effects env (out_then o) w2 with
        | (w3, true) => w3
        | (w3, false) => run_catch env (out_catch o) w3
        end
      else run_catch env (out_catch o) w1
  end.

(** ** POS: returning a sale *)

Record ReturnItem := mkReturnItem {
  ri_id : string;
  ri_type : ItemType;
  ri_quantity : Z
}.

(** The price a line was sold at, as [addSaleReturn] reads it. *)
Definition sold_price (originalItem : CartItem) : Q :=
  match item_type originalItem, item_finalPrice originalItem with
  | TProduct, Some f => f
  | TProduct, None => num (item_salePrice originalItem)
  | TService, _ => num (item_price originalItem)
  end.

Definition find_original_item (originalInvoice : SaleInvoice) (ri : ReturnItem)
  : option CartItem :=
  snd <$> list_find (fun i => item_id i = ri_id ri /\ item_type i = ri_type ri)
                    (inv_items originalInvoice).

(** [returnItems.map(...).filter(Boolean)]: lines not on the original
    invoice are dropped. *)
Definition detailedReturnItems (originalInvoice : SaleInvoice)
    (returnItems : list ReturnItem) : list CartItem :=
  omap (fun ri => set_quantity (ri_quantity ri) <$> find_original_item originalInvoice ri)
       returnItems.

Definition returnTotal (originalInvoice : SaleInvoice) (returnItems : list ReturnItem) : Q :=
  fold_left (fun total ri =>
    match find_original_item originalInvoice ri with
    | Some originalItem => (total + sold_price originalItem * inject_Z (ri_quantity ri))%Q
    | None => total
    end) returnItems 0%Q.

Definition addSaleReturn (env : Env) (state : AppState) (originalInvoiceId : string)
    (returnItems : list ReturnItem) (cashier : string) : Outcome :=
  if negb (env_online env) then refuse state MsgOffline else
  match list_find (fun i => inv_id i = originalInvoiceId) (saleInvoices state) with
  | None => refuse state MsgOriginalInvoiceNotFound
  | Some (_, originalInvoice) =>
      let items := detailedReturnItems originalInvoice returnItems in
      let total := returnTotal originalInvoice returnItems in
      let returnInvoiceId := generateNextId "R" (map inv_id (saleInvoices state)) in
      let returnInvoice :=
        mkSaleInvoice returnInvoiceId KReturn (Some originalInvoiceId) items
          total 0%Q total (env_now env) cashier (inv_customerId originalInvoice) in
      let stockRestores :=
        map (fun i => mkStockRestore (item_id i) (item_quantity i))
            (List.filter is_product items) in
      let customerRefund :=
        (fun cid => mkRefund cid total) <$> truthy (inv_customerId originalInvoice) in
      mkOutcome (Some (mkResult true None MsgSavingReturn)) state
        (Some (CreateSaleReturn returnInvoice stockRestores customerRefund))
        [AddActivityLocal ActSale (ActSaleReturned originalInvoiceId) (Some cashier)
           (Some returnInvoiceId) (Some RefSaleInvoice);
         FetchData;
         ShowToast MsgReturnSaved]
        (Some [ShowToast MsgReturnFailed])
  end.

(** ** Purchases *)

(** The form data of a purchase invoice; [productName] of an entered line
    is ignored and filled in from the products. *)
Record PurchaseInput := mkPurchaseInput {
  pin_supplierId : string;
  pin_invoiceNumber : string;
  pin_timestamp : Z;
  pin_currency : option Currency;
  pin_exchangeRate : option Q;
  pin_items : list PurchaseInvoiceItem
}.

Definition isUSD (invoiceData : PurchaseInput) : bool :=
  bool_decide (pin_currency invoiceData = Some USD).

(** [isUSD ? Number(invoiceData.exchangeRate) : 1] *)
Definition purchase_rate (invoiceData : PurchaseInput) : Q :=
  if isUSD invoiceData then Number (pin_exchangeRate invoiceData) else 1%Q.

(** [products.find(p => p.id === id)?.name || 'نامشخص']: the name of the
    first product with the id; the word for unknown when there is none or
    when its name is empty. *)
Definition unknown_name : string := "نامشخص".

Definition name_or_unknown (products : list Product) (productId : string) : string :=
  match list_find (fun p => prod_id p = productId) products with
  | Some (_, p) => if bool_decide (prod_name p = "") then unknown_name else prod_name p
  | None => unknown_name
  end.

Definition finalItems (products : list Product) (invoiceData : PurchaseInput)
  : list PurchaseInvoiceItem :=
  map (fun item =>
         mkPItem (pitem_productId item)
           (name_or_unknown products (pitem_productId item))
           (pitem_quantity item)
           (pitem_purchasePrice item * purchase_rate invoiceData)%Q
           (pitem_lotNumber item) (pitem_expiryDate item))
      (pin_items invoiceData).

Definition purchase_total (items : list PurchaseInvoiceItem) : Q :=
  fold_left (fun total item =>
    (total + pitem_purchasePrice item * inject_Z (pitem_quantity item))%Q) items 0%Q.

Definition newBatches (env : Env) (invoice : PurchaseInvoice) : list NewBatch :=
  imap (fun k item =>
          mkNewBatch (env_uuid env k) (pitem_productId item) (pitem_lotNumber item)
            (pitem_quantity item) (pitem_purchasePrice item)
            (pinv_timestamp invoice) (pitem_expiryDate item))
       (pinv_items invoice).

Definition batch_of_new (b : NewBatch) : ProductBatch :=
  mkBatch (nb_id b) (nb_lotNumber b) (nb_stock b) (nb_purchasePrice b)
          (nb_purchaseDate b) (nb_expiryDate b).

(** [p.batches.push(newBatch)] on the first product with the id, if any. *)
Definition push_batch (products : list Product) (b : NewBatch) : list Product :=
  match list_find (fun p => prod_id p = nb_productId b) products with
  | Some (k, p) => <[k := set_batches (prod_batches p ++ [batch_of_new b]) p]> products
  | None => products
  end.

Definition add_supplier_balance (supplierId : string) (amount : Q) (s : Supplier)
  : Supplier :=
  if bool_decide (sup_id s = supplierId)
  then mkSupplier (sup_id s) (sup_name s) (sup_contactPerson s) (sup_phone s)
                  (sup_address s) (sup_balance s + amount)%Q
  else s.

Definition addPurchaseInvoice (env : Env) (state : AppState)
    (invoiceData : PurchaseInput) : Outcome :=
  if negb (env_online env) then refuse state MsgOffline else
  match list_find (fun s => sup_id s = pin_supplierId invoiceData) (suppliers state) with
  | None => refuse state MsgInvalidSupplier
  | Some (_, supplier) =>
      let invoiceId := generateNextId "P" (map pinv_id (purchaseInvoices state)) in
      let rate := purchase_rate invoiceData in
      let items := finalItems (products state) invoiceData in
      let totalAmount := purchase_total items in
      let finalInvoiceNumber :=
        if bool_decide (pin_invoiceNumber invoiceData = "")
        then invoiceId else pin_invoiceNumber invoiceData in
      let invoice :=
        mkPurchaseInvoice invoiceId KPurchase None (pin_supplierId invoiceData)
          finalInvoiceNumber items totalAmount (pin_timestamp invoiceData)
          (pin_currency invoiceData) (Some rate) in
      let batches := newBatches env invoice in
      let localProducts := fold_left push_batch batches (products state) in
      let faceAmount :=
        if isUSD invoiceData then (totalAmount / rate)%Q else totalAmount in
      let transaction :=
        mkSupplierTx (env_uuid env (length items)) (sup_id supplier) STPurchase
          faceAmount (pinv_timestamp invoice)
          (DescPurchaseInvoice finalInvoiceNumber
             (if isUSD invoiceData then Some (totalAmount / rate)%Q else None))
          (Some invoiceId) (pin_currency invoiceData) in
      let supplierUpdate :=
        mkSupplierUpdate (sup_id supplier) (sup_balance supplier + totalAmount)%Q
                         transaction in
      mkOutcome (Some (mkResult true None MsgSaving)) state
        (Some (CreatePurchase invoice supplierUpdate batches))
        [AddActivityLocal ActPurchase ActPurchaseCreated
           (user_username <$> currentUser state) (Some invoiceId)
           (Some RefPurchaseInvoice);
         SetState (fun prev => Some
           (mkState localProducts (saleInvoices prev)
              (invoice :: purchaseInvoices prev) (customers prev)
              (map (add_supplier_balance (sup_id supplier) totalAmount) (suppliers prev))
              (employees prev) (expenses prev) (services prev) (storeSettings prev)
              (cart prev) (customerTransactions prev)
              (transaction :: supplierTransactions prev) (payrollTransactions prev)
              (activities prev) (saleInvoiceCounter prev) (editingSaleInvoiceId prev)
              (editingPurchaseInvoiceId prev) (isAuthenticated prev)
              (currentUser prev) (users prev) (roles prev)));
         ShowToast MsgPurchaseSaved]
        (Some [ShowToast MsgPurchaseFailed])
  end.

Record PurchaseReturnItem := mkPurchaseReturnItem {
  pri_productId : string;
  pri_quantity : Z
}.

Definition find_purchased (originalInvoice : PurchaseInvoice) (ri : PurchaseReturnItem)
  : option PurchaseInvoiceItem :=
  snd <$> list_find (fun i => pitem_productId i = pri_productId ri)
                    (pinv_items originalInvoice).

Definition addPurchaseReturn (env : Env) (state : AppState) (originalInvoiceId : string)
    (returnItems : list PurchaseReturnItem) : Outcome :=
  if negb (env_online env) then refuse state MsgOffline else
  match list_find (fun i => pinv_id i = originalInvoiceId) (purchaseInvoices state) with
  | None => refuse state MsgInvoiceNotFound
  | Some (_, originalInvoice) =>
      let total :=
        fold_left (fun total ri =>
          match find_purchased originalInvoice ri with
          | Some o => (total + pitem_purchasePrice o * inject_Z (pri_quantity ri))%Q
          | None => total
          end) returnItems 0%Q in
      let fullReturnItems :=
        omap (fun ri =>
          (fun o => mkPItem (pitem_productId o) (pitem_productName o) (pri_quantity ri)
                      (pitem_purchasePrice o) (pitem_lotNumber o) (pitem_expiryDate o))
          <$> find_purchased originalInvoice ri) returnItems in
      let stockDeductions :=
        omap (fun ri =>
          (fun o => mkLotDeduction (pri_productId ri) (pri_quantity ri) (pitem_lotNumber o))
          <$> find_purchased originalInvoice ri) returnItems in
      let returnInvoiceId := generateNextId "PR" (map pinv_id (purchaseInvoices state)) in
      let returnInvoice :=
        mkPurchaseInvoice returnInvoiceId KPurchaseReturn (Some originalInvoiceId)
          (pinv_supplierId originalInvoice) (pinv_invoiceNumber originalInvoice)
          fullReturnItems total (env_now env) None None in
      mkOutcome (Some (mkResult true None MsgSaving)) state
        (Some (CreatePurchaseReturn returnInvoice stockDeductions
                 (Some (mkRefund (pinv_supplierId originalInvoice) total))))
        [AddActivityLocal ActPurchase ActPurchaseReturned
           (user_username <$> currentUser state) (Some returnInvoiceId)
           (Some RefPurchaseInvoice);
         FetchData;
         ShowToast MsgPurchaseReturnSaved]
        None
  end.

(** ** Payroll *)

(** The loop [employees.forEach] of [processAndPaySalaries]: the salary
    transactions so far and their running total. *)
Fixpoint salary_run (env : Env) (emps : list Employee)
    (newTransactions : list PayrollTransaction) (totalPaid : Q)
  : list PayrollTransaction * Q :=
  match emps with
  | [] => (newTransactions, totalPaid)
  | emp :: rest =>
      let netSalary := (emp_monthlySalary emp - emp_balance emp)%Q in
      if Qlt_le_dec 0 netSalary
      then salary_run env rest
             (newTransactions ++
                [mkPayrollTx (env_uuid env (length newTransactions)) (emp_id emp)
                   PTSalaryPayment netSalary (env_now env) DescMonthlySalary])
             (totalPaid + netSalary)%Q
      else salary_run env rest newTransactions totalPaid
  end.

Definition processAndPaySalaries (env : Env) (state : AppState) : Outcome :=
  if negb (env_online env) then refuse state MsgOffline else
  let '(newTransactions, totalPaid) := salary_run env (employees state) [] 0%Q in
  let employeeUpdates := map emp_id (employees state) in
  if Qeq_bool totalPaid 0 then refuse state MsgNoSalaryDue else
  let expense :=
    mkExpense (env_uuid env (length newTransactions)) CatSalary DescMonthlySalary
              totalPaid (env_now env) in
  mkOutcome (Some (mkResult true None MsgProcessing)) state
    (Some (ProcessPayroll employeeUpdates newTransactions expense))
    [AddActivityLocal ActPayrollT (ActPayroll totalPaid)
       (user_username <$> currentUser state) None None;
     SetState (fun prev => Some
       (mkState (products prev) (saleInvoices prev) (purchaseInvoices prev)
          (customers prev) (suppliers prev)
          (map (set_employee_balance 0%Q) (employees prev))
          (expense :: expenses prev) (services prev) (storeSettings prev)
          (cart prev) (customerTransactions prev) (supplierTransactions prev)
          (newTransactions ++ payrollTransactions prev) (activities prev)
          (saleInvoiceCounter prev) (editingSaleInvoiceId prev)
          (editingPurchaseInvoiceId prev) (isAuthenticated prev) (currentUser prev)
          (users prev) (roles prev)));
     ShowToast MsgSalariesPaid]
    None.

(** ** Backup and restore *)

(** [exportData] serialises the state with [JSON.stringify] and
    [importData] reads it back with [JSON.parse]; on the data of the model
    the document is the state itself. *)
Definition exportData (state : AppState) : AppState := state.

Definition productRow (p : Product) : ProductRow :=
  mkProductRow (prod_id p) (prod_name p) (prod_salePrice p) (prod_barcode p)
               (prod_manufacturer p) (prod_itemsPerPackage p).

Definition batchRow (productId : string) (b : ProductBatch) : BatchRow :=
  mkBatchRow (batch_id b) productId (batch_lotNumber b) (batch_stock b)
             (batch_purchasePrice b) (batch_purchaseDate b) (batch_expiryDate b).

Definition customerRow (c : Customer) : CustomerRow :=
  mkCustomerRow (cust_id c) (cust_name c) (cust_phone c) (cust_creditLimit c)
                (cust_balance c).

Definition supplierRow (s : Supplier) : SupplierRow :=
  mkSupplierRow (sup_id s) (sup_name s) (sup_contactPerson s) (sup_phone s)
                (sup_address s) (sup_balance s).

(** The columns written for the entities whose rows are the entity
    records. *)
Definition serviceRow (s : Service) : Service :=
  mkService (svc_id s) (svc_name s) (svc_price s).

Definition employeeRow (e : Employee) : Employee :=
  mkEmployee (emp_id e) (emp_name e) (emp_position e) (emp_monthlySalary e)
             (emp_balance e).

Definition expenseRow (e : Expense) : Expense :=
  mkExpense (exp_id e) (exp_category e) (exp_description e) (exp_amount e)
            (exp_date e).

Definition customerTxRow (t : CustomerTransaction) : CustomerTransaction :=
  mkCustomerTx (ctx_id t) (ctx_customerId t) (ctx_type t) (ctx_amount t)
               (ctx_date t) (ctx_description t) (ctx_invoiceId t).

Definition supplierTxRow (t : SupplierTransaction) : SupplierTransaction :=
  mkSupplierTx (stx_id t) (stx_supplierId t) (stx_type t) (stx_amount t)
               (stx_date t) (stx_description t) (stx_invoiceId t) (stx_currency t).

Definition payrollTxRow (t : PayrollTransaction) : PayrollTransaction :=
  mkPayrollTx (ptx_id t) (ptx_employeeId t) (ptx_type t) (ptx_amount t)
              (ptx_date t) (ptx_description t).

Definition activityRow (a : ActivityLog) : ActivityLog :=
  mkActivity (act_id a) (act_type a) (act_description a) (act_timestamp a)
             (act_user a) (act_refId a) (act_refType a).

(** [api.clearAndRestoreData]: every table of the list is emptied, then
    the document is written back table by table; users and roles are not
    touched.

    The settings are a single row with the id 1, which [updateSettings]
    rewrites ([eq('id', 1)]).  The wipe asks every table to delete the
    rows whose id is not the all-zero UUID and only logs an error.
    Whether the database accepts that request for the settings depends on
    the type of their id column, which the repository does not fix: with
    a numeric id the request is refused and the row stays, to be
    rewritten from the document; with a text id the row is deleted and
    the update finds no row.  [numericSettingsId] tells which. *)
Definition api_clearAndRestoreData (numericSettingsId : bool) (data : AppState)
    (d : DB) : DB :=
  mkDB
    (if numericSettingsId
     then (fun _ => storeSettings data) <$> t_store_settings d
     else None)
    (t_users d) (t_roles d)
    (map productRow (products data))
    (flat_map (fun p => map (batchRow (prod_id p)) (prod_batches p)) (products data))
    (map serviceRow (services data))
    (map customerRow (customers data))
    (map supplierRow (suppliers data))
    (map employeeRow (employees data))
    (map expenseRow (expenses data))
    (map customerTxRow (customerTransactions data))
    (map supplierTxRow (supplierTransactions data))
    (map payrollTxRow (payrollTransactions data))
    (map (fun i => saleInvoiceRow (inv_type i) i) (saleInvoices data))
    (flat_map (fun inv => map (saleItemRow sale_final_price (inv_id inv)) (inv_items inv))
              (saleInvoices data))
    (map (fun i => purchaseInvoiceRow (pinv_type i) (pinv_currency i)
                     (pinv_exchangeRate i) i) (purchaseInvoices data))
    (flat_map (fun inv => map (purchaseItemRow (pinv_id inv)) (pinv_items inv))
              (purchaseInvoices data))
    (map activityRow (activities data)).

(** [importData], the confirmation given, on a file that holds the
    document [data]: the tables are restored, then the state is loaded
    again. *)
Definition importData (env : Env) (numericSettingsId : bool) (data : AppState)
    (w : World) : World :=
  if negb (env_online env)
  then mkWorld (w_state w) (w_db w) (w_toasts w ++ [MsgOffline])
  else
    let d := api_clearAndRestoreData numericSettingsId data (w_db w) in
    let '(s, toasts) := fetchData env d (w_state w) in
    mkWorld s d
      (w_toasts w ++ [Lit "⏳ در حال بازیابی اطلاعات (لطفا صبر کنید)..."]
       ++ toasts ++ [Lit "✅ بازیابی اطلاعات با موفقیت انجام شد."]).

(** ** Example data *)

Definition surcharge_line : CartItem :=
  mkItem "p-notebook" TProduct "Notebook" 2 (Some 10%Q) None (Some 12%Q)
         (Some 0%Q) None None None None.

Definition surcharge_state : AppState :=
  mkState
    [mkProduct "p-notebook" "Notebook" 10%Q
       [mkBatch "b1" "L1" 5 7%Q 0 None] None None None]
    [] [] [] [] [] [] [] (mkSettings "" "" "" 10 3 "" "")
    [surcharge_line] [] [] [] [] 0 None None true None [] [].

Definition online_env : Env := mkEnv true 0 (fun n => pretty n) None.

(** ** Payroll in the words of the specification *)

(** An employee is due a payment when the monthly salary exceeds the
    advances taken. *)
Definition salary_due (e : Employee) : bool :=
  if Qlt_le_dec (emp_balance e) (emp_monthlySalary e) then true else false.

Definition net_salary (e : Employee) : Q := (emp_monthlySalary e - emp_balance e)%Q.

(** What a payroll transaction says, apart from its generated id and date. *)
Definition payment_of (t : PayrollTransaction) : string * PayrollTxType * Q :=
  (ptx_employeeId t, ptx_type t, ptx_amount t).

Definition payroll_employees : list Employee :=
  [mkEmployee "e1" "Ahmad" "clerk" 1000%Q 200%Q;
   mkEmployee "e2" "Bashir" "guard" 500%Q 700%Q;
   mkEmployee "e3" "Karim" "driver" 800%Q 0%Q].

Definition cashier_user : User := mkUser "u1" "cashier" None "r1".

Definition payroll_state : AppState :=
  mkState [] [] [] [] [] payroll_employees [] [] (mkSettings "" "" "" 10 3 "" "")
    [] [] [] [] [] 0 None None true (Some cashier_user) [cashier_user] [].

Definition empty_db : DB :=
  mkDB (Some (mkSettings "" "" "" 10 3 "" "")) [] [] [] [] [] [] [] [] [] [] [] []
       [] [] [] [] [].

Definition payroll_db : DB := with_employees (fun _ => payroll_employees) empty_db.

Definition usd_supplier : Supplier := mkSupplier "s1" "Kabul Paper" None None None 1000%Q.

Definition usd_purchase : PurchaseInput :=
  mkPurchaseInput "s1" "" 1700000000000 (Some USD) (Some 70%Q)
    [mkPItem "p-notebook" "" 10 2%Q "LOT-7" None;
     mkPItem "p-pen" "" 4 (1 # 2)%Q "LOT-8" (Some 1717200000000%Z)].

Definition purchase_state : AppState :=
  mkState
    [mkProduct "p-notebook" "Notebook" 10%Q [] None None None]
    [] [] [] [usd_supplier] [] [] [] (mkSettings "" "" "" 10 3 "" "")
    [] [] [] [] [] 0 None None true (Some cashier_user) [cashier_user] [].

Definition purchase_db : DB :=
  with_suppliers (fun _ => [supplierRow usd_supplier]) empty_db.

(** A till that is editing invoice F1 (one pen sold) and now asks for five
    pens.  Its state shows 5 pens in batch X; in the database another
    till's sale has already brought batch X down to 2. *)
Definition pen_batch (stock : Z) : ProductBatch :=
  mkBatch "X" "LOT-1" stock 12%Q 1700000000000 None.

Definition pen (stock : Z) : Product :=
  mkProduct "p-pen" "Pen" 20%Q [pen_batch stock] None None (Some 1%Z).

Definition pen_line (quantity : Z) : CartItem :=
  mkItem "p-pen" TProduct "Pen" quantity (Some 20%Q) (Some 20%Q) (Some 20%Q)
         (Some 12%Q) (Some 1%Z) None None None.

Definition invoice_F1 : SaleInvoice :=
  mkSaleInvoice "F1" KSale None [pen_line 1] 20%Q 0%Q 20%Q 1700000100000
                "cashier" None.

Definition edit_state : AppState :=
  mkState [pen 5] [invoice_F1] [] [] [] [] [] [] (mkSettings "" "" "" 10 3 "" "")
    [pen_line 5] [] [] [] [] 1 (Some "F1") None true (Some cashier_user)
    [cashier_user] [].

Definition create_state : AppState :=
  mkState [pen 5] [invoice_F1] [] [] [] [] [] [] (mkSettings "" "" "" 10 3 "" "")
    [pen_line 5] [] [] [] [] 1 None None true (Some cashier_user)
    [cashier_user] [].

Definition stale_db : DB :=
  mkDB (Some (mkSettings "" "" "" 10 3 "" "")) [cashier_user] []
    [productRow (pen 2)] [batchRow "p-pen" (pen_batch 2)] [] [] [] [] [] [] [] []
    [saleInvoiceRow KSale invoice_F1]
    [saleItemRow sale_final_price "F1" (pen_line 1)] [] [] [].

Definition batches_nonneg (ps : list Product) : Prop :=
  Forall (fun p => Forall (fun b => (0 <= batch_stock b)%Z) (prod_batches p)) ps.

Definition rows_nonneg (rows : list BatchRow) : Prop :=
  Forall (fun r => (0 <= br_stock r)%Z) rows.

(** A credit sale being edited: customer c1 owes 120, invoice F1 (one
    pen, total 20) is on the customer's account, and the cart now holds
    three pens. *)
Definition credit_invoice_F1 : SaleInvoice :=
  mkSaleInvoice "F1" KSale None [pen_line 1] 20%Q 0%Q 20%Q 1700000100000
                "cashier" (Some "c1").

Definition customer_c1 : Customer := mkCustomer "c1" "Nasir" None None 120%Q.

Definition credit_tx_F1 : CustomerTransaction :=
  mkCustomerTx "t1" "c1" CTCreditSale 20%Q 1700000100000 (DescSaleInvoice "F1")
               (Some "F1").

Definition credit_edit_state : AppState :=
  mkState [pen 5] [credit_invoice_F1] [] [customer_c1] [] [] [] []
    (mkSettings "" "" "" 10 3 "" "")
    [pen_line 3] [credit_tx_F1] [] [] [] 1 (Some "F1") None true
    (Some cashier_user) [cashier_user] [].

Definition credit_db : DB :=
  mkDB (Some (mkSettings "" "" "" 10 3 "" "")) [cashier_user] []
    [productRow (pen 5)] [batchRow "p-pen" (pen_batch 5)] []
    [customerRow customer_c1] [] [] []
    [mkCustomerTx "t0" "c1" CTPayment 30%Q 1700000000000 (Lit "cash") None;
     credit_tx_F1] [] []
    [saleInvoiceRow KSale credit_invoice_F1]
    [saleItemRow sale_final_price "F1" (pen_line 1)] [] [] [].

(** ** New batches in the words of the specification *)



(** ** Returning stock in the words of the specification *)

(** The returned quantity is added to the stock of the first batch found
    for the product, whichever batches the sale took it from. *)
Definition add_to_first_batch (rows : list BatchRow) (restore : StockRestore)
  : list BatchRow :=
  match list_find (fun r => br_product_id r = sr_productId restore) rows with
  | Some (n, batch) =>
      <[n := set_row_stock (br_stock batch + sr_quantity restore) batch]> rows
  | None => rows
  end.

(** A line of the return form counts when the original invoice has a line
    of its id and type. *)
Definition on_invoice (original : SaleInvoice) (ri : ReturnItem) : bool :=
  existsb (fun i => bool_decide (item_id i = ri_id ri)
                    && bool_decide (item_type i = ri_type ri))
          (inv_items original).

(** The product quantities given back: for each product line of the
    return form that is on the invoice, in the order of the form, the
    product and the quantity entered. *)
Definition returned_products (original : SaleInvoice) (returnItems : list ReturnItem)
  : list StockRestore :=
  map (fun ri => mkStockRestore (ri_id ri) (ri_quantity ri))
      (List.filter (fun ri => bool_decide (ri_type ri = TProduct) && on_invoice original ri)
                   returnItems).

(** A product with an undated batch stored first and a dated batch
    stored second; two units are sold (taken from the dated batch) and
    then returned. *)
Definition ink_undated : ProductBatch := mkBatch "B1" "LOT-1" 4 5%Q 1700000000000 None.
Definition ink_dated (stock : Z) : ProductBatch :=
  mkBatch "B2" "LOT-2" stock 6%Q 1700000050000 (Some 1717200000000%Z).

Definition ink_line (quantity : Z) : CartItem :=
  mkItem "p-ink" TProduct "Ink" quantity (Some 9%Q) (Some 9%Q) (Some 9%Q)
         (Some 6%Q) (Some 1%Z) None None None.

Definition ink_invoice : SaleInvoice :=
  mkSaleInvoice "F7" KSale None [ink_line 2] 18%Q 0%Q 18%Q 1700000100000
                "cashier" None.

Definition ink_sale_state : AppState :=
  mkState [mkProduct "p-ink" "Ink" 9%Q [ink_undated; ink_dated 3] None None (Some 1%Z)]
    [] [] [] [] [] [] [] (mkSettings "" "" "" 10 3 "" "")
    [ink_line 2] [] [] [] [] 0 None None true (Some cashier_user) [cashier_user] [].

Definition return_state : AppState :=
  mkState [mkProduct "p-ink" "Ink" 9%Q [ink_undated; ink_dated 1] None None (Some 1%Z)]
    [ink_invoice] [] [] [] [] [] [] (mkSettings "" "" "" 10 3 "" "")
    [] [] [] [] [] 1 None None true (Some cashier_user) [cashier_user] [].

Definition return_db : DB :=
  mkDB (Some (mkSettings "" "" "" 10 3 "" "")) [cashier_user] []
    [mkProductRow "p-ink" "Ink" 9%Q None None (Some 1%Z)]
    [batchRow "p-ink" ink_undated; batchRow "p-ink" (ink_dated 1)]
    [] [] [] [] [] [] [] []
    [saleInvoiceRow KSale ink_invoice]
    [saleItemRow sale_final_price "F7" (ink_line 2)] [] [] [].

(** ** FIFO deduction in the words of the specification

    The batches of a product are consumed in the order: batches with an
    expiry date and positive stock by ascending expiry date, then batches
    without an expiry date and positive stock by ascending purchase date.
    Each batch gives the smaller of what is still requested and what it
    holds; the unit cost of the line is the value taken, at each batch's
    purchase price, divided by the quantity of the line. *)

(** [sold_before x y]: the batch [x] is consumed no later than the batch
    [y].  A batch is given with its position among the batches of the
    product.  A dated batch goes before an undated one; two dated batches
    go by expiry date and two undated ones by purchase date, the earlier
    first; batches of the same date go in the order in which the product
    lists them. *)
Definition sold_before (x y : nat * ProductBatch) : Prop :=
  match batch_expiryDate x.2, batch_expiryDate y.2 with
  | Some expiry_x, Some expiry_y =>
      (expiry_x < expiry_y)%Z \/ (expiry_x = expiry_y /\ (x.1 <= y.1)%nat)
  | Some _, None => True
  | None, Some _ => False
  | None, None =>
      (batch_purchaseDate x.2 < batch_purchaseDate y.2)%Z \/
      (batch_purchaseDate x.2 = batch_purchaseDate y.2 /\ (x.1 <= y.1)%nat)
  end.

#[global] Instance sold_before_dec x y : Decision (sold_before x y).
Proof.
  unfold sold_before.
  destruct (batch_expiryDate x.2), (batch_expiryDate y.2); apply _.
Defined.

(** The batches in stock, in the order in which they are consumed. *)
Definition fifo_order (bs : list ProductBatch) : list (nat * ProductBatch) :=
  merge_sort sold_before
    (filter (fun ib => (0 < batch_stock ib.2)%Z) (imap pair bs)).

(** The plan: how much is taken from the batch at each position. *)
Fixpoint fifo_takes (remaining : Z) (order : list (nat * ProductBatch))
  : list (nat * Z) :=
  match order with
  | [] => []
  | ib :: rest =>
      let take := Z.min remaining (batch_stock ib.2) in
      (ib.1, take) :: fifo_takes (remaining - take) rest
  end.

Definition Zsum (l : list Z) : Z := foldr Z.add 0%Z l.

Definition taken (plan : list (nat * Z)) (i : nat) : Z :=
  Zsum (filter (fun jd => jd.1 = i) plan).*2.

Definition fifo_batches (bs : list ProductBatch) (plan : list (nat * Z))
  : list ProductBatch :=
  imap (fun i b => set_stock (batch_stock b - taken plan i) b) bs.

(** The batches a plan takes from, in the order of consumption, each with
    the units it gives. *)
Definition taken_from (order : list (nat * ProductBatch)) (plan : list (nat * Z))
  : list (ProductBatch * Z) :=
  omap (fun ibjd : (nat * ProductBatch) * (nat * Z) =>
          if (0 <? ibjd.2.2)%Z then Some (ibjd.1.2, ibjd.2.2) else None)
       (zip order plan).

(** The value taken: the units each batch gives at the purchase price of
    the batch, added up in the order of consumption. *)
Definition fifo_value (order : list (nat * ProductBatch)) (plan : list (nat * Z)) : Q :=
  fold_left (fun total bd => (total + inject_Z bd.2 * batch_purchasePrice bd.1)%Q)
            (taken_from order plan) 0%Q.

(** The batches a line of [quantity] units consumes. *)
Definition consumed (bs : list ProductBatch) (quantity : Z) : list (ProductBatch * Z) :=
  taken_from (fifo_order bs) (fifo_takes quantity (fifo_order bs)).

Definition fifo_unit_cost (bs : list ProductBatch) (quantity : Z) : Q :=
  (fifo_value (fifo_order bs) (fifo_takes quantity (fifo_order bs))
   / inject_Z quantity)%Q.

(** The total stock of a product: the sum of its batches' stock. *)
Definition total_stock (p : Product) : Z := Zsum (map batch_stock (prod_batches p)).

(** One product line applied to its product. *)
Definition fifo_line (item : CartItem) (p : Product) : Product * CartItem :=
  (set_batches
     (fifo_batches (prod_batches p)
        (fifo_takes (item_quantity item) (fifo_order (prod_batches p)))) p,
   set_purchasePrice
     (Some (fifo_unit_cost (prod_batches p) (item_quantity item))) item).

(** The lines of a cart applied one after the other; a line is deducted
    from the first product with its id. *)
Fixpoint fifo_sale (ps : list Product) (cart : list CartItem)
  : list Product * list CartItem :=
  match cart with
  | [] => (ps, [])
  | item :: rest =>
      match item_type item,
            list_find (fun p => prod_id p = item_id item) ps with
      | TProduct, Some (k, p) =>
          let r := fifo_sale (<[k := (fifo_line item p).1]> ps) rest in
          (r.1, (fifo_line item p).2 :: r.2)
      | _, _ =>
          let r := fifo_sale ps rest in (r.1, item :: r.2)
      end
  end.

(** The batches the lines of a cart consume, line after line. *)
Fixpoint fifo_consumed (ps : list Product) (cart : list CartItem)
  : list (ProductBatch * Z) :=
  match cart with
  | [] => []
  | item :: rest =>
      match item_type item,
            list_find (fun p => prod_id p = item_id item) ps with
      | TProduct, Some (k, p) =>
          consumed (prod_batches p) (item_quantity item)
          ++ fifo_consumed (<[k := (fifo_line item p).1]> ps) rest
      | _, _ => fifo_consumed ps rest
      end
  end.

(** What is written for a consumed batch: its new stock when a sale is
    created, the units taken when a sale is edited. *)
Definition stock_left (bd : ProductBatch * Z) : StockUpdate :=
  mkStockUpdate (batch_id bd.1) (batch_stock bd.1 - bd.2).

Definition stock_taken (bd : ProductBatch * Z) : StockDeduction :=
  mkStockDeduction (batch_id bd.1) bd.2.

(** Each product line asks for a positive quantity that is at most the
    total stock of its product when the line is reached (for a cart whose
    product lines are of different products: the total stock in the
    state). *)
Fixpoint lines_within_stock (ps : list Product) (cart : list CartItem) : Prop :=
  match cart with
  | [] => True
  | item :: rest =>
      match item_type item with
      | TService => lines_within_stock ps rest
      | TProduct =>
          exists k p,
            list_find (fun p => prod_id p = item_id item) ps = Some (k, p) /\
            (0 < item_quantity item <= total_stock p)%Z /\
            lines_within_stock (<[k := (fifo_line item p).1]> ps) rest
      end
  end.

(** Two lines that agree on every field, the unit cost up to equality of
    rationals. *)
Definition same_line (a b : CartItem) : Prop :=
  set_purchasePrice None a = set_purchasePrice None b /\
  option_Forall2 Qeq (item_purchasePrice a) (item_purchasePrice b).

(** The example of the specification: five units sold against a batch of
    3 expiring on 2024-01-01 and a batch of 10 expiring on 2024-06-01. *)
Definition jan_2024 : Z := 1704067200000.
Definition jun_2024 : Z := 1717200000000.

Definition spec_example_state (price_jan price_jun : Q) : AppState :=
  mkState
    [mkProduct "p-glue" "Glue" 25%Q
       [mkBatch "G-jun" "LOT-B" 10 price_jun 1690000000000 (Some jun_2024);
        mkBatch "G-jan" "LOT-A" 3 price_jan 1695000000000 (Some jan_2024)]
       None None (Some 1%Z)]
    [] [] [] [] [] [] [] (mkSettings "" "" "" 10 3 "" "")
    [mkItem "p-glue" TProduct "Glue" 5 (Some 25%Q) None None (Some 0%Q)
            (Some 1%Z) None None None]
    [] [] [] [] 0 None None true (Some cashier_user) [cashier_user] [].

(** A product with dated and undated stock, listed out of order: the
    dated batch is consumed first although it was purchased last, then
    the undated batches, the one purchased in January before the one of
    March. *)
Definition jan_2023 : Z := 1672531200000.
Definition mar_2023 : Z := 1677628800000.
Definition apr_2023 : Z := 1680307200000.

Definition undated_example_state (price_dated price_jan price_mar : Q) : AppState :=
  mkState
    [mkProduct "p-pen" "Pen" 5%Q
       [mkBatch "N-mar" "LOT-3" 4 price_mar mar_2023 None;
        mkBatch "N-dated" "LOT-1" 1 price_dated apr_2023 (Some jun_2024);
        mkBatch "N-jan" "LOT-2" 2 price_jan jan_2023 None]
       None None (Some 1%Z)]
    [] [] [] [] [] [] [] (mkSettings "" "" "" 10 3 "" "")
    [mkItem "p-pen" TProduct "Pen" 5 (Some 5%Q) None None (Some 0%Q)
            (Some 1%Z) None None None]
    [] [] [] [] 0 None None true (Some cashier_user) [cashier_user] [].

(** The sale of the example as the edit of an invoice [F1] of two units. *)
Definition editing_example_state (price_jan price_jun : Q) : AppState :=
  mkState
    (products (spec_example_state price_jan price_jun))
    [mkSaleInvoice "F1" KSale None
       [mkItem "p-glue" TProduct "Glue" 2 (Some 25%Q) None None (Some price_jan)
               (Some 1%Z) None None None]
       50 0 50 1700000000000 "cashier" None]
    [] [] [] [] [] [] (mkSettings "" "" "" 10 3 "" "")
    (cart (spec_example_state price_jan price_jun))
    [] [] [] [] 0 (Some "F1") None true (Some cashier_user) [cashier_user] [].

(** What the deduction order of a product can give. *)
Definition available (bs : list ProductBatch) : Z :=
  Zsum (map (fun ib => batch_stock ib.2) (fifo_order bs)).

(** A cart with a line for a product that is no longer in the products
    (it was deleted after it was put in the cart) followed by five pens,
    of which two are in stock. *)
Definition ghost_line : CartItem :=
  mkItem "p-gone" TProduct "Eraser" 1 (Some 5%Q) None None (Some 0%Q)
         (Some 1%Z) None None None.

Definition short_state (lines : list CartItem) : AppState :=
  mkState [pen 2] [] [] [] [] [] [] [] (mkSettings "" "" "" 10 3 "" "")
    lines [] [] [] [] 0 None None true (Some cashier_user) [cashier_user] [].

(** ** Restoring a backup, in the words of the specification

    What the state after an import holds, entity by entity. *)

(** A product is restored with its batches; a missing or zero pack size
    comes back as 1. *)
Definition product_preserved (p p' : Product) : Prop :=
  prod_id p' = prod_id p /\ prod_name p' = prod_name p /\
  prod_salePrice p' = prod_salePrice p /\ prod_batches p' = prod_batches p /\
  prod_barcode p' = prod_barcode p /\ prod_manufacturer p' = prod_manufacturer p /\
  prod_itemsPerPackage p' = Some (itemsPerPackage_or_1 (prod_itemsPerPackage p)).

(** A purchase invoice is restored with its items; a missing currency
    comes back as AFN and a missing or zero rate as 1. *)
Definition purchase_preserved (i i' : PurchaseInvoice) : Prop :=
  pinv_id i' = pinv_id i /\ pinv_type i' = pinv_type i /\
  pinv_originalInvoiceId i' = pinv_originalInvoiceId i /\
  pinv_supplierId i' = pinv_supplierId i /\
  pinv_invoiceNumber i' = pinv_invoiceNumber i /\
  pinv_items i' = pinv_items i /\
  pinv_totalAmount i' = pinv_totalAmount i /\
  pinv_timestamp i' = pinv_timestamp i /\
  pinv_currency i' = Some (default AFN (pinv_currency i)) /\
  pinv_exchangeRate i' = Some (exchange_rate_or_1 (pinv_exchangeRate i)).

(** A sale line keeps what it says: which item, how many, at which list
    price and effective price, and (for a product) at which unit cost. *)
Definition line_preserved (i i' : CartItem) : Prop :=
  item_id i' = item_id i /\ item_type i' = item_type i /\
  item_name i' = item_name i /\ item_quantity i' = item_quantity i /\
  list_price i' = list_price i /\ effective_price i' = effective_price i /\
  (item_type i = TProduct -> num (item_purchasePrice i') = num (item_purchasePrice i)).

Definition sale_preserved (i i' : SaleInvoice) : Prop :=
  inv_id i' = inv_id i /\ inv_type i' = inv_type i /\
  inv_originalInvoiceId i' = inv_originalInvoiceId i /\
  inv_subtotal i' = inv_subtotal i /\
  inv_totalDiscount i' = inv_totalDiscount i /\
  inv_totalAmount i' = inv_totalAmount i /\
  inv_timestamp i' = inv_timestamp i /\ inv_cashier i' = inv_cashier i /\
  inv_customerId i' = inv_customerId i /\
  Forall2 line_preserved (inv_items i) (inv_items i').

Definition supplier_tx_preserved (t t' : SupplierTransaction) : Prop :=
  t' = mkSupplierTx (stx_id t) (stx_supplierId t) (stx_type t) (stx_amount t)
         (stx_date t) (stx_description t) (stx_invoiceId t)
         (Some (default AFN (stx_currency t))).

(** A list of dated entries is listed newest first when no entry is
    older than one listed after it; strictly so when every entry is newer
    than each one listed after it. *)
Definition listed_newest_first {A} (timestamp : A -> Z) (l : list A) : Prop :=
  StronglySorted (fun a b => (timestamp b <= timestamp a)%Z) l.

Definition listed_strictly_newest_first {A} (timestamp : A -> Z) (l : list A) : Prop :=
  StronglySorted (fun a b => (timestamp b < timestamp a)%Z) l.

(** The state a till is in right after it has saved the example sale. *)
Definition state_after_example_sale : AppState :=
  w_state (dispatch online_env true
             (completeSale online_env (spec_example_state 10 12) "cashier" None)
             (mkWorld (spec_example_state 10 12) empty_db [])).

(* ================================================================== *)
(** * Further code of the application *)
(* ================================================================== *)

(** ** Packs and units (utils/formatters, components/PackageUnitInput)

    Stock counts are integers.  [Math.floor(a / b)] is the quotient rounded
    towards minus infinity ([Z.div]); [a % b] is the remainder with the sign
    of the dividend ([Z.rem]). *)

Record PackageUnits := mkPackageUnits { packages : Z; units : Z }.

Definition parseToTotalUnits (packages units itemsPerPackage : Z) : Z :=
  packages * itemsPerPackage + units.

Definition parseToPackageAndUnits (totalStock itemsPerPackage : Z) : PackageUnits :=
  if (itemsPerPackage <=? 1)%Z then mkPackageUnits 0 totalStock
  else mkPackageUnits (totalStock / itemsPerPackage)
                      (Z.rem totalStock itemsPerPackage).

(** [formatStockToPackagesAndUnits]: the label of a stock count.  The
    numerals are written by [toLocaleString('fa-IR')]; the label is kept
    here as the template chosen and the numbers put into it. *)
Inductive StockLabel :=
| LabelNumber (n : Z)                  (* "<n>" *)
| LabelPackagesAndUnits (p u : Z)      (* "<p> packs and <u> units" *)
| LabelPackages (p : Z)                (* "<p> packs" *)
| LabelUnits (u : Z).                  (* "<u> units" *)

Definition formatStockToPackagesAndUnits (totalStock : Z)
    (itemsPerPackage : option Z) : StockLabel :=
  match itemsPerPackage with
  | None => LabelNumber totalStock
  | Some ipp =>
      if (ipp <=? 1)%Z then LabelNumber totalStock
      else
        let packages := (totalStock / ipp)%Z in
        let units := Z.rem totalStock ipp in
        if (0 <? packages)%Z && (0 <? units)%Z
        then LabelPackagesAndUnits packages units
        else if (0 <? packages)%Z then LabelPackages packages
        else LabelUnits units
  end.

(** [PackageUnitInput]: the two steppers show [packages] and [units];
    every change goes through [processChange], which reports the new
    total and shows it again split into packs and units. *)
Definition processChange (itemsPerPackage pVal uVal : Z) : PackageUnits * Z :=
  let total := parseToTotalUnits pVal uVal itemsPerPackage in
  (parseToPackageAndUnits total itemsPerPackage, total).

Inductive StepperEvent :=
| IncrementPackages | DecrementPackages | IncrementUnits | DecrementUnits
| TypePackages (value : N) | TypeUnits (value : N).
  (* a typed value is stripped of everything but digits *)

Definition stepper (itemsPerPackage : Z) (shown : PackageUnits) (e : StepperEvent)
  : PackageUnits * Z :=
  match e with
  | IncrementPackages =>
      processChange itemsPerPackage (packages shown + 1) (units shown)
  | DecrementPackages =>
      processChange itemsPerPackage (Z.max 0 (packages shown - 1)) (units shown)
  | IncrementUnits =>
      processChange itemsPerPackage (packages shown) (units shown + 1)
  | DecrementUnits =>
      processChange itemsPerPackage (packages shown) (Z.max 0 (units shown - 1))
  | TypePackages value =>
      processChange itemsPerPackage (Z.of_N value) (units shown)
  | TypeUnits value =>
      processChange itemsPerPackage (packages shown) (Z.of_N value)
  end.

(** ** The Jalali calendar (utils/jalali) *)

(** [toJalali]; [None] when [g_d_m[gm - 1]] is [undefined] and the result
    holds [NaN]. *)
Definition toJalali (gy gm gd : Z) : option (Z * Z * Z) :=
  let g_d_m := [0; 31; 59; 90; 120; 151; 181; 212; 243; 273; 304; 334]%Z in
  let jy := if (gy <=? 1600)%Z then 0%Z else 979%Z in
  let gy := (gy - (if (gy <=? 1600)%Z then 621 else 1600))%Z in
  let gy2 := if (2 <? gm)%Z then (gy + 1)%Z else gy in
  if (gm - 1 <? 0)%Z then None else
  match g_d_m !! Z.to_nat (gm - 1) with
  | None => None
  | Some before =>
      let days := (365 * gy + (gy2 + 3) / 4 - (gy2 + 99) / 100
                   + (gy2 + 399) / 400 - 80 + gd + before)%Z in
      let jy := (jy + 33 * (days / 12053))%Z in
      let days := Z.rem days 12053 in
      let jy := (jy + 4 * (days / 1461))%Z in
      let days := Z.rem days 1461 in
      let jy := (jy + (days - 1) / 365)%Z in
      let days := if (365 <? days)%Z then Z.rem (days - 1) 365 else days in
      let jm := if (days <? 186)%Z then (1 + days / 31)%Z
                else (7 + (days - 186) / 30)%Z in
      let jd := (1 + (if (days <? 186)%Z then Z.rem days 31
                      else Z.rem (days - 186) 30))%Z in
      Some (jy, jm, jd)
  end.

(** The loop [while (gm < 13 && gd > sal_a[gm])] over the month lengths
    that are left. *)
Fixpoint month_loop (sal_a : list Z) (gm gd : Z) : Z * Z :=
  match sal_a with
  | [] => (gm, gd)
  | len :: rest =>
      if (len <? gd)%Z then month_loop rest (gm + 1)%Z (gd - len)%Z
      else (gm, gd)
  end.

Definition toGregorian (jy jm jd : Z) : Z * Z * Z :=
  let gy := if (jy <=? 979)%Z then 621%Z else 1600%Z in
  let jy := (jy - (if (jy <=? 979)%Z then 0 else 979))%Z in
  let days := (365 * jy + (jy / 33) * 8 + (Z.rem jy 33 + 3) / 4 + 78 + jd
               + (if (jm <? 7)%Z then (jm - 1) * 31 else (jm - 7) * 30 + 186))%Z in
  let gy := (gy + 400 * (days / 146097))%Z in
  let days := Z.rem days 146097 in
  let '(gy, days) :=
    if (36524 <? days)%Z then
      let days := (days - 1)%Z in
      let gy := (gy + 100 * (days / 36524))%Z in
      let days := Z.rem days 36524 in
      (gy, if (365 <=? days)%Z then (days + 1)%Z else days)
    else (gy, days) in
  let gy := (gy + 4 * (days / 1461))%Z in
  let days := Z.rem days 1461 in
  let gy := (gy + (days - 1) / 365)%Z in
  let days := if (365 <? days)%Z then Z.rem (days - 1) 365 else days in
  let gd := (days + 1)%Z in
  let leap := (bool_decide (Z.rem gy 4 = 0%Z)
                 && negb (bool_decide (Z.rem gy 100 = 0%Z))
               || bool_decide (Z.rem gy 400 = 0%Z)) in
  let sal_a := [0; 31; if leap then 29 else 28; 31; 30; 31; 30; 31; 31; 30; 31;
                30; 31]%Z in
  let '(gm, gd) := month_loop sal_a 0%Z gd in
  (gy, gm, gd).

(** Calendar dates: the lengths of the Gregorian months, and of the Jalali
    months in the 33-year cycle the two functions count with (months 1 to 6
    have 31 days, 7 to 11 have 30, the last has 29, or 30 in a leap
    year). *)
Definition gregorian_leap (gy : Z) : bool :=
  bool_decide (gy mod 4 = 0)%Z && negb (bool_decide (gy mod 100 = 0)%Z)
  || bool_decide (gy mod 400 = 0)%Z.

Definition gregorian_month_length (gy gm : Z) : Z :=
  if bool_decide (gm = 2)%Z then (if gregorian_leap gy then 29 else 28)%Z
  else if bool_decide (gm = 4 \/ gm = 6 \/ gm = 9 \/ gm = 11)%Z then 30%Z
  else 31%Z.

Definition valid_gregorian (gy gm gd : Z) : bool :=
  (1 <=? gm)%Z && (gm <=? 12)%Z && (1 <=? gd)%Z
  && (gd <=? gregorian_month_length gy gm)%Z.

(** The years that open a block of four years in the 33-year cycle. *)
Definition opens_block (jy : Z) : bool :=
  bool_decide ((((jy - 979) mod 33) mod 4) = 0)%Z.

(** ** Amounts in words (utils/formatters) *)

(** [Array.prototype.join]. *)
Fixpoint join (sep : string) (l : list string) : string :=
  match l with
  | [] => ""
  | [x] => x
  | x :: r => x +:+ sep +:+ join sep r
  end.

(** The loop [while (numStr.length > 0)] cuts the decimal numeral of a
    positive integer into groups of three digits from the right; the
    numeral has at most 15 digits, so there are at most five groups. *)
Fixpoint digit_groups (fuel : nat) (n : N) : list N :=
  match fuel with
  | O => []
  | S fuel' =>
      if (n =? 0)%N then []
      else (n mod 1000)%N :: digit_groups fuel' (n / 1000)%N
  end.

(** [numberToPersianWords] of a non-negative integer; [None] from 10^21
    on, where [String] switches to the exponent notation. *)
Definition numberToPersianWords (num : N) : option string :=
  if (num =? 0)%N then Some "صفر" else
  let units := [""; "یک"; "دو"; "سه"; "چهار"; "پنج"; "شش"; "هفت"; "هشت"; "نه"] in
  let teens := ["ده"; "یازده"; "دوازده"; "سیزده"; "چهارده"; "پانزده"; "شانزده";
                "هفده"; "هجده"; "نوزده"] in
  let tens := [""; ""; "بیست"; "سی"; "چهل"; "پنجاه"; "شصت"; "هفتاد"; "هشتاد";
               "نود"] in
  let hundreds := [""; "یکصد"; "دویست"; "سیصد"; "چهارده"; "پانصد"; "ششصد";
                   "هفتصد"; "هشتصد"; "نهصد"] in
  let thousands := [""; "هزار"; "میلیون"; "میلیارد"; "تریلیون"] in
  if (1000000000000000000000 <=? num)%N then None else
  if (1000000000000000 <=? num)%N then Some "عدد بسیار بزرگ" else
  let groups := digit_groups 5 num in
  let words :=
    foldr (fun '(i, group) (later : list string) =>
             (* the loop runs from the last group down; [later] holds the
                words of the groups above this one *)
             later ++
             (if (group =? 0)%N then []
              else
                let h := (group / 100)%N in
                let t := ((group mod 100) / 10)%N in
                let u := (group mod 10)%N in
                let groupWords :=
                  (if (0 <? h)%N then [hundreds !!! N.to_nat h] else [])
                  ++ (if (t =? 1)%N then [teens !!! N.to_nat u]
                      else (if (1 <? t)%N then [tens !!! N.to_nat t] else [])
                           ++ (if (0 <? u)%N then [units !!! N.to_nat u] else [])) in
                join " و " groupWords
                  :: (if (0 <? i)%nat then [thousands !!! i] else [])))
          [] (imap pair groups) in
  Some (join " و " words).

(** Checks of a property on every integer of a range; they are run by
    computation, over the years and days of a period. *)
Definition all_between (first count : Z) (P : Z -> bool) : bool :=
  forallb P (seqZ first count).

Definition there_and_back (gy gm gd : Z) : bool :=
  match toJalali gy gm gd with
  | Some (jy, jm, jd) =>
      (1 <=? jm)%Z && (jm <=? 12)%Z && (1 <=? jd)%Z && (jd <=? 31)%Z
      && (bool_decide (jm = 1 /\ jd = 1)%Z || bool_decide (gm = 1 /\ gd = 1)%Z
          || bool_decide (toGregorian jy jm jd = (gy, gm, gd)))
  | None => false
  end.

Definition new_year_read_back (jy : Z) : bool :=
  let '(gy, gm, gd) := toGregorian jy 1 1 in
  bool_decide (toJalali gy gm gd
               = Some (if opens_block jy then (jy - 1)%Z else jy, 1%Z, 1%Z)).

Definition first_of_january_read_back (gy : Z) : bool :=
  match toJalali gy 1 1 with
  | Some (jy, jm, jd) =>
      bool_decide (toGregorian jy jm jd
                   = (if bool_decide (gy mod 4 = 0)%Z then (gy - 1)%Z else gy,
                      1%Z, 1%Z))
  | None => false
  end.

(** ** The cart (AppContext: addToCart, updateCartItemQuantity,
       updateCartItemFinalPrice, removeFromCart, beginEditSale,
       cancelEditSale)

    Each of these passes an updater to [setState]; the updater is given
    here as a function of the previous state.  [addToCart] and
    [updateCartItemQuantity] also answer a pair of a success flag and a
    message straight after [setState].  The updater assigns the pair; it
    has done so by the time of the answer only when React runs it at once
    (it does when no update of the state is pending: [eager]); when the
    updater runs at the next render the answer is the initial pair. *)

Definition set_cart (c : list CartItem) (s : AppState) : AppState :=
  mkState (products s) (saleInvoices s) (purchaseInvoices s) (customers s)
    (suppliers s) (employees s) (expenses s) (services s) (storeSettings s)
    c (customerTransactions s) (supplierTransactions s)
    (payrollTransactions s) (activities s) (saleInvoiceCounter s)
    (editingSaleInvoiceId s) (editingPurchaseInvoiceId s) (isAuthenticated s)
    (currentUser s) (users s) (roles s).

Definition set_editingSaleInvoiceId (id : option string) (s : AppState) : AppState :=
  mkState (products s) (saleInvoices s) (purchaseInvoices s) (customers s)
    (suppliers s) (employees s) (expenses s) (services s) (storeSettings s)
    (cart s) (customerTransactions s) (supplierTransactions s)
    (payrollTransactions s) (activities s) (saleInvoiceCounter s)
    id (editingPurchaseInvoiceId s) (isAuthenticated s)
    (currentUser s) (users s) (roles s).

Inductive CartMessage :=
| NoMessage                          (* the empty string *)
| MaxStockInCart (name : string)     (* "the whole stock of <name> is in the cart" *)
| OutOfStock (name : string)         (* "product <name> is out of stock" *)
| OnlyInStock (totalStock : Z)       (* "there are only <n> of the product" *)
| InvalidQuantity.                   (* "invalid quantity" *)

Record CartResult := mkCartResult {
  cart_success : bool;
  cart_message : CartMessage
}.

(** [batches.reduce((sum, b) => sum + b.stock, 0)] *)
Definition totalStock (batches : list ProductBatch) : Z :=
  fold_left (fun sum b => (sum + batch_stock b)%Z) batches 0%Z.

(** [item.id === itemId && item.type === itemType] *)
Definition is_line (itemId : string) (itemType : ItemType) (item : CartItem) : bool :=
  bool_decide (item_id item = itemId) && bool_decide (item_type item = itemType).

(** The line a product or a service enters the cart with: the object
    itself, with [purchasePrice: 0] for a product, [quantity: 1] and its
    type. *)
Definition new_line (itemToAdd : Product + Service) : CartItem :=
  match itemToAdd with
  | inl p =>
      mkItem (prod_id p) TProduct (prod_name p) 1 (Some (prod_salePrice p)) None
             None (Some 0%Q) (prod_itemsPerPackage p) (Some (prod_batches p))
             (prod_barcode p) (prod_manufacturer p)
  | inr s =>
      mkItem (svc_id s) TService (svc_name s) 1 None (Some (svc_price s)) None
             None None None None None
  end.

(** [addToCart(itemToAdd, type)], called with a product and ['product'] or
    with a service and ['service']; [let success = false, message = '']. *)
Definition addToCart (eager : bool) (itemToAdd : Product + Service) (prev : AppState)
  : AppState * CartResult :=
  let answer (success : bool) (message : CartMessage) : CartResult :=
    if eager then mkCartResult success message else mkCartResult false NoMessage in
  let line := new_line itemToAdd in
  match list_find (fun item => is_line (item_id line) (item_type line) item = true)
                  (cart prev) with
  | Some (existingItemIndex, existingItem) =>
      match itemToAdd with
      | inl p =>
          if (totalStock (prod_batches p) <=? item_quantity existingItem)%Z
          then (prev, answer false (MaxStockInCart (item_name existingItem)))
          else (set_cart (<[existingItemIndex :=
                             set_quantity (item_quantity existingItem + 1) existingItem]>
                           (cart prev)) prev,
                answer true NoMessage)
      | inr _ =>
          (set_cart (<[existingItemIndex :=
                        set_quantity (item_quantity existingItem + 1) existingItem]>
                      (cart prev)) prev,
           answer true NoMessage)
      end
  | None =>
      match itemToAdd with
      | inl p =>
          if (totalStock (prod_batches p) <? 1)%Z
          then (prev, answer false (OutOfStock (prod_name p)))
          else (set_cart (cart prev ++ [line]) prev, answer true NoMessage)
      | inr _ => (set_cart (cart prev ++ [line]) prev, answer true NoMessage)
      end
  end.

(** [productInStock?.batches.reduce(...) || 0] *)
Definition stock_in_state (products : list Product) (itemId : string) : Z :=
  match list_find (fun p => prod_id p = itemId) products with
  | Some (_, productInStock) => totalStock (prod_batches productInStock)
  | None => 0%Z
  end.

(** [updateCartItemQuantity(itemId, itemType, newQuantity)]: a negative
    quantity is refused before [setState]; [let success = true,
    message = '']. *)
Definition updateCartItemQuantity (eager : bool) (itemId : string)
    (itemType : ItemType) (newQuantity : Z) (prev : AppState)
  : AppState * CartResult :=
  if (newQuantity <? 0)%Z then (prev, mkCartResult false InvalidQuantity) else
  let answer (message : CartMessage) : CartResult :=
    if eager then mkCartResult true message else mkCartResult true NoMessage in
  match list_find (fun i => is_line itemId itemType i = true) (cart prev) with
  | None => (prev, answer NoMessage)
  | Some (itemIndex, item) =>
      let stock := stock_in_state (products prev) itemId in
      if bool_decide (itemType = TProduct) && (stock <? newQuantity)%Z then
        (set_cart (<[itemIndex := set_quantity stock item]> (cart prev)) prev,
         answer (OnlyInStock stock))
      else
        let cart' := <[itemIndex := set_quantity newQuantity item]> (cart prev) in
        (set_cart (if (newQuantity =? 0)%Z
                   then List.filter (fun i => negb (is_line itemId itemType i)) cart'
                   else cart') prev,
         answer NoMessage)
  end.

Definition set_finalPrice (f : option Q) (i : CartItem) : CartItem :=
  mkItem (item_id i) (item_type i) (item_name i) (item_quantity i)
         (item_salePrice i) (item_price i) f (item_purchasePrice i)
         (item_itemsPerPackage i) (item_batches i) (item_barcode i)
         (item_manufacturer i).

Definition updateCartItemFinalPrice (itemId : string) (itemType : ItemType)
    (finalPrice : Q) (prev : AppState) : AppState :=
  set_cart (map (fun item =>
                   if is_line itemId itemType item
                      && bool_decide (item_type item = TProduct)
                   then set_finalPrice (Some finalPrice) item else item)
                (cart prev)) prev.

Definition removeFromCart (itemId : string) (itemType : ItemType) (prev : AppState)
  : AppState :=
  set_cart (List.filter (fun item => negb (is_line itemId itemType item)) (cart prev))
           prev.

(** [beginEditSale]: the answer is [None] for "invoice not found", else
    the customer of the invoice. *)
Definition beginEditSale (invoiceId : string) (state : AppState)
  : AppState * option (option string) :=
  match list_find (fun i => inv_id i = invoiceId) (saleInvoices state) with
  | None => (state, None)
  | Some (_, invoice) =>
      (set_editingSaleInvoiceId (Some invoiceId) (set_cart (inv_items invoice) state),
       Some (inv_customerId invoice))
  end.

Definition cancelEditSale (prev : AppState) : AppState :=
  set_editingSaleInvoiceId None (set_cart [] prev).

(** The events of the cart. *)
Inductive CartEvent :=
| AddToCart (itemToAdd : Product + Service)
| UpdateQuantity (itemId : string) (itemType : ItemType) (newQuantity : Z)
| UpdateFinalPrice (itemId : string) (itemType : ItemType) (finalPrice : Q)
| RemoveFromCart (itemId : string) (itemType : ItemType).

Definition cart_event (e : CartEvent) (prev : AppState) : AppState :=
  match e with
  | AddToCart itemToAdd => (addToCart false itemToAdd prev).1
  | UpdateQuantity itemId itemType newQuantity =>
      (updateCartItemQuantity false itemId itemType newQuantity prev).1
  | UpdateFinalPrice itemId itemType finalPrice =>
      updateCartItemFinalPrice itemId itemType finalPrice prev
  | RemoveFromCart itemId itemType => removeFromCart itemId itemType prev
  end.

(** A product put into the cart is the product the state holds under its
    id (the view hands over an element of [products]). *)
Definition from_the_shelf (e : CartEvent) (s : AppState) : Prop :=
  match e with
  | AddToCart (inl p) =>
      exists k, list_find (fun q => prod_id q = prod_id p) (products s) = Some (k, p)
  | _ => True
  end.

(** The lines of a cart are of different items, each asks for one unit at
    least, and no product line asks for more than the stock of its
    product. *)
Definition line_key (i : CartItem) : string * ItemType := (item_id i, item_type i).

Definition cart_fits (s : AppState) : Prop :=
  NoDup (line_key <$> cart s) /\
  Forall (fun i => (1 <= item_quantity i)%Z /\
                   (item_type i = TProduct ->
                    (item_quantity i <= stock_in_state (products s) (item_id i))%Z))
         (cart s).

Definition cart_events (es : list CartEvent) (s : AppState) : AppState :=
  fold_left (fun s e => cart_event e s) es s.

(** The total in the cart view (pages/POS). *)
Definition pos_totalAmount (cart : list CartItem) : Q :=
  fold_left (fun total item =>
    let price := match item_type item, item_finalPrice item with
                 | TProduct, Some f => f
                 | TProduct, None => num (item_salePrice item)
                 | TService, _ => num (item_price item)
                 end in
    (total + price * inject_Z (item_quantity item))%Q) cart 0%Q.

(** ** Further actions of the state container (AppContext) and their
       adapter calls (services/supabaseService)

    Toasts and descriptions of these actions that are no template of
    [Text] are given literally. *)

Definition set_products (ps : list Product) (s : AppState) : AppState :=
  mkState ps (saleInvoices s) (purchaseInvoices s) (customers s)
    (suppliers s) (employees s) (expenses s) (services s) (storeSettings s)
    (cart s) (customerTransactions s) (supplierTransactions s)
    (payrollTransactions s) (activities s) (saleInvoiceCounter s)
    (editingSaleInvoiceId s) (editingPurchaseInvoiceId s) (isAuthenticated s)
    (currentUser s) (users s) (roles s).

Definition set_roles (rs : list Role) (s : AppState) : AppState :=
  mkState (products s) (saleInvoices s) (purchaseInvoices s) (customers s)
    (suppliers s) (employees s) (expenses s) (services s) (storeSettings s)
    (cart s) (customerTransactions s) (supplierTransactions s)
    (payrollTransactions s) (activities s) (saleInvoiceCounter s)
    (editingSaleInvoiceId s) (editingPurchaseInvoiceId s) (isAuthenticated s)
    (currentUser s) (users s) rs.

Definition set_customer_ledger (cs : list Customer) (ts : list CustomerTransaction)
    (s : AppState) : AppState :=
  mkState (products s) (saleInvoices s) (purchaseInvoices s) cs
    (suppliers s) (employees s) (expenses s) (services s) (storeSettings s)
    (cart s) ts (supplierTransactions s)
    (payrollTransactions s) (activities s) (saleInvoiceCounter s)
    (editingSaleInvoiceId s) (editingPurchaseInvoiceId s) (isAuthenticated s)
    (currentUser s) (users s) (roles s).

Definition set_supplier_ledger (ss : list Supplier) (ts : list SupplierTransaction)
    (s : AppState) : AppState :=
  mkState (products s) (saleInvoices s) (purchaseInvoices s) (customers s)
    ss (employees s) (expenses s) (services s) (storeSettings s)
    (cart s) (customerTransactions s) ts
    (payrollTransactions s) (activities s) (saleInvoiceCounter s)
    (editingSaleInvoiceId s) (editingPurchaseInvoiceId s) (isAuthenticated s)
    (currentUser s) (users s) (roles s).

Definition set_payroll_ledger (es : list Employee) (ts : list PayrollTransaction)
    (s : AppState) : AppState :=
  mkState (products s) (saleInvoices s) (purchaseInvoices s) (customers s)
    (suppliers s) es (expenses s) (services s) (storeSettings s)
    (cart s) (customerTransactions s) (supplierTransactions s)
    ts (activities s) (saleInvoiceCounter s)
    (editingSaleInvoiceId s) (editingPurchaseInvoiceId s) (isAuthenticated s)
    (currentUser s) (users s) (roles s).

Definition set_editingPurchaseInvoiceId (id : option string) (s : AppState)
  : AppState :=
  mkState (products s) (saleInvoices s) (purchaseInvoices s) (customers s)
    (suppliers s) (employees s) (expenses s) (services s) (storeSettings s)
    (cart s) (customerTransactions s) (supplierTransactions s)
    (payrollTransactions s) (activities s) (saleInvoiceCounter s)
    (editingSaleInvoiceId s) id (isAuthenticated s)
    (currentUser s) (users s) (roles s).

Definition set_session (authenticated : bool) (user : option User)
    (us : list User) (s : AppState) : AppState :=
  mkState (products s) (saleInvoices s) (purchaseInvoices s) (customers s)
    (suppliers s) (employees s) (expenses s) (services s) (storeSettings s)
    (cart s) (customerTransactions s) (supplierTransactions s)
    (payrollTransactions s) (activities s) (saleInvoiceCounter s)
    (editingSaleInvoiceId s) (editingPurchaseInvoiceId s) authenticated
    user us (roles s).

(** *** Adapter calls *)

(** The transaction handed to [processPayment], with the kind of entity
    it is for. *)
Inductive Payment :=
| PayCustomer (transaction : CustomerTransaction)
| PaySupplier (transaction : SupplierTransaction)
| PayEmployee (transaction : PayrollTransaction).

Record SupplierEdit := mkSupplierEdit {
  se_id : string;
  se_oldAmount : Q;
  se_newAmount : Q
}.

Inductive Request :=
| DeleteProduct (id : string)
| DeleteRole (id : string)
| ProcessPayment (entityId : string) (newBalance : Q) (payment : Payment)
| UpdatePurchase (invoiceId : string) (newInvoiceData : PurchaseInvoice)
                 (newBatches : list NewBatch) (supplierUpdate : option SupplierEdit).

Definition with_products (f : list ProductRow -> list ProductRow) (d : DB) : DB :=
  mkDB (t_store_settings d) (t_users d) (t_roles d) (f (t_products d))
       (t_product_batches d) (t_services d) (t_customers d) (t_suppliers d)
       (t_employees d) (t_expenses d) (t_customer_transactions d)
       (t_supplier_transactions d) (t_payroll_transactions d) (t_sale_invoices d)
       (t_sale_invoice_items d) (t_purchase_invoices d)
       (t_purchase_invoice_items d) (t_activity_logs d).

Definition with_roles (f : list Role -> list Role) (d : DB) : DB :=
  mkDB (t_store_settings d) (t_users d) (f (t_roles d)) (t_products d)
       (t_product_batches d) (t_services d) (t_customers d) (t_suppliers d)
       (t_employees d) (t_expenses d) (t_customer_transactions d)
       (t_supplier_transactions d) (t_payroll_transactions d) (t_sale_invoices d)
       (t_sale_invoice_items d) (t_purchase_invoices d)
       (t_purchase_invoice_items d) (t_activity_logs d).

Definition api_deleteProduct (id : string) (d : DB) : DB :=
  with_products (List.filter (fun r => negb (bool_decide (pr_id r = id)))) d.

Definition api_deleteRole (id : string) (d : DB) : DB :=
  with_roles (List.filter (fun r => negb (bool_decide (role_id r = id)))) d.

(** [processPayment]: the balance of the entity is overwritten and the
    transaction is inserted; its [invoiceId] is stored when it is truthy. *)
Definition api_processPayment (entityId : string) (newBalance : Q)
    (payment : Payment) (d : DB) : DB :=
  match payment with
  | PayCustomer t =>
      with_customer_transactions
        (fun rows => rows ++ [mkCustomerTx (ctx_id t) (ctx_customerId t) (ctx_type t)
                                (ctx_amount t) (ctx_date t) (ctx_description t)
                                (truthy (ctx_invoiceId t))])
        (with_customers
           (update_where (fun r => bool_decide (cr_id r = entityId))
                         (set_customer_balance newBalance)) d)
  | PaySupplier t =>
      with_supplier_transactions
        (fun rows => rows ++ [mkSupplierTx (stx_id t) (stx_supplierId t) (stx_type t)
                                (stx_amount t) (stx_date t) (stx_description t)
                                (truthy (stx_invoiceId t)) (stx_currency t)])
        (with_suppliers
           (update_where (fun r => bool_decide (spr_id r = entityId))
                         (set_supplier_balance newBalance)) d)
  | PayEmployee t =>
      with_payroll_transactions (fun rows => rows ++ [t])
        (with_employees
           (update_where (fun e => bool_decide (emp_id e = entityId))
                         (set_employee_balance newBalance)) d)
  end.

(** The header update of a purchase edit; an [undefined] currency or
    rate is left out of the request. *)
Definition set_purchase_header (n : PurchaseInvoice) (r : PurchaseInvoiceRow)
  : PurchaseInvoiceRow :=
  mkPurchaseInvoiceRow (pir_id r) (pir_type r) (pir_original_invoice_id r)
    (pinv_supplierId n) (pinv_invoiceNumber n) (pinv_totalAmount n)
    (pinv_timestamp n)
    (match pinv_currency n with Some c => Some c | None => pir_currency r end)
    (match pinv_exchangeRate n with Some x => Some x | None => pir_exchange_rate r end).

Definition set_stx_amount (amount : Q) (t : SupplierTransaction) : SupplierTransaction :=
  mkSupplierTx (stx_id t) (stx_supplierId t) (stx_type t) amount (stx_date t)
               (stx_description t) (stx_invoiceId t) (stx_currency t).

Definition is_purchase_of (invoiceId : string) (t : SupplierTransaction) : bool :=
  bool_decide (stx_invoiceId t = Some invoiceId) &&
  bool_decide (stx_type t = STPurchase).

Definition api_updatePurchase (invoiceId : string) (newInvoiceData : PurchaseInvoice)
    (newBatches : list NewBatch) (supplierUpdate : option SupplierEdit) (d : DB) : DB :=
  (* 1. header *)
  let d1 := with_purchase_invoices
              (update_where (fun r => bool_decide (pir_id r = invoiceId))
                            (set_purchase_header newInvoiceData)) d in
  (* 2. items: delete the old rows, insert the new ones *)
  let d2 := with_purchase_invoice_items
              (fun t => List.filter (fun r => negb (bool_decide (pit_invoice_id r = invoiceId))) t
                        ++ map (purchaseItemRow invoiceId) (pinv_items newInvoiceData)) d1 in
  (* 3. new batches *)
  let d3 := with_batches (fun t => t ++ map batchRow_of_new newBatches) d2 in
  (* 4. supplier *)
  match supplierUpdate with
  | Some su =>
      match single (List.filter (fun r => bool_decide (spr_id r = se_id su)) (t_suppliers d3)) with
      | Some supplier =>
          let newBalance := (spr_balance supplier - se_oldAmount su + se_newAmount su)%Q in
          with_supplier_transactions
            (update_where (is_purchase_of invoiceId) (set_stx_amount (se_newAmount su)))
            (with_suppliers
               (update_where (fun r => bool_decide (spr_id r = se_id su))
                             (set_supplier_balance newBalance)) d3)
      | None => d3
      end
  | None => d3
  end.

Definition serve (r : Request) (d : DB) : DB :=
  match r with
  | DeleteProduct id => api_deleteProduct id d
  | DeleteRole id => api_deleteRole id d
  | ProcessPayment entityId newBalance payment =>
      api_processPayment entityId newBalance payment d
  | UpdatePurchase invoiceId newInvoiceData newBatches supplierUpdate =>
      api_updatePurchase invoiceId newInvoiceData newBatches supplierUpdate d
  end.

(** *** Actions

    As before, an action runs a synchronous part and at most one adapter
    call with its handlers.  What the action answers is a [Reply]. *)

Inductive Reply :=
| Threw                                   (* a TypeError in the synchronous part *)
| Void
| Answer (success : bool) (message : Text)
| Paid (payment : Payment)                (* the transaction made *)
| NoPayment.                              (* [{}] *)

Record Job := mkJob {
  job_reply : Reply;
  job_state : AppState;             (* the state after the synchronous part *)
  job_toasts : list Text;           (* toasts of the synchronous part *)
  job_call : option Request;
  job_then : list Effect;
  job_catch : option (list Effect)  (* [None]: no [catch] handler *)
}.

Definition stop (state : AppState) (reply : Reply) (toasts : list Text) : Job :=
  mkJob reply state toasts None [] None.

(** Which calls can be rejected: [api.deleteProduct] and [api.deleteRole]
    throw the error of their request; [api.processPayment] and
    [api.updatePurchase] look at no error, so their promise is always
    resolved. *)
Definition rejects (r : Request) : bool :=
  match r with
  | DeleteProduct _ | DeleteRole _ => true
  | ProcessPayment _ _ _ | UpdatePurchase _ _ _ _ => false
  end.

(** [perform env saved j w]: the synchronous part, then the call.  With
    [saved] the database applies the writes of the call and the [then]
    handler runs.  Without, the database refuses the writes and nothing is
    written: a call that can be rejected goes to the [catch] handler, any
    other call is resolved and its [then] handler runs all the same. *)
Definition perform (env : Env) (saved : bool) (j : Job) (w : World) : World :=
  let w1 := mkWorld (job_state j) (w_db w) (w_toasts w ++ job_toasts j) in
  match job_call j with
  | None => w1
  | Some call =>
      if saved || negb (rejects call) then
        let w2 := mkWorld (w_state w1)
                          (if saved then serve call (w_db w1) else w_db w1)
                          (w_toasts w1) in
        match run_effects env (job_then j) w2 with
        | (w3, true) => w3
        | (w3, false) => run_catch env (job_catch j) w3
        end
      else run_catch env (job_catch j) w1
  end.

(** The double quote of a string template. *)
Definition dq : string := String (ascii_of_nat 34) EmptyString.

(** [`${x?.name}`] of a value that may be [undefined]. *)
Definition name_or_undefined (name : option string) : string :=
  default "undefined" name.

(** [deleteProduct]: a product with a sale or a purchase on record is not
    deleted. *)
Definition hasSalesHistory (state : AppState) (productId : string) : bool :=
  existsb (fun inv =>
             existsb (fun item => bool_decide (item_id item = productId)
                                  && bool_decide (item_type item = TProduct))
                     (inv_items inv))
          (saleInvoices state).

Definition hasPurchaseHistory (state : AppState) (productId : string) : bool :=
  existsb (fun inv =>
             existsb (fun item => bool_decide (pitem_productId item = productId))
                     (pinv_items inv))
          (purchaseInvoices state).

Definition deleteProduct (env : Env) (state : AppState) (productId : string) : Job :=
  if negb (env_online env) then stop state Void [MsgOffline] else
  let product := snd <$> list_find (fun p => prod_id p = productId) (products state) in
  let name := name_or_undefined (prod_name <$> product) in
  if hasSalesHistory state productId || hasPurchaseHistory state productId then
    stop state Void
      [Lit ("❌ خطا: محصول " +:+ dq +:+ name +:+ dq
            +:+ " دارای سابقه مالی است و قابل حذف نیست. (پیشنهاد: نام آن را تغییر دهید)")]
  else
    mkJob Void state [] (Some (DeleteProduct productId))
      [AddActivityLocal ActInventory
         (Lit ("محصول " +:+ dq +:+ name +:+ dq +:+ " را حذف کرد"))
         (user_username <$> currentUser state) None None;
       SetState (fun prev =>
         Some (set_products
                 (List.filter (fun p => negb (bool_decide (prod_id p = productId)))
                              (products prev)) prev));
       ShowToast (Lit "✅ محصول حذف شد.")]
      (Some [ShowToast (Lit "❌ خطا در حذف محصول.")]).

(** [hasPermission] and the roles. *)
Definition hasPermission (state : AppState) (permission : string) : bool :=
  match currentUser state with
  | None => false
  | Some user =>
      match list_find (fun r => role_id r = user_roleId user) (roles state) with
      | Some (_, userRole) => bool_decide (permission ∈ role_permissions userRole)
      | None => false
      end
  end.

Definition deleteRole (env : Env) (state : AppState) (roleId : string) : Job :=
  if negb (env_online env) then stop state Void [MsgOffline] else
  if existsb (fun u => bool_decide (user_roleId u = roleId)) (users state) then
    stop state Void
      [Lit "نمی‌توان نقشی را که به یک کاربر اختصاص داده شده حذف کرد."]
  else
    let role := snd <$> list_find (fun r => role_id r = roleId) (roles state) in
    mkJob Void state [] (Some (DeleteRole roleId))
      [AddActivityLocal ActInventory
         (Lit ("نقش " +:+ dq +:+ name_or_undefined (role_name <$> role) +:+ dq
               +:+ " را حذف کرد"))
         (user_username <$> currentUser state) None None;
       SetState (fun prev =>
         Some (set_roles
                 (List.filter (fun r => negb (bool_decide (role_id r = roleId)))
                              (roles prev)) prev))]
      (Some [ShowToast (Lit "❌ خطا در حذف نقش.")]).

(** *** Payments and advances *)

Definition set_balance_of_customer (customerId : string) (b : Q) (c : Customer)
  : Customer :=
  if bool_decide (cust_id c = customerId)
  then mkCustomer (cust_id c) (cust_name c) (cust_phone c) (cust_creditLimit c) b
  else c.

Definition set_balance_of_supplier (supplierId : string) (b : Q) (s : Supplier)
  : Supplier :=
  if bool_decide (sup_id s = supplierId)
  then mkSupplier (sup_id s) (sup_name s) (sup_contactPerson s) (sup_phone s)
                  (sup_address s) b
  else s.

Definition set_balance_of_employee (employeeId : string) (b : Q) (e : Employee)
  : Employee :=
  if bool_decide (emp_id e = employeeId) then set_employee_balance b e else e.

Definition addCustomerPayment (env : Env) (state : AppState) (customerId : string)
    (amount : Q) (description : string) : Job :=
  if negb (env_online env) then stop state NoPayment [MsgOffline] else
  let transaction :=
    mkCustomerTx (env_uuid env 0) customerId CTPayment amount (env_now env)
                 (Lit description) None in
  match list_find (fun c => cust_id c = customerId) (customers state) with
  | None => stop state Threw []
  | Some (_, customer) =>
      let newBalance := (cust_balance customer - amount)%Q in
      mkJob (Paid (PayCustomer transaction)) state []
        (Some (ProcessPayment customerId newBalance (PayCustomer transaction)))
        [SetState (fun prev =>
           Some (set_customer_ledger
                   (map (set_balance_of_customer customerId newBalance) (customers prev))
                   (transaction :: customerTransactions prev) prev))]
        None
  end.

Definition addEmployeeAdvance (env : Env) (state : AppState) (employeeId : string)
    (amount : Q) : Job :=
  if negb (env_online env) then stop state Void [MsgOffline] else
  let transaction :=
    mkPayrollTx (env_uuid env 0) employeeId PTAdvance amount (env_now env)
                (Lit "مساعده") in
  match list_find (fun e => emp_id e = employeeId) (employees state) with
  | None => stop state Threw []
  | Some (_, employee) =>
      let newBalance := (emp_balance employee + amount)%Q in
      mkJob Void state []
        (Some (ProcessPayment employeeId newBalance (PayEmployee transaction)))
        [SetState (fun prev =>
           Some (set_payroll_ledger
                   (map (set_balance_of_employee employeeId newBalance) (employees prev))
                   (transaction :: payrollTransactions prev) prev))]
        None
  end.

Section SupplierPayment.

(** [amount.toLocaleString()], the numeral of an amount in the locale of
    the browser. *)
Variable toLocaleString : Q -> string.

(** [addSupplierPayment(supplierId, amount, description, currency = 'AFN',
    exchangeRate = 1)] *)
Definition addSupplierPayment (env : Env) (state : AppState) (supplierId : string)
    (amount : Q) (description : string) (currency : option Currency)
    (exchangeRate : option Q) : Job :=
  let currency := default AFN currency in
  let exchangeRate := default 1%Q exchangeRate in
  if negb (env_online env) then stop state NoPayment [MsgOffline] else
  let transaction :=
    mkSupplierTx (env_uuid env 0) supplierId STPayment amount (env_now env)
      (Lit (description +:+ " ("
            +:+ (if bool_decide (currency = USD) then toLocaleString amount +:+ "$"
                 else "")
            +:+ ")"))
      None (Some currency) in
  match list_find (fun s => sup_id s = supplierId) (suppliers state) with
  | None => stop state Threw []
  | Some (_, supplier) =>
      let paymentValueInAFN :=
        if bool_decide (currency = USD) then (amount * exchangeRate)%Q else amount in
      let newBalance := (sup_balance supplier - paymentValueInAFN)%Q in
      mkJob (Paid (PaySupplier transaction)) state []
        (Some (ProcessPayment supplierId newBalance (PaySupplier transaction)))
        [SetState (fun prev =>
           Some (set_supplier_ledger
                   (map (set_balance_of_supplier supplierId newBalance) (suppliers prev))
                   (transaction :: supplierTransactions prev) prev))]
        None
  end.

End SupplierPayment.

(** *** Editing a purchase *)

Definition beginEditPurchase (invoiceId : string) (prev : AppState) : AppState :=
  set_editingPurchaseInvoiceId (Some invoiceId) prev.

Definition cancelEditPurchase (prev : AppState) : AppState :=
  set_editingPurchaseInvoiceId None prev.


(** *** Signing in and out *)

(** [login]: the users are read from the database ([None]: the read is
    rejected).  The answer comes with the session entry of the local
    storage after the call and with the new state. *)
Definition login (env : Env) (fetched : option (list User)) (state : AppState)
    (username password : string)
  : (bool * Text) * option string * AppState :=
  if negb (env_online env)
  then ((false, MsgOffline), env_storedUserId env, state)
  else
    match fetched with
    | None => ((false, Lit "❌ خطا در برقراری ارتباط."), env_storedUserId env, state)
    | Some users =>
        match list_find (fun u => user_username u = username) users with
        | Some (_, user) =>
            if bool_decide (user_password user = Some password)
            then ((true, Lit "✅ ورود موفق"), Some (user_id user),
                  set_session true (Some user) users state)
            else ((false, Lit "نام کاربری یا رمز عبور اشتباه است."),
                  env_storedUserId env, state)
        | None => ((false, Lit "نام کاربری یا رمز عبور اشتباه است."),
                   env_storedUserId env, state)
        end
    end.

Definition logout (state : AppState) : option string * AppState :=
  (None, set_session false None (users state) state).

(** The environment with another session entry in the local storage. *)
Definition with_stored (stored : option string) (env : Env) : Env :=
  mkEnv (env_online env) (env_now env) (env_uuid env) stored.

(** A product has a sale or a purchase on record. *)
Definition has_history (state : AppState) (productId : string) : Prop :=
  (exists inv item, inv ∈ saleInvoices state /\ item ∈ inv_items inv /\
     item_id item = productId /\ item_type item = TProduct) \/
  (exists inv item, inv ∈ purchaseInvoices state /\ item ∈ pinv_items inv /\
     pitem_productId item = productId).

(** The state as it is when user [u] is signed in. *)
Definition as_user (u : User) (s : AppState) : AppState :=
  set_session (isAuthenticated s) (Some u) (users s) s.

(** Example data: the staff of a shop, and a purchase under edit. *)
Definition clerk : User := mkUser "u2" "clerk" (Some "secret") "r-clerk".

Definition staff_state : AppState :=
  mkState [] [] [] [] [] [] [] [] (mkSettings "" "" "" 10 3 "" "")
    [] [] [] [] [] 0 None None true (Some clerk) [clerk]
    [mkRole "r-clerk" "Clerk" ["page:pos"; "pos:create_invoice"];
     mkRole "r-guest" "Guest" ["page:dashboard"]].

Definition staff_db : DB :=
  mkDB (Some (mkSettings "" "" "" 10 3 "" "")) [clerk]
    [mkRole "r-clerk" "Clerk" ["page:pos"; "pos:create_invoice"];
     mkRole "r-guest" "Guest" ["page:dashboard"]]
    [] [] [] [] [] [] [] [] [] [] [] [] [] [] [].





(** ** The state and the database in step *)

(** No two batches of the products share an id. *)
Definition distinct_batch_ids (ps : list Product) : Prop :=
  forall k1 p1 i1 b1 k2 p2 i2 b2,
    ps !! k1 = Some p1 -> prod_batches p1 !! i1 = Some b1 ->
    ps !! k2 = Some p2 -> prod_batches p2 !! i2 = Some b2 ->
    batch_id b1 = batch_id b2 -> k1 = k2 /\ i1 = i2.

(** The stock updates of a sale, written to the batch table one after the
    other. *)
Definition apply_stock_updates (stockUpdates : list StockUpdate)
    (rows : list BatchRow) : list BatchRow :=
  fold_left (fun t u => set_stock_by_id (su_batchId u) (su_newStock u) t)
            stockUpdates rows.

(** The return form filled in with every line of the invoice at its full
    quantity. *)
Definition full_return (inv : SaleInvoice) : list ReturnItem :=
  map (fun i => mkReturnItem (item_id i) (item_type i) (item_quantity i))
      (inv_items inv).

(** The units of a product on the lines of a cart. *)
Definition sold_units (lines : list CartItem) (productId : string) : Z :=
  Zsum (map item_quantity
          (List.filter (fun i => is_product i && bool_decide (item_id i = productId))
                       lines)).

(** The units of a product in the batch table. *)
Definition units_in_rows (rows : list BatchRow) (productId : string) : Z :=
  Zsum (map br_stock
          (List.filter (fun b => bool_decide (br_product_id b = productId)) rows)).

(** The units a list of restores gives back to a product. *)
Definition restored_units (restores : list StockRestore) (productId : string) : Z :=
  Zsum (map sr_quantity
          (List.filter (fun r => bool_decide (sr_productId r = productId)) restores)).

(** Every batch with the id gets the stock: what a stock update does to a
    product read from the database. *)
Definition restock (id : string) (s : Z) (p : Product) : Product :=
  set_batches (map (fun b => if bool_decide (batch_id b = id) then set_stock s b else b)
                   (prod_batches p)) p.

(** What a stock restore reads of a line. *)
Definition restore_key (i : CartItem) : string * ItemType * Z :=
  (item_id i, item_type i, item_quantity i).

(** Example data: a till and a database that agree. *)
Definition credit_sale_state : AppState :=
  set_editingSaleInvoiceId None credit_edit_state.

Definition ink_sale_db : DB :=
  mkDB (Some (mkSettings "" "" "" 10 3 "" "")) [cashier_user] []
    [mkProductRow "p-ink" "Ink" 9%Q None None (Some 1%Z)]
    [batchRow "p-ink" ink_undated; batchRow "p-ink" (ink_dated 3)]
    [] [] [] [] [] [] [] [] [] [] [] [] [].

Definition stocked_state : AppState :=
  mkState
    [mkProduct "p-notebook" "Notebook" 10%Q
       [mkBatch "b7" "LOT-7" 10 7%Q 1700000000000 None] None None (Some 1%Z)]
    [] [] [] [usd_supplier] [] [] [] (mkSettings "" "" "" 10 3 "" "")
    [] [] [] [] [] 0 None None true (Some cashier_user) [cashier_user] [].

Definition stocked_db : DB :=
  mkDB (Some (mkSettings "" "" "" 10 3 "" "")) [cashier_user] []
    [mkProductRow "p-notebook" "Notebook" 10%Q None None (Some 1%Z)]
    [mkBatchRow "b7" "p-notebook" "LOT-7" 10 7%Q 1700000000000 None] []
    [] [supplierRow usd_supplier] [] [] [] [] [] [] [] [] [] [].

(** The purchase return form filled in with every line of the invoice at
    its full quantity. *)
Definition full_purchase_return (inv : PurchaseInvoice) : list PurchaseReturnItem :=
  map (fun i => mkPurchaseReturnItem (pitem_productId i) (pitem_quantity i))
      (pinv_items inv).

(** ** Reports: sales and profitability (pages/Reports)

    [salesData] without its list [topProducts], which the other fields do
    not read. *)

Definition in_range (start end_ : Z) (time : Z) : bool :=
  (start <=? time)%Z && (time <=? end_)%Z.

Record SalesTotals := mkSalesTotals {
  grossRevenue : Q;
  returnsAmount : Q;
  totalDiscountsGiven : Q;
  totalCOGS : Q
}.

(** [(item.purchasePrice || 0) * item.quantity] of a product line *)
Definition line_cost (item : CartItem) : Q :=
  (default 0%Q (item_purchasePrice item) * inject_Z (item_quantity item))%Q.

(** The body of [filteredInvoices.forEach]. *)
Definition report_invoice (t : SalesTotals) (inv : SaleInvoice) : SalesTotals :=
  match inv_type inv with
  | KSale =>
      mkSalesTotals
        (grossRevenue t + inv_totalAmount inv)%Q
        (returnsAmount t)
        (if Qlt_le_dec 0 (inv_totalDiscount inv)
         then (totalDiscountsGiven t + inv_totalDiscount inv)%Q
         else totalDiscountsGiven t)
        (fold_left (fun cogs item =>
                      match item_type item with
                      | TProduct => (cogs + line_cost item)%Q
                      | TService => cogs
                      end) (inv_items inv) (totalCOGS t))
  | KReturn =>
      mkSalesTotals
        (grossRevenue t)
        (returnsAmount t + inv_totalAmount inv)%Q
        (totalDiscountsGiven t)
        (fold_left (fun cogs item =>
                      match item_type item with
                      | TProduct => (cogs - line_cost item)%Q
                      | TService => cogs
                      end) (inv_items inv) (totalCOGS t))
  end.

Record CashierSales := mkCashierSales {
  cs_cashier : string;
  cs_totalSales : Q;
  cs_invoiceCount : Z
}.

(** The reducer of [salesByEmployee]. *)
Definition count_sale (acc : list CashierSales) (inv : SaleInvoice)
  : list CashierSales :=
  match list_find (fun e => cs_cashier e = inv_cashier inv) acc with
  | Some (k, existing) =>
      <[k := mkCashierSales (cs_cashier existing)
               (cs_totalSales existing + inv_totalAmount inv)%Q
               (cs_invoiceCount existing + 1)%Z]> acc
  | None => acc ++ [mkCashierSales (inv_cashier inv) (inv_totalAmount inv) 1%Z]
  end.

Definition is_sale (inv : SaleInvoice) : bool :=
  match inv_type inv with KSale => true | KReturn => false end.

Record SalesData := mkSalesData {
  sd_netSales : Q;
  sd_totalDiscountsGiven : Q;
  sd_totalExpenses : Q;
  sd_netIncome : Q;
  sd_salesByEmployee : list CashierSales;
  sd_returnsAmount : Q;
  sd_totalCOGS : Q
}.

Definition salesData (saleInvoices : list SaleInvoice) (expenses : list Expense)
    (start end_ : Z) : SalesData :=
  let filteredInvoices :=
    List.filter (fun inv => in_range start end_ (inv_timestamp inv)) saleInvoices in
  let t := fold_left report_invoice filteredInvoices (mkSalesTotals 0 0 0 0) in
  let netSales := (grossRevenue t - returnsAmount t)%Q in
  let totalExpenses :=
    fold_left (fun sum exp => (sum + exp_amount exp)%Q)
      (List.filter (fun exp => in_range start end_ (exp_date exp)) expenses) 0%Q in
  let grossProfit := (netSales - totalCOGS t)%Q in
  let netIncome := (grossProfit - totalExpenses)%Q in
  let salesByEmployee :=
    fold_left count_sale (List.filter is_sale filteredInvoices) [] in
  mkSalesData netSales (totalDiscountsGiven t) totalExpenses netIncome
    salesByEmployee (returnsAmount t) (totalCOGS t).

(** ** Reports: inventory (pages/Reports) *)

Record InventoryData := mkInventoryData {
  id_totalValue : Q;
  id_totalItems : Z;
  id_stagnantProducts : list Product
}.

(** [p.batches.reduce((batchSum, b) => batchSum + b.stock * b.purchasePrice, 0)] *)
Definition batches_value (bs : list ProductBatch) : Q :=
  fold_left (fun batchSum b =>
               (batchSum + inject_Z (batch_stock b) * batch_purchasePrice b)%Q) bs 0%Q.

Definition inventoryData (products : list Product) (saleInvoices : list SaleInvoice)
    (start end_ : Z) : InventoryData :=
  let totalValue :=
    fold_left (fun sum p => (sum + batches_value (prod_batches p))%Q) products 0%Q in
  let totalItems :=
    fold_left (fun sum p => (sum + totalStock (prod_batches p))%Z) products 0%Z in
  let soldProductIds :=
    flat_map (fun inv => map item_id (inv_items inv))
      (List.filter (fun inv => in_range start end_ (inv_timestamp inv)) saleInvoices) in
  let stagnantProducts :=
    List.filter (fun p => negb (bool_decide (prod_id p ∈ soldProductIds))) products in
  mkInventoryData totalValue totalItems stagnantProducts.

(** ** Dashboard: the sales of today (pages/Dashboard)

    [startOfDay] and [endOfDay] are the first and the last millisecond of
    the local day of [new Date()]. *)





(** ** POS: the return form (pages/POS, ReturnModal) *)

Definition type_name (t : ItemType) : string :=
  match t with TProduct => "product" | TService => "service" end.

(** [`${item.id}-${item.type}`] *)
Definition return_key (item : CartItem) : string :=
  String.append (item_id item) (String.append "-" (type_name (item_type item))).

(** [{...prev, [key]: value}] on an object whose keys are no array
    indices: a key that is there keeps its place, a new key comes last. *)
Fixpoint set_entry (key : string) (value : Z) (prev : list (string * Z))
  : list (string * Z) :=
  match prev with
  | [] => [(key, value)]
  | (k, x) :: rest =>
      if bool_decide (k = key) then (k, value) :: rest
      else (k, x) :: set_entry key value rest
  end.

Definition handleQuantityChange (item : CartItem) (quantity : Z)
    (returnQuantities : list (string * Z)) : list (string * Z) :=
  let key := return_key item in
  let newQuantity := Z.max 0 (Z.min quantity (item_quantity item)) in
  set_entry key newQuantity returnQuantities.

(** The text before and the text after the last dash, if there is one. *)
Fixpoint split_last_dash (s : string) : option (string * string) :=
  match s with
  | EmptyString => None
  | String c rest =>
      match split_last_dash rest with
      | Some (before, after) => Some (String c before, after)
      | None => if Ascii.eqb c "-" then Some (EmptyString, rest) else None
      end
  end.

(** [key.substring(0, lastDashIndex)] and [key.substring(lastDashIndex + 1)];
    without a dash [lastIndexOf] is -1 and these are the empty string and
    the whole key. *)
Definition parse_return_key (key : string) : string * string :=
  match split_last_dash key with
  | Some (id, type) => (id, type)
  | None => (EmptyString, key)
  end.

(** The entries submitted: id, type as text, quantity. *)
Definition handleSubmit (returnQuantities : list (string * Z))
  : list (string * string * Z) :=
  map (fun kq => (parse_return_key kq.1, kq.2))
      (List.filter (fun kq => (0 <? kq.2)%Z) returnQuantities).

Definition submitted (ri : ReturnItem) : string * string * Z :=
  (ri_id ri, type_name (ri_type ri), ri_quantity ri).

(** What the return form holds for a key: nothing to return, or a
    quantity of a line of the invoice with this key, within what was
    sold. *)
Definition entry_of (inv : SaleInvoice) (kq : string * Z) : Prop :=
  exists item, item ∈ inv_items inv /\ kq.1 = return_key item /\
               (kq.2 = 0 \/ 1 <= kq.2 <= item_quantity item)%Z.

(** Example data: an invoice whose lines have an id with a dash. *)
Definition glue_line : CartItem :=
  mkItem "3f2a-77" TProduct "Glue" 3 (Some 4%Q) None None (Some 2%Q) (Some 1%Z)
         None None None.

Definition binding_line : CartItem :=
  mkItem "3f2a-77" TService "Binding" 1 None (Some 15%Q) None None None
         None None None.

Definition dashed_invoice : SaleInvoice :=
  mkSaleInvoice "F9" KSale None [glue_line; binding_line] 27%Q 0%Q 27%Q
                1700000100000 "cashier" None.

(* ================================================================== *)
(** * Properties *)
(* ================================================================== *)

#[global] Arguments truthy : simpl never.
#[global] Arguments generateNextId : simpl never.

Lemma getPrice_original i : (getPrice i).2 = list_price i.
Proof. unfold getPrice, list_price. by destruct (item_type i). Qed.

Lemma getPrice_final i : (getPrice i).1 = effective_price i.
Proof.
  unfold getPrice, effective_price, list_price.
  destruct (item_type i); [|done]. by destruct (item_finalPrice i).
Qed.

Lemma fold_left_Qsum {A} (f : A -> Q) (l : list A) (a : Q) :
  (fold_left (fun total x => f x + total) l a == Qsum (map f l) + a)%Q.
Proof.
  revert a. induction l as [|x l IH]; intros a; simpl.
  - ring.
  - rewrite IH. ring.
Qed.

Lemma newTotalAmount_sum c :
  (newTotalAmount c == Qsum (map (line_total effective_price) c))%Q.
Proof.
  unfold newTotalAmount.
  rewrite (fold_left_Qsum (fun i => (getPrice i).1 * inject_Z (item_quantity i))%Q).
  rewrite (map_ext _ (line_total effective_price)).
  - ring.
  - intros i. unfold line_total. by rewrite getPrice_final.
Qed.

(** What a successful [completeSale] has computed. *)
Lemma completeSale_invoice env state cashier customerId r inv :
  out_result (completeSale env state cashier customerId) = Some r ->
  invoice r = Some inv ->
  env_online env = true /\ cart state <> [] /\ success r = true /\
  exists updatedProducts stockUpdates,
    prepareLines (cart state) (products state) [] []
      = inr (updatedProducts, stockUpdates, inv_items inv) /\
    inv_type inv = KSale /\
    inv_subtotal inv = newSubtotal (cart state) /\
    inv_totalAmount inv = newTotalAmount (cart state) /\
    inv_totalDiscount inv
      = (newSubtotal (cart state) - newTotalAmount (cart state))%Q /\
    inv_cashier inv = cashier /\ inv_customerId inv = customerId.
Proof.
  unfold completeSale.
  destruct (env_online env); simpl; [|intros [= <-]; discriminate].
  case_bool_decide as Hc; [intros [= <-]; discriminate|].
  destruct (prepareLines _ _ _ _) as [m|[[ups su] items]];
    [intros [= <-]; discriminate|].
  destruct (truthy (editingSaleInvoiceId state)) as [eid|];
    [destruct (list_find _ _) as [[k old]|]; simpl|simpl].
  - intros [= <-] [= <-]. do 3 (split; [done|]). by exists ups, su.
  - discriminate.
  - intros [= <-] [= <-]. do 3 (split; [done|]). by exists ups, su.
Qed.

(** ** C5: totals of a sale invoice and their sign convention *)

(** Addition of rationals commutes on the nose, as it does on doubles. *)
Lemma Qplus_comm_eq (x y : Q) : (x + y)%Q = (y + x)%Q.
Proof.
  destruct x as [a b], y as [c d]. unfold Qplus. simpl.
  f_equal; [lia|apply Pos.mul_comm].
Qed.

Lemma newSubtotal_in_order c : newSubtotal c = sum_over (line_total list_price) c.
Proof.
  unfold newSubtotal, sum_over. generalize 0%Q.
  induction c as [|i c IH]; intros a; [done|]. simpl.
  rewrite IH. unfold line_total. by rewrite getPrice_original.
Qed.

Lemma newTotalAmount_in_order c :
  newTotalAmount c = sum_over (line_total effective_price) c.
Proof.
  unfold newTotalAmount, sum_over. generalize 0%Q.
  induction c as [|i c IH]; intros a; [done|]. simpl.
  rewrite IH. unfold line_total. by rewrite getPrice_final.
Qed.

Lemma sum_over_map {A B} (f : A -> Q) (g : B -> Q) l l' :
  map f l = map g l' -> sum_over f l = sum_over g l'.
Proof.
  unfold sum_over. generalize 0%Q. revert l'.
  induction l as [|x l IH]; intros [|y l'] a Hmap; try done.
  simpl in *. injection Hmap as Hx Hmap. rewrite Hx. by apply IH.
Qed.

(** The totals of the model are the totals over the rationals. *)
Lemma newSubtotal_priced c :
  newSubtotal c = subtotal_of 0%Q Qplus Qmult (map priced c).
Proof.
  unfold newSubtotal, subtotal_of. generalize 0%Q.
  induction c as [|i c IH]; intros a; [done|]. simpl. by rewrite IH.
Qed.

Lemma newTotalAmount_priced c :
  newTotalAmount c = totalAmount_of 0%Q Qplus Qmult (map priced c).
Proof.
  unfold newTotalAmount, totalAmount_of. generalize 0%Q.
  induction c as [|i c IH]; intros a; [done|]. simpl. by rewrite IH.
Qed.

(** Two doubles that are not equal. *)
Lemma float_neq (x y : PrimFloat.float) : PrimFloat.eqb x y = false -> PrimFloat.eqb y y = true -> x <> y.
Proof. intros Hxy Hyy ->. congruence. Qed.

(** C5, as stated, fails on the doubles of the code: seven pieces listed
    at 50 and sold at 12.35 each give the subtotal 350, the total 86.45
    and the discount 263.55, and 350 - 263.55 is 86.44999999999999, not
    the total. *)
Lemma sale_totals_binary64_counterexample :
  let cart := Binary64.marked_down_cart in
  Binary64.subtotal cart = Binary64.amount_350 /\
  Binary64.totalAmount cart = Binary64.amount_86_45 /\
  Binary64.totalDiscount cart = Binary64.amount_263_55 /\
  PrimFloat.sub (Binary64.subtotal cart) (Binary64.totalDiscount cart)
    = Binary64.amount_86_44999999999999 /\
  PrimFloat.sub (Binary64.subtotal cart) (Binary64.totalDiscount cart)
    <> Binary64.totalAmount cart.
Proof.
  intros cart. split; [vm_compute; reflexivity|]. split; [vm_compute; reflexivity|].
  split; [vm_compute; reflexivity|]. split; [vm_compute; reflexivity|].
  apply float_neq; vm_compute; reflexivity.
Qed.

(** C5, amended.  The invoice produced by [completeSale] has [subtotal]
    equal to the sum of list price times quantity, added up in the order
    of the cart, [totalAmount] equal to the sum of effective price times
    quantity, added up likewise, and [totalDiscount] equal to [subtotal -
    totalAmount] as computed; the discount is negative exactly when the
    total is above the subtotal, and it can be: an override above the list
    price is a surcharge.  The three amounts are the totals of section
    [Totals] at the rationals.  That [totalAmount] is [subtotal -
    totalDiscount] is not part of the statement: it holds for exact
    numbers only. *)
Theorem sale_totals_sign_convention :
  (forall env state cashier customerId r inv,
     out_result (completeSale env state cashier customerId) = Some r ->
     invoice r = Some inv ->
     inv_subtotal inv = sum_over (line_total list_price) (cart state) /\
     inv_totalAmount inv = sum_over (line_total effective_price) (cart state) /\
     inv_totalDiscount inv = (inv_subtotal inv - inv_totalAmount inv)%Q /\
     ((inv_totalDiscount inv < 0)%Q <-> (inv_subtotal inv < inv_totalAmount inv)%Q) /\
     inv_subtotal inv = subtotal_of 0%Q Qplus Qmult (map priced (cart state)) /\
     inv_totalAmount inv = totalAmount_of 0%Q Qplus Qmult (map priced (cart state)) /\
     inv_totalDiscount inv
       = totalDiscount_of 0%Q Qplus Qminus Qmult (map priced (cart state))) /\
  (exists env state cashier customerId r inv,
     out_result (completeSale env state cashier customerId) = Some r /\
     invoice r = Some inv /\ success r = true /\
     (inv_totalDiscount inv < 0)%Q).
Proof.
  split.
  - intros env state cashier customerId r inv Hr Hinv.
    destruct (completeSale_invoice _ _ _ _ _ _ Hr Hinv)
      as (_ & _ & _ & ups & su & _ & _ & Hsub & Htot & Hdisc & _).
    rewrite Hdisc, Hsub, Htot.
    split; [apply newSubtotal_in_order|].
    split; [apply newTotalAmount_in_order|].
    split; [done|]. split; [split; intros; lra|].
    split; [apply newSubtotal_priced|]. split; [apply newTotalAmount_priced|].
    unfold totalDiscount_of. by rewrite <- newSubtotal_priced, <- newTotalAmount_priced.
  - exists online_env, surcharge_state, "cashier", None.
    eexists. eexists. split; [reflexivity|]. split; [reflexivity|].
    split; [reflexivity|]. vm_compute. reflexivity.
Qed.

Lemma sale_totals_sign_convention_witness :
  exists inv,
    invoice <$> out_result (completeSale online_env surcharge_state "cashier" None)
      = Some (Some inv) /\
    (inv_subtotal inv == 20)%Q /\ (inv_totalAmount inv == 24)%Q /\
    (inv_totalDiscount inv == -4)%Q.
Proof.
  eexists. split; [reflexivity|].
  destruct (proj1 sale_totals_sign_convention online_env surcharge_state
              "cashier" None _ _ eq_refl eq_refl) as (H1 & H2 & H3 & _).
  split; [rewrite H1; reflexivity|]. split; [rewrite H2; reflexivity|].
  rewrite H3. vm_compute. reflexivity.
Defined.

(** ** C10: processing salaries *)

Lemma salary_due_spec e : salary_due e = true <-> (0 < net_salary e)%Q.
Proof.
  unfold salary_due, net_salary.
  destruct (Qlt_le_dec _ _); split; intros; try done; lra.
Qed.

Lemma salary_run_spec env emps acc tot :
  exists paid,
    salary_run env emps acc tot
      = (acc ++ paid, (salary_run env emps acc tot).2) /\
    map payment_of paid
      = map (fun e => (emp_id e, PTSalaryPayment, net_salary e))
            (List.filter salary_due emps) /\
    ((salary_run env emps acc tot).2 == tot + Qsum (map ptx_amount paid))%Q.
Proof.
  revert acc tot. induction emps as [|e emps IH]; intros acc tot; simpl.
  - exists []. rewrite app_nil_r. simpl. split; [done|]. split; [done|]. ring.
  - pose proof (salary_due_spec e) as Hdue. unfold net_salary in Hdue.
    destruct (Qlt_le_dec 0 (emp_monthlySalary e - emp_balance e)) as [Hlt|Hle].
    + destruct (IH (acc ++ [mkPayrollTx (env_uuid env (length acc)) (emp_id e)
                               PTSalaryPayment (emp_monthlySalary e - emp_balance e)
                               (env_now env) DescMonthlySalary])
                   (tot + (emp_monthlySalary e - emp_balance e))%Q)
        as (paid & Heq & Hmap & Hsum).
      eexists (_ :: paid). rewrite Heq at 1. rewrite <- app_assoc. simpl.
      split; [done|]. split.
      * rewrite (proj2 Hdue Hlt). simpl. by rewrite Hmap.
      * rewrite Hsum. simpl. ring.
    + destruct (IH acc tot) as (paid & Heq & Hmap & Hsum).
      exists paid. split; [done|]. split; [|done].
      destruct (salary_due e) eqn:Hd; [|done].
      pose proof (proj1 Hdue eq_refl). lra.
Qed.

Lemma Qsum_nonneg l : Forall (fun x => 0 <= x)%Q l -> (0 <= Qsum l)%Q.
Proof. induction 1; simpl; lra. Qed.

Lemma Qsum_pos l :
  Forall (fun x => 0 < x)%Q l -> l <> [] -> (0 < Qsum l)%Q.
Proof.
  intros Hl Hne. destruct Hl as [|x l Hx Hl]; [done|]. simpl.
  assert (0 <= Qsum l)%Q.
  { apply Qsum_nonneg. eapply Forall_impl; [exact Hl|]. simpl. intros; lra. }
  lra.
Qed.

Lemma processPayroll_resets ids (rows : list Employee) e :
  e ∈ fold_left (fun t id =>
         update_where (fun e => bool_decide (emp_id e = id))
                      (set_employee_balance 0%Q) t) ids rows ->
  (exists e0, e0 ∈ rows /\ emp_id e = emp_id e0 /\
     (emp_id e0 ∈ ids -> emp_balance e = 0%Q) /\
     (emp_id e0 ∉ ids -> e = e0)).
Proof.
  revert rows.
  induction ids as [|i ids IH]; intros rows; simpl.
  - intros He. exists e. split; [done|]. split; [done|].
    split; [by intros ?%elem_of_nil|done].
  - intros He. apply IH in He as (e1 & He1 & Hid & Hin & Hout).
    unfold update_where in He1. apply list_elem_of_fmap in He1 as (e0 & -> & He0).
    exists e0. split; [done|].
    case_bool_decide as Hi; simpl in *.
    + split; [done|]. split.
      * intros _. destruct (decide (emp_id e0 ∈ ids)) as [Hd|Hd]; [by apply Hin|].
        by rewrite (Hout Hd).
      * intros Hn. exfalso. apply Hn. rewrite Hi. by left.
    + split; [done|]. split.
      * intros [Heq|Hd]%elem_of_cons; [congruence|by apply Hin].
      * intros Hn. apply Hout. intros Hd. apply Hn. by right.
Qed.

(** C10.  With at least one employee whose monthly salary exceeds the
    balance of advances, [processAndPaySalaries] sends one salary_payment
    per such employee, of amount salary minus balance, the ids of all
    employees for a reset to 0, and one expense of category salary whose
    amount is the sum of the payments; when the call resolves every
    employee's balance is 0 in the state and in the database, the payments
    and the expense are recorded.  With no employee due a payment it
    returns failure, makes no adapter call and changes nothing. *)
Theorem processAndPaySalaries_spec env state :
  env_online env = true ->
  (Exists (fun e => salary_due e = true) (employees state) ->
   exists paid expense,
     processAndPaySalaries env state
       = mkOutcome (Some (mkResult true None MsgProcessing)) state
           (Some (ProcessPayroll (map emp_id (employees state)) paid expense))
           (out_then (processAndPaySalaries env state)) None /\
     map payment_of paid
       = map (fun e => (emp_id e, PTSalaryPayment, net_salary e))
             (List.filter salary_due (employees state)) /\
     exp_category expense = CatSalary /\
     (exp_amount expense == Qsum (map ptx_amount paid))%Q /\
     forall env' db toasts u,
       currentUser state = Some u ->
       let w := dispatch env' true (processAndPaySalaries env state)
                         (mkWorld state db toasts) in
       employees (w_state w) = map (set_employee_balance 0%Q) (employees state) /\
       Forall (fun e => emp_balance e = 0%Q) (employees (w_state w)) /\
       payrollTransactions (w_state w) = paid ++ payrollTransactions state /\
       expenses (w_state w) = expense :: expenses state /\
       t_payroll_transactions (w_db w) = t_payroll_transactions db ++ paid /\
       t_expenses (w_db w) = t_expenses db ++ [expense] /\
       (forall e, e ∈ t_employees (w_db w) ->
          emp_id e ∈ map emp_id (employees state) -> emp_balance e = 0%Q)) /\
  (Forall (fun e => salary_due e = false) (employees state) ->
   forall env' resolves db toasts,
     processAndPaySalaries env state = refuse state MsgNoSalaryDue /\
     out_call (processAndPaySalaries env state) = None /\
     dispatch env' resolves (processAndPaySalaries env state) (mkWorld state db toasts)
       = mkWorld state db toasts).
Proof.
  intros Honline. unfold processAndPaySalaries. rewrite Honline. simpl.
  destruct (salary_run_spec env (employees state) [] 0%Q) as (paid & Heq & Hmap & Hsum).
  simpl in Heq. rewrite Heq.
  set (tot := (salary_run env (employees state) [] 0%Q).2) in *.
  split.
  - intros Hex.
    assert (Hpos : (0 < tot)%Q).
    { rewrite Hsum. rewrite Qplus_0_l. apply Qsum_pos.
      - assert (Hall : Forall (fun x => 0 < x.2)%Q (map payment_of paid)).
        { rewrite Hmap. apply Forall_fmap, Forall_forall. intros e He. simpl.
          apply list_elem_of_In, filter_In in He as [_ He].
          by apply salary_due_spec. }
        clear -Hall. induction paid; [constructor|].
        inversion Hall; subst. constructor; [done|auto].
      - intros ->%map_eq_nil. apply Exists_exists in Hex as (e & He & Hd).
        assert (Hin : e ∈ List.filter salary_due (employees state)).
        { apply list_elem_of_In, filter_In. split; [by apply list_elem_of_In|done]. }
        simpl in Hmap. destruct (List.filter salary_due (employees state)); [|done].
        by apply elem_of_nil in Hin. }
    destruct (Qeq_bool tot 0) eqn:Hz.
    { apply Qeq_bool_iff in Hz. lra. }
    eexists paid, _. split; [reflexivity|]. split; [done|]. split; [done|].
    split; [simpl; rewrite Hsum; ring|].
    intros env' db toasts u Hu. unfold dispatch. simpl. rewrite Hu. simpl.
    split; [done|]. split.
    { apply Forall_fmap, Forall_forall. by intros. }
    do 4 (split; [done|]).
    intros e He Hid.
    apply processPayroll_resets in He as (e0 & _ & Hid0 & Hin & _).
    apply Hin. by rewrite <- Hid0.
  - intros Hnone env' resolves db toasts.
    assert (Hpaid : paid = []).
    { assert (Hf : List.filter salary_due (employees state) = []).
      { clear -Hnone. induction Hnone as [|e l He _ IH]; [done|].
        simpl. by rewrite He. }
      rewrite Hf in Hmap. by destruct paid. }
    subst paid. simpl in Hsum.
    assert (Hz : Qeq_bool tot 0 = true).
    { apply Qeq_bool_iff. rewrite Hsum. ring. }
    rewrite Hz. done.
Qed.

Lemma processAndPaySalaries_spec_witness :
  let o := processAndPaySalaries online_env payroll_state in
  let w := dispatch online_env true o (mkWorld payroll_state payroll_db []) in
  map payment_of (match out_call o with
                  | Some (ProcessPayroll _ paid _) => paid
                  | _ => []
                  end)
    = [("e1", PTSalaryPayment, 1000 - 200); ("e3", PTSalaryPayment, 800 - 0)]%Q /\
  Forall (fun e => emp_balance e = 0%Q) (employees (w_state w)) /\
  Forall (fun e => emp_balance e = 0%Q) (t_employees (w_db w)).
Proof.
  destruct (processAndPaySalaries_spec online_env payroll_state eq_refl)
    as [Hpay _].
  destruct Hpay as (paid & expense & Ho & Hmap & _ & _ & Hrun).
  { apply Exists_cons_hd. reflexivity. }
  intros o w. subst o w. split; [|split].
  - rewrite Ho. simpl. exact Hmap.
  - exact (proj1 (proj2 (Hrun online_env payroll_db [] cashier_user eq_refl))).
  - vm_compute. repeat constructor.
Defined.

(** ** C6: posting a purchase invoice in a foreign currency *)

Lemma fold_left_Qsum_r {A} (f : A -> Q) (l : list A) (a : Q) :
  (fold_left (fun total x => total + f x) l a == a + Qsum (map f l))%Q.
Proof.
  revert a. induction l as [|x l IH]; intros a; simpl.
  - ring.
  - rewrite IH. ring.
Qed.

Lemma push_batch_unique (ps : list Product) b :
  NoDup (map prod_id ps) ->
  push_batch ps b
  = map (fun p => if bool_decide (prod_id p = nb_productId b)
                  then set_batches (prod_batches p ++ [batch_of_new b]) p
                  else p) ps.
Proof.
  intros Hnd. unfold push_batch.
  destruct (list_find _ ps) as [[k p]|] eqn:Hfind.
  - pose proof (proj1 (list_find_Some _ _ _ _) Hfind) as (Hk & Hp & _).
    apply list_eq. intros j.
    change (map ?f ?l) with (f <$> l). rewrite list_lookup_fmap.
    destruct (decide (j = k)) as [->|Hjk].
    + rewrite list_lookup_insert_eq by (by eapply lookup_lt_Some).
      rewrite Hk. simpl. by rewrite bool_decide_eq_true_2.
    + rewrite list_lookup_insert_ne by done.
      destruct (ps !! j) as [q|] eqn:Hj; [|done]. simpl.
      rewrite bool_decide_eq_false_2; [done|]. intros Hq. apply Hjk.
      eapply (NoDup_lookup _ _ _ _ Hnd).
      * change (map ?f ?l) with (f <$> l). by rewrite list_lookup_fmap, Hj.
      * change (map ?f ?l) with (f <$> l). rewrite list_lookup_fmap, Hk. simpl.
        congruence.
  - apply list_find_None in Hfind. rewrite <- (map_id ps) at 1.
    apply map_ext_in. intros p Hp. rewrite Forall_forall in Hfind.
    rewrite bool_decide_eq_false_2; [done|].
    apply Hfind. by apply list_elem_of_In.
Qed.







(** ** C7: a rejected adapter call *)

(** In create mode a rejected call shows a toast and changes nothing. *)
Lemma completeSale_create_rejected env env' state cashier customerId i su cu db toasts :
  out_call (completeSale env state cashier customerId) = Some (CreateSale i su cu) ->
  dispatch env' false (completeSale env state cashier customerId)
           (mkWorld state db toasts)
    = mkWorld state db (toasts ++ [MsgInvoiceSaveFailed]).
Proof.
  unfold completeSale.
  destruct (env_online env); simpl; [|discriminate].
  case_bool_decide; [discriminate|].
  destruct (prepareLines _ _ _ _) as [m|[[ups sus] items]]; [discriminate|].
  destruct (truthy (editingSaleInvoiceId state)) as [eid|];
    [destruct (list_find _ _) as [[k old]|]; simpl; discriminate|].
  simpl. intros _. reflexivity.
Qed.

(** In edit mode the cart and the editing marker are cleared before the
    call settles, and no handler reports a rejection. *)
Lemma completeSale_edit_rejected env env' state cashier customerId id i rs ds cu db toasts :
  out_call (completeSale env state cashier customerId) = Some (UpdateSale id i rs ds cu) ->
  let w := dispatch env' false (completeSale env state cashier customerId)
                    (mkWorld state db toasts) in
  cart (w_state w) = [] /\ editingSaleInvoiceId (w_state w) = None /\
  w_toasts w = toasts /\ w_db w = db.
Proof.
  unfold completeSale.
  destruct (env_online env); simpl; [|discriminate].
  case_bool_decide; [discriminate|].
  destruct (prepareLines _ _ _ _) as [m|[[ups sus] items]]; [discriminate|].
  destruct (truthy (editingSaleInvoiceId state)) as [eid|];
    [destruct (list_find _ _) as [[k old]|]; simpl|simpl]; try discriminate.
  intros _. done.
Qed.

(** C7 (the code departs from the claim).  Completing the edit of invoice
    F1 while the adapter call is rejected: the action reports success, the
    cart is emptied and the editing marker is dropped although nothing was
    saved, and no message is shown; the same cart completed in create mode
    is left alone and the failure is shown. *)
Theorem edit_rejection_loses_cart :
  let o := completeSale online_env edit_state "cashier" None in
  let w := dispatch online_env false o (mkWorld edit_state stale_db []) in
  (success <$> out_result o) = Some true /\
  (exists id i rs ds cu, out_call o = Some (UpdateSale id i rs ds cu)) /\
  out_catch o = None /\
  cart edit_state = [pen_line 5] /\ cart (w_state w) = [] /\
  editingSaleInvoiceId edit_state = Some "F1" /\
  editingSaleInvoiceId (w_state w) = None /\
  w_toasts w = [] /\ w_db w = stale_db /\
  w_state w <> edit_state /\
  dispatch online_env false (completeSale online_env create_state "cashier" None)
           (mkWorld create_state stale_db [])
    = mkWorld create_state stale_db [MsgInvoiceSaveFailed].
Proof.
  intros o w. subst w o.
  split; [reflexivity|].
  split; [by eexists _, _, _, _, _|].
  split; [reflexivity|].
  split; [reflexivity|]. split; [reflexivity|]. split; [reflexivity|].
  split; [reflexivity|]. split; [reflexivity|]. split; [reflexivity|].
  split; [|reflexivity].
  intros H. apply (f_equal cart) in H. discriminate H.
Qed.

(** ** C3: stock stays non-negative *)

(** C3 (the code departs from the claim).  Every batch has a non-negative
    stock in the state of the till and in the database; the till completes
    the edit of invoice F1 for five pens, which its own stock of 5 allows;
    [api.updateSale] gives back the one pen of the old invoice, reads the
    batch again (stock 3) and subtracts 5 without a lower bound: the batch
    is left with stock -2. *)
Theorem sale_edit_drives_stock_negative :
  let o := completeSale online_env edit_state "cashier" None in
  let w := dispatch online_env true o (mkWorld edit_state stale_db []) in
  batches_nonneg (products edit_state) /\
  rows_nonneg (t_product_batches stale_db) /\
  (exists i, out_call o
     = Some (UpdateSale "F1" i [mkStockRestore "p-pen" 1]
                        [mkStockDeduction "X" 5] None)) /\
  map br_stock (t_product_batches (w_db w)) = [(-2)%Z] /\
  ~ rows_nonneg (t_product_batches (w_db w)).
Proof.
  intros o w. subst w o.
  split; [repeat constructor; done|].
  split; [repeat constructor; done|].
  split; [by eexists|].
  split; [reflexivity|].
  intros H. apply Forall_cons in H as [H _]. vm_compute in H. by apply H.
Qed.

(** ** C4: editing a credit sale adjusts the balance by the difference *)

Lemma single_filter_update {A} (P : A -> bool) (f : A -> A) rows r :
  (forall x, P (f x) = P x) ->
  single (List.filter P rows) = Some r ->
  single (List.filter P (update_where P f rows)) = Some (f r).
Proof.
  intros HP. unfold update_where.
  assert (Hf : List.filter P (map (fun x => if P x then f x else x) rows)
               = map f (List.filter P rows)).
  { induction rows as [|x rows IH]; [done|]. simpl.
    destruct (P x) eqn:Hx; simpl.
    - rewrite HP, Hx. simpl. by rewrite IH.
    - by rewrite Hx. }
  rewrite Hf. destruct (List.filter P rows) as [|y [|z l]]; simpl; try done.
  by intros [= ->].
Qed.

Lemma update_where_elem {A} (P : A -> bool) (f : A -> A) rows y :
  y ∈ update_where P f rows ->
  exists x, x ∈ rows /\ y = (if P x then f x else x).
Proof.
  unfold update_where. intros (x & -> & Hx)%list_elem_of_fmap. by exists x.
Qed.

(** What [completeSale] sends when the edit of an invoice keeps the
    customer. *)
Lemma completeSale_edit_same_customer env state cashier cid id k old r inv :
  truthy (editingSaleInvoiceId state) = Some id ->
  list_find (fun i => inv_id i = id) (saleInvoices state) = Some (k, old) ->
  cid <> "" ->
  inv_customerId old = Some cid ->
  out_result (completeSale env state cashier (Some cid)) = Some r ->
  success r = true -> invoice r = Some inv ->
  exists restores deductions,
    completeSale env state cashier (Some cid)
      = mkOutcome (Some r)
          (out_state (completeSale env state cashier (Some cid)))
          (Some (UpdateSale id inv restores deductions
                   (Some (mkCustomerEdit cid (inv_totalAmount old)
                            (inv_totalAmount inv) (DescSaleInvoiceEdited id)))))
          [AddActivityLocal ActSale (ActSaleEdited id) (Some cashier) (Some id)
             (Some RefSaleInvoice);
           FetchData; ShowToast MsgInvoiceEdited]
          None.
Proof.
  intros Hed Hold Hne Hsame.
  assert (Hcid : truthy (Some cid) = Some cid).
  { unfold truthy. by rewrite bool_decide_eq_false_2. }
  unfold completeSale.
  destruct (env_online env); simpl; [|intros [= <-]; discriminate].
  case_bool_decide; [intros [= <-]; discriminate|].
  destruct (prepareLines _ _ _ _) as [m|[[ups sus] items]];
    [intros [= <-]; discriminate|].
  rewrite Hed, Hold. simpl. rewrite Hcid.
  rewrite bool_decide_eq_true_2 by done.
  intros [= <-] _ [= <-]. simpl. by eexists _, _.
Qed.

(** C4.  When the edit of a sale invoice keeps its customer, whose stored
    balance is [B], and changes the total from [T1] to [T2], the stored
    balance becomes [B - T1 + T2], computed from these three numbers alone,
    and every credit_sale ledger entry linked to the invoice gets amount
    [T2]; the other ledger entries are left as they are. *)
Theorem sale_edit_adjusts_balance
    env env' state cashier cid id k old r inv db toasts customer :
  truthy (editingSaleInvoiceId state) = Some id ->
  list_find (fun i => inv_id i = id) (saleInvoices state) = Some (k, old) ->
  cid <> "" ->
  inv_customerId old = Some cid ->
  out_result (completeSale env state cashier (Some cid)) = Some r ->
  success r = true -> invoice r = Some inv ->
  single (List.filter (fun row => bool_decide (cr_id row = cid)) (t_customers db))
    = Some customer ->
  let B := cr_balance customer in
  let T1 := inv_totalAmount old in
  let T2 := inv_totalAmount inv in
  let w := dispatch env' true (completeSale env state cashier (Some cid))
                    (mkWorld state db toasts) in
  single (List.filter (fun row => bool_decide (cr_id row = cid)) (t_customers (w_db w)))
    = Some (set_customer_balance (B - T1 + T2)%Q customer) /\
  (forall row, row ∈ t_customers (w_db w) -> cr_id row = cid ->
     cr_balance row = (B - T1 + T2)%Q) /\
  t_customer_transactions (w_db w)
    = map (fun t => if is_credit_sale_of id t
                    then set_tx_amount T2 (DescSaleInvoiceEdited id) t else t)
          (t_customer_transactions db) /\
  (forall t, t ∈ t_customer_transactions (w_db w) ->
     ctx_invoiceId t = Some id -> ctx_type t = CTCreditSale -> ctx_amount t = T2).
Proof.
  intros Hed Hold Hcid Hsame Hr Hs Hinv Hcust B T1 T2 w.
  destruct (completeSale_edit_same_customer _ _ _ _ _ _ _ _ _
              Hed Hold Hcid Hsame Hr Hs Hinv) as (rs & ds & Ho).
  subst w. rewrite Ho. unfold dispatch. simpl.
  destruct (fetchData _ _ _) as [s' ts]. simpl.
  rewrite Hcust. simpl. fold B T1 T2.
  split.
  { apply (single_filter_update (fun row => bool_decide (cr_id row = cid))); done. }
  split.
  { intros row (x & Hx & ->)%update_where_elem Hid.
    case_bool_decide as Hc; [done|]. simpl in Hid. done. }
  split; [done|].
  intros t (x & Hx & ->)%update_where_elem Hi Ht.
  destruct (is_credit_sale_of id x) eqn:Hx'; [done|].
  unfold is_credit_sale_of in Hx'.
  rewrite !bool_decide_eq_true_2 in Hx' by done. done.
Qed.

Lemma sale_edit_adjusts_balance_witness :
  let o := completeSale online_env credit_edit_state "cashier" (Some "c1") in
  let w := dispatch online_env true o (mkWorld credit_edit_state credit_db []) in
  (inv_totalAmount <$> (out_result o ≫= invoice)) = Some (newTotalAmount [pen_line 3]) /\
  map cr_balance (t_customers (w_db w))
    = [120 - 20 + newTotalAmount [pen_line 3]]%Q /\
  (newTotalAmount [pen_line 3] == 60)%Q /\
  map ctx_amount (t_customer_transactions (w_db w))
    = [30; newTotalAmount [pen_line 3]]%Q.
Proof.
  intros o w. subst w o.
  pose proof (sale_edit_adjusts_balance online_env online_env credit_edit_state
                "cashier" "c1" "F1" 0%nat credit_invoice_F1 _ _ credit_db []
                (customerRow customer_c1)
                eq_refl eq_refl ltac:(done) eq_refl eq_refl eq_refl eq_refl eq_refl)
    as (H1 & _ & H3 & _).
  split; [reflexivity|].
  split; [reflexivity|].
  split; [vm_compute; reflexivity|].
  cbv zeta in H3. rewrite H3. reflexivity.
Defined.

(** ** C8: returning a sale *)

Lemma set_stock_by_id_insert rows n b s :
  NoDup (map br_id rows) -> rows !! n = Some b ->
  set_stock_by_id (br_id b) s rows = <[n := set_row_stock s b]> rows.
Proof.
  intros Hnd Hn. apply list_eq. intros j.
  unfold set_stock_by_id, update_where.
  change (map ?f ?l) with (f <$> l). rewrite list_lookup_fmap.
  destruct (decide (j = n)) as [->|Hj].
  - rewrite list_lookup_insert_eq by (by eapply lookup_lt_Some).
    rewrite Hn. simpl. by rewrite bool_decide_eq_true_2.
  - rewrite list_lookup_insert_ne by done.
    destruct (rows !! j) as [x|] eqn:Hx; [|done]. simpl.
    case_bool_decide as Hid; [|done]. exfalso. apply Hj.
    eapply (NoDup_lookup (map br_id rows)); [done| |].
    + change (map ?f ?l) with (f <$> l). rewrite list_lookup_fmap, Hx. simpl.
      by rewrite Hid.
    + change (map ?f ?l) with (f <$> l). by rewrite list_lookup_fmap, Hn.
Qed.

Lemma add_to_first_batch_ids rows r :
  map br_id (add_to_first_batch rows r) = map br_id rows.
Proof.
  unfold add_to_first_batch.
  destruct (list_find _ rows) as [[n b]|] eqn:Hf; [|done].
  apply list_find_Some in Hf as (Hn & _ & _).
  apply list_eq. intros j. change (map ?f ?l) with (f <$> l).
  rewrite !list_lookup_fmap.
  destruct (decide (j = n)) as [->|Hj].
  - rewrite list_lookup_insert_eq by (by eapply lookup_lt_Some). by rewrite Hn.
  - by rewrite list_lookup_insert_ne.
Qed.

Lemma restore_to_first_batch_spec rows r :
  NoDup (map br_id rows) ->
  restore_to_first_batch rows r = add_to_first_batch rows r.
Proof.
  intros Hnd. unfold restore_to_first_batch, add_to_first_batch.
  destruct (list_find _ rows) as [[n b]|] eqn:Hf; [|done].
  apply list_find_Some in Hf as (Hn & _ & _).
  by apply set_stock_by_id_insert.
Qed.

Lemma restores_spec restores rows :
  NoDup (map br_id rows) ->
  fold_left restore_to_first_batch restores rows
    = fold_left add_to_first_batch restores rows.
Proof.
  revert rows. induction restores as [|r rs IH]; intros rows Hnd; [done|].
  simpl. rewrite restore_to_first_batch_spec by done.
  apply IH. by rewrite add_to_first_batch_ids.
Qed.

Lemma find_original_item_on_invoice original ri :
  match find_original_item original ri with
  | Some o => on_invoice original ri = true /\ o ∈ inv_items original /\
              item_id o = ri_id ri /\ item_type o = ri_type ri
  | None => on_invoice original ri = false
  end.
Proof.
  unfold find_original_item, on_invoice.
  destruct (list_find _ (inv_items original)) as [[k o]|] eqn:Hfind; simpl.
  - apply list_find_Some in Hfind as (Hk & [Hid Hty] & _).
    split; [|split; [by eapply list_elem_of_lookup_2|done]].
    apply existsb_exists. exists o. split.
    + apply list_elem_of_In. by eapply list_elem_of_lookup_2.
    + by rewrite !bool_decide_eq_true_2.
  - apply list_find_None in Hfind. rewrite Forall_forall in Hfind.
    apply not_true_is_false. intros (o & Hin & Ho)%existsb_exists.
    apply andb_prop in Ho as [Hid%bool_decide_eq_true Hty%bool_decide_eq_true].
    apply (Hfind o); [by apply list_elem_of_In|done].
Qed.

Lemma detailedReturnItems_restores original returnItems :
  map (fun i => mkStockRestore (item_id i) (item_quantity i))
      (List.filter is_product (detailedReturnItems original returnItems))
  = returned_products original returnItems.
Proof.
  unfold detailedReturnItems, returned_products.
  induction returnItems as [|ri ris IH]; [done|]. simpl.
  pose proof (find_original_item_on_invoice original ri) as H.
  destruct (find_original_item original ri) as [o|]; simpl.
  - destruct H as (-> & _ & Hid & Hty). rewrite andb_true_r.
    unfold is_product at 1. simpl. rewrite Hty.
    destruct (ri_type ri); simpl.
    + rewrite Hid. f_equal. exact IH.
    + exact IH.
  - rewrite H, andb_false_r. exact IH.
Qed.

Lemma detailedReturnItems_lines original returnItems :
  Forall2 (fun line ri =>
             item_id line = ri_id ri /\ item_type line = ri_type ri /\
             item_quantity line = ri_quantity ri /\
             exists sold, sold ∈ inv_items original /\
                          line = set_quantity (ri_quantity ri) sold)
          (detailedReturnItems original returnItems)
          (List.filter (on_invoice original) returnItems).
Proof.
  unfold detailedReturnItems.
  induction returnItems as [|ri ris IH]; [constructor|]. simpl.
  pose proof (find_original_item_on_invoice original ri) as H.
  destruct (find_original_item original ri) as [o|]; simpl.
  - destruct H as (-> & Hin & Hid & Hty). constructor; [|exact IH].
    simpl. do 3 (split; [done|]). by exists o.
  - rewrite H. exact IH.
Qed.

(** C8.  A sale return inserts a new invoice of type return whose
    [originalInvoiceId] is the id of the original invoice; its lines are
    the lines of the return form that are on the original invoice, each
    the line sold with the quantity of the form; the rows of the invoices
    and of their lines that were stored before are still there, unchanged;
    and the quantity of each product line of the form is added to the
    stock of the first batch row found for the product. *)
Theorem sale_return_restores_first_batch
    env env' state originalInvoiceId returnItems cashier k original db toasts :
  env_online env = true ->
  list_find (fun i => inv_id i = originalInvoiceId) (saleInvoices state)
    = Some (k, original) ->
  NoDup (map br_id (t_product_batches db)) ->
  let o := addSaleReturn env state originalInvoiceId returnItems cashier in
  let w := dispatch env' true o (mkWorld state db toasts) in
  exists ret restores refund,
    out_result o = Some (mkResult true None MsgSavingReturn) /\
    out_call o = Some (CreateSaleReturn ret restores refund) /\
    out_state o = state /\
    inv_type ret = KReturn /\
    inv_originalInvoiceId ret = Some originalInvoiceId /\
    inv_id ret = generateNextId "R" (map inv_id (saleInvoices state)) /\
    (* the lines of the return: those of the form that are on the invoice,
       with the quantity of the form *)
    Forall2 (fun line ri =>
               item_id line = ri_id ri /\ item_type line = ri_type ri /\
               item_quantity line = ri_quantity ri /\
               exists sold, sold ∈ inv_items original /\
                            line = set_quantity (ri_quantity ri) sold)
            (inv_items ret) (List.filter (on_invoice original) returnItems) /\
    restores = returned_products original returnItems /\
    (* the original invoice and its lines stay as they are *)
    t_sale_invoices (w_db w)
      = t_sale_invoices db ++ [saleInvoiceRow KReturn ret] /\
    t_sale_invoice_items (w_db w)
      = t_sale_invoice_items db
        ++ map (saleItemRow (fun _ => Some 0%Q) (inv_id ret)) (inv_items ret) /\
    (* each quantity of the form goes to the first batch of its product *)
    t_product_batches (w_db w)
      = fold_left add_to_first_batch
          (map (fun ri => mkStockRestore (ri_id ri) (ri_quantity ri))
               (List.filter (fun ri => bool_decide (ri_type ri = TProduct)
                                       && on_invoice original ri) returnItems))
          (t_product_batches db).
Proof.
  intros Honline Horig Hnd o w. subst w o.
  unfold addSaleReturn. rewrite Honline, Horig. simpl.
  eexists _, _, _. do 6 (split; [reflexivity|]).
  split; [apply detailedReturnItems_lines|].
  split; [apply detailedReturnItems_restores|].
  unfold dispatch. simpl.
  destruct (fetchData _ _ _) as [s' ts]. simpl.
  unfold api_createSaleReturn. simpl.
  rewrite detailedReturnItems_restores.
  destruct (truthy (inv_customerId original)) as [cid|]; simpl;
    [destruct (single _); simpl|];
    (split; [done|]); (split; [done|]); by apply restores_spec.
Qed.

Lemma sale_return_restores_first_batch_witness :
  (* the sale took the two units from the dated batch B2, stored second *)
  (exists i, out_call (completeSale online_env ink_sale_state "cashier" None)
     = Some (CreateSale i [mkStockUpdate "B2" 1] None)) /\
  (* the return of one of them gives it to the undated batch B1, stored
     first *)
  let o := addSaleReturn online_env return_state "F7"
             [mkReturnItem "p-ink" TProduct 1] "cashier" in
  let w := dispatch online_env true o (mkWorld return_state return_db []) in
  map (fun r => (br_id r, br_stock r)) (t_product_batches return_db)
    = [("B1", 4%Z); ("B2", 1%Z)] /\
  map (fun r => (br_id r, br_stock r)) (t_product_batches (w_db w))
    = [("B1", 5%Z); ("B2", 1%Z)] /\
  map (fun r => (si_id r, si_type r, si_original_invoice_id r)) (t_sale_invoices (w_db w))
    = [("F7", KSale, None); ("R1", KReturn, Some "F7")].
Proof.
  split; [by eexists|].
  intros o w. subst w o.
  destruct (sale_return_restores_first_batch online_env online_env return_state
              "F7" [mkReturnItem "p-ink" TProduct 1] "cashier" 0%nat ink_invoice
              return_db [] eq_refl eq_refl)
    as (ret & rs & rf & _ & Hcall & _ & _ & _ & _ & _ & _ & Hinv & _ & Hb).
  { apply (bool_decide_unpack _). vm_compute. reflexivity. }
  cbv zeta in Hb, Hinv. rewrite Hb, Hinv.
  vm_compute in Hcall. injection Hcall as <- <- <-.
  split; [reflexivity|]. split; reflexivity.
Defined.

(** ** The deduction loop against the FIFO plan *)

Lemma set_stock_same b : set_stock (batch_stock b) b = b.
Proof. by destruct b. Qed.

Lemma taken_cons j d plan i :
  taken ((j, d) :: plan) i = (if decide (j = i) then d + taken plan i else taken plan i)%Z.
Proof.
  unfold taken. rewrite filter_cons. simpl. by destruct (decide (j = i)).
Qed.

Lemma taken_not_elem plan i : i ∉ plan.*1 -> taken plan i = 0%Z.
Proof.
  induction plan as [|[j d] plan IH]; [done|].
  rewrite fmap_cons, not_elem_of_cons. simpl. intros [Hne Hni].
  rewrite taken_cons. destruct (decide (j = i)) as [->|_]; [done|]. by apply IH.
Qed.

Lemma taken_zero plan i : Forall (fun jd => jd.2 = 0%Z) plan -> taken plan i = 0%Z.
Proof.
  induction 1 as [|[j d] plan Hd _ IH]; [done|]. simpl in Hd. subst d.
  rewrite taken_cons. by destruct (decide (j = i)).
Qed.

Lemma fifo_takes_fst q ord : (fifo_takes q ord).*1 = ord.*1.
Proof.
  revert q. induction ord as [|ib ord IH]; intros q; [done|].
  simpl. by rewrite IH.
Qed.

Lemma fifo_takes_zero ord :
  Forall (fun ib => (0 < batch_stock ib.2)%Z) ord ->
  Forall (fun jd => jd.2 = 0%Z) (fifo_takes 0 ord).
Proof.
  induction 1 as [|ib ord Hb _ IH]; simpl; [constructor|].
  rewrite Z.min_l by lia. constructor; [done|]. by rewrite Z.sub_0_r.
Qed.

Lemma fifo_batches_unchanged bs plan :
  (forall i, taken plan i = 0%Z) -> fifo_batches bs plan = bs.
Proof.
  intros Hz. unfold fifo_batches. apply list_eq. intros i.
  rewrite list_lookup_imap. destruct (bs !! i) as [b|]; [|done]. simpl.
  by rewrite Hz, Z.sub_0_r, set_stock_same.
Qed.

Lemma fifo_batches_cons bs plan i b d :
  i ∉ plan.*1 -> bs !! i = Some b ->
  fifo_batches (<[i := set_stock (batch_stock b - d) b]> bs) plan
    = fifo_batches bs ((i, d) :: plan).
Proof.
  intros Hni Hb. unfold fifo_batches. apply list_eq. intros j.
  rewrite !list_lookup_imap.
  destruct (decide (j = i)) as [->|Hj].
  - rewrite list_lookup_insert_eq by (by eapply lookup_lt_Some).
    rewrite Hb. simpl. rewrite taken_cons, decide_True by done.
    rewrite (taken_not_elem plan i) by done.
    f_equal. destruct b. unfold set_stock. simpl. f_equal. lia.
  - rewrite list_lookup_insert_ne by done.
    destruct (bs !! j) as [b'|]; [|done]. simpl.
    by rewrite taken_cons, decide_False by done.
Qed.

Lemma taken_from_zero ord plan :
  Forall (fun jd => jd.2 = 0%Z) plan -> taken_from ord plan = [].
Proof.
  unfold taken_from. intros Hz. revert ord.
  induction Hz as [|[j d] plan Hd _ IH]; intros [|ib ord]; simpl; try done.
  simpl in Hd. subst d. simpl. apply IH.
Qed.

(** A plan takes from a batch no more than the batch holds. *)
Lemma taken_from_le q ord :
  Forall (fun bd => (0 < bd.2 <= batch_stock bd.1)%Z) (taken_from ord (fifo_takes q ord)).
Proof.
  unfold taken_from. revert q. induction ord as [|ib ord IH]; intros q; [constructor|].
  simpl. destruct (0 <? q `min` batch_stock ib.2)%Z eqn:Hd; [|apply IH].
  apply Z.ltb_lt in Hd. constructor; [simpl; lia|apply IH].
Qed.

Lemma Zsum_zero (plan : list (nat * Z)) :
  Forall (fun jd => jd.2 = 0%Z) plan -> Zsum plan.*2 = 0%Z.
Proof.
  induction 1 as [|[j d] plan Hd _ IH]; [done|].
  rewrite fmap_cons. unfold Zsum in *. simpl in *. lia.
Qed.

(** The loop of the source and the plan of the specification agree: the
    same batches, the same remainder, the same value, the same stock
    updates. *)
Lemma deductLoop_exact ord bs q tot su :
  NoDup ord.*1 ->
  Forall (fun ib => bs !! ib.1 = Some ib.2 /\ (0 < batch_stock ib.2)%Z) ord ->
  (0 <= q)%Z ->
  deductLoop ord.*1 bs q tot su
  = (fifo_batches bs (fifo_takes q ord),
     (q - Zsum (fifo_takes q ord).*2)%Z,
     fold_left (fun total bd => (total + inject_Z bd.2 * batch_purchasePrice bd.1)%Q)
               (taken_from ord (fifo_takes q ord)) tot,
     su ++ map stock_left (taken_from ord (fifo_takes q ord))).
Proof.
  revert bs q tot su. induction ord as [|[i b] ord IH]; intros bs q tot su Hnd Hord Hq.
  - simpl. rewrite app_nil_r, Z.sub_0_r. by rewrite fifo_batches_unchanged.
  - rewrite fmap_cons in Hnd. apply NoDup_cons in Hnd as [Hni Hnd].
    apply Forall_cons in Hord as [[Hb Hpos] Hord]. simpl in Hb, Hpos, Hni.
    rewrite fmap_cons. cbn [deductLoop fst].
    destruct (q <=? 0)%Z eqn:Hq0.
    + apply Z.leb_le in Hq0. assert (q = 0%Z) as -> by lia.
      assert (Hz : Forall (fun jd => jd.2 = 0%Z) (fifo_takes 0 ((i, b) :: ord))).
      { apply fifo_takes_zero. constructor; [done|].
        eapply Forall_impl; [exact Hord|]. by intros ? [_ ?]. }
      rewrite fifo_batches_unchanged by (intros; by apply taken_zero).
      rewrite Zsum_zero by done. rewrite taken_from_zero by done.
      simpl. by rewrite app_nil_r.
    + apply Z.leb_gt in Hq0. rewrite Hb.
      set (d := Z.min q (batch_stock b)).
      rewrite IH; [|done| |lia].
      2:{ apply Forall_forall. intros [j b'] Hin.
          pose proof (proj1 (Forall_forall _ _) Hord _ Hin) as [Hj Hp].
          simpl in *. split; [|done].
          rewrite list_lookup_insert_ne; [done|].
          intros ->. apply Hni. apply list_elem_of_fmap. by exists (j, b'). }
      cbn [fifo_takes fst snd]. fold d.
      rewrite fifo_batches_cons by (by rewrite ?fifo_takes_fst).
      unfold taken_from at 3 4. cbn [zip zip_with omap list_omap fst snd].
      assert ((0 <? d)%Z = true) as -> by (apply Z.ltb_lt; lia).
      cbn [fold_left map]. fold (taken_from ord (fifo_takes (q - d) ord)).
      rewrite <- app_assoc. cbn [app fmap list_fmap snd Zsum foldr].
      unfold stock_left at 2. simpl.
      by rewrite Z.sub_add_distr.
Qed.

Lemma fifo_takes_sum q ord :
  (0 <= q)%Z ->
  Forall (fun ib => (0 < batch_stock ib.2)%Z) ord ->
  Zsum (fifo_takes q ord).*2 = Z.min q (Zsum (map (fun ib => batch_stock ib.2) ord)).
Proof.
  revert q. induction ord as [|ib ord IH]; intros q Hq Hord.
  - simpl. lia.
  - apply Forall_cons in Hord as [Hb Hord]. simpl.
    rewrite IH by (done || lia).
    assert (0 <= Zsum (map (fun ib => batch_stock ib.2) ord))%Z.
    { clear -Hord. induction Hord; simpl; [done|]. unfold Zsum in *. simpl. lia. }
    unfold Zsum in *. simpl. lia.
Qed.

(** ** The deduction order *)

Lemma insertBy_perm {A} (key : A -> Z) x l : insertBy key x l ≡ₚ x :: l.
Proof.
  induction l as [|y l IH]; simpl; [done|].
  destruct (key x <=? key y)%Z; [done|]. rewrite IH. apply Permutation_swap.
Qed.

Lemma sortBy_perm {A} (key : A -> Z) l : sortBy key l ≡ₚ l.
Proof.
  induction l as [|x l IH]; simpl; [done|]. by rewrite insertBy_perm, IH.
Qed.

Lemma insertBy_sorted {A} (key : A -> Z) x l :
  StronglySorted (fun a b => (key a <= key b)%Z) l ->
  StronglySorted (fun a b => (key a <= key b)%Z) (insertBy key x l).
Proof.
  induction 1 as [|y l Hl IH Hy]; simpl.
  - repeat constructor.
  - destruct (key x <=? key y)%Z eqn:Hxy.
    + apply Z.leb_le in Hxy. constructor; [by constructor|].
      constructor; [done|]. eapply Forall_impl; [exact Hy|]. simpl. intros; lia.
    + apply Z.leb_gt in Hxy. constructor; [done|].
      rewrite insertBy_perm. constructor; [lia|done].
Qed.

(** [sortBy] sorts: ascending in the key. *)
Lemma sortBy_sorted {A} (key : A -> Z) l :
  StronglySorted (fun a b => (key a <= key b)%Z) (sortBy key l).
Proof.
  induction l as [|x l IH]; simpl; [constructor|]. by apply insertBy_sorted.
Qed.

(** [sortBy] is stable: entries of the same key stay in the order of
    their positions. *)
Lemma insertBy_stable {B} (key : nat * B -> Z) x l :
  StronglySorted (fun a b => (key a < key b)%Z \/ (key a = key b /\ (a.1 <= b.1)%nat)) l ->
  Forall (fun y => (x.1 < y.1)%nat) l ->
  StronglySorted (fun a b => (key a < key b)%Z \/ (key a = key b /\ (a.1 <= b.1)%nat))
                 (insertBy key x l).
Proof.
  induction 1 as [|y l Hl IH Hy]; intros Hx; simpl.
  - repeat constructor.
  - apply Forall_cons in Hx as [Hxy Hx].
    destruct (key x <=? key y)%Z eqn:Hk.
    + apply Z.leb_le in Hk. constructor; [by constructor|].
      constructor; [lia|].
      apply Forall_forall. intros z Hz.
      pose proof (proj1 (Forall_forall _ _) Hy z Hz).
      pose proof (proj1 (Forall_forall _ _) Hx z Hz). simpl in *. lia.
    + apply Z.leb_gt in Hk. constructor; [by apply IH|].
      rewrite insertBy_perm. constructor; [lia|done].
Qed.

Lemma sortBy_stable {B} (key : nat * B -> Z) l :
  StronglySorted (fun a b => (a.1 < b.1)%nat) l ->
  StronglySorted (fun a b => (key a < key b)%Z \/ (key a = key b /\ (a.1 <= b.1)%nat))
                 (sortBy key l).
Proof.
  induction 1 as [|x l Hl IH Hx]; simpl; [constructor|].
  apply insertBy_stable; [done|]. by rewrite sortBy_perm.
Qed.

Lemma imap_pair_sorted {B} (l : list B) :
  StronglySorted (fun a b : nat * B => (a.1 < b.1)%nat) (imap pair l).
Proof.
  assert (forall n, StronglySorted (fun a b : nat * B => (a.1 < b.1)%nat)
                      (imap (fun i b => ((n + i)%nat, b)) l)) as H.
  { induction l as [|x l IH]; intros n; simpl; constructor.
    - rewrite (imap_ext _ (fun i b => ((S n + i)%nat, b))); [apply IH|].
      intros i b _. simpl. f_equal. lia.
    - apply Forall_forall. intros [j b] (i & b' & [= -> ->] & _)%elem_of_lookup_imap.
      simpl. lia. }
  apply (H 0%nat).
Qed.

Lemma StronglySorted_filter {A} (R : relation A) (P : A -> Prop)
    `{!forall x, Decision (P x)} l :
  StronglySorted R l -> StronglySorted R (filter P l).
Proof.
  induction 1 as [|x l Hl IH Hx]; [constructor|].
  rewrite filter_cons. destruct (decide (P x)); [|done].
  constructor; [done|]. apply Forall_forall. intros y [_ Hy]%list_elem_of_filter.
  by apply (proj1 (Forall_forall _ _) Hx).
Qed.

Lemma StronglySorted_on {A} (R R' : relation A) (P : A -> Prop) l :
  (forall x y, P x -> P y -> R x y -> R' x y) ->
  Forall P l -> StronglySorted R l -> StronglySorted R' l.
Proof.
  intros HR HP Hs. induction Hs as [|x l Hl IH Hx]; [constructor|].
  apply Forall_cons in HP as [Hpx HP]. constructor; [by apply IH|].
  apply Forall_forall. intros y Hy.
  apply HR; [done|by apply (proj1 (Forall_forall _ _) HP)
            |by apply (proj1 (Forall_forall _ _) Hx)].
Qed.

Lemma Zsum_perm l k : l ≡ₚ k -> Zsum l = Zsum k.
Proof. unfold Zsum. induction 1; simpl; lia. Qed.

Lemma in_stock_split (L : list (nat * ProductBatch)) :
  filter (fun ib => is_Some (batch_expiryDate ib.2) /\ (0 < batch_stock ib.2)%Z) L
  ++ filter (fun ib => ~ is_Some (batch_expiryDate ib.2) /\ (0 < batch_stock ib.2)%Z) L
  ≡ₚ filter (fun ib => (0 < batch_stock ib.2)%Z) L.
Proof.
  induction L as [|ib L IH]; [done|].
  rewrite !filter_cons.
  destruct (decide (0 < batch_stock ib.2)%Z) as [Hp|Hp];
    destruct (decide (is_Some (batch_expiryDate ib.2))) as [He|He].
  - rewrite decide_True, decide_False by tauto. simpl. by rewrite IH.
  - rewrite decide_False, decide_True by tauto.
    rewrite <- Permutation_middle. by rewrite IH.
  - by rewrite !decide_False by tauto.
  - by rewrite !decide_False by tauto.
Qed.

(** The order of the source lists exactly the batches with positive
    stock, *)
Lemma deductionOrder_perm bs :
  batchesWithExpiry bs ++ batchesWithoutExpiry bs
  ≡ₚ filter (fun ib => (0 < batch_stock ib.2)%Z) (imap pair bs).
Proof.
  unfold batchesWithExpiry, batchesWithoutExpiry.
  rewrite !sortBy_perm. apply in_stock_split.
Qed.

(** and lists them in the order of consumption of the specification. *)
Lemma deductionOrder_sorted bs :
  StronglySorted sold_before (batchesWithExpiry bs ++ batchesWithoutExpiry bs).
Proof.
  unfold batchesWithExpiry, batchesWithoutExpiry.
  apply StronglySorted_app_2.
  - intros x y Hx Hy. rewrite sortBy_perm in Hx, Hy.
    apply list_elem_of_filter in Hx as [[[ex Hex] _] _].
    apply list_elem_of_filter in Hy as [[Hey _] _].
    unfold sold_before. rewrite Hex.
    destruct (batch_expiryDate y.2); [|done]. exfalso. apply Hey. by eexists.
  - apply (StronglySorted_on
             (fun a b => (expiry_key a < expiry_key b)%Z \/
                         (expiry_key a = expiry_key b /\ (a.1 <= b.1)%nat))
             _ (fun ib => is_Some (batch_expiryDate ib.2))).
    + intros x y [ex Hex] [ey Hey]. unfold sold_before, expiry_key.
      rewrite Hex, Hey. simpl. done.
    + rewrite sortBy_perm. apply Forall_forall.
      by intros ib [[H _] _]%list_elem_of_filter.
    + apply sortBy_stable, StronglySorted_filter, imap_pair_sorted.
  - apply (StronglySorted_on
             (fun a b => (purchase_key a < purchase_key b)%Z \/
                         (purchase_key a = purchase_key b /\ (a.1 <= b.1)%nat))
             _ (fun ib => batch_expiryDate ib.2 = None)).
    + intros x y Hex Hey. unfold sold_before, purchase_key.
      rewrite Hex, Hey. done.
    + rewrite sortBy_perm. apply Forall_forall.
      intros ib [[H _] _]%list_elem_of_filter.
      destruct (batch_expiryDate ib.2); [|done]. exfalso. apply H. by eexists.
    + apply sortBy_stable, StronglySorted_filter, imap_pair_sorted.
Qed.

#[local] Instance sold_before_trans : Transitive sold_before.
Proof.
  intros x y z. unfold sold_before.
  destruct (batch_expiryDate x.2), (batch_expiryDate y.2), (batch_expiryDate z.2);
    try tauto; lia.
Qed.

#[local] Instance sold_before_total : Total sold_before.
Proof.
  intros x y. unfold sold_before.
  destruct (batch_expiryDate x.2), (batch_expiryDate y.2); try tauto; lia.
Qed.

(** The order of consumption lists exactly the batches with positive
    stock. *)
Lemma fifo_order_perm bs :
  fifo_order bs ≡ₚ filter (fun ib => (0 < batch_stock ib.2)%Z) (imap pair bs).
Proof. apply merge_sort_Permutation. Qed.

Lemma fifo_order_sorted bs : StronglySorted sold_before (fifo_order bs).
Proof. apply StronglySorted_merge_sort; apply _. Qed.

Lemma fifo_order_lookup bs :
  Forall (fun ib => bs !! ib.1 = Some ib.2 /\ (0 < batch_stock ib.2)%Z) (fifo_order bs).
Proof.
  rewrite fifo_order_perm. apply Forall_forall.
  intros ib [Hp Hin]%list_elem_of_filter. split; [|done].
  apply elem_of_lookup_imap in Hin as (i & b & -> & Hb). done.
Qed.

Lemma fifo_order_NoDup bs : NoDup (fifo_order bs).*1.
Proof.
  rewrite fifo_order_perm.
  apply (sublist_NoDup _ (imap pair bs).*1); [|apply fmap_sublist, sublist_filter].
  rewrite fmap_imap.
  rewrite (imap_ext _ (fun j _ => j)) by done.
  rewrite (imap_seq_0 bs (fun j => j)). rewrite list_fmap_id. apply NoDup_seq.
Qed.

(** The order in which the source takes from the batches is the order of
    consumption of the specification. *)
Lemma fifo_order_code bs :
  fifo_order bs = batchesWithExpiry bs ++ batchesWithoutExpiry bs.
Proof.
  apply (StronglySorted_unique_strong sold_before).
  - intros x y Hx Hy Hxy Hyx.
    pose proof (proj1 (Forall_forall _ _) (fifo_order_lookup bs) x Hx) as [Hbx _].
    rewrite deductionOrder_perm, <- fifo_order_perm in Hy.
    pose proof (proj1 (Forall_forall _ _) (fifo_order_lookup bs) y Hy) as [Hby _].
    assert (x.1 = y.1) as Hi.
    { unfold sold_before in Hxy, Hyx.
      destruct (batch_expiryDate x.2), (batch_expiryDate y.2); try tauto; lia. }
    destruct x as [i b], y as [j c]. simpl in *. subst j. congruence.
  - apply fifo_order_sorted.
  - apply deductionOrder_sorted.
  - by rewrite fifo_order_perm, deductionOrder_perm.
Qed.

Lemma available_filter (L : list (nat * ProductBatch)) :
  (Zsum (map batch_stock L.*2)
   <= Zsum (map (fun ib => batch_stock ib.2)
               (filter (fun ib => (0 < batch_stock ib.2)%Z) L)))%Z /\
  (Forall (fun b => (0 <= batch_stock b)%Z) L.*2 ->
   Zsum (map (fun ib => batch_stock ib.2)
            (filter (fun ib => (0 < batch_stock ib.2)%Z) L))
   = Zsum (map batch_stock L.*2)).
Proof.
  induction L as [|ib L [IH1 IH2]]; [done|].
  rewrite filter_cons, fmap_cons.
  destruct (decide (0 < batch_stock ib.2)%Z) as [Hp|Hp]; unfold Zsum in *; simpl.
  - split; [lia|]. intros [_ Hl]%Forall_cons. specialize (IH2 Hl). lia.
  - split; [lia|]. intros [Hb Hl]%Forall_cons. specialize (IH2 Hl). lia.
Qed.

Lemma imap_pair_snd {A} (l : list A) : (imap pair l).*2 = l.
Proof.
  rewrite fmap_imap. rewrite (imap_ext _ (const id)) by done.
  rewrite imap_const. apply list_fmap_id.
Qed.

(** What the order can give is at least the total stock, and exactly the
    total stock when no batch has a negative stock. *)
Lemma total_stock_available p :
  (total_stock p <= available (prod_batches p))%Z /\
  (Forall (fun b => (0 <= batch_stock b)%Z) (prod_batches p) ->
   available (prod_batches p) = total_stock p).
Proof.
  unfold available, total_stock.
  rewrite (Zsum_perm _ _ (fmap_Permutation _ _ _ (fifo_order_perm (prod_batches p)))).
  pose proof (available_filter (imap pair (prod_batches p))) as H.
  by rewrite imap_pair_snd in H.
Qed.

(** One product line: the loop leaves the batches of the FIFO plan, the
    part of the quantity the order could not give, the value taken and
    the new stock of each batch consumed. *)
Lemma deduct_line_exact bs q su :
  (0 <= q)%Z ->
  deductLoop (deductionOrder bs) bs q 0%Q su
  = (fifo_batches bs (fifo_takes q (fifo_order bs)),
     (q - Z.min q (available bs))%Z,
     fifo_value (fifo_order bs) (fifo_takes q (fifo_order bs)),
     su ++ map stock_left (consumed bs q)).
Proof.
  intros Hq. unfold deductionOrder. rewrite <- fifo_order_code.
  rewrite deductLoop_exact by (apply fifo_order_NoDup || apply fifo_order_lookup || done).
  rewrite fifo_takes_sum; [done|done|].
  eapply Forall_impl; [apply fifo_order_lookup|]. by intros ? [_ ?].
Qed.

Lemma deduct_line bs q su :
  (0 <= q)%Z ->
  exists su' tot',
    deductLoop (deductionOrder bs) bs q 0%Q su
      = (fifo_batches bs (fifo_takes q (fifo_order bs)),
         (q - Z.min q (available bs))%Z, tot', su ++ su') /\
    (tot' == fifo_value (fifo_order bs) (fifo_takes q (fifo_order bs)))%Q /\
    Forall (fun u => (0 <= su_newStock u)%Z) su'.
Proof.
  intros Hq. eexists _, _. split; [by apply deduct_line_exact|].
  split; [reflexivity|].
  unfold consumed. apply Forall_forall. intros u Hu.
  change (map ?f ?l) with (f <$> l) in Hu.
  apply list_elem_of_fmap in Hu as (bd & -> & Hbd).
  pose proof (proj1 (Forall_forall _ _) (taken_from_le q (fifo_order bs)) bd Hbd) as Hle.
  cbv beta in Hle. unfold stock_left. simpl. lia.
Qed.

(** ** C1: sale completion deducts stock first-expiring first *)

Lemma same_line_refl i : same_line i i.
Proof.
  split; [done|]. destruct (item_purchasePrice i); constructor. reflexivity.
Qed.

(** A line within stock takes its whole quantity. *)
Lemma fifo_takes_all p q :
  (0 <= q <= total_stock p)%Z ->
  Zsum (fifo_takes q (fifo_order (prod_batches p))).*2 = q.
Proof.
  intros Hq. rewrite fifo_takes_sum; [|lia|].
  - pose proof (proj1 (total_stock_available p)). unfold available in *. lia.
  - eapply Forall_impl; [apply fifo_order_lookup|]. by intros ? [_ ?].
Qed.

Lemma prepareLines_fifo cart ps su items :
  lines_within_stock ps cart ->
  exists su' items',
    prepareLines cart ps su items
      = inr ((fifo_sale ps cart).1, su ++ su', items ++ items') /\
    Forall2 same_line items' (fifo_sale ps cart).2 /\
    Forall (fun u => (0 <= su_newStock u)%Z) su'.
Proof.
  revert ps su items. induction cart as [|item cart IH]; intros ps su items Hok.
  - exists [], []. simpl. by rewrite !app_nil_r.
  - simpl in Hok |- *. destruct (item_type item) eqn:Hty.
    + destruct Hok as (k & p & Hfind & Hq & Hok). rewrite Hfind.
      destruct (deduct_line (prod_batches p) (item_quantity item) su)
        as (su1 & tot & Heq & Htot & Hsu1); [lia|].
      rewrite Heq.
      pose proof (proj1 (total_stock_available p)) as Hav.
      rewrite Z.min_l by lia. rewrite Z.sub_diag. simpl.
      destruct (IH (<[k := (fifo_line item p).1]> ps) (su ++ su1)
                   (items ++ [set_purchasePrice
                                (Some (tot / inject_Z (item_quantity item))%Q) item]) Hok)
        as (su2 & items2 & Heq2 & Hsame & Hsu2).
      unfold fifo_line in Heq2 at 1. simpl in Heq2. rewrite Heq2.
      eexists (su1 ++ su2), (_ :: items2). rewrite <- !app_assoc. simpl.
      split; [reflexivity|]. split; [|by apply Forall_app].
      constructor; [|done]. split; [done|]. simpl. constructor.
      unfold fifo_unit_cost. by rewrite Htot.
    + destruct (IH ps su (items ++ [item]) Hok) as (su2 & items2 & Heq2 & Hsame & Hsu2).
      rewrite Heq2. exists su2, (item :: items2). rewrite <- app_assoc. simpl.
      split; [done|]. split; [|done]. constructor; [apply same_line_refl|done].
Qed.

(** The general statement of C1. *)
Lemma completeSale_fifo_general env state cashier customerId :
  env_online env = true ->
  cart state <> [] ->
  (forall id, truthy (editingSaleInvoiceId state) = Some id ->
     is_Some (list_find (fun i => inv_id i = id) (saleInvoices state))) ->
  lines_within_stock (products state) (cart state) ->
  let sale := fifo_sale (products state) (cart state) in
  exists r inv stockUpdates,
    out_result (completeSale env state cashier customerId) = Some r /\
    success r = true /\ invoice r = Some inv /\
    prepareLines (cart state) (products state) [] []
      = inr (sale.1, stockUpdates, inv_items inv) /\
    Forall2 same_line (inv_items inv) sale.2 /\
    (truthy (editingSaleInvoiceId state) = None ->
     (exists cu, out_call (completeSale env state cashier customerId)
                 = Some (CreateSale inv stockUpdates cu)) /\
     forall env' db toasts,
       (truthy customerId = None \/
        exists cid, truthy customerId = Some cid /\
          is_Some (list_find (fun c => cust_id c = cid) (customers state))) ->
       products (w_state (dispatch env' true
                            (completeSale env state cashier customerId)
                            (mkWorld state db toasts))) = sale.1).
Proof.
  intros Honline Hcart Hedit Hok sale.
  destruct (prepareLines_fifo _ _ [] [] Hok) as (su & items & Heq & Hsame & _).
  simpl in Heq. fold sale in Heq, Hsame.
  unfold completeSale. rewrite Honline. simpl.
  rewrite bool_decide_eq_false_2 by done. rewrite Heq.
  destruct (truthy (editingSaleInvoiceId state)) as [eid|] eqn:Hed.
  - destruct (Hedit eid eq_refl) as [[k old] Hold]. rewrite Hold. simpl.
    eexists _, _, su. do 5 (split; [done|]). discriminate.
  - simpl. eexists _, _, su. do 5 (split; [done|]). intros _.
    split; [by eexists|].
    intros env' db toasts Hcust. unfold dispatch. simpl.
    destruct Hcust as [Hnone|(cid & Hcid & [[k c] Hc])].
    + rewrite Hnone. done.
    + rewrite Hcid, Hc. done.
Qed.

Lemma taken_from_elem ord plan bd :
  bd ∈ taken_from ord plan -> exists i, (i, bd.1) ∈ ord.
Proof.
  unfold taken_from. revert plan. induction ord as [|[i b] ord IH]; intros [|[j d] plan];
    simpl; try (intros H; by apply elem_of_nil in H).
  destruct (0 <? d)%Z; simpl.
  - intros [->|H]%elem_of_cons.
    + exists i. simpl. by left.
    + destruct (IH _ H) as [i' Hi']. exists i'. by right.
  - intros H. destruct (IH _ H) as [i' Hi']. exists i'. by right.
Qed.

Lemma consumed_lookup (bs : list ProductBatch) q bd :
  bd ∈ consumed bs q -> exists i, bs !! i = Some bd.1.
Proof.
  intros [i Hi]%taken_from_elem. exists i.
  by destruct (proj1 (Forall_forall _ _) (fifo_order_lookup bs) _ Hi) as [? _].
Qed.

Lemma prepareLines_exact cart ps su items :
  lines_within_stock ps cart ->
  prepareLines cart ps su items
  = inr ((fifo_sale ps cart).1,
         su ++ map stock_left (fifo_consumed ps cart),
         items ++ (fifo_sale ps cart).2).
Proof.
  revert ps su items. induction cart as [|item cart IH]; intros ps su items Hok.
  - simpl. by rewrite !app_nil_r.
  - simpl in Hok |- *. destruct (item_type item) eqn:Hty.
    + destruct Hok as (k & p & Hfind & Hq & Hok). rewrite Hfind.
      rewrite deduct_line_exact by lia.
      pose proof (proj1 (total_stock_available p)) as Hav.
      rewrite Z.min_l by lia. rewrite Z.sub_diag. simpl.
      specialize (IH (<[k := (fifo_line item p).1]> ps)
                     (su ++ map stock_left (consumed (prod_batches p) (item_quantity item)))
                     (items ++ [(fifo_line item p).2]) Hok).
      simpl in IH |- *. unfold fifo_unit_cost in IH at 1. rewrite IH.
      rewrite map_app, <- !app_assoc. reflexivity.
    + rewrite (IH ps su (items ++ [item]) Hok). by rewrite <- app_assoc.
Qed.

Lemma find_batch_unique ps k p i b :
  distinct_batch_ids ps ->
  ps !! k = Some p -> prod_batches p !! i = Some b ->
  find_batch ps (batch_id b) = Some b.
Proof.
  intros Hd Hk Hi. unfold find_batch.
  destruct (list_find (fun p => Exists (fun b' => batch_id b' = batch_id b) (prod_batches p)) ps)
    as [[k' p']|] eqn:Hf.
  - apply list_find_Some in Hf as (Hk' & Hex & _).
    apply Exists_exists in Hex as (b' & Hb' & Hid).
    apply list_elem_of_lookup in Hb' as [i' Hi'].
    destruct (Hd _ _ _ _ _ _ _ _ Hk' Hi' Hk Hi Hid) as [-> ->].
    assert (p' = p) as -> by congruence.
    destruct (list_find (fun b' => batch_id b' = batch_id b) (prod_batches p))
      as [[j c]|] eqn:Hg.
    + apply list_find_Some in Hg as (Hj & Hc & _).
      destruct (Hd _ _ _ _ _ _ _ _ Hk Hj Hk Hi Hc) as [_ ->]. simpl. congruence.
    + apply list_find_None in Hg.
      exfalso. apply (proj1 (Forall_forall _ _) Hg b); [|done].
      by eapply list_elem_of_lookup_2.
  - apply list_find_None in Hf. exfalso.
    apply (proj1 (Forall_forall _ _) Hf p); [by eapply list_elem_of_lookup_2|].
    apply Exists_exists. exists b. split; [by eapply list_elem_of_lookup_2|done].
Qed.

(** In a cart with one line for a product, each line is deducted from the
    batches of its product as they are in the state. *)
Lemma fifo_consumed_from (ps0 ps : list Product) cart :
  (forall k p, ps !! k = Some p ->
     prod_id p ∈ map item_id (List.filter is_product cart) -> ps0 !! k = Some p) ->
  NoDup (map item_id (List.filter is_product cart)) ->
  Forall (fun bd => exists k p i, ps0 !! k = Some p /\ prod_batches p !! i = Some bd.1)
         (fifo_consumed ps cart).
Proof.
  revert ps. induction cart as [|item cart IH]; intros ps Hinv Hnd; [constructor|].
  simpl in *. unfold is_product in Hinv, Hnd at 1. destruct (item_type item) eqn:Hty.
  - simpl in Hinv, Hnd. apply NoDup_cons in Hnd as [Hni Hnd].
    destruct (list_find _ ps) as [[k p]|] eqn:Hfind.
    + apply list_find_Some in Hfind as (Hk & Hid & _).
      apply Forall_app. split.
      * apply Forall_forall. intros bd [i Hi]%consumed_lookup.
        exists k, p, i. split; [|done].
        apply Hinv; [done|]. rewrite Hid. by left.
      * apply IH; [|done]. intros k' p' Hk' Hin.
        destruct (decide (k' = k)) as [->|Hne].
        -- rewrite list_lookup_insert_eq in Hk' by (by eapply lookup_lt_Some).
           injection Hk' as <-. simpl in Hin. rewrite Hid in Hin. done.
        -- rewrite list_lookup_insert_ne in Hk' by done.
           apply Hinv; [done|]. by right.
    + apply IH; [|done]. intros k' p' Hk' Hin. apply Hinv; [done|]. by right.
  - apply IH; [|done]. intros k' p' Hk' Hin. by apply Hinv.
Qed.

(** The units sent for a batch when a sale is edited are the units taken
    from it. *)
Lemma editDeductions_consumed ps cart :
  distinct_batch_ids ps ->
  NoDup (map item_id (List.filter is_product cart)) ->
  editDeductions ps (map stock_left (fifo_consumed ps cart))
  = map stock_taken (fifo_consumed ps cart).
Proof.
  intros Hd Hnd. unfold editDeductions. rewrite map_map.
  apply map_ext_in. intros bd Hin. apply list_elem_of_In in Hin.
  pose proof (proj1 (Forall_forall _ _) (fifo_consumed_from ps ps cart (fun _ _ H _ => H) Hnd)
                _ Hin) as (k & p & i & Hk & Hi).
  unfold stock_left, stock_taken. simpl.
  rewrite (find_batch_unique _ _ _ _ _ Hd Hk Hi). f_equal. lia.
Qed.

Lemma completeSale_fifo_exact env state cashier customerId :
  env_online env = true ->
  cart state <> [] ->
  (forall id, truthy (editingSaleInvoiceId state) = Some id ->
     is_Some (list_find (fun i => inv_id i = id) (saleInvoices state))) ->
  lines_within_stock (products state) (cart state) ->
  let sale := fifo_sale (products state) (cart state) in
  let taken := fifo_consumed (products state) (cart state) in
  exists inv,
    out_result (completeSale env state cashier customerId)
      = Some (mkResult true (Some inv) MsgSavingInvoice) /\
    inv_items inv = sale.2 /\
    (truthy (editingSaleInvoiceId state) = None ->
     (exists cu, out_call (completeSale env state cashier customerId)
                 = Some (CreateSale inv (map stock_left taken) cu)) /\
     forall env' db toasts,
       (truthy customerId = None \/
        exists cid, truthy customerId = Some cid /\
          is_Some (list_find (fun c => cust_id c = cid) (customers state))) ->
       products (w_state (dispatch env' true
                            (completeSale env state cashier customerId)
                            (mkWorld state db toasts))) = sale.1) /\
    (forall id,
       truthy (editingSaleInvoiceId state) = Some id ->
       distinct_batch_ids (products state) ->
       NoDup (map item_id (List.filter is_product (cart state))) ->
       exists k old cu,
         list_find (fun i => inv_id i = id) (saleInvoices state) = Some (k, old) /\
         out_call (completeSale env state cashier customerId)
         = Some (UpdateSale id inv
                   (map (fun i => mkStockRestore (item_id i) (item_quantity i))
                        (List.filter is_product (inv_items old)))
                   (map stock_taken taken) cu)).
Proof.
  intros Honline Hcart Hedit Hok sale taken.
  pose proof (prepareLines_exact _ _ [] [] Hok) as Heq.
  simpl in Heq. fold sale taken in Heq.
  unfold completeSale. rewrite Honline. simpl.
  rewrite bool_decide_eq_false_2 by done. rewrite Heq.
  destruct (truthy (editingSaleInvoiceId state)) as [eid|] eqn:Hed.
  - destruct (Hedit eid eq_refl) as [[k old] Hold]. rewrite Hold. simpl.
    eexists. split; [reflexivity|]. split; [reflexivity|].
    split; [discriminate|].
    intros id [= <-] Hd Hnd. exists k, old. eexists. split; [exact Hold|].
    unfold taken. by rewrite (editDeductions_consumed _ _ Hd Hnd).
  - simpl. eexists. split; [reflexivity|]. split; [reflexivity|].
    split; [|intros id Hid; discriminate Hid]. intros _.
    split; [by eexists|].
    intros env' db toasts Hcust. unfold dispatch. simpl.
    destruct Hcust as [Hnone|(cid & Hcid & [[k c] Hc])].
    + rewrite Hnone. done.
    + rewrite Hcid, Hc. done.
Qed.

Lemma completeSale_dated_example price_jan price_jun :
  let state := spec_example_state price_jan price_jun in
  let o := completeSale online_env state "cashier" None in
  exists inv,
    out_result o = Some (mkResult true (Some inv) MsgSavingInvoice) /\
    out_call o
      = Some (CreateSale inv [mkStockUpdate "G-jan" (3 - 3); mkStockUpdate "G-jun" (10 - 2)]
                         None) /\
    map item_purchasePrice (inv_items inv)
      = [Some ((0 + 3 * price_jan + 2 * price_jun) / 5)%Q] /\
    map (fun p => map (fun b => (batch_id b, batch_stock b)) (prod_batches p))
        (products (w_state (dispatch online_env true o (mkWorld state empty_db []))))
      = [[("G-jun", (10 - 2)%Z); ("G-jan", (3 - 3)%Z)]].
Proof.
  intros state o. subst o state.
  eexists. split; [reflexivity|]. split; [reflexivity|].
  split; reflexivity.
Qed.

Lemma completeSale_undated_example price_dated price_jan price_mar :
  let state := undated_example_state price_dated price_jan price_mar in
  let o := completeSale online_env state "cashier" None in
  exists inv,
    out_result o = Some (mkResult true (Some inv) MsgSavingInvoice) /\
    out_call o
      = Some (CreateSale inv
                [mkStockUpdate "N-dated" (1 - 1); mkStockUpdate "N-jan" (2 - 2);
                 mkStockUpdate "N-mar" (4 - 2)]
                None) /\
    map item_purchasePrice (inv_items inv)
      = [Some ((0 + 1 * price_dated + 2 * price_jan + 2 * price_mar) / 5)%Q] /\
    map (fun p => map (fun b => (batch_id b, batch_stock b)) (prod_batches p))
        (products (w_state (dispatch online_env true o (mkWorld state empty_db []))))
      = [[("N-mar", (4 - 2)%Z); ("N-dated", (1 - 1)%Z); ("N-jan", (2 - 2)%Z)]].
Proof.
  intros state o. subst o state.
  eexists. split; [reflexivity|]. split; [reflexivity|].
  split; reflexivity.
Qed.

Lemma editing_example_distinct pj pjun : distinct_batch_ids (products (editing_example_state pj pjun)).
Proof.
  intros [|k1] p1 i1 b1 [|k2] p2 i2 b2 H1 Hi1 H2 Hi2 Hid; simpl in *; try done.
  injection H1 as <-. injection H2 as <-. split; [done|].
  destruct i1 as [|[|i1]], i2 as [|[|i2]]; simpl in *; try done;
    injection Hi1 as <-; injection Hi2 as <-; simpl in Hid; discriminate Hid.
Qed.


(** C1.  The batches of a product are consumed in this order: those with
    positive stock, the dated ones first by expiry date, then the undated
    ones by purchase date, batches of the same date in the order in which
    the product lists them.  In a sale in which every product line asks
    for a positive quantity that is at most the total stock of its
    product, [completeSale] succeeds; each batch in that order gives the
    smaller of the remaining quantity and its stock; each invoice line
    carries as unit cost the units taken times the purchase price of
    their batch, added up in the order of consumption and divided by the
    quantity of the line.  A new sale sends the new stock of each batch
    consumed, and when it is saved the products of the state are those
    left by the deduction.  The edit of a sale (no two batches sharing an
    id, one line for a product) restores the product lines of the old
    invoice and sends for each batch consumed the units taken.  In
    particular, five units sold against a batch of 3 expiring on
    2024-01-01 and a batch of 10 expiring on 2024-06-01 take 3 from the
    first and 2 from the second, at their purchase prices; and five units
    sold against an undated batch of 4 purchased in March, a dated batch
    of 1 and an undated batch of 2 purchased in January take 1 from the
    dated batch, 2 from the batch of January and 2 from the batch of
    March. *)
Theorem completeSale_fifo :
  (forall bs : list ProductBatch,
     fifo_order bs ≡ₚ filter (fun ib => (0 < batch_stock ib.2)%Z) (imap pair bs) /\
     StronglySorted sold_before (fifo_order bs)) /\
  (forall env state cashier customerId,
     env_online env = true ->
     cart state <> [] ->
     (forall id, truthy (editingSaleInvoiceId state) = Some id ->
        is_Some (list_find (fun i => inv_id i = id) (saleInvoices state))) ->
     lines_within_stock (products state) (cart state) ->
     let sale := fifo_sale (products state) (cart state) in
     let taken := fifo_consumed (products state) (cart state) in
     exists inv,
       out_result (completeSale env state cashier customerId)
         = Some (mkResult true (Some inv) MsgSavingInvoice) /\
       inv_items inv = sale.2 /\
       (truthy (editingSaleInvoiceId state) = None ->
        (exists cu, out_call (completeSale env state cashier customerId)
                    = Some (CreateSale inv (map stock_left taken) cu)) /\
        forall env' db toasts,
          (truthy customerId = None \/
           exists cid, truthy customerId = Some cid /\
             is_Some (list_find (fun c => cust_id c = cid) (customers state))) ->
          products (w_state (dispatch env' true
                               (completeSale env state cashier customerId)
                               (mkWorld state db toasts))) = sale.1) /\
       (forall id,
          truthy (editingSaleInvoiceId state) = Some id ->
          distinct_batch_ids (products state) ->
          NoDup (map item_id (List.filter is_product (cart state))) ->
          exists k old cu,
            list_find (fun i => inv_id i = id) (saleInvoices state) = Some (k, old) /\
            out_call (completeSale env state cashier customerId)
            = Some (UpdateSale id inv
                      (map (fun i => mkStockRestore (item_id i) (item_quantity i))
                           (List.filter is_product (inv_items old)))
                      (map stock_taken taken) cu))) /\
  (forall price_jan price_jun,
     let state := spec_example_state price_jan price_jun in
     let o := completeSale online_env state "cashier" None in
     lines_within_stock (products state) (cart state) /\
     exists inv,
       out_result o = Some (mkResult true (Some inv) MsgSavingInvoice) /\
       out_call o
         = Some (CreateSale inv
                   [mkStockUpdate "G-jan" (3 - 3); mkStockUpdate "G-jun" (10 - 2)]
                   None) /\
       map item_purchasePrice (inv_items inv)
         = [Some ((0 + 3 * price_jan + 2 * price_jun) / 5)%Q] /\
       map (fun p => map (fun b => (batch_id b, batch_stock b)) (prod_batches p))
           (products (w_state (dispatch online_env true o (mkWorld state empty_db []))))
         = [[("G-jun", (10 - 2)%Z); ("G-jan", (3 - 3)%Z)]]) /\
  (forall price_dated price_jan price_mar,
     let state := undated_example_state price_dated price_jan price_mar in
     let o := completeSale online_env state "cashier" None in
     lines_within_stock (products state) (cart state) /\
     exists inv,
       out_result o = Some (mkResult true (Some inv) MsgSavingInvoice) /\
       out_call o
         = Some (CreateSale inv
                   [mkStockUpdate "N-dated" (1 - 1); mkStockUpdate "N-jan" (2 - 2);
                    mkStockUpdate "N-mar" (4 - 2)]
                   None) /\
       map item_purchasePrice (inv_items inv)
         = [Some ((0 + 1 * price_dated + 2 * price_jan + 2 * price_mar) / 5)%Q] /\
       map (fun p => map (fun b => (batch_id b, batch_stock b)) (prod_batches p))
           (products (w_state (dispatch online_env true o (mkWorld state empty_db []))))
         = [[("N-mar", (4 - 2)%Z); ("N-dated", (1 - 1)%Z); ("N-jan", (2 - 2)%Z)]]).
Proof.
  split; [|split; [|split]].
  - intros bs. split; [apply fifo_order_perm|apply fifo_order_sorted].
  - apply completeSale_fifo_exact.
  - intros price_jan price_jun state o. split.
    + simpl. do 2 eexists. split; [reflexivity|]. split; [|exact I].
      vm_compute. split; [reflexivity|intros H; discriminate H].
    + apply completeSale_dated_example.
  - intros price_dated price_jan price_mar state o. split.
    + simpl. do 2 eexists. split; [reflexivity|]. split; [|exact I].
      vm_compute. split; [reflexivity|intros H; discriminate H].
    + apply completeSale_undated_example.
Qed.

Lemma completeSale_fifo_witness :
  let state := spec_example_state 10 12 in
  let o := completeSale online_env state "cashier" None in
  let w := dispatch online_env true o (mkWorld state empty_db []) in
  let editing := editing_example_state 10 12 in
  lines_within_stock (products state) (cart state) /\
  (* 3 taken from the batch expiring in January, 2 from the one of June *)
  products (w_state w) = (fifo_sale (products state) (cart state)).1 /\
  map (fun p => map (fun b => (batch_id b, batch_stock b)) (prod_batches p))
      (products (w_state w))
    = [[("G-jun", 8%Z); ("G-jan", 0%Z)]] /\
  (* unit cost: (3 * 10 + 2 * 12) / 5 *)
  (exists inv, (out_result o ≫= invoice) = Some inv /\
     inv_items inv = (fifo_sale (products state) (cart state)).2) /\
  (* the same sale as the edit of invoice F1 *)
  (exists inv cu,
     out_call (completeSale online_env editing "cashier" None)
     = Some (UpdateSale "F1" inv [mkStockRestore "p-glue" 2]
               [mkStockDeduction "G-jan" 3; mkStockDeduction "G-jun" 2] cu)).
Proof.
  intros state o w editing. subst w o state editing.
  pose proof (proj1 (proj1 (proj2 (proj2 completeSale_fifo)) 10%Q 12%Q)) as Hok.
  cbv zeta in Hok. split; [exact Hok|].
  destruct (proj1 (proj2 completeSale_fifo) online_env (spec_example_state 10 12)
              "cashier" None eq_refl)
    as (inv & Hr & Hitems & Hcreate & _);
    [discriminate|intros id Hid; discriminate Hid|exact Hok|].
  destruct (Hcreate eq_refl) as [_ Hrun].
  split; [exact (Hrun online_env empty_db [] (or_introl eq_refl))|].
  split; [reflexivity|].
  split; [exists inv; rewrite Hr; split; [reflexivity|exact Hitems]|].
  destruct (proj1 (proj2 completeSale_fifo) online_env (editing_example_state 10 12)
              "cashier" None eq_refl)
    as (inv' & _ & _ & _ & Hedit);
    [discriminate|intros id [= <-]; by eexists|exact Hok|].
  destruct (Hedit "F1" eq_refl (editing_example_distinct 10 12))
    as (k & old & cu & Hold & Hcall).
  { apply (bool_decide_unpack _). vm_compute. reflexivity. }
  injection Hold as <- <-.
  exists inv', cu. exact Hcall.
Defined.

(** ** C2: a line that exceeds the stock fails the whole sale *)

Lemma deductLoop_nonpos ord bs q tot su :
  (q <= 0)%Z -> deductLoop ord bs q tot su = (bs, q, tot, su).
Proof.
  intros Hq. destruct ord as [|i ord]; [done|]. simpl.
  by rewrite (proj2 (Z.leb_le q 0) Hq).
Qed.

Lemma fifo_takes_nonneg q ord :
  (0 <= q)%Z ->
  Forall (fun ib => (0 < batch_stock ib.2)%Z) ord ->
  Forall (fun jd => (0 <= jd.2)%Z) (fifo_takes q ord).
Proof.
  revert q. induction ord as [|ib ord IH]; intros q Hq Hord; [constructor|].
  apply Forall_cons in Hord as [Hb Hord]. simpl.
  constructor; [simpl; lia|]. apply IH; [lia|done].
Qed.

Lemma taken_nonneg plan i :
  Forall (fun jd => (0 <= jd.2)%Z) plan -> (0 <= taken plan i)%Z.
Proof.
  induction 1 as [|[j d] plan Hd _ IH]; [done|]. simpl in Hd.
  rewrite taken_cons. destruct (decide (j = i)); lia.
Qed.

Lemma Zsum_le l k : Forall2 Z.le l k -> (Zsum l <= Zsum k)%Z.
Proof. unfold Zsum. induction 1; simpl; lia. Qed.

Lemma available_max bs :
  available bs = Zsum (map (fun b => Z.max 0 (batch_stock b)) bs).
Proof.
  unfold available.
  rewrite (Zsum_perm _ _ (fmap_Permutation _ _ _ (fifo_order_perm bs))).
  rewrite <- (imap_pair_snd bs) at 2.
  induction (imap pair bs) as [|ib L IH]; [done|].
  rewrite filter_cons, fmap_cons.
  destruct (decide (0 < batch_stock ib.2)%Z); unfold Zsum in *; csimpl in *; lia.
Qed.

(** A deduction never adds to what a product can give. *)
Lemma available_fifo_le bs q :
  (0 <= q)%Z ->
  (available (fifo_batches bs (fifo_takes q (fifo_order bs))) <= available bs)%Z.
Proof.
  intros Hq. rewrite !available_max. apply Zsum_le.
  apply Forall2_same_length_lookup. split.
  { unfold fifo_batches. by rewrite !length_map, length_imap. }
  intros i x y. change (map ?f ?l) with (f <$> l).
  rewrite !list_lookup_fmap. unfold fifo_batches. rewrite list_lookup_imap.
  destruct (bs !! i) as [b|]; [|done]. simpl. intros [= <-] [= <-]. simpl.
  assert (0 <= taken (fifo_takes q (fifo_order bs)) i)%Z; [|lia].
  apply taken_nonneg, fifo_takes_nonneg; [done|].
  eapply Forall_impl; [apply fifo_order_lookup|]. by intros ? [_ ?].
Qed.

Lemma list_find_insert_other {A} (P : A -> Prop) `{!forall x, Decision (P x)}
    (l : list A) i y k x new :
  list_find P l = Some (i, y) -> l !! k = Some x -> (P new <-> P x) -> i <> k ->
  list_find P (<[k := new]> l) = Some (i, y).
Proof.
  intros (Hi & Hy & Hleast)%list_find_Some Hk HP Hik. apply list_find_Some.
  split; [by rewrite list_lookup_insert_ne|]. split; [done|].
  intros j z Hj Hlt. destruct (decide (j = k)) as [->|Hjk].
  - rewrite list_lookup_insert_eq in Hj by (by eapply lookup_lt_Some).
    injection Hj as <-. rewrite HP. by eapply Hleast.
  - rewrite list_lookup_insert_ne in Hj by done. by eapply Hleast.
Qed.

Lemma list_find_insert_same {A} (P : A -> Prop) `{!forall x, Decision (P x)}
    (l : list A) k x new :
  list_find P l = Some (k, x) -> P new ->
  list_find P (<[k := new]> l) = Some (k, new).
Proof.
  intros (Hi & Hy & Hleast)%list_find_Some HP. apply list_find_Some.
  split; [by rewrite list_lookup_insert_eq by (by eapply lookup_lt_Some)|].
  split; [done|].
  intros j z Hj Hlt. rewrite list_lookup_insert_ne in Hj by lia. by eapply Hleast.
Qed.

Lemma list_find_ids ups ps x :
  map prod_id ups = map prod_id ps ->
  (list_find (fun p => prod_id p = x) ups = None <->
   list_find (fun p => prod_id p = x) ps = None).
Proof.
  intros Hids.
  assert (H : forall l, list_find (fun p => prod_id p = x) l = None <->
                        list_find (fun i => i = x) (prod_id <$> l) = None).
  { intros l. rewrite list_find_fmap.
    destruct (list_find (_ ∘ _) l) as [[??]|] eqn:E; unfold compose in E;
      rewrite E; simpl; split; done. }
  rewrite !H. change (prod_id <$> ?l) with (map prod_id l). by rewrite Hids.
Qed.

Lemma insert_same_id ups k u bs :
  ups !! k = Some u ->
  map prod_id (<[k := set_batches bs u]> ups) = map prod_id ups.
Proof.
  intros Hk. change (map ?f ?l) with (f <$> l).
  rewrite list_fmap_insert. apply list_insert_id.
  by rewrite list_lookup_fmap, Hk.
Qed.

(** The loop over the cart stops at the first line it cannot fill. *)
Lemma prepareLines_short cart ps ups su items item k u :
  map prod_id ups = map prod_id ps ->
  item ∈ cart -> item_type item = TProduct ->
  list_find (fun p => prod_id p = item_id item) ups = Some (k, u) ->
  (available (prod_batches u) < item_quantity item)%Z ->
  exists l, l ∈ cart /\ item_type l = TProduct /\
    ((list_find (fun p => prod_id p = item_id l) ps = None /\
      prepareLines cart ups su items = inl (MsgProductNotFound (item_name l))) \/
     (is_Some (list_find (fun p => prod_id p = item_id l) ps) /\
      prepareLines cart ups su items = inl (MsgInsufficientStock (item_name l)))).
Proof.
  revert ups su items k u.
  induction cart as [|first cart IH]; intros ups su items k u Hids Hin Hty Hfind Hlt.
  { by apply elem_of_nil in Hin. }
  assert (Hstep : forall ups' su' items' k' u',
            map prod_id ups' = map prod_id ps ->
            item ∈ cart ->
            list_find (fun p => prod_id p = item_id item) ups' = Some (k', u') ->
            (available (prod_batches u') < item_quantity item)%Z ->
            exists l, l ∈ first :: cart /\ item_type l = TProduct /\
              ((list_find (fun p => prod_id p = item_id l) ps = None /\
                prepareLines cart ups' su' items' = inl (MsgProductNotFound (item_name l))) \/
               (is_Some (list_find (fun p => prod_id p = item_id l) ps) /\
                prepareLines cart ups' su' items' = inl (MsgInsufficientStock (item_name l))))).
  { intros ups' su' items' k' u' Hids' Hin' Hfind' Hlt'.
    destruct (IH ups' su' items' k' u' Hids' Hin' Hty Hfind' Hlt')
      as (l & Hl & Hlty & Hm).
    exists l. split; [by right|]. done. }
  simpl. destruct (item_type first) eqn:Hfty.
  - (* a product line *)
    destruct (list_find (fun p => prod_id p = item_id first) ups)
      as [[k1 u1]|] eqn:Hf1.
    2:{ exists first. split; [by left|]. split; [done|]. left.
        split; [|done]. by apply (list_find_ids ups ps). }
    assert (Hsome : is_Some (list_find (fun p => prod_id p = item_id first) ps)).
    { destruct (list_find (fun p => prod_id p = item_id first) ps) eqn:E; [done|].
      apply (list_find_ids ups ps) in E; [|done]. congruence. }
    assert (Hq : exists bs' q' tot' su',
      deductLoop (deductionOrder (prod_batches u1)) (prod_batches u1)
                 (item_quantity first) 0%Q su = (bs', q', tot', su') /\
      (available bs' <= available (prod_batches u1))%Z /\
      ((0 <? q')%Z = false -> (item_quantity first <= available (prod_batches u1))%Z)).
    { destruct (Z_le_gt_dec 0 (item_quantity first)) as [Hq|Hq].
      - destruct (deduct_line (prod_batches u1) (item_quantity first) su Hq)
          as (su1 & tot & Heq & _ & _).
        eexists _, _, _, _. split; [exact Heq|].
        split; [by apply available_fifo_le|]. intros H%Z.ltb_ge. lia.
      - rewrite deductLoop_nonpos by lia. eexists _, _, _, _.
        split; [done|]. split; [done|].
        intros _. rewrite available_max.
        assert (0 <= Zsum (map (fun b => Z.max 0 (batch_stock b)) (prod_batches u1)))%Z;
          [|lia].
        generalize (prod_batches u1). intros l. unfold Zsum.
        induction l; simpl; lia. }
    destruct Hq as (bs' & q' & tot' & su1 & Heq & Hav & Hfill). rewrite Heq.
    destruct (0 <? q')%Z eqn:Hq'.
    { exists first. split; [by left|]. split; [done|]. by right. }
    specialize (Hfill eq_refl).
    pose proof (proj1 (list_find_Some _ _ _ _) Hf1) as (Hk1 & Hid1 & _).
    apply elem_of_cons in Hin as [->|Hin].
    + (* the line itself: it cannot be filled *)
      rewrite Hfind in Hf1. injection Hf1 as <- <-. lia.
    + destruct (decide (k = k1)) as [->|Hk].
      * pose proof (proj1 (list_find_Some _ _ _ _) Hfind) as (Hku & _ & _).
        assert (u1 = u) as -> by congruence.
        apply (Hstep _ _ _ k1 (set_batches bs' u)); [|done| |simpl; lia].
        -- rewrite insert_same_id by done. done.
        -- apply (list_find_insert_same _ _ _ u); [done|].
           simpl. by apply list_find_Some in Hfind as (_ & ? & _).
      * apply (Hstep _ _ _ k u); [|done| |done].
        -- rewrite insert_same_id by done. done.
        -- apply (list_find_insert_other _ _ _ _ _ u1); [done|done| |done].
           simpl. done.
  - (* a service line *)
    apply elem_of_cons in Hin as [->|Hin]; [congruence|].
    by apply (Hstep _ _ _ k u).
Qed.

(** C2 as it is stated does not hold: with an earlier line whose product
    is missing, the sale fails with the product-not-found message of that
    line and no insufficient-stock message is returned, although the cart
    contains a line that exceeds the stock of its product. *)
Lemma insufficient_stock_message_counterexample :
  ~ (forall env state cashier customerId item k p,
       env_online env = true ->
       item ∈ cart state -> item_type item = TProduct ->
       list_find (fun p => prod_id p = item_id item) (products state) = Some (k, p) ->
       Forall (fun b => (0 <= batch_stock b)%Z) (prod_batches p) ->
       (total_stock p < item_quantity item)%Z ->
       exists l, l ∈ cart state /\
         out_result (completeSale env state cashier customerId)
           = Some (mkResult false None (MsgInsufficientStock (item_name l)))).
Proof.
  intros H.
  destruct (H online_env (short_state [ghost_line; pen_line 5]) "cashier" None
              (pen_line 5) 0%nat (pen 2)) as (l & _ & Hl).
  - reflexivity.
  - right. left.
  - reflexivity.
  - reflexivity.
  - repeat constructor. done.
  - reflexivity.
  - vm_compute in Hl. discriminate Hl.
Qed.

(** C2, amended.  When the cart contains a product line whose quantity
    exceeds the total stock of its product (no batch of which has a
    negative stock), [completeSale] returns failure, makes no adapter call
    and leaves the state as it is.  Online, the message is that of a
    product line of the cart: the insufficient-stock message naming a
    line whose product exists, or the product-not-found message naming a
    line whose product is missing; offline it is the offline message. *)
Theorem completeSale_insufficient_stock env state cashier customerId item k p :
  item ∈ cart state -> item_type item = TProduct ->
  list_find (fun p => prod_id p = item_id item) (products state) = Some (k, p) ->
  Forall (fun b => (0 <= batch_stock b)%Z) (prod_batches p) ->
  (total_stock p < item_quantity item)%Z ->
  exists m,
    completeSale env state cashier customerId = refuse state m /\
    ((env_online env = false /\ m = MsgOffline) \/
     (env_online env = true /\
      exists l, l ∈ cart state /\ item_type l = TProduct /\
        ((list_find (fun p => prod_id p = item_id l) (products state) = None /\
          m = MsgProductNotFound (item_name l)) \/
         (is_Some (list_find (fun p => prod_id p = item_id l) (products state)) /\
          m = MsgInsufficientStock (item_name l))))) /\
    forall env' resolves db toasts,
      dispatch env' resolves (completeSale env state cashier customerId)
               (mkWorld state db toasts) = mkWorld state db toasts.
Proof.
  intros Hin Hty Hfind Hnn Hlt.
  unfold completeSale. destruct (env_online env) eqn:Ho; simpl.
  2:{ exists MsgOffline. split; [done|]. split; [by left|]. by intros. }
  rewrite bool_decide_eq_false_2.
  2:{ intros Hnil. rewrite Hnil in Hin. by apply elem_of_nil in Hin. }
  destruct (prepareLines_short (cart state) (products state) (products state)
              [] [] item k p eq_refl Hin Hty Hfind) as (l & Hl & Hlty & Hm).
  { by rewrite (proj2 (total_stock_available p) Hnn). }
  destruct Hm as [[Hnone ->]|[Hsome ->]];
    eexists; (split; [reflexivity|]); (split; [|by intros]); right;
    (split; [done|]); exists l; (split; [done|]); (split; [done|]).
  - by left.
  - by right.
Qed.

Lemma completeSale_insufficient_stock_witness :
  completeSale online_env (short_state [pen_line 5]) "cashier" None
    = refuse (short_state [pen_line 5]) (MsgInsufficientStock "Pen") /\
  completeSale online_env (short_state [ghost_line; pen_line 5]) "cashier" None
    = refuse (short_state [ghost_line; pen_line 5]) (MsgProductNotFound "Eraser").
Proof.
  split.
  - destruct (completeSale_insufficient_stock online_env (short_state [pen_line 5])
                "cashier" None (pen_line 5) 0%nat (pen 2))
      as (m & Hm & _ & _).
    + by left.
    + reflexivity.
    + reflexivity.
    + repeat constructor. done.
    + reflexivity.
    + rewrite Hm. vm_compute in Hm. injection Hm as <-. reflexivity.
  - reflexivity.
Defined.

(** ** C9: export, then import *)

Lemma filter_all {A} (P : A -> bool) l :
  (forall x, x ∈ l -> P x = true) -> List.filter P l = l.
Proof.
  induction l as [|x l IH]; intros H; [done|]. simpl.
  rewrite (H x) by (by left). f_equal. apply IH. intros y Hy. apply H. by right.
Qed.

Lemma filter_none {A} (P : A -> bool) l :
  (forall x, x ∈ l -> P x = false) -> List.filter P l = [].
Proof.
  induction l as [|x l IH]; intros H; [done|]. simpl.
  rewrite (H x) by (by left). apply IH. intros y Hy. apply H. by right.
Qed.

(** The rows of one owner among the rows of all owners, when the owners'
    keys are distinct: what the nested select of a getter returns. *)
Lemma filter_flat_map_unique {A B} (key : A -> string) (rows : A -> list B)
    (rkey : B -> string) (l : list A) x :
  (forall a b, b ∈ rows a -> rkey b = key a) ->
  NoDup (map key l) -> x ∈ l ->
  List.filter (fun b => bool_decide (rkey b = key x)) (flat_map rows l) = rows x.
Proof.
  intros Hkey. induction l as [|a l IH]; intros Hnd Hx.
  { by apply elem_of_nil in Hx. }
  simpl in Hnd. apply NoDup_cons in Hnd as [Ha Hnd].
  simpl. rewrite List.filter_app.
  apply elem_of_cons in Hx as [->|Hx].
  - rewrite filter_all.
    2:{ intros b Hb. apply bool_decide_eq_true_2. by apply Hkey. }
    rewrite filter_none; [by rewrite app_nil_r|].
    intros b Hb. apply bool_decide_eq_false_2. intros Hb'.
    apply list_elem_of_In, in_flat_map in Hb as (a' & Ha' & Hb).
    apply Ha. rewrite <- Hb', (Hkey a' b) by (by apply list_elem_of_In).
    apply list_elem_of_fmap. exists a'. split; [done|]. by apply list_elem_of_In.
  - rewrite filter_none; [by apply IH|].
    intros b Hb. apply bool_decide_eq_false_2. intros Hb'.
    apply Ha. rewrite <- (Hkey a b Hb), Hb'.
    apply list_elem_of_fmap. by exists x.
Qed.

Lemma mapBatch_batchRow id b : mapBatch (batchRow id b) = b.
Proof. by destruct b. Qed.

Lemma mapPurchaseItem_row id i : mapPurchaseItem (purchaseItemRow id i) = i.
Proof. by destruct i. Qed.

(** A sale line written to the store and read back says the same. *)
Lemma line_roundtrip products id i :
  line_preserved i (hydrate_item products (mapSaleItem (saleItemRow sale_final_price id i))).
Proof.
  unfold line_preserved, hydrate_item, mapSaleItem, saleItemRow, sale_final_price,
    list_price, effective_price, Number, num. simpl.
  destruct (item_type i) eqn:Hty; simpl.
  - destruct (list_find _ products) as [[k p]|]; simpl;
      destruct (item_finalPrice i); simpl; rewrite ?Hty; repeat split; try done;
      unfold list_price, num; by rewrite Hty.
  - rewrite ?Hty. repeat split; try done; unfold list_price, num; by rewrite Hty.
Qed.

Lemma Forall2_map_r_diag {A B} (R : A -> B -> Prop) (f : A -> B) l :
  (forall x, x ∈ l -> R x (f x)) -> Forall2 R l (map f l).
Proof.
  induction l as [|x l IH]; intros H; simpl; constructor.
  - apply H. by left.
  - apply IH. intros y Hy. apply H. by right.
Qed.

Lemma restored_products numeric data db :
  NoDup (map prod_id (products data)) ->
  Forall2 product_preserved (products data)
          (getProducts (api_clearAndRestoreData numeric data db)).
Proof.
  intros Hnd. unfold getProducts. simpl. rewrite map_map.
  apply Forall2_map_r_diag. intros p Hp.
  unfold product_preserved, mapProduct. simpl.
  do 3 (split; [done|]). split; [|done].
  rewrite (filter_flat_map_unique prod_id
             (fun p => map (batchRow (prod_id p)) (prod_batches p)) br_product_id)
    by (done || by intros a b (? & -> & _)%list_elem_of_fmap).
  rewrite map_map. rewrite (map_ext _ id) by (intros; apply mapBatch_batchRow).
  apply map_id.
Qed.

(** A list in ascending order of the key is left as it is. *)
Lemma sortBy_sorted_id {A} (key : A -> Z) l :
  StronglySorted (fun a b => (key a <= key b)%Z) l -> sortBy key l = l.
Proof.
  induction 1 as [|x l Hl IH Hx]; [done|]. simpl. rewrite IH.
  destruct l as [|y l]; [done|]. simpl.
  apply Forall_cons in Hx as [Hxy _]. by rewrite (proj2 (Z.leb_le _ _) Hxy).
Qed.

Lemma restored_sale numeric data db i :
  NoDup (map inv_id (saleInvoices data)) -> i ∈ saleInvoices data ->
  let d := api_clearAndRestoreData numeric data db in
  sale_preserved i
    (hydrate_invoice (getProducts d)
       (mapSaleInvoice (t_sale_invoice_items d) (saleInvoiceRow (inv_type i) i))).
Proof.
  intros Hnd Hi d.
  unfold sale_preserved, hydrate_invoice, mapSaleInvoice. simpl.
  do 9 (split; [done|]).
  rewrite (filter_flat_map_unique inv_id
             (fun inv => map (saleItemRow sale_final_price (inv_id inv)) (inv_items inv))
             sit_invoice_id)
    by (done || by intros a b (? & -> & _)%list_elem_of_fmap).
  rewrite !map_map. apply Forall2_map_r_diag. intros l _. apply line_roundtrip.
Qed.

Lemma restored_sales numeric data db :
  NoDup (map inv_id (saleInvoices data)) ->
  let d := api_clearAndRestoreData numeric data db in
  let loaded := map (hydrate_invoice (getProducts d)) (getSaleInvoices d) in
  (exists l, loaded ≡ₚ l /\ Forall2 sale_preserved (saleInvoices data) l) /\
  StronglySorted (fun a b => (inv_timestamp b <= inv_timestamp a)%Z) loaded /\
  (StronglySorted (fun a b => (inv_timestamp b < inv_timestamp a)%Z) (saleInvoices data) ->
   Forall2 sale_preserved (saleInvoices data) loaded).
Proof.
  intros Hnd d loaded. subst loaded. unfold getSaleInvoices, newest_first.
  set (read := fun r => hydrate_invoice (getProducts d)
                          (mapSaleInvoice (t_sale_invoice_items d) r)).
  set (rows := map (fun i => saleInvoiceRow (inv_type i) i) (saleInvoices data)).
  assert (t_sale_invoices d = rows) as -> by done.
  rewrite map_map. change (map ?f ?l) with (f <$> l). fold read.
  assert (Forall2 sale_preserved (saleInvoices data) (read <$> rows)) as Hall.
  { subst rows. change (map ?f ?l) with (f <$> l). rewrite <- list_fmap_compose.
    apply Forall2_map_r_diag. intros i Hi. by apply restored_sale. }
  split; [|split].
  - exists (read <$> rows). split; [|done].
    apply fmap_Permutation, sortBy_perm.
  - apply (StronglySorted_fmap _
             (fun a b => (- si_timestamp a <= - si_timestamp b)%Z)).
    + intros a b Hab. simpl. lia.
    + apply sortBy_sorted.
  - intros Hsorted. rewrite sortBy_sorted_id; [done|].
    subst rows. change (map ?f ?l) with (f <$> l).
    apply (StronglySorted_fmap _
             (fun a b => (inv_timestamp b < inv_timestamp a)%Z)); [|done].
    intros a b Hab. simpl. lia.
Qed.

Lemma restored_purchases numeric data db :
  NoDup (map pinv_id (purchaseInvoices data)) ->
  let loaded := getPurchaseInvoices (api_clearAndRestoreData numeric data db) in
  (exists l, loaded ≡ₚ l /\ Forall2 purchase_preserved (purchaseInvoices data) l) /\
  StronglySorted (fun a b => (pinv_timestamp b <= pinv_timestamp a)%Z) loaded /\
  (StronglySorted (fun a b => (pinv_timestamp b < pinv_timestamp a)%Z)
                  (purchaseInvoices data) ->
   Forall2 purchase_preserved (purchaseInvoices data) loaded).
Proof.
  intros Hnd loaded. subst loaded. unfold getPurchaseInvoices, newest_first.
  set (d := api_clearAndRestoreData numeric data db).
  set (read := mapPurchaseInvoice (t_purchase_invoice_items d)).
  set (rows := map (fun i => purchaseInvoiceRow (pinv_type i) (pinv_currency i)
                               (pinv_exchangeRate i) i) (purchaseInvoices data)).
  assert (t_purchase_invoices d = rows) as -> by done.
  change (map ?f ?l) with (f <$> l).
  assert (Forall2 purchase_preserved (purchaseInvoices data) (read <$> rows)) as Hall.
  { subst rows. change (map ?f ?l) with (f <$> l). rewrite <- list_fmap_compose.
    apply Forall2_map_r_diag. intros i Hi.
    unfold purchase_preserved, read, mapPurchaseInvoice. simpl.
    do 5 (split; [done|]). split; [|done].
    rewrite (filter_flat_map_unique pinv_id
               (fun inv => map (purchaseItemRow (pinv_id inv)) (pinv_items inv))
               pit_invoice_id)
      by (done || by intros a b (? & -> & _)%list_elem_of_fmap).
    rewrite map_map. rewrite (map_ext _ id) by (intros; apply mapPurchaseItem_row).
    apply map_id. }
  split; [|split].
  - exists (read <$> rows). split; [|done].
    apply fmap_Permutation, sortBy_perm.
  - apply (StronglySorted_fmap _
             (fun a b => (- pir_timestamp a <= - pir_timestamp b)%Z)).
    + intros a b Hab. simpl. lia.
    + apply sortBy_sorted.
  - intros Hsorted. rewrite sortBy_sorted_id; [done|].
    subst rows. change (map ?f ?l) with (f <$> l).
    apply (StronglySorted_fmap _
             (fun a b => (pinv_timestamp b < pinv_timestamp a)%Z)); [|done].
    intros a b Hab. simpl. lia.
Qed.

(** The ledgers written column by column and read back. *)
Lemma restored_ledgers numeric data db :
  let d := api_clearAndRestoreData numeric data db in
  getCustomerTransactions d = customerTransactions data /\
  getPayrollTransactions d = payrollTransactions data /\
  Forall2 supplier_tx_preserved (supplierTransactions data) (getSupplierTransactions d).
Proof.
  intros d. unfold getCustomerTransactions, getPayrollTransactions,
    getSupplierTransactions. simpl. rewrite !map_map.
  split; [|split].
  - rewrite <- (map_id (customerTransactions data)) at 2.
    apply map_ext. by intros [].
  - rewrite <- (map_id (payrollTransactions data)) at 2.
    apply map_ext. by intros [].
  - by apply Forall2_map_r_diag.
Qed.

(** C9 as it is stated does not hold: after a till has saved the example
    sale, its state holds the invoice with the line as it was in the cart
    (no [price], no [finalPrice]); the restored database gives the line
    back with both filled in, so the invoice of the state after the import
    is not the exported one. *)
Lemma restore_not_identical_counterexample :
  ~ (forall env data prev db toasts,
       env_online env = true -> is_Some (t_store_settings db) ->
       NoDup (map prod_id (products data)) ->
       NoDup (map inv_id (saleInvoices data)) ->
       forall i, i ∈ saleInvoices data ->
         i ∈ saleInvoices
               (w_state (importData env true (exportData data)
                                    (mkWorld prev db toasts)))).
Proof.
  intros H.
  assert (Hnd1 : NoDup (map prod_id (products state_after_example_sale))).
  { apply (bool_decide_unpack _). vm_compute. reflexivity. }
  assert (Hnd2 : NoDup (map inv_id (saleInvoices state_after_example_sale))).
  { apply (bool_decide_unpack _). vm_compute. reflexivity. }
  assert (Hs : exists i, saleInvoices state_after_example_sale = [i] /\
                         map item_price (inv_items i) = [None]).
  { eexists. split; reflexivity. }
  destruct Hs as (i & Hs & Hprice).
  assert (Hin : i ∈ saleInvoices state_after_example_sale).
  { rewrite Hs. by left. }
  apply (H online_env state_after_example_sale state_after_example_sale empty_db []
           eq_refl (mk_is_Some _ _ eq_refl) Hnd1 Hnd2) in Hin.
  assert (Hloaded :
    Forall (fun i => Forall (fun l => is_Some (item_price l)) (inv_items i))
           (saleInvoices
              (w_state (importData online_env true (exportData state_after_example_sale)
                          (mkWorld state_after_example_sale empty_db []))))).
  { vm_compute. repeat constructor. by eexists. }
  pose proof (proj1 (Forall_forall _ _) Hloaded i Hin) as Hi. cbv beta in Hi.
  destruct (inv_items i) as [|l ls]; [discriminate Hprice|].
  apply Forall_cons in Hi as [[q Hq] _]. simpl in Hprice. congruence.
Qed.

Lemma product_preserved_normal p p' :
  product_preserved p p' ->
  (exists n, prod_itemsPerPackage p = Some n /\ n <> 0%Z) -> p' = p.
Proof.
  intros (H1 & H2 & H3 & H4 & H5 & H6 & H7) (n & Hn & Hn0).
  destruct p, p'. simpl in *. subst.
  unfold itemsPerPackage_or_1. by rewrite (proj2 (Z.eqb_neq n 0) Hn0).
Qed.

(** C9, amended.  A backup is imported online into a database that holds
    the settings row, and the wipe leaves that row in place.  For a backup
    whose products, sale invoices and purchase invoices have distinct ids,
    the state after the import has: the settings of the backup; every
    product with its batches (a missing or zero pack size read as 1; the
    products are identical when they have one); every purchase invoice
    with its items (a missing currency read as AFN, a missing or zero rate
    as 1); the customer and payroll transactions as exported and the
    supplier transactions with a missing currency read as AFN; and every
    sale invoice with the header as exported and, line by line, the same
    item, quantity, list price, effective price and unit cost.  The
    invoices are listed newest first, and in the order of the backup when
    the backup lists them newest first with different dates.  The line
    objects themselves are rebuilt by the loader and need not equal the
    exported ones.  When the wipe deletes the settings row, the tables are
    restored all the same but the reload fails and the state stays as it
    was. *)
Theorem restore_preserves_entities env data prev db toasts :
  env_online env = true ->
  is_Some (t_store_settings db) ->
  NoDup (map prod_id (products data)) ->
  NoDup (map inv_id (saleInvoices data)) ->
  NoDup (map pinv_id (purchaseInvoices data)) ->
  let w := importData env true (exportData data) (mkWorld prev db toasts) in
  let s := w_state w in
  storeSettings s = storeSettings data /\
  (* products and batches *)
  Forall2 product_preserved (products data) (products s) /\
  (Forall (fun p => exists n, prod_itemsPerPackage p = Some n /\ n <> 0%Z)
          (products data) ->
   products s = products data) /\
  (* sale invoices *)
  (exists loaded, saleInvoices s ≡ₚ loaded /\
     Forall2 sale_preserved (saleInvoices data) loaded) /\
  listed_newest_first inv_timestamp (saleInvoices s) /\
  (listed_strictly_newest_first inv_timestamp (saleInvoices data) ->
   Forall2 sale_preserved (saleInvoices data) (saleInvoices s)) /\
  (* purchase invoices *)
  (exists loaded, purchaseInvoices s ≡ₚ loaded /\
     Forall2 purchase_preserved (purchaseInvoices data) loaded) /\
  listed_newest_first pinv_timestamp (purchaseInvoices s) /\
  (listed_strictly_newest_first pinv_timestamp (purchaseInvoices data) ->
   Forall2 purchase_preserved (purchaseInvoices data) (purchaseInvoices s)) /\
  (* ledgers *)
  customerTransactions s = customerTransactions data /\
  payrollTransactions s = payrollTransactions data /\
  Forall2 supplier_tx_preserved (supplierTransactions data) (supplierTransactions s) /\
  (* the settings row deleted by the wipe *)
  (let w' := importData env false (exportData data) (mkWorld prev db toasts) in
   w_state w' = prev /\ MsgFetchFailed ∈ w_toasts w' /\
   getCustomerTransactions (w_db w') = customerTransactions data).
Proof.
  intros Honline [settings Hsettings] Hp Hs Hu w s.
  subst s w. unfold importData, exportData. rewrite Honline. simpl.
  set (d := api_clearAndRestoreData true data db).
  assert (t_store_settings d = Some (storeSettings data)) as Hd.
  { subst d. simpl. by rewrite Hsettings. }
  unfold fetchData at 1 2 3 4 5 6 7 8 9 10 11 12. rewrite Hd. simpl.
  pose proof (restored_products true data db Hp) as Hprod. fold d in Hprod.
  destruct (restored_sales true data db Hs) as (Hs1 & Hs2 & Hs3).
  destruct (restored_purchases true data db Hu) as (Hu1 & Hu2 & Hu3).
  destruct (restored_ledgers true data db) as (Hl1 & Hl2 & Hl3).
  fold d in Hs1, Hs2, Hs3, Hu1, Hu2, Hu3, Hl1, Hl2, Hl3.
  split; [done|]. split; [done|]. split.
  { intros Hnormal. revert Hprod Hnormal.
    generalize (getProducts d) (products data). clear.
    intros l k H. induction H as [|p p' k l Hpp _ IH]; [done|].
    intros [Hn Hk]%Forall_cons. f_equal; [|by apply IH].
    by apply (product_preserved_normal p). }
  do 9 (split; [done|]).
  destruct (restored_ledgers false data db) as (Hl1' & _).
  unfold fetchData. simpl. split; [done|]. split; [|done].
  apply elem_of_app. right. apply elem_of_cons. right. apply elem_of_cons. by left.
Qed.

Lemma restore_preserves_entities_witness :
  let w := importData online_env true (exportData state_after_example_sale)
                      (mkWorld state_after_example_sale empty_db []) in
  products (w_state w) = products state_after_example_sale /\
  map (fun i => (inv_id i, inv_totalAmount i,
                 map (fun l => (item_id l, item_quantity l, effective_price l))
                     (inv_items i)))
      (saleInvoices (w_state w))
    = map (fun i => (inv_id i, inv_totalAmount i,
                     map (fun l => (item_id l, item_quantity l, effective_price l))
                         (inv_items i)))
          (saleInvoices state_after_example_sale) /\
  Forall2 sale_preserved (saleInvoices state_after_example_sale)
          (saleInvoices (w_state w)).
Proof.
  intros w.
  destruct (restore_preserves_entities online_env state_after_example_sale
              state_after_example_sale empty_db [] eq_refl)
    as (_ & _ & Hsame & _ & _ & Horder & _).
  - by eexists.
  - apply (bool_decide_unpack _). vm_compute. reflexivity.
  - apply (bool_decide_unpack _). vm_compute. reflexivity.
  - apply (bool_decide_unpack _). vm_compute. reflexivity.
  - split; [|split].
    + apply Hsame. vm_compute. repeat constructor.
      exists 1%Z. split; [reflexivity|]. intros H; discriminate H.
    + reflexivity.
    + apply Horder. vm_compute. repeat constructor.
Defined.

(** ** C3: the paths that do keep the stock non-negative *)

Lemma taken_le_stock ord (bs : list ProductBatch) q i b :
  NoDup ord.*1 ->
  Forall (fun ib => bs !! ib.1 = Some ib.2 /\ (0 < batch_stock ib.2)%Z) ord ->
  (0 <= q)%Z -> bs !! i = Some b -> (0 <= batch_stock b)%Z ->
  (taken (fifo_takes q ord) i <= batch_stock b)%Z.
Proof.
  revert q. induction ord as [|[i0 b0] ord IH]; intros q Hnd Hord Hq Hb Hnn.
  - done.
  - rewrite fmap_cons in Hnd. apply NoDup_cons in Hnd as [Hni Hnd].
    apply Forall_cons in Hord as [[Hb0 Hpos] Hord]. simpl in *.
    rewrite taken_cons. destruct (decide (i0 = i)) as [->|Hne].
    + rewrite taken_not_elem by (by rewrite fifo_takes_fst).
      assert (b0 = b) as -> by congruence. lia.
    + apply IH; [done|done|lia|done|done].
Qed.

Lemma fifo_batches_nonneg bs q :
  (0 <= q)%Z ->
  Forall (fun b => (0 <= batch_stock b)%Z) bs ->
  Forall (fun b => (0 <= batch_stock b)%Z)
         (fifo_batches bs (fifo_takes q (fifo_order bs))).
Proof.
  intros Hq Hbs. apply Forall_lookup. intros i b'. unfold fifo_batches.
  rewrite list_lookup_imap. destruct (bs !! i) as [b|] eqn:Hb; [|done].
  simpl. intros [= <-]. simpl.
  pose proof (proj1 (Forall_lookup _ _) Hbs i b Hb) as Hnn. simpl in Hnn.
  pose proof (taken_le_stock (fifo_order bs) bs q i b (fifo_order_NoDup bs)
                (fifo_order_lookup bs) Hq Hb Hnn). lia.
Qed.

(** Whatever the cart, the products computed by the loop of
    [completeSale] have no negative stock when the products of the state
    have none, and no stock update sent to the adapter is negative. *)
Lemma prepareLines_nonneg cart ups su items ups' su' items' :
  batches_nonneg ups ->
  Forall (fun u => (0 <= su_newStock u)%Z) su ->
  prepareLines cart ups su items = inr (ups', su', items') ->
  batches_nonneg ups' /\ Forall (fun u => (0 <= su_newStock u)%Z) su'.
Proof.
  revert ups su items. induction cart as [|item cart IH]; intros ups su items Hnn Hsu.
  - simpl. by intros [= <- <- <-].
  - simpl. destruct (item_type item).
    + destruct (list_find _ ups) as [[k p]|] eqn:Hf; [|done].
      apply list_find_Some in Hf as (Hk & _ & _).
      pose proof (proj1 (Forall_lookup _ _) Hnn k p Hk) as Hp. simpl in Hp.
      destruct (Z_le_gt_dec 0 (item_quantity item)) as [Hq|Hq].
      * destruct (deduct_line (prod_batches p) (item_quantity item) su Hq)
          as (su1 & tot & -> & _ & Hsu1).
        destruct (0 <? _)%Z; [done|]. apply IH.
        -- apply Forall_insert; [done|]. simpl. by apply fifo_batches_nonneg.
        -- by apply Forall_app.
      * rewrite deductLoop_nonpos by lia.
        destruct (0 <? _)%Z; [done|]. apply IH; [|done].
        apply Forall_insert; [done|]. done.
    + by apply IH.
Qed.

Lemma set_stock_by_id_nonneg id s rows :
  (0 <= s)%Z -> rows_nonneg rows -> rows_nonneg (set_stock_by_id id s rows).
Proof.
  intros Hs Hrows. unfold rows_nonneg, set_stock_by_id, update_where.
  change (map ?f ?l) with (f <$> l). apply Forall_fmap.
  eapply Forall_impl; [exact Hrows|]. intros r Hr. simpl.
  by destruct (bool_decide _).
Qed.

(** [api.createSale] writes the new stocks it is given. *)
Lemma createSale_nonneg i su cu d :
  Forall (fun u => (0 <= su_newStock u)%Z) su ->
  rows_nonneg (t_product_batches d) ->
  rows_nonneg (t_product_batches (api_createSale i su cu d)).
Proof.
  intros Hsu Hrows. unfold api_createSale.
  assert (H : rows_nonneg
    (fold_left (fun t u => set_stock_by_id (su_batchId u) (su_newStock u) t)
               su (t_product_batches d))).
  { revert Hrows. generalize (t_product_batches d).
    induction Hsu as [|u su Hu _ IH]; intros rows Hrows; [done|].
    simpl. apply IH. by apply set_stock_by_id_nonneg. }
  by destruct cu.
Qed.

(** A purchase return never leaves a negative stock: [Math.max(0, ...)]. *)
Lemma createPurchaseReturn_nonneg env i ds rf d :
  rows_nonneg (t_product_batches d) ->
  rows_nonneg (t_product_batches (api_createPurchaseReturn env i ds rf d)).
Proof.
  intros Hrows. unfold api_createPurchaseReturn.
  assert (H : rows_nonneg (fold_left return_from_lot ds (t_product_batches d))).
  { revert Hrows. generalize (t_product_batches d).
    induction ds as [|x ds IH]; intros rows Hrows; [done|].
    simpl. apply IH. unfold return_from_lot.
    destruct (list_find _ rows) as [[k b]|]; [|done].
    apply set_stock_by_id_nonneg; [lia|done]. }
  destruct rf as [rf|]; [destruct (single _)|]; done.
Qed.

(** A sale return and a purchase posting add the quantities they are
    given: the stock stays non-negative when these are not negative. *)
Lemma createSaleReturn_nonneg env i rs rf d :
  Forall (fun r => (0 <= sr_quantity r)%Z) rs ->
  rows_nonneg (t_product_batches d) ->
  rows_nonneg (t_product_batches (api_createSaleReturn env i rs rf d)).
Proof.
  intros Hrs Hrows. unfold api_createSaleReturn.
  assert (H : rows_nonneg (fold_left restore_to_first_batch rs (t_product_batches d))).
  { revert Hrows. generalize (t_product_batches d).
    induction Hrs as [|x rs Hx _ IH]; intros rows Hrows; [done|].
    simpl. apply IH. unfold restore_to_first_batch.
    destruct (list_find _ rows) as [[k b]|] eqn:Hf; [|done].
    apply list_find_Some in Hf as (Hk & _ & _).
    pose proof (proj1 (Forall_lookup _ _) Hrows k b Hk) as Hb. simpl in Hb.
    apply set_stock_by_id_nonneg; [lia|done]. }
  destruct rf as [rf|]; [destruct (single _)|]; done.
Qed.

Lemma createPurchase_nonneg i su nb d :
  Forall (fun b => (0 <= nb_stock b)%Z) nb ->
  rows_nonneg (t_product_batches d) ->
  rows_nonneg (t_product_batches (api_createPurchase i su nb d)).
Proof.
  intros Hnb Hrows. unfold api_createPurchase. simpl.
  apply Forall_app. split; [done|].
  change (map ?f ?l) with (f <$> l). apply Forall_fmap.
  eapply Forall_impl; [exact Hnb|]. by intros b Hb.
Qed.

(* ================================================================== *)
(** * Properties of the further code *)
(* ================================================================== *)

(** ** Packs and units *)

(** X1.  Splitting a stock count that is not negative into packs and
    units and putting the two together again gives the count back; neither
    part is negative and, with a pack size above one, the units stay below
    the pack size.  For a negative count that is no multiple of the pack
    size the two parts add up to the count minus one pack. *)
Theorem packs_and_units_roundtrip totalStock itemsPerPackage :
  let pu := parseToPackageAndUnits totalStock itemsPerPackage in
  ((0 <= totalStock)%Z ->
     parseToTotalUnits (packages pu) (units pu) itemsPerPackage = totalStock /\
     (0 <= packages pu)%Z /\ (0 <= units pu)%Z /\
     ((1 < itemsPerPackage)%Z -> (units pu < itemsPerPackage)%Z)) /\
  ((totalStock < 0)%Z -> (1 < itemsPerPackage)%Z ->
     Z.rem totalStock itemsPerPackage <> 0%Z ->
     parseToTotalUnits (packages pu) (units pu) itemsPerPackage
       = (totalStock - itemsPerPackage)%Z).
Proof.
  unfold parseToPackageAndUnits, parseToTotalUnits.
  destruct (Z.leb_spec itemsPerPackage 1) as [Hle|Hlt]; simpl.
  - split; [intros; repeat split; lia|lia].
  - split.
    + intros Hnn. rewrite Z.rem_mod_nonneg by lia.
      pose proof (Z.div_mod totalStock itemsPerPackage ltac:(lia)).
      pose proof (Z.mod_pos_bound totalStock itemsPerPackage ltac:(lia)).
      pose proof (Z.div_pos totalStock itemsPerPackage Hnn ltac:(lia)).
      repeat split; lia.
    + intros Hneg _ Hrem.
      pose proof (Z.quot_rem' totalStock itemsPerPackage) as Hq.
      pose proof (Z.rem_nonpos totalStock itemsPerPackage ltac:(lia) ltac:(lia)).
      pose proof (Z.rem_bound_abs totalStock itemsPerPackage ltac:(lia)).
      rewrite <- (Z.div_unique_pos totalStock itemsPerPackage
                    (Z.quot totalStock itemsPerPackage - 1)
                    (Z.rem totalStock itemsPerPackage + itemsPerPackage)) by lia.
      lia.
Qed.

Lemma packs_and_units_roundtrip_witness :
  parseToTotalUnits 3 5 12 = 41%Z /\
  parseToPackageAndUnits 41 12 = mkPackageUnits 3 5 /\
  parseToTotalUnits (-3) (-1) 3 = (-7 - 3)%Z.
Proof.
  pose proof (packs_and_units_roundtrip 41 12) as [H1 _].
  pose proof (packs_and_units_roundtrip (-7) 3) as [_ H2].
  split; [exact (proj1 (H1 ltac:(lia)))|]. split; [reflexivity|].
  apply H2; [lia|lia|discriminate].
Defined.

(** The two parts of a count that is not negative. *)
Lemma parseToPackageAndUnits_spec t ipp :
  (0 <= t)%Z -> (1 < ipp)%Z ->
  (t / ipp * ipp + Z.rem t ipp = t)%Z /\ (0 <= t / ipp)%Z /\
  (0 <= Z.rem t ipp < ipp)%Z.
Proof.
  intros Ht Hipp. rewrite Z.rem_mod_nonneg by lia.
  pose proof (Z.div_mod t ipp ltac:(lia)).
  pose proof (Z.mod_pos_bound t ipp ltac:(lia)).
  pose proof (Z.div_pos t ipp Ht ltac:(lia)). lia.
Qed.

(** X2.  The label of a stock count that is not negative says the count:
    the plain number when the product has no pack size above one, else
    the packs and the units left over, with a part that is zero left out
    (a count of zero reads as zero units). *)
Theorem stock_label_says_the_count totalStock itemsPerPackage :
  (0 <= totalStock)%Z ->
  match formatStockToPackagesAndUnits totalStock itemsPerPackage with
  | LabelNumber n =>
      n = totalStock /\
      (itemsPerPackage = None \/ exists ipp, itemsPerPackage = Some ipp /\ (ipp <= 1)%Z)
  | LabelPackagesAndUnits p u =>
      exists ipp, itemsPerPackage = Some ipp /\ (1 < ipp)%Z /\
        (p * ipp + u = totalStock)%Z /\ (0 < p)%Z /\ (0 < u < ipp)%Z
  | LabelPackages p =>
      exists ipp, itemsPerPackage = Some ipp /\ (1 < ipp)%Z /\
        (p * ipp = totalStock)%Z /\ (0 < p)%Z
  | LabelUnits u =>
      exists ipp, itemsPerPackage = Some ipp /\ (1 < ipp)%Z /\
        u = totalStock /\ (0 <= u < ipp)%Z
  end.
Proof.
  intros Ht. unfold formatStockToPackagesAndUnits.
  destruct itemsPerPackage as [ipp|]; [|by split; [|left]].
  destruct (Z.leb_spec ipp 1) as [Hle|Hlt].
  { split; [done|]. right. by exists ipp. }
  destruct (parseToPackageAndUnits_spec totalStock ipp Ht Hlt) as (Hsum & Hp & Hu).
  destruct (Z.ltb_spec 0 (totalStock / ipp)) as [Hp0|Hp0]; simpl.
  - destruct (Z.ltb_spec 0 (Z.rem totalStock ipp)) as [Hu0|Hu0]; simpl.
    + exists ipp. repeat split; [done|lia..].
    + exists ipp. repeat split; [done|lia..].
  - exists ipp. repeat split; [done|lia..].
Qed.

Lemma stock_label_says_the_count_witness :
  formatStockToPackagesAndUnits 41 (Some 12%Z) = LabelPackagesAndUnits 3 5 /\
  exists ipp, Some 12%Z = Some ipp /\ (1 < ipp)%Z /\
    (3 * ipp + 5 = 41)%Z /\ (0 < 3)%Z /\ (0 < 5 < ipp)%Z.
Proof.
  split; [reflexivity|].
  exact (stock_label_says_the_count 41 (Some 12%Z) ltac:(lia)).
Defined.

(** X3.  The steppers of the pack and unit input, on a shown count that is
    not negative: every event reports a total that is not negative and
    shows it again split into packs and units.  A step up adds one unit
    or one pack; a step down takes one away, except that a step down of
    the units at zero units, or of the packs at zero packs, changes
    nothing (the units do not borrow from the packs); a typed value
    replaces its part.  The pack stepper exists for a pack size above one
    only. *)
Theorem stepper_total itemsPerPackage shownTotal e :
  (0 <= shownTotal)%Z ->
  match e with
  | IncrementPackages | DecrementPackages | TypePackages _ => (1 < itemsPerPackage)%Z
  | _ => True
  end ->
  let shown := parseToPackageAndUnits shownTotal itemsPerPackage in
  let r := stepper itemsPerPackage shown e in
  r.1 = parseToPackageAndUnits r.2 itemsPerPackage /\
  (0 <= r.2)%Z /\
  r.2 = match e with
        | IncrementPackages => (shownTotal + itemsPerPackage)%Z
        | DecrementPackages =>
            if (packages shown =? 0)%Z then shownTotal
            else (shownTotal - itemsPerPackage)%Z
        | IncrementUnits => (shownTotal + 1)%Z
        | DecrementUnits =>
            if (units shown =? 0)%Z then shownTotal else (shownTotal - 1)%Z
        | TypePackages value => (Z.of_N value * itemsPerPackage + units shown)%Z
        | TypeUnits value => (packages shown * itemsPerPackage + Z.of_N value)%Z
        end.
Proof.
  intros Ht Hmode shown r. subst r shown.
  split; [by destruct e|].
  unfold stepper, processChange, parseToTotalUnits, parseToPackageAndUnits.
  destruct (Z.leb_spec itemsPerPackage 1) as [Hle|Hlt]; simpl.
  - destruct e; simpl in *; try lia.
    split; [lia|]. destruct (Z.eqb_spec shownTotal 0); lia.
  - destruct (parseToPackageAndUnits_spec shownTotal itemsPerPackage Ht Hlt)
      as (Hsum & Hp & Hu).
    destruct e; simpl.
    + split; [nia|lia].
    + destruct (Z.eqb_spec (shownTotal / itemsPerPackage) 0) as [H0|H0].
      * rewrite H0 in *. split; lia.
      * split; [nia|nia].
    + split; lia.
    + destruct (Z.eqb_spec (Z.rem shownTotal itemsPerPackage) 0) as [H0|H0].
      * rewrite H0 in *. split; lia.
      * split; lia.
    + split; [nia|lia].
    + split; [nia|lia].
Qed.

Lemma stepper_total_witness :
  stepper 12 (parseToPackageAndUnits 24 12) DecrementUnits
    = (mkPackageUnits 2 0, 24%Z) /\
  stepper 12 (parseToPackageAndUnits 24 12) DecrementPackages
    = (mkPackageUnits 1 0, 12%Z).
Proof.
  pose proof (stepper_total 12 24 DecrementUnits ltac:(lia) I) as (H1 & _ & H2).
  pose proof (stepper_total 12 24 DecrementPackages ltac:(lia) ltac:(simpl; lia))
    as (H3 & _ & H4).
  split; apply injective_projections.
  - rewrite H1, H2. reflexivity.
  - exact H2.
  - rewrite H3, H4. reflexivity.
  - exact H4.
Defined.

(** ** The Jalali calendar *)

Lemma all_between_spec first count P x :
  all_between first count P = true ->
  (first <= x < first + count)%Z -> P x = true.
Proof.
  unfold all_between. rewrite forallb_forall. intros H Hx.
  apply H, list_elem_of_In, elem_of_seqZ. lia.
Qed.

(** X4.  For every date of the Gregorian years 1900 to 2100, [toJalali]
    answers a month from 1 to 12 and a day from 1 to 31, and
    [toGregorian] of the answer is the date again, unless the answer is
    the first day of a Jalali year or the date is a first of January. *)
Theorem toJalali_there_and_back gy gm gd :
  (1900 <= gy <= 2100)%Z ->
  valid_gregorian gy gm gd = true ->
  exists jy jm jd,
    toJalali gy gm gd = Some (jy, jm, jd) /\
    (1 <= jm <= 12)%Z /\ (1 <= jd <= 31)%Z /\
    (~ (jm = 1 /\ jd = 1)%Z -> ~ (gm = 1 /\ gd = 1)%Z ->
     toGregorian jy jm jd = (gy, gm, gd)).
Proof.
  intros Hy Hvalid.
  assert (all_between 1900 201 (fun gy =>
            all_between 1 12 (fun gm =>
              all_between 1 31 (fun gd =>
                negb (valid_gregorian gy gm gd) || there_and_back gy gm gd)))
          = true) as Hall by (vm_compute; reflexivity).
  pose proof Hvalid as Hv. unfold valid_gregorian in Hv.
  assert (gregorian_month_length gy gm <= 31)%Z as Hlen.
  { unfold gregorian_month_length. repeat case_bool_decide; try case_match; lia. }
  apply andb_prop in Hv as [Hv Hd2]. apply andb_prop in Hv as [Hv Hd1].
  apply andb_prop in Hv as [Hm1 Hm2].
  apply Z.leb_le in Hm1, Hm2, Hd1, Hd2.
  pose proof (all_between_spec _ _ _ gy Hall ltac:(lia)) as H1. cbv beta in H1.
  pose proof (all_between_spec _ _ _ gm H1 ltac:(lia)) as H2. cbv beta in H2.
  pose proof (all_between_spec _ _ _ gd H2 ltac:(lia)) as H3. cbv beta in H3.
  rewrite Hvalid in H3. cbn [negb orb] in H3. unfold there_and_back in H3.
  destruct (toJalali gy gm gd) as [[[jy jm] jd]|]; [|discriminate].
  clear Hall H1 H2. exists jy, jm, jd. split; [reflexivity|].
  apply andb_prop in H3 as [H3 Hor]. apply andb_prop in H3 as [H3 Hj4].
  apply andb_prop in H3 as [H3 Hj3]. apply andb_prop in H3 as [Hj1 Hj2].
  apply Z.leb_le in Hj1, Hj2, Hj3, Hj4.
  split; [lia|]. split; [lia|]. intros Hj Hg.
  apply orb_prop in Hor as [Hor|Hor]; [apply orb_prop in Hor as [Hor|Hor]|].
  - apply bool_decide_eq_true in Hor. contradiction.
  - apply bool_decide_eq_true in Hor. contradiction.
  - apply bool_decide_eq_true in Hor. exact Hor.
Qed.

Lemma toJalali_there_and_back_witness :
  exists jy jm jd,
    toJalali 2024 3 19 = Some (jy, jm, jd) /\
    (1 <= jm <= 12)%Z /\ (1 <= jd <= 31)%Z /\
    (~ (jm = 1 /\ jd = 1)%Z -> ~ (3 = 1 /\ 19 = 1)%Z ->
     toGregorian jy jm jd = (2024, 3, 19)%Z).
Proof.
  apply (toJalali_there_and_back 2024 3 19); [lia|reflexivity].
Defined.

(** X5.  The first day of a Jalali year, taken to the Gregorian calendar
    and back: on the years 1279 to 1479 [toJalali] answers the first day
    of the same year, except on the years that open a block of four years
    of the 33-year cycle (1399, 1403, 1407, 1408, ...), where it answers
    the first day of the year before. *)
Theorem toJalali_new_year jy :
  (1279 <= jy <= 1479)%Z ->
  let '(gy, gm, gd) := toGregorian jy 1 1 in
  toJalali gy gm gd
    = Some (if opens_block jy then (jy - 1)%Z else jy, 1%Z, 1%Z).
Proof.
  intros Hy.
  assert (all_between 1279 201 new_year_read_back = true) as Hall
    by (vm_compute; reflexivity).
  pose proof (all_between_spec _ _ _ jy Hall ltac:(lia)) as H.
  unfold new_year_read_back in H.
  destruct (toGregorian jy 1 1) as [[gy gm] gd].
  by apply bool_decide_eq_true in H.
Qed.

Lemma toJalali_new_year_witness :
  toGregorian 1403 1 1 = (2024, 3, 20)%Z /\
  toJalali 2024 3 20 = Some (1402, 1, 1)%Z.
Proof.
  split; [reflexivity|].
  exact (toJalali_new_year 1403 ltac:(lia)).
Defined.

(** X6.  The first of January of a Gregorian year from 1901 to 2099, taken
    to the Jalali calendar and back: [toGregorian] answers the first of
    January of the same year, except on the years divisible by four, where
    it answers the first of January of the year before. *)
Theorem toGregorian_first_of_january gy :
  (1901 <= gy <= 2099)%Z ->
  exists jy jm jd,
    toJalali gy 1 1 = Some (jy, jm, jd) /\
    toGregorian jy jm jd
      = (if bool_decide (gy mod 4 = 0)%Z then (gy - 1)%Z else gy, 1%Z, 1%Z).
Proof.
  intros Hy.
  assert (all_between 1901 199 first_of_january_read_back = true) as Hall
    by (vm_compute; reflexivity).
  pose proof (all_between_spec _ _ _ gy Hall ltac:(lia)) as H.
  unfold first_of_january_read_back in H.
  destruct (toJalali gy 1 1) as [[[jy jm] jd]|]; [|discriminate].
  exists jy, jm, jd. split; [done|]. by apply bool_decide_eq_true in H.
Qed.

Lemma toGregorian_first_of_january_witness :
  exists jy jm jd,
    toJalali 2024 1 1 = Some (jy, jm, jd) /\
    toGregorian jy jm jd = (2023, 1, 1)%Z.
Proof.
  apply (toGregorian_first_of_january 2024). lia.
Defined.

(** X7.  A day past the end of a Jalali month of thirty days is read as
    a day of the next month: the thirty-first of a month from 7 to 11 is
    the first of the month after it. *)
Theorem toGregorian_day_31 jy jm :
  (7 <= jm <= 11)%Z ->
  toGregorian jy jm 31 = toGregorian jy (jm + 1) 1.
Proof.
  intros Hm. unfold toGregorian.
  destruct (Z.ltb_spec jm 7) as [?|_]; [lia|].
  destruct (Z.ltb_spec (jm + 1) 7) as [?|_]; [lia|].
  set (y := (jy - (if (jy <=? 979)%Z then 0 else 979))%Z).
  replace (365 * y + y / 33 * 8 + (Z.rem y 33 + 3) / 4 + 78 + 31
           + ((jm - 7) * 30 + 186))%Z
    with (365 * y + y / 33 * 8 + (Z.rem y 33 + 3) / 4 + 78 + 1
          + ((jm + 1 - 7) * 30 + 186))%Z by lia.
  reflexivity.
Qed.

Lemma toGregorian_day_31_witness :
  toGregorian 1403 7 31 = toGregorian 1403 8 1 /\
  toGregorian 1403 8 1 = (2024, 10, 22)%Z.
Proof.
  split; [apply (toGregorian_day_31 1403 7); lia|reflexivity].
Defined.

(** ** Amounts in words *)

Lemma digit_groups_two hi rest :
  (0 < hi < 1000)%N -> (rest < 1000)%N ->
  digit_groups 5 (hi * 1000 + rest) = [rest; hi].
Proof.
  intros Hhi Hrest.
  assert ((hi * 1000 + rest) mod 1000 = rest)%N as Hm.
  { rewrite N.add_comm, N.Div0.mod_add. by apply N.mod_small. }
  assert ((hi * 1000 + rest) / 1000 = hi)%N as Hd.
  { rewrite N.add_comm, N.div_add by done. by rewrite N.div_small. }
  cbn [digit_groups]. rewrite Hm, Hd.
  destruct (N.eqb_spec (hi * 1000 + rest) 0) as [?|_]; [lia|].
  destruct (N.eqb_spec hi 0) as [?|_]; [lia|].
  rewrite (N.mod_small hi 1000) by lia. rewrite (N.div_small hi 1000) by lia.
  reflexivity.
Qed.

(** X8.  [numberToPersianWords] writes four hundred with the word of
    fourteen (the table of the hundreds holds it at position 4): 400 and
    14 are given the same words, and so are 400 thousand and 14 thousand
    followed by any number below one thousand. *)
Theorem numberToPersianWords_four_hundred rest :
  (rest < 1000)%N ->
  numberToPersianWords (400 * 1000 + rest)
    = numberToPersianWords (14 * 1000 + rest) /\
  numberToPersianWords 400 = numberToPersianWords 14 /\
  numberToPersianWords 14 = Some "چهارده".
Proof.
  intros Hrest. split; [|by split].
  unfold numberToPersianWords.
  rewrite !digit_groups_two by lia.
  destruct (N.eqb_spec (400 * 1000 + rest) 0) as [?|_]; [lia|].
  destruct (N.eqb_spec (14 * 1000 + rest) 0) as [?|_]; [lia|].
  destruct (N.leb_spec 1000000000000000000000 (400 * 1000 + rest)) as [?|_]; [lia|].
  destruct (N.leb_spec 1000000000000000000000 (14 * 1000 + rest)) as [?|_]; [lia|].
  destruct (N.leb_spec 1000000000000000 (400 * 1000 + rest)) as [?|_]; [lia|].
  destruct (N.leb_spec 1000000000000000 (14 * 1000 + rest)) as [?|_]; [lia|].
  reflexivity.
Qed.

Lemma numberToPersianWords_four_hundred_witness :
  numberToPersianWords 400250 = numberToPersianWords 14250 /\
  numberToPersianWords 14250
    = Some "چهارده و هزار و دویست و پنجاه".
Proof.
  split; [|reflexivity].
  exact (proj1 (numberToPersianWords_four_hundred 250 ltac:(lia))).
Defined.

(** ** Sequential ids *)

Lemma strip_prefix_app p s : strip_prefix p (p +:+ s) = Some s.
Proof.
  induction p as [|a p IH]; [done|]. simpl.
  by rewrite bool_decide_eq_true_2.
Qed.

Lemma digit_of_pretty d : (d < 10)%N -> digit_of (pretty_N_char d) = Some d.
Proof.
  intros Hd.
  assert (d = 0 \/ d = 1 \/ d = 2 \/ d = 3 \/ d = 4 \/ d = 5 \/ d = 6 \/ d = 7
          \/ d = 8 \/ d = 9)%N as Hcases by lia.
  repeat (destruct Hcases as [->|Hcases]; [reflexivity|]). by subst.
Qed.

Lemma parse_digits_pretty_go x :
  exists m, forall s acc,
    parse_digits (pretty_N_go x s) acc = parse_digits s (acc * m + x)%N.
Proof.
  induction (N.lt_wf_0 x) as [x _ IH].
  destruct (decide (x = 0)%N) as [->|Hx].
  - exists 1%N. intros s acc. rewrite pretty_N_go_0. f_equal. lia.
  - destruct (IH (x / 10)%N) as [m Hm]; [apply N.div_lt; lia|].
    exists (10 * m)%N. intros s acc.
    rewrite pretty_N_go_step by lia. rewrite Hm. simpl.
    rewrite digit_of_pretty by (apply N.mod_lt; lia).
    f_equal. pose proof (N.div_mod x 10 ltac:(lia)). lia.
Qed.

Lemma pretty_N_go_length x s :
  (String.length s <= String.length (pretty_N_go x s))%nat.
Proof.
  revert s. induction (N.lt_wf_0 x) as [x _ IH]. intros s.
  destruct (decide (x = 0)%N) as [->|Hx]; [by rewrite pretty_N_go_0|].
  rewrite pretty_N_go_step by lia.
  etrans; [|apply IH, N.div_lt; lia]. simpl. lia.
Qed.

Lemma match_id_pretty prefix (n : N) : match_id prefix (prefix +:+ pretty n) = Some n.
Proof.
  unfold match_id. rewrite strip_prefix_app.
  unfold pretty, pretty_N. destruct (decide (n = 0)%N) as [->|Hn]; [done|].
  rewrite bool_decide_eq_false_2.
  - destruct (parse_digits_pretty_go n) as [m Hm]. by rewrite Hm.
  - intros Hempty. pose proof (pretty_N_go_length n "") as Hlen.
    rewrite pretty_N_go_step in Hlen, Hempty by lia.
    pose proof (pretty_N_go_length (n / 10)
                  (String (pretty_N_char (n mod 10)) "")) as Hlen'.
    rewrite Hempty in Hlen'. simpl in Hlen'. lia.
Qed.

(** The loop of [generateNextId]: the largest number below 10^11 among
    the ids of the form prefix-digits, or the start value. *)
Lemma generateNextId_max prefix ids max0 :
  let max := fold_left (fun max id =>
      match match_id prefix id with
      | Some n => if (n <? 100000000000)%N
                  then (if (max <? n)%N then n else max) else max
      | None => max
      end) ids max0 in
  (max0 <= max)%N /\
  (max = max0 \/ max < 100000000000)%N /\
  forall id n, id ∈ ids -> match_id prefix id = Some n ->
    (n < 100000000000)%N -> (n <= max)%N.
Proof.
  revert max0. induction ids as [|id ids IH]; intros max0; simpl.
  { split; [lia|]. split; [by left|]. intros ?? Hin. by apply elem_of_nil in Hin. }
  set (m1 := match match_id prefix id with
             | Some n => if (n <? 100000000000)%N
                         then (if (max0 <? n)%N then n else max0) else max0
             | None => max0
             end).
  destruct (IH m1) as (Hle & Hor & Hall).
  assert ((max0 <= m1)%N /\ (m1 = max0 \/ m1 < 100000000000)%N /\
          forall n, match_id prefix id = Some n -> (n < 100000000000)%N ->
                    (n <= m1)%N) as (H1 & H2 & H3).
  { subst m1. destruct (match_id prefix id) as [n|].
    - destruct (N.ltb_spec n 100000000000), (N.ltb_spec max0 n);
        repeat split; try lia; intros ? [= <-] ?; lia.
    - repeat split; try lia. intros ? [=]. }
  split; [lia|]. split; [lia|].
  intros id' n [->|Hin]%elem_of_cons Hm Hn.
  - specialize (H3 n Hm Hn). lia.
  - by eapply Hall.
Qed.

(** A value of the loop other than the start value is the number of
    some id. *)
Lemma generateNextId_max_used prefix ids max0 v :
  fold_left (fun max id =>
      match match_id prefix id with
      | Some n => if (n <? 100000000000)%N
                  then (if (max <? n)%N then n else max) else max
      | None => max
      end) ids max0 = v ->
  max0 = v \/ exists id, id ∈ ids /\ match_id prefix id = Some v.
Proof.
  revert max0. induction ids as [|id ids IH]; intros max0; simpl; [by left|].
  intros Hf. apply IH in Hf as [Hf|(id' & Hin & Hm)].
  - destruct (match_id prefix id) as [n|] eqn:Hn; [|by left].
    destruct (N.ltb_spec n 100000000000); [|by left].
    destruct (N.ltb_spec max0 n); [|by left].
    right. exists id. split; [apply elem_of_cons; by left|]. by subst.
  - right. exists id'. split; [apply elem_of_cons; by right|done].
Qed.

(** X9.  [generateNextId] answers the prefix followed by a number that is
    above every number below 10^11 used with the prefix; the id is new,
    provided the number 99999999999 is not in use. *)
Theorem generateNextId_fresh prefix ids :
  (forall id, id ∈ ids -> match_id prefix id <> Some 99999999999%N) ->
  (generateNextId prefix ids ∉ ids) /\
  exists n, generateNextId prefix ids = prefix +:+ pretty n /\
    (0 < n)%N /\
    forall id m, id ∈ ids -> match_id prefix id = Some m ->
      (m < 100000000000)%N -> (m < n)%N.
Proof.
  intros Hfree. unfold generateNextId.
  destruct (generateNextId_max prefix ids 0) as (_ & Hor & Hall).
  set (max := fold_left _ ids 0%N) in *.
  assert (forall id m, id ∈ ids -> match_id prefix id = Some m ->
            (m < 100000000000)%N -> (m < max + 1)%N) as Hbelow.
  { intros id m Hin Hm Hlt. specialize (Hall id m Hin Hm Hlt). lia. }
  split.
  - intros Hin.
    pose proof (match_id_pretty prefix (max + 1)) as Hm.
    destruct (decide (max + 1 < 100000000000)%N) as [Hlt|Hge].
    + specialize (Hbelow _ _ Hin Hm Hlt). lia.
    + assert (max < 100000000000)%N by (destruct Hor; lia).
      assert (max = 99999999999)%N as Hmax by lia.
      (* the largest number in use is 99999999999: some id carries it *)
      assert (exists id, id ∈ ids /\ match_id prefix id = Some max) as (id & Hid & Hidm).
      { destruct (generateNextId_max_used prefix ids 0 99999999999 Hmax)
          as [?|(id & ? & ?)]; [lia|].
        exists id. by rewrite Hmax. }
      rewrite Hmax in Hidm. by apply (Hfree id).
  - exists (max + 1)%N. split; [done|]. split; [lia|]. exact Hbelow.
Qed.

Lemma generateNextId_fresh_witness :
  generateNextId "F" ["F1"; "F07"; "R9"; "F1700000000000"; "Fx"] = "F8" /\
  ("F8" ∉ ["F1"; "F07"; "R9"; "F1700000000000"; "Fx"]).
Proof.
  split; [reflexivity|].
  refine (proj1 (generateNextId_fresh "F"
                   ["F1"; "F07"; "R9"; "F1700000000000"; "Fx"] _)).
  intros id Hin.
  repeat (apply elem_of_cons in Hin as [->|Hin]; [vm_compute; discriminate|]).
  by apply elem_of_nil in Hin.
Defined.

(** ** The cart *)

Lemma totalStock_total_stock p : totalStock (prod_batches p) = total_stock p.
Proof.
  unfold totalStock, total_stock, Zsum.
  assert (forall bs a, fold_left (fun sum b => (sum + batch_stock b)%Z) bs a
                       = (a + foldr Z.add 0%Z (map batch_stock bs))%Z) as H.
  { induction bs as [|b bs IH]; intros a; simpl; [lia|]. rewrite IH. lia. }
  by rewrite H.
Qed.

Lemma is_line_key id ty i : is_line id ty i = true <-> line_key i = (id, ty).
Proof.
  unfold is_line, line_key. rewrite andb_true_iff, !bool_decide_eq_true.
  split; [by intros [-> ->]|by intros [= -> ->]].
Qed.

Lemma List_filter_sublist {A} (f : A -> bool) l : List.filter f l `sublist_of` l.
Proof.
  induction l as [|x l IH]; simpl; [done|].
  destruct (f x); by constructor.
Qed.

Lemma Forall_List_filter {A} (P : A -> Prop) (f : A -> bool) l :
  Forall P l -> Forall P (List.filter f l).
Proof.
  induction 1 as [|x l Hx Hl IH]; simpl; [done|].
  destruct (f x); [by constructor|done].
Qed.

Lemma find_line_Some id ty c k x :
  list_find (fun i => is_line id ty i = true) c = Some (k, x) ->
  c !! k = Some x /\ line_key x = (id, ty).
Proof. intros (? & ?%is_line_key & _)%list_find_Some. done. Qed.

Lemma find_line_None id ty c :
  list_find (fun i => is_line id ty i = true) c = None ->
  (id, ty) ∉ line_key <$> c.
Proof.
  intros Hnone%list_find_None (i & Hk & Hin)%list_elem_of_fmap.
  rewrite Forall_forall in Hnone. apply (Hnone i Hin). by apply is_line_key.
Qed.

Lemma keys_insert (c : list CartItem) k x y :
  c !! k = Some x -> line_key y = line_key x ->
  line_key <$> <[k := y]> c = line_key <$> c.
Proof.
  intros Hk Hy. rewrite list_fmap_insert, Hy. apply list_insert_id.
  by rewrite list_lookup_fmap, Hk.
Qed.

Lemma filter_other_lines id ty (c : list CartItem) :
  NoDup (line_key <$> c) ->
  NoDup (line_key <$> List.filter (fun i => negb (is_line id ty i)) c).
Proof.
  intros Hnd. eapply sublist_NoDup; [exact Hnd|].
  apply fmap_sublist, List_filter_sublist.
Qed.

Lemma set_cart_cart c s : cart (set_cart c s) = c.
Proof. done. Qed.

Lemma set_cart_products c s : products (set_cart c s) = products s.
Proof. done. Qed.

Lemma cart_fits_insert s k x q :
  cart_fits s -> cart s !! k = Some x ->
  (1 <= q)%Z ->
  (item_type x = TProduct -> (q <= stock_in_state (products s) (item_id x))%Z) ->
  cart_fits (set_cart (<[k := set_quantity q x]> (cart s)) s).
Proof.
  intros [Hnd Hall] Hk Hq Hstock. split; simpl.
  - by rewrite (keys_insert _ _ x).
  - apply Forall_insert; [done|]. done.
Qed.

Lemma cart_fits_app s x :
  cart_fits s -> line_key x ∉ line_key <$> cart s ->
  (1 <= item_quantity x)%Z ->
  (item_type x = TProduct ->
   (item_quantity x <= stock_in_state (products s) (item_id x))%Z) ->
  cart_fits (set_cart (cart s ++ [x]) s).
Proof.
  intros [Hnd Hall] Hkey Hq Hstock. split; simpl.
  - rewrite fmap_app. apply NoDup_app. split; [done|].
    split; [|apply NoDup_singleton].
    intros key Hin [->|[]%elem_of_nil]%elem_of_cons. done.
  - apply Forall_app. split; [done|]. by apply Forall_singleton.
Qed.

Lemma cart_fits_filter s id ty :
  cart_fits s ->
  cart_fits (set_cart (List.filter (fun i => negb (is_line id ty i)) (cart s)) s).
Proof.
  intros [Hnd Hall]. split; simpl.
  - by apply filter_other_lines.
  - by apply Forall_List_filter.
Qed.

(** One event of the cart. *)
Lemma cart_event_step_fits e s :
  cart_fits s -> from_the_shelf e s ->
  cart_fits (cart_event e s) /\ exists c, cart_event e s = set_cart c s.
Proof.
  intros Hfit Hshelf. pose proof Hfit as [Hnd Hall].
  assert (s = set_cart (cart s) s) as Hs by (by destruct s).
  destruct e as [itemToAdd|itemId itemType newQuantity|itemId itemType finalPrice
                 |itemId itemType]; simpl.
  - (* addToCart *)
    unfold addToCart.
    destruct (list_find _ (cart s)) as [[k x]|] eqn:Hfind.
    + apply find_line_Some in Hfind as [Hk Hkey].
      injection Hkey as Hid Hty.
      pose proof (proj1 (Forall_lookup_1 _ _ _ _ Hall Hk)) as Hx1.
      destruct itemToAdd as [p|sv]; simpl in *.
      * destruct (Z.leb_spec (totalStock (prod_batches p)) (item_quantity x)).
        { split; [done|]. by exists (cart s). }
        split; [|by eexists]. apply cart_fits_insert; [done|done|lia|].
        intros _. destruct Hshelf as [j Hj].
        unfold stock_in_state. rewrite Hid, Hj. lia.
      * split; [|by eexists]. apply cart_fits_insert; [done|done|lia|].
        intros Hp. congruence.
    + apply find_line_None in Hfind.
      destruct itemToAdd as [p|sv]; simpl in *.
      * destruct (Z.ltb_spec (totalStock (prod_batches p)) 1).
        { split; [done|]. by exists (cart s). }
        split; [|by eexists]. apply cart_fits_app; [done|done|simpl; lia|].
        simpl. intros _. destruct Hshelf as [j Hj].
        unfold stock_in_state. rewrite Hj. lia.
      * split; [|by eexists]. apply cart_fits_app; [done|done|simpl; lia|done].
  - (* updateCartItemQuantity *)
    unfold updateCartItemQuantity.
    destruct (Z.ltb_spec newQuantity 0) as [Hneg|Hnn].
    { split; [done|]. by exists (cart s). }
    destruct (list_find _ (cart s)) as [[k x]|] eqn:Hfind.
    2:{ split; [done|]. by exists (cart s). }
    apply find_line_Some in Hfind as [Hk Hkey].
    injection Hkey as Hid Hty.
    pose proof (Forall_lookup_1 _ _ _ _ Hall Hk) as [Hx1 Hx2].
    destruct (bool_decide (itemType = TProduct)
              && (stock_in_state (products s) itemId <? newQuantity)%Z) eqn:Hclamp.
    + apply andb_prop in Hclamp as [Hp%bool_decide_eq_true _]. simpl.
      split; [|by eexists]. subst itemType itemId.
      specialize (Hx2 Hp).
      apply cart_fits_insert; [done|done|lia|lia].
    + simpl. split; [|by eexists].
      destruct (Z.eqb_spec newQuantity 0) as [->|Hq0].
      * (* the line is set to zero and taken out *)
        assert (List.filter (fun i => negb (is_line itemId itemType i))
                  (<[k := set_quantity 0 x]> (cart s))
                = List.filter (fun i => negb (is_line itemId itemType i)) (cart s))
          as ->.
        { clear -Hk Hid Hty. revert k Hk.
          induction (cart s) as [|y c IH]; intros k Hk; [done|].
          destruct k as [|k]; simpl in *.
          - injection Hk as ->.
            assert (is_line itemId itemType (set_quantity 0 x) = true) as ->
              by (by apply is_line_key; unfold line_key; simpl; rewrite Hid, Hty).
            assert (is_line itemId itemType x = true) as ->
              by (by apply is_line_key; unfold line_key; rewrite Hid, Hty).
            done.
          - rewrite (IH k Hk). done. }
        by apply cart_fits_filter.
      * apply cart_fits_insert; [done|done|lia|].
        intros Hp. apply andb_false_iff in Hclamp as [Hc|Hc].
        -- apply bool_decide_eq_false in Hc. congruence.
        -- apply Z.ltb_ge in Hc. by rewrite Hid.
  - (* updateCartItemFinalPrice *)
    unfold updateCartItemFinalPrice. split; [|by eexists].
    change (map ?f ?l) with (f <$> l).
    split; simpl.
    + rewrite <- list_fmap_compose.
      erewrite list_fmap_ext; [exact Hnd|]. intros i x Hi. simpl.
      by destruct (_ && _).
    + apply Forall_fmap. eapply Forall_impl; [exact Hall|].
      intros x Hx. simpl. by destruct (_ && _).
  - (* removeFromCart *)
    unfold removeFromCart. split; [|by eexists]. by apply cart_fits_filter.
Qed.

Lemma stock_in_state_insert_other (ps : list Product) k p new id :
  ps !! k = Some p -> prod_id new = prod_id p -> prod_id p <> id ->
  stock_in_state (<[k := new]> ps) id = stock_in_state ps id.
Proof.
  intros Hk Hnew Hid. unfold stock_in_state.
  destruct (list_find (fun q => prod_id q = id) ps) as [[j q]|] eqn:Hf.
  - rewrite (list_find_insert_other _ ps j q k p new Hf Hk); [done| |].
    + by rewrite Hnew.
    + intros ->. apply list_find_Some in Hf as (Hj & Hq & _). congruence.
  - apply list_find_None in Hf.
    rewrite (proj2 (list_find_None _ (<[k := new]> ps))); [done|].
    apply Forall_insert; [done|]. by rewrite Hnew.
Qed.

Lemma cart_fits_within_stock ps (c : list CartItem) :
  NoDup (line_key <$> c) ->
  Forall (fun i => (1 <= item_quantity i)%Z /\
                   (item_type i = TProduct ->
                    (item_quantity i <= stock_in_state ps (item_id i))%Z)) c ->
  lines_within_stock ps c.
Proof.
  revert ps. induction c as [|item c IH]; intros ps Hnd Hall; [done|].
  rewrite fmap_cons in Hnd. apply NoDup_cons in Hnd as [Hnew Hnd].
  apply Forall_cons in Hall as [[Hq1 Hq2] Hall]. simpl.
  destruct (item_type item) eqn:Hty; [|by apply IH].
  specialize (Hq2 eq_refl). unfold stock_in_state in Hq2.
  destruct (list_find _ ps) as [[k p]|] eqn:Hf; [|lia].
  exists k, p. split; [done|]. rewrite <- totalStock_total_stock.
  split; [lia|]. apply IH; [done|].
  pose proof (proj1 (list_find_Some _ _ _ _) Hf) as (Hk & Hp & _).
  apply Forall_forall. intros i Hi.
  rewrite Forall_forall in Hall. destruct (Hall i Hi) as [Hi1 Hi2].
  split; [done|]. intros Hip.
  rewrite (stock_in_state_insert_other ps k p); [by apply Hi2|done|done|].
  intros Heq. apply Hnew. apply list_elem_of_fmap. exists i. split; [|done].
  unfold line_key. rewrite Hip, Hty. f_equal. congruence.
Qed.

Lemma from_the_shelf_products e s s' :
  products s' = products s -> from_the_shelf e s -> from_the_shelf e s'.
Proof. intros Hp. destruct e as [[p|sv]| | |]; simpl; by rewrite ?Hp. Qed.

Lemma cart_events_fit es s :
  cart_fits s -> Forall (fun e => from_the_shelf e s) es ->
  cart_fits (cart_events es s) /\ exists c, cart_events es s = set_cart c s.
Proof.
  revert s. induction es as [|e es IH]; intros s Hfit Hall; simpl.
  { split; [done|]. exists (cart s). by destruct s. }
  apply Forall_cons in Hall as [He Hall].
  destruct (cart_event_step_fits e s Hfit He) as [Hfit1 [c Hc]].
  destruct (IH (cart_event e s) Hfit1) as [Hfit2 [c' Hc']].
  { eapply Forall_impl; [exact Hall|]. intros e' He'.
    eapply from_the_shelf_products; [|exact He']. by rewrite Hc. }
  change (cart_events (e :: es) s) with (cart_events es (cart_event e s)).
  split; [done|]. exists c'. rewrite Hc', Hc. done.
Qed.

(** X10.  The events of the cart keep the cart in order.  When the lines
    of the cart are of different items, each asks for one unit at least
    and no product line asks for more than the stock of its product, the
    same holds after [addToCart] (of a product the state holds),
    [updateCartItemQuantity], [updateCartItemFinalPrice] and
    [removeFromCart]; the event changes nothing but the cart, and the new
    state is the same whenever the updater runs.  A negative quantity is
    refused and leaves the state as it is.  When the updater runs at the
    next render, [addToCart] answers failure with no message whatever
    becomes of the cart, and [updateCartItemQuantity] answers success with
    no message for every quantity that is not negative. *)
Theorem cart_event_keeps_fit e s :
  cart_fits s -> from_the_shelf e s ->
  cart_fits (cart_event e s) /\
  (exists c, cart_event e s = set_cart c s) /\
  (forall eager itemToAdd,
     (addToCart eager itemToAdd s).1 = cart_event (AddToCart itemToAdd) s) /\
  (forall eager itemId itemType newQuantity,
     (updateCartItemQuantity eager itemId itemType newQuantity s).1
     = cart_event (UpdateQuantity itemId itemType newQuantity) s) /\
  (forall eager itemId itemType newQuantity, (newQuantity < 0)%Z ->
     updateCartItemQuantity eager itemId itemType newQuantity s
     = (s, mkCartResult false InvalidQuantity)) /\
  (forall itemToAdd,
     (addToCart false itemToAdd s).2 = mkCartResult false NoMessage) /\
  (forall itemId itemType newQuantity, (0 <= newQuantity)%Z ->
     (updateCartItemQuantity false itemId itemType newQuantity s).2
     = mkCartResult true NoMessage).
Proof.
  intros Hfit Hshelf.
  destruct (cart_event_step_fits e s Hfit Hshelf) as [H1 H2].
  split; [done|]. split; [done|]. split; [|split; [|split; [|split]]].
  - intros eager itemToAdd. simpl. unfold addToCart.
    destruct (list_find _ _) as [[k x]|]; destruct itemToAdd as [p|sv];
      repeat case_match; simpl; done.
  - intros eager itemId itemType newQuantity. simpl. unfold updateCartItemQuantity.
    destruct (Z.ltb_spec newQuantity 0); [done|].
    destruct (list_find _ _) as [[k x]|]; [|done].
    by destruct (_ && _).
  - intros eager itemId itemType newQuantity Hneg. unfold updateCartItemQuantity.
    destruct (Z.ltb_spec newQuantity 0); [done|lia].
  - intros itemToAdd. unfold addToCart.
    destruct (list_find _ _) as [[k x]|]; destruct itemToAdd as [p|sv];
      repeat case_match; simpl; done.
  - intros itemId itemType newQuantity Hnn. unfold updateCartItemQuantity.
    destruct (Z.ltb_spec newQuantity 0); [lia|].
    destruct (list_find _ _) as [[k x]|]; [|done].
    by destruct (_ && _).
Qed.

Lemma cart_event_keeps_fit_witness :
  cart_fits (cart_event (AddToCart (inl (pen 2))) (short_state [])) /\
  map item_quantity
      (cart (cart_events [AddToCart (inl (pen 2));
                          UpdateQuantity "p-pen" TProduct 7]
                         (short_state []))) = [2%Z] /\
  map item_quantity (cart (addToCart false (inl (pen 2)) (short_state [])).1) = [1%Z] /\
  (addToCart false (inl (pen 2)) (short_state [])).2 = mkCartResult false NoMessage.
Proof.
  destruct (cart_event_keeps_fit (AddToCart (inl (pen 2))) (short_state []))
    as (Hfit & _ & _ & _ & _ & Hanswer & _).
  - split; [apply NoDup_nil_2|apply Forall_nil_2].
  - by exists 0%nat.
  - split; [exact Hfit|]. split; [reflexivity|]. split; [reflexivity|].
    apply Hanswer.
Defined.

(** X11.  A cart filled from the empty cart by events of the cart is
    sold: online, when the cart is not empty (and, in an edit, the invoice
    edited exists), [completeSale] answers success with an invoice whose
    lines are those of the FIFO deduction; it is refused neither for a
    missing product nor for insufficient stock. *)
Theorem cart_events_then_completeSale env s0 es cashier customerId :
  cart s0 = [] ->
  Forall (fun e => from_the_shelf e s0) es ->
  let s := cart_events es s0 in
  env_online env = true ->
  cart s <> [] ->
  (forall id, truthy (editingSaleInvoiceId s0) = Some id ->
     is_Some (list_find (fun i => inv_id i = id) (saleInvoices s0))) ->
  products s = products s0 /\ cart_fits s /\
  exists r inv,
    out_result (completeSale env s cashier customerId) = Some r /\
    success r = true /\ invoice r = Some inv /\
    Forall2 same_line (inv_items inv) (fifo_sale (products s0) (cart s)).2.
Proof.
  intros Hempty Hall s Honline Hcart Hedit.
  assert (cart_fits s0) as Hfit0.
  { split; rewrite Hempty; [apply NoDup_nil_2|done]. }
  destruct (cart_events_fit es s0 Hfit0 Hall) as [Hfit [c Hc]].
  fold s in Hfit, Hc.
  assert (products s = products s0) as Hp by (by rewrite Hc).
  split; [done|]. split; [done|].
  destruct (completeSale_fifo_general env s cashier customerId Honline Hcart)
    as (r & inv & su & Hr & Hs & Hi & _ & Hsame & _).
  - by rewrite Hc.
  - destruct Hfit as [Hnd Hq]. by apply cart_fits_within_stock.
  - exists r, inv. rewrite <- Hp. done.
Qed.

Lemma cart_events_then_completeSale_witness :
  let s := cart_events [AddToCart (inl (pen 2)); UpdateQuantity "p-pen" TProduct 7]
                       (short_state []) in
  exists r inv,
    out_result (completeSale online_env s "cashier" None) = Some r /\
    success r = true /\ invoice r = Some inv /\
    Forall2 same_line (inv_items inv) (fifo_sale [pen 2] (cart s)).2.
Proof.
  refine (proj2 (proj2 (cart_events_then_completeSale online_env (short_state [])
            [AddToCart (inl (pen 2)); UpdateQuantity "p-pen" TProduct 7]
            "cashier" None eq_refl _ eq_refl _ _))).
  - repeat constructor. by exists 0%nat.
  - discriminate.
  - intros id Hid. discriminate Hid.
Defined.

Lemma pos_totalAmount_sum c :
  (pos_totalAmount c == Qsum (map (line_total effective_price) c))%Q.
Proof.
  unfold pos_totalAmount.
  rewrite (fold_left_Qsum_r
             (fun item => (match item_type item, item_finalPrice item with
                           | TProduct, Some f => f
                           | TProduct, None => num (item_salePrice item)
                           | TService, _ => num (item_price item)
                           end * inject_Z (item_quantity item))%Q)).
  rewrite (map_ext _ (line_total effective_price)).
  - ring.
  - intros i. unfold line_total, effective_price, list_price.
    by destruct (item_type i), (item_finalPrice i).
Qed.

(** X12.  The total shown in the cart view is the total of the invoice:
    whenever [completeSale] answers an invoice, its [totalAmount] equals
    the total the view has computed from the same cart. *)
Theorem pos_total_is_invoice_total env state cashier customerId r inv :
  out_result (completeSale env state cashier customerId) = Some r ->
  invoice r = Some inv ->
  (inv_totalAmount inv == pos_totalAmount (cart state))%Q.
Proof.
  intros Hr Hi.
  destruct (completeSale_invoice _ _ _ _ _ _ Hr Hi)
    as (_ & _ & _ & ups & su & _ & _ & _ & -> & _).
  by rewrite newTotalAmount_sum, pos_totalAmount_sum.
Qed.

Lemma pos_total_is_invoice_total_witness :
  exists r inv,
    out_result (completeSale online_env surcharge_state "cashier" None) = Some r /\
    invoice r = Some inv /\
    (inv_totalAmount inv == pos_totalAmount (cart surcharge_state))%Q /\
    (pos_totalAmount (cart surcharge_state) == 24)%Q.
Proof.
  eexists _, _. split; [reflexivity|]. split; [reflexivity|]. split.
  - by apply (pos_total_is_invoice_total online_env surcharge_state "cashier" None _ _
                eq_refl).
  - reflexivity.
Defined.

(** ** Editing a sale *)

(** X13.  [beginEditSale] of an invoice that exists puts the lines of the
    invoice into the cart and marks the invoice as edited; of an invoice
    that does not exist, it answers failure and leaves the state as it
    is.  [completeSale] then checks the cart against the stock on the
    shelf only, without the units the invoice holds: when a product line
    of the invoice asks for more than the present stock of its product,
    saving the edit is refused, even with the cart unchanged.
    [cancelEditSale] empties the cart; the cart from before the edit is
    not brought back. *)
Theorem beginEditSale_checks_present_stock
    env state invoiceId cashier customerId k invoice item j p :
  list_find (fun i => inv_id i = invoiceId) (saleInvoices state) = Some (k, invoice) ->
  item ∈ inv_items invoice -> item_type item = TProduct ->
  list_find (fun q => prod_id q = item_id item) (products state) = Some (j, p) ->
  Forall (fun b => (0 <= batch_stock b)%Z) (prod_batches p) ->
  (total_stock p < item_quantity item)%Z ->
  let s1 := (beginEditSale invoiceId state).1 in
  s1 = set_editingSaleInvoiceId (Some invoiceId) (set_cart (inv_items invoice) state) /\
  (beginEditSale invoiceId state).2 = Some (inv_customerId invoice) /\
  (forall missing,
     list_find (fun i => inv_id i = missing) (saleInvoices state) = None ->
     beginEditSale missing state = (state, None)) /\
  cancelEditSale s1 = set_editingSaleInvoiceId None (set_cart [] state) /\
  exists m,
    completeSale env s1 cashier customerId = refuse s1 m /\
    (env_online env = true ->
     exists l, l ∈ inv_items invoice /\ item_type l = TProduct /\
       (m = MsgProductNotFound (item_name l) \/
        m = MsgInsufficientStock (item_name l))).
Proof.
  intros Hinv Hin Hty Hfind Hnn Hlt s1. subst s1.
  unfold beginEditSale. rewrite Hinv. simpl.
  split; [done|]. split; [done|]. split; [by intros missing ->|].
  split; [done|].
  unfold completeSale. destruct (env_online env) eqn:Ho; simpl.
  2:{ exists MsgOffline. split; [done|]. discriminate. }
  rewrite bool_decide_eq_false_2.
  2:{ intros Hnil. rewrite Hnil in Hin. by apply elem_of_nil in Hin. }
  destruct (prepareLines_short (inv_items invoice) (products state) (products state)
              [] [] item j p eq_refl Hin Hty Hfind) as (l & Hl & Hlty & Hm).
  { by rewrite (proj2 (total_stock_available p) Hnn). }
  destruct Hm as [[Hnone ->]|[Hsome ->]];
    eexists; (split; [reflexivity|]); intros _; exists l;
    (split; [done|]); (split; [done|]); [by left|by right].
Qed.

Lemma beginEditSale_checks_present_stock_witness :
  let state := mkState [pen 0] [invoice_F1] [] [] [] [] [] []
                 (mkSettings "" "" "" 10 3 "" "") [ghost_line] [] [] [] [] 1
                 None None true (Some cashier_user) [cashier_user] [] in
  let s1 := (beginEditSale "F1" state).1 in
  cart s1 = [pen_line 1] /\
  completeSale online_env s1 "cashier" None
    = refuse s1 (MsgInsufficientStock "Pen").
Proof.
  intros state s1.
  destruct (beginEditSale_checks_present_stock online_env state "F1" "cashier" None
              0%nat invoice_F1 (pen_line 1) 0%nat (pen 0))
    as (Hs1 & _ & _ & _ & m & Hm & Hl).
  - reflexivity.
  - apply list_elem_of_singleton. reflexivity.
  - reflexivity.
  - reflexivity.
  - repeat constructor. simpl. lia.
  - vm_compute. reflexivity.
  - split; [reflexivity|]. fold s1 in Hm. rewrite Hm. f_equal.
    destruct (Hl eq_refl) as (l & Hin & _ & [->| ->]).
    + apply list_elem_of_singleton in Hin. subst l.
      vm_compute in Hm. discriminate Hm.
    + apply list_elem_of_singleton in Hin. by subst l.
Defined.

(** ** Payments and advances *)

Lemma getCustomers_update customerId b d :
  getCustomers (with_customers
                  (update_where (fun r => bool_decide (cr_id r = customerId))
                                (set_customer_balance b)) d)
  = map (set_balance_of_customer customerId b) (getCustomers d).
Proof.
  unfold getCustomers, update_where. simpl. rewrite !map_map.
  apply map_ext. intros r. unfold set_balance_of_customer. simpl.
  by destruct (bool_decide (cr_id r = customerId)).
Qed.

Lemma getSuppliers_update supplierId b d :
  getSuppliers (with_suppliers
                  (update_where (fun r => bool_decide (spr_id r = supplierId))
                                (set_supplier_balance b)) d)
  = map (set_balance_of_supplier supplierId b) (getSuppliers d).
Proof.
  unfold getSuppliers, update_where. simpl. rewrite !map_map.
  apply map_ext. intros r. unfold set_balance_of_supplier. simpl.
  by destruct (bool_decide (spr_id r = supplierId)).
Qed.

(** X14.  A payment of a customer: the balance of the customer becomes
    the balance the state shows minus the amount, in the state and in the
    database, whatever the amount; the payment is put in front of the
    transactions of the state and at the end of those of the database; a
    state that showed the customers of the database still does.  When the
    database refuses the writes the call is resolved all the same: the
    state gets the new balance and the transaction, the database gets
    neither, and no message is shown. *)
Theorem addCustomerPayment_spec env env' state customerId amount description
    k customer db toasts :
  env_online env = true ->
  list_find (fun c => cust_id c = customerId) (customers state) = Some (k, customer) ->
  let j := addCustomerPayment env state customerId amount description in
  let newBalance := (cust_balance customer - amount)%Q in
  let transaction := mkCustomerTx (env_uuid env 0) customerId CTPayment amount
                                  (env_now env) (Lit description) None in
  let w := perform env' true j (mkWorld state db toasts) in
  let w' := perform env' false j (mkWorld state db toasts) in
  job_reply j = Paid (PayCustomer transaction) /\
  customers (w_state w)
    = map (set_balance_of_customer customerId newBalance) (customers state) /\
  customerTransactions (w_state w) = transaction :: customerTransactions state /\
  t_customers (w_db w)
    = update_where (fun r => bool_decide (cr_id r = customerId))
                   (set_customer_balance newBalance) (t_customers db) /\
  t_customer_transactions (w_db w) = t_customer_transactions db ++ [transaction] /\
  (getCustomers db = customers state ->
   getCustomers (w_db w) = customers (w_state w)) /\
  customers (w_state w')
    = map (set_balance_of_customer customerId newBalance) (customers state) /\
  customerTransactions (w_state w') = transaction :: customerTransactions state /\
  w_db w' = db /\ w_toasts w' = toasts.
Proof.
  intros Honline Hfind j newBalance transaction w w'.
  subst w w' j. unfold addCustomerPayment. rewrite Honline, Hfind. simpl.
  do 5 (split; [done|]). split; [|by rewrite app_nil_r].
  intros Hsync. fold newBalance.
  change (getCustomers _) with
    (getCustomers (with_customers
       (update_where (fun r => bool_decide (cr_id r = customerId))
                     (set_customer_balance newBalance)) db)).
  by rewrite getCustomers_update, Hsync.
Qed.

Lemma addCustomerPayment_spec_witness :
  let j := addCustomerPayment online_env credit_edit_state "c1" 50 "cash" in
  let w := perform online_env true j (mkWorld credit_edit_state credit_db []) in
  let w' := perform online_env false j (mkWorld credit_edit_state credit_db []) in
  map cust_balance (customers (w_state w)) = [(120 - 50)%Q] /\
  map cr_balance (t_customers (w_db w)) = [(120 - 50)%Q] /\
  getCustomers (w_db w) = customers (w_state w) /\
  map cust_balance (customers (w_state w')) = [(120 - 50)%Q] /\
  map cr_balance (t_customers (w_db w')) = [120%Q].
Proof.
  intros j w w'.
  destruct (addCustomerPayment_spec online_env online_env credit_edit_state "c1" 50
              "cash" 0%nat customer_c1 credit_db [] eq_refl eq_refl)
    as (_ & Hc & _ & Hd & _ & Hsync & Hc' & _ & Hd' & _).
  split; [|split; [|split; [|split]]].
  - subst w j. rewrite Hc. reflexivity.
  - subst w j. rewrite Hd. reflexivity.
  - apply Hsync. reflexivity.
  - subst w' j. rewrite Hc'. reflexivity.
  - subst w' j. rewrite Hd'. reflexivity.
Defined.

Lemma getSupplierTransactions_app d t :
  getSupplierTransactions (with_supplier_transactions (fun rows => rows ++ [t]) d)
  = getSupplierTransactions d
    ++ [mkSupplierTx (stx_id t) (stx_supplierId t) (stx_type t) (stx_amount t)
          (stx_date t) (stx_description t) (stx_invoiceId t)
          (Some (default AFN (stx_currency t)))].
Proof. unfold getSupplierTransactions. simpl. by rewrite map_app. Qed.

(** X15.  A payment to a supplier in dollars lowers the balance by the
    amount times the exchange rate (1 when none is given), a payment in
    another currency by the amount itself, whatever rate is given; the
    transaction keeps the amount as paid and its currency (AFN when none
    is given); the state and the database get the same balance and the
    same transaction. *)
Theorem addSupplierPayment_spec toLocaleString env env' state supplierId amount
    description currency exchangeRate k supplier db toasts :
  env_online env = true ->
  list_find (fun s => sup_id s = supplierId) (suppliers state) = Some (k, supplier) ->
  let j := addSupplierPayment toLocaleString env state supplierId amount description
             currency exchangeRate in
  let paid := match currency with
              | Some USD => (amount * default 1%Q exchangeRate)%Q
              | _ => amount
              end in
  let newBalance := (sup_balance supplier - paid)%Q in
  let w := perform env' true j (mkWorld state db toasts) in
  exists transaction,
    job_reply j = Paid (PaySupplier transaction) /\
    stx_supplierId transaction = supplierId /\
    stx_type transaction = STPayment /\
    stx_amount transaction = amount /\
    stx_currency transaction = Some (default AFN currency) /\
    suppliers (w_state w)
      = map (set_balance_of_supplier supplierId newBalance) (suppliers state) /\
    supplierTransactions (w_state w) = transaction :: supplierTransactions state /\
    t_suppliers (w_db w)
      = update_where (fun r => bool_decide (spr_id r = supplierId))
                     (set_supplier_balance newBalance) (t_suppliers db) /\
    getSupplierTransactions (w_db w) = getSupplierTransactions db ++ [transaction] /\
    (getSuppliers db = suppliers state ->
     getSuppliers (w_db w) = suppliers (w_state w)).
Proof.
  intros Honline Hfind j paid newBalance w.
  subst w j. unfold addSupplierPayment. rewrite Honline, Hfind. simpl.
  assert ((if bool_decide (default AFN currency = USD)
           then (amount * default 1%Q exchangeRate)%Q else amount) = paid) as ->.
  { subst paid. by destruct currency as [[|]|]. }
  fold newBalance. eexists. do 8 (split; [reflexivity|]).
  split; [unfold getSupplierTransactions; simpl; by rewrite map_app|].
  intros Hsync.
  change (getSuppliers _) with
    (getSuppliers (with_suppliers
       (update_where (fun r => bool_decide (spr_id r = supplierId))
                     (set_supplier_balance newBalance)) db)).
  by rewrite getSuppliers_update, Hsync.
Qed.

Lemma addSupplierPayment_spec_witness :
  let j := addSupplierPayment (fun q => pretty (Qnum q)) online_env purchase_state
             "s1" 10 "transfer" (Some USD) (Some 70%Q) in
  let w := perform online_env true j (mkWorld purchase_state purchase_db []) in
  map sup_balance (suppliers (w_state w)) = [(1000 - 10 * 70)%Q] /\
  map stx_amount (supplierTransactions (w_state w)) = [10%Q] /\
  map stx_description (supplierTransactions (w_state w)) = [Lit "transfer (10$)"].
Proof.
  intros j w.
  destruct (addSupplierPayment_spec (fun q => pretty (Qnum q)) online_env online_env
              purchase_state "s1" 10 "transfer" (Some USD) (Some 70%Q) 0%nat
              usd_supplier purchase_db [] eq_refl eq_refl)
    as (t & _ & _ & _ & _ & _ & Hs & Ht & _).
  split; [|split].
  - subst w j. rewrite Hs. reflexivity.
  - reflexivity.
  - reflexivity.
Defined.

Lemma filter_unique {A} (key : A -> string) (l : list A) x :
  NoDup (map key l) -> x ∈ l ->
  List.filter (fun y => bool_decide (key y = key x)) l = [x].
Proof.
  induction l as [|a l IH]; intros Hnd Hin; [by apply elem_of_nil in Hin|].
  simpl in Hnd. apply NoDup_cons in Hnd as [Ha Hnd]. simpl.
  apply elem_of_cons in Hin as [->|Hin].
  - rewrite bool_decide_eq_true_2 by done. f_equal.
    apply filter_none. intros y Hy. apply bool_decide_eq_false_2. intros Heq.
    apply Ha. rewrite <- Heq. apply list_elem_of_fmap. by exists y.
  - rewrite bool_decide_eq_false_2; [by apply IH|].
    intros Heq. apply Ha. rewrite Heq. apply list_elem_of_fmap. by exists x.
Qed.

Lemma find_unique_id {A} (key : A -> string) (l : list A) k x y :
  NoDup (map key l) ->
  list_find (fun a => key a = key x) l = Some (k, x) ->
  y ∈ l -> key y = key x -> y = x.
Proof.
  intros Hnd (Hk & _ & _)%list_find_Some Hy Hkey.
  apply list_elem_of_lookup in Hy as [i Hi].
  assert (i = k) as ->.
  { eapply NoDup_lookup; [exact Hnd| |].
    - change (map key l) with (key <$> l). by rewrite list_lookup_fmap, Hi.
    - change (map key l) with (key <$> l). by rewrite list_lookup_fmap, Hk, Hkey. }
  congruence.
Qed.

Lemma salary_paid_once env2 emps employeeId e :
  env_online env2 = true ->
  NoDup (map emp_id emps) ->
  e ∈ emps -> emp_id e = employeeId ->
  (emp_balance e < emp_monthlySalary e)%Q ->
  forall state, employees state = emps ->
  exists ids paid expense t,
    out_call (processAndPaySalaries env2 state)
      = Some (ProcessPayroll ids paid expense) /\
    List.filter (fun t => bool_decide (ptx_employeeId t = employeeId)) paid = [t] /\
    ptx_type t = PTSalaryPayment /\
    ptx_amount t = (emp_monthlySalary e - emp_balance e)%Q.
Proof.
  intros Honline Hnd Hin Hid Hlt state Hemps.
  unfold processAndPaySalaries. rewrite Honline. simpl. rewrite Hemps.
  destruct (salary_run_spec env2 emps [] 0%Q) as (paid & Heq & Hmap & Hsum).
  simpl in Heq. rewrite Heq. simpl.
  assert (salary_due e = true) as Hdue.
  { apply salary_due_spec. unfold net_salary. lra. }
  assert (e ∈ List.filter salary_due emps) as Hine.
  { apply list_elem_of_In, filter_In. split; [by apply list_elem_of_In|done]. }
  apply list_elem_of_lookup in Hine as [i Hi].
  assert (exists t, paid !! i = Some t /\
            payment_of t = (emp_id e, PTSalaryPayment, net_salary e)) as (t & Ht & Hpay).
  { assert (map payment_of paid !! i = Some (emp_id e, PTSalaryPayment, net_salary e)) as H.
    { rewrite Hmap. change (map ?f ?l) with (f <$> l). by rewrite list_lookup_fmap, Hi. }
    change (map ?f ?l) with (f <$> l) in H. rewrite list_lookup_fmap in H.
    destruct (paid !! i) as [t|]; [|done]. exists t. split; [done|].
    simpl in H. congruence. }
  unfold payment_of in Hpay. injection Hpay as Hp1 Hp2 Hp3.
  assert (Forall (fun x => 0 < x)%Q (map ptx_amount paid)) as Hpos.
  { assert (map ptx_amount paid = map net_salary (List.filter salary_due emps)) as ->.
    { transitivity (map snd (map payment_of paid)).
      - rewrite map_map. by apply map_ext.
      - rewrite Hmap, map_map. by apply map_ext. }
    apply Forall_forall. intros x Hx.
    change (map ?f ?l) with (f <$> l) in Hx.
    apply list_elem_of_fmap in Hx as (e' & -> & He').
    apply list_elem_of_In, filter_In in He' as [_ He'].
    by apply salary_due_spec. }
  assert (0 < Qsum (map ptx_amount paid))%Q as Hsumpos.
  { apply Qsum_pos; [done|]. intros Hnil.
    apply (f_equal length) in Hnil. rewrite length_map in Hnil. simpl in Hnil.
    apply lookup_lt_Some in Ht. lia. }
  destruct (Qeq_bool _ 0) eqn:Hz.
  { apply Qeq_bool_iff in Hz. simpl in Hsum. rewrite Hz in Hsum. lra. }
  simpl. eexists _, _, _, t. split; [reflexivity|].
  split; [|split; [done|by rewrite Hp3]].
  assert (NoDup (map ptx_employeeId paid)) as Hndp.
  { assert (map ptx_employeeId paid = map emp_id (List.filter salary_due emps)) as ->.
    { transitivity (map (fun x => fst (fst x)) (map payment_of paid)).
      - rewrite map_map. by apply map_ext.
      - rewrite Hmap, map_map. by apply map_ext. }
    eapply sublist_NoDup; [exact Hnd|].
    change (map ?f ?l) with (f <$> l). apply fmap_sublist.
    clear. induction emps as [|a l IH]; [done|]. simpl.
    destruct (salary_due a); by constructor. }
  rewrite <- Hid, <- Hp1.
  apply (filter_unique ptx_employeeId); [done|].
  by apply list_elem_of_lookup_2 in Ht.
Qed.

(** X16.  An advance is taken off the next salary.  [addEmployeeAdvance]
    adds the amount to the balance of the employee, in the state and in
    the database, and records an advance; a payroll run on the state that
    follows pays this employee once, the monthly salary minus the balance
    and the advance, when the salary is above them, and pays this employee
    nothing when these reach the salary. *)
Theorem advance_is_deducted_from_salary env env1 env2 state employeeId amount
    k employee db toasts :
  env_online env = true ->
  NoDup (map emp_id (employees state)) ->
  list_find (fun e => emp_id e = employeeId) (employees state) = Some (k, employee) ->
  let advance := mkPayrollTx (env_uuid env 0) employeeId PTAdvance amount
                             (env_now env) (Lit "مساعده") in
  let w := perform env1 true (addEmployeeAdvance env state employeeId amount)
                   (mkWorld state db toasts) in
  employees (w_state w)
    = map (set_balance_of_employee employeeId (emp_balance employee + amount)%Q)
          (employees state) /\
  payrollTransactions (w_state w) = advance :: payrollTransactions state /\
  t_payroll_transactions (w_db w) = t_payroll_transactions db ++ [advance] /\
  (t_employees db = employees state -> t_employees (w_db w) = employees (w_state w)) /\
  (forall ids paid expense,
     out_call (processAndPaySalaries env2 (w_state w))
       = Some (ProcessPayroll ids paid expense) ->
     (forall t, t ∈ paid -> ptx_employeeId t = employeeId ->
        (0 < ptx_amount t)%Q /\
        ptx_amount t
          = (emp_monthlySalary employee - (emp_balance employee + amount))%Q) /\
     ((emp_monthlySalary employee <= emp_balance employee + amount)%Q ->
      forall t, t ∈ paid -> ptx_employeeId t <> employeeId)) /\
  (env_online env2 = true ->
   (emp_balance employee + amount < emp_monthlySalary employee)%Q ->
   exists ids paid expense t,
     out_call (processAndPaySalaries env2 (w_state w))
       = Some (ProcessPayroll ids paid expense) /\
     List.filter (fun t => bool_decide (ptx_employeeId t = employeeId)) paid = [t] /\
     ptx_type t = PTSalaryPayment /\
     ptx_amount t
       = (emp_monthlySalary employee - (emp_balance employee + amount))%Q).
Proof.
  intros Honline Hnd Hfind advance w.
  pose proof (proj1 (list_find_Some _ _ _ _) Hfind) as (Hk & Hid & _).
  subst w. unfold addEmployeeAdvance. rewrite Honline, Hfind. simpl.
  split; [done|]. split; [done|]. split; [done|]. split.
  { intros ->. unfold update_where, set_balance_of_employee. done. }
  split; cycle 1.
  { intros Honline2 Hlt.
    set (e := set_balance_of_employee employeeId (emp_balance employee + amount)%Q
                                      employee).
    assert (emp_id e = employeeId /\
            emp_balance e = (emp_balance employee + amount)%Q /\
            emp_monthlySalary e = emp_monthlySalary employee) as (He1 & He2 & He3).
    { subst e. unfold set_balance_of_employee. by rewrite bool_decide_eq_true_2. }
    match goal with
    | |- context [processAndPaySalaries env2 ?st] => set (st0 := st)
    end.
    destruct (salary_paid_once env2 (employees st0) employeeId e Honline2)
      with (state := st0) as (ids & paid & expense & t & H1 & H2 & H3 & H4).
    - subst st0. simpl. rewrite map_map.
      erewrite map_ext; [exact Hnd|]. intros a. simpl.
      unfold set_balance_of_employee. by destruct (bool_decide _).
    - subst st0. simpl. change (map ?f ?l) with (f <$> l). apply list_elem_of_fmap.
      exists employee. split; [reflexivity|]. by eapply list_elem_of_lookup_2.
    - exact He1.
    - rewrite He2, He3. exact Hlt.
    - reflexivity.
    - exists ids, paid, expense, t. by rewrite <- He2, <- He3. }
  intros ids paid expense Hcall.
  set (emps := map (set_balance_of_employee _ _) (employees state)) in *.
  assert (map payment_of paid
          = map (fun e => (emp_id e, PTSalaryPayment, net_salary e))
                (List.filter salary_due emps)) as Hpaid.
  { unfold processAndPaySalaries in Hcall. simpl in Hcall.
    destruct (env_online env2); simpl in Hcall; [|discriminate].
    destruct (salary_run_spec env2 emps [] 0%Q) as (paid' & Heq & Hmap & _).
    simpl in Heq. rewrite Heq in Hcall.
    destruct (Qeq_bool _ 0); simpl in Hcall; [discriminate|].
    by injection Hcall as _ <- _. }
  assert (forall t, t ∈ paid -> ptx_employeeId t = employeeId ->
            salary_due (set_balance_of_employee employeeId
                          (emp_balance employee + amount)%Q employee) = true /\
            ptx_amount t
              = (emp_monthlySalary employee - (emp_balance employee + amount))%Q)
    as Hone.
  { intros t Ht Htid.
    assert (payment_of t ∈ map payment_of paid) as Hin.
    { change (map ?f ?l) with (f <$> l). by apply list_elem_of_fmap_2. }
    rewrite Hpaid in Hin. change (map ?f ?l) with (f <$> l) in Hin.
    apply list_elem_of_fmap in Hin as (e' & He' & Hine').
    apply list_elem_of_In, filter_In in Hine' as [Hine' Hdue].
    apply list_elem_of_In in Hine'. subst emps.
    change (map ?f ?l) with (f <$> l) in Hine'.
    apply list_elem_of_fmap in Hine' as (e0 & -> & Hin0).
    unfold payment_of in He'. injection He' as He1 _ He3.
    assert (emp_id e0 = employeeId) as He0.
    { rewrite Htid in He1. unfold set_balance_of_employee in He1.
      by destruct (bool_decide _). }
    assert (e0 = employee) as ->.
    { eapply (find_unique_id emp_id); [exact Hnd| |exact Hin0|congruence].
      by rewrite Hid. }
    split; [done|]. rewrite He3. unfold net_salary, set_balance_of_employee.
    by rewrite bool_decide_eq_true_2. }
  split.
  - intros t Ht Htid. destruct (Hone t Ht Htid) as [Hdue ->]. split; [|done].
    apply salary_due_spec in Hdue. unfold net_salary, set_balance_of_employee in Hdue.
    by rewrite bool_decide_eq_true_2 in Hdue.
  - intros Hle t Ht Htid. destruct (Hone t Ht Htid) as [Hdue _].
    apply salary_due_spec in Hdue. unfold net_salary, set_balance_of_employee in Hdue.
    rewrite bool_decide_eq_true_2 in Hdue by done. simpl in Hdue. lra.
Qed.

Lemma advance_is_deducted_from_salary_witness :
  let w := perform online_env true (addEmployeeAdvance online_env payroll_state "e1" 300)
                   (mkWorld payroll_state payroll_db []) in
  map emp_balance (employees (w_state w)) = [(200 + 300)%Q; 700%Q; 0%Q] /\
  (exists ids paid expense,
     out_call (processAndPaySalaries online_env (w_state w))
       = Some (ProcessPayroll ids paid expense) /\
     forall t, t ∈ paid -> ptx_employeeId t = "e1" ->
       ptx_amount t = (1000 - (200 + 300))%Q) /\
  exists ids paid expense t,
    out_call (processAndPaySalaries online_env (w_state w))
      = Some (ProcessPayroll ids paid expense) /\
    List.filter (fun t => bool_decide (ptx_employeeId t = "e1")) paid = [t] /\
    ptx_type t = PTSalaryPayment /\
    ptx_amount t = (1000 - (200 + 300))%Q.
Proof.
  intros w.
  destruct (advance_is_deducted_from_salary online_env online_env online_env
              payroll_state "e1" 300 0%nat
              (mkEmployee "e1" "Ahmad" "clerk" 1000%Q 200%Q) payroll_db [] eq_refl)
    as (He & _ & _ & _ & Hpay & Hone).
  - apply (bool_decide_unpack _). vm_compute. reflexivity.
  - reflexivity.
  - split; [subst w; rewrite He; reflexivity|]. split.
    + eexists _, _, _. split; [reflexivity|].
      intros t Ht Hid. eapply Hpay; [reflexivity|exact Ht|exact Hid].
    + apply Hone; reflexivity.
Defined.

(** ** Guards of the inventory and of the roles *)

Lemma has_history_spec state productId :
  hasSalesHistory state productId || hasPurchaseHistory state productId = true
  <-> has_history state productId.
Proof.
  unfold hasSalesHistory, hasPurchaseHistory, has_history.
  rewrite orb_true_iff, !existsb_exists. split.
  - intros [(inv & Hinv & Hitem)|(inv & Hinv & Hitem)];
      apply existsb_exists in Hitem as (item & Hitem & Hc);
      apply list_elem_of_In in Hinv, Hitem; [left|right]; exists inv, item.
    + apply andb_prop in Hc as [?%bool_decide_eq_true ?%bool_decide_eq_true]. done.
    + apply bool_decide_eq_true in Hc. done.
  - intros [(inv & item & Hinv & Hitem & Hid & Hty)|(inv & item & Hinv & Hitem & Hid)];
      apply list_elem_of_In in Hinv, Hitem; [left|right]; exists inv;
      (split; [done|]); apply existsb_exists; exists item; (split; [done|]).
    + by rewrite !bool_decide_eq_true_2.
    + by rewrite bool_decide_eq_true_2.
Qed.

(** X17.  [deleteProduct] does not delete a product that a sale invoice
    or a purchase invoice of the state names: the state and the database
    stay as they are and one message is shown.  Whatever happens, every
    product with an invoice on record is still among the products, and
    the invoices are as before.  A product without history is removed
    from the products of the state and from the table when the call
    resolves. *)
Theorem deleteProduct_keeps_history env env' resolves state productId db toasts :
  let w := perform env' resolves (deleteProduct env state productId)
                   (mkWorld state db toasts) in
  (forall p, p ∈ products state -> has_history state (prod_id p) ->
     p ∈ products (w_state w)) /\
  saleInvoices (w_state w) = saleInvoices state /\
  purchaseInvoices (w_state w) = purchaseInvoices state /\
  (has_history state productId ->
     w_state w = state /\ w_db w = db /\ exists m, w_toasts w = toasts ++ [m]) /\
  (~ has_history state productId -> env_online env = true -> resolves = true ->
   is_Some (currentUser state) ->
     products (w_state w)
       = List.filter (fun p => negb (bool_decide (prod_id p = productId)))
                     (products state) /\
     t_products (w_db w)
       = List.filter (fun r => negb (bool_decide (pr_id r = productId)))
                     (t_products db)).
Proof.
  intros w. subst w. unfold deleteProduct.
  destruct (env_online env) eqn:Ho; simpl.
  2:{ split; [done|]. split; [done|]. split; [done|]. split; [|done].
      intros _. split; [done|]. split; [done|]. by eexists. }
  destruct (hasSalesHistory state productId || hasPurchaseHistory state productId)
    eqn:Hguard.
  { unfold perform. simpl.
    split; [done|]. split; [done|]. split; [done|]. split.
    - intros _. split; [done|]. split; [done|]. by eexists.
    - intros Hno. destruct Hno. by apply has_history_spec. }
  assert (~ has_history state productId) as Hno.
  { intros H%has_history_spec. congruence. }
  assert (forall p, p ∈ products state -> has_history state (prod_id p) ->
            p ∈ List.filter (fun p => negb (bool_decide (prod_id p = productId)))
                            (products state)) as Hkept.
  { intros p Hp Hh. apply list_elem_of_In, filter_In. split; [by apply list_elem_of_In|].
    rewrite bool_decide_eq_false_2; [done|]. intros <-. done. }
  unfold perform. simpl. destruct resolves; simpl.
  - destruct (currentUser state) as [u|] eqn:Hu; simpl.
    + split; [done|]. split; [done|]. split; [done|]. split; [done|]. done.
    + split; [done|]. split; [done|]. split; [done|]. split; [done|].
      intros _ _ _ [? [=]].
  - split; [done|]. split; [done|]. split; [done|]. split; [done|]. done.
Qed.

Lemma deleteProduct_keeps_history_witness :
  let w := perform online_env true (deleteProduct online_env create_state "p-pen")
                   (mkWorld create_state credit_db []) in
  w_state w = create_state /\ w_db w = credit_db /\
  exists m, w_toasts w = [] ++ [m].
Proof.
  intros w.
  apply (deleteProduct_keeps_history online_env online_env true create_state "p-pen"
           credit_db []).
  left. exists invoice_F1, (pen_line 1).
  split; [apply list_elem_of_singleton; reflexivity|].
  split; [apply list_elem_of_singleton; reflexivity|]. split; reflexivity.
Defined.


Lemma find_in_filter {A} (P : A -> Prop) `{!forall x, Decision (P x)} (f : A -> bool) l :
  (forall x, P x -> f x = true) ->
  snd <$> list_find P (List.filter f l) = snd <$> list_find P l.
Proof.
  intros HPf. induction l as [|x l IH]; [done|]. simpl.
  destruct (f x) eqn:Hfx; simpl.
  - destruct (decide (P x)); [done|].
    destruct (list_find P (List.filter f l)) as [[??]|],
             (list_find P l) as [[??]|]; simpl in *; congruence.
  - destruct (decide (P x)) as [HP|HP]; [apply HPf in HP; congruence|].
    rewrite IH. by destruct (list_find P l) as [[??]|].
Qed.

(** X18.  [deleteRole] takes no permission from a user of the state: what
    [hasPermission] answers for any of them is the same before and after,
    whether the call resolves or not; the role of a user is not deleted at
    all. *)
Theorem deleteRole_keeps_permissions env env' resolves state roleId db toasts u permission :
  u ∈ users state ->
  let w := perform env' resolves (deleteRole env state roleId)
                   (mkWorld state db toasts) in
  hasPermission (as_user u (w_state w)) permission
    = hasPermission (as_user u state) permission /\
  users (w_state w) = users state /\
  (user_roleId u = roleId -> w_state w = state /\ w_db w = db).
Proof.
  intros Hu w. subst w. unfold deleteRole.
  destruct (env_online env) eqn:Ho; simpl; [|done].
  destruct (existsb _ (users state)) eqn:Hguard; [done|].
  assert (user_roleId u <> roleId) as Hne.
  { intros Heq. apply not_true_iff_false in Hguard. apply Hguard.
    apply existsb_exists. exists u. split; [by apply list_elem_of_In|].
    by apply bool_decide_eq_true. }
  unfold perform. simpl. destruct resolves; simpl.
  - destruct (currentUser state) as [cu|] eqn:Hcu; simpl.
    + split; [|done]. unfold hasPermission. simpl.
      assert (forall r, role_id r = user_roleId u ->
                negb (bool_decide (role_id r = roleId)) = true) as HPf.
      { intros r Hr. rewrite bool_decide_eq_false_2; [done|congruence]. }
      pose proof (find_in_filter _ _ (roles state) HPf) as Hf.
      destruct (list_find _ (List.filter _ _)) as [[i1 r1]|],
               (list_find _ (roles state)) as [[i2 r2]|]; simpl in Hf;
        [by injection Hf as ->|discriminate|discriminate|done].
    + done.
  - done.
Qed.

Lemma deleteRole_keeps_permissions_witness :
  let w := perform online_env true (deleteRole online_env staff_state "r-guest")
                   (mkWorld staff_state staff_db []) in
  map role_id (roles (w_state w)) = ["r-clerk"] /\
  hasPermission (as_user clerk (w_state w)) "pos:create_invoice" = true.
Proof.
  intros w. split; [reflexivity|].
  destruct (deleteRole_keeps_permissions online_env online_env true staff_state
              "r-guest" staff_db [] clerk "pos:create_invoice") as [H _].
  - apply list_elem_of_singleton. reflexivity.
  - subst w. rewrite H. reflexivity.
Defined.

(** X19.  The session.  A [login] that succeeds has found the user by
    name with the password given, stores the id of the user and marks the
    state as signed in; a reload ([fetchData]) then signs the same user in
    again (the user with the stored id; the id must not be empty).  A
    [login] that fails changes neither the stored id nor the state.  After
    [logout] the stored id is gone and a reload leaves the state signed
    out. *)
Theorem login_session env db state username password :
  env_online env = true ->
  let '(answer, stored, s') := login env (Some (t_users db)) state username password in
  (answer.1 = true ->
     exists k user,
       list_find (fun u => user_username u = username) (t_users db) = Some (k, user) /\
       user_password user = Some password /\
       stored = Some (user_id user) /\
       isAuthenticated s' = true /\ currentUser s' = Some user /\
       (user_id user <> "" -> is_Some (t_store_settings db) ->
        let reloaded := (fetchData (with_stored stored env) db s').1 in
        isAuthenticated reloaded = true /\
        exists u', currentUser reloaded = Some u' /\ user_id u' = user_id user /\
          (NoDup (map user_id (t_users db)) -> u' = user))) /\
  (answer.1 = false -> stored = env_storedUserId env /\ s' = state) /\
  (let '(stored2, s2) := logout s' in
   stored2 = None /\ isAuthenticated s2 = false /\ currentUser s2 = None /\
   let reloaded := (fetchData (with_stored stored2 env) db s2).1 in
   is_Some (t_store_settings db) ->
   isAuthenticated reloaded = false /\ currentUser reloaded = None).
Proof.
  intros Honline. unfold login. rewrite Honline. simpl.
  assert (forall s2, is_Some (t_store_settings db) ->
            isAuthenticated (fetchData (with_stored None env) db s2).1 = false /\
            currentUser (fetchData (with_stored None env) db s2).1 = None) as Hout.
  { intros s2 [settings Hs]. unfold fetchData. rewrite Hs. simpl. done. }
  destruct (list_find _ (t_users db)) as [[k user]|] eqn:Hfind.
  2:{ split; [discriminate|]. split; [done|]. simpl. do 3 (split; [done|]).
      apply Hout. }
  case_bool_decide as Hpw.
  2:{ split; [discriminate|]. split; [done|]. simpl. do 3 (split; [done|]).
      apply Hout. }
  split; [|split; [discriminate|simpl; do 3 (split; [done|]); apply Hout]].
  intros _. exists k, user. do 5 (split; [done|]).
  intros Hid [settings Hs]. unfold fetchData. rewrite Hs. simpl.
  unfold truthy. rewrite (bool_decide_eq_false_2 (user_id user = "")) by done.
  pose proof (proj1 (list_find_Some _ _ _ _) Hfind) as (Hk & _ & _).
  destruct (list_find_elem_of (fun u => user_id u = user_id user) (t_users db) user)
    as [[k' u'] Hf']; [by eapply list_elem_of_lookup_2|done|].
  rewrite Hf'. simpl. split; [done|]. exists u'.
  pose proof (proj1 (list_find_Some _ _ _ _) Hf') as (Hk' & Hid' & _).
  split; [done|]. split; [done|]. intros Hnd.
  symmetry. eapply (find_unique_id user_id); [exact Hnd| |by eapply list_elem_of_lookup_2|].
  - rewrite <- Hid' in Hf'. exact Hf'.
  - congruence.
Qed.

Lemma login_session_witness :
  let '(answer, stored, s') :=
    login online_env (Some (t_users staff_db))
          (set_session false None [] staff_state) "clerk" "secret" in
  answer.1 = true /\ stored = Some "u2" /\
  currentUser (fetchData (with_stored stored online_env) staff_db s').1 = Some clerk.
Proof.
  pose proof (login_session online_env staff_db
                (set_session false None [] staff_state) "clerk" "secret" eq_refl)
    as H.
  destruct (login online_env (Some (t_users staff_db))
                  (set_session false None [] staff_state) "clerk" "secret")
    as [[answer stored] s'] eqn:Hl.
  destruct H as (Hok & _ & _).
  assert (answer.1 = true) as Ha by (vm_compute in Hl; by injection Hl as <- _ _).
  destruct (Hok Ha) as (k & user & Hfind & _ & Hstored & _ & _ & Hreload).
  assert (user = clerk) as ->.
  { vm_compute in Hfind. by injection Hfind as _ <-. }
  split; [done|]. split; [done|].
  destruct Hreload as (_ & u' & Hu' & _ & Hsame).
  - discriminate.
  - by eexists.
  - rewrite Hu'. f_equal. apply Hsame.
    apply (bool_decide_unpack _). vm_compute. reflexivity.
Defined.

#[local] Arguments api_updatePurchase : simpl never.
#[local] Arguments fetchData : simpl never.



(** ** The state and the database in step *)

Lemma List_filter_map_same {A} (P : A -> bool) (f : A -> A) l :
  (forall x, P (f x) = P x) ->
  List.filter P (map f l) = map f (List.filter P l).
Proof.
  intros HP. induction l as [|x l IH]; [done|]. simpl. rewrite HP.
  destruct (P x); simpl; by rewrite IH.
Qed.

Lemma mapProduct_set_stock id s rows prow :
  mapProduct (set_stock_by_id id s rows) prow = restock id s (mapProduct rows prow).
Proof.
  unfold mapProduct, restock, set_batches, set_stock_by_id, update_where. simpl.
  f_equal. rewrite List_filter_map_same.
  - rewrite !map_map. apply map_ext. intros r.
    unfold mapBatch at 2. simpl. by destruct (bool_decide (br_id r = id)).
  - intros r. by destruct (bool_decide (br_id r = id)).
Qed.

Lemma getProducts_apply su rows prows :
  map (mapProduct (apply_stock_updates su rows)) prows
  = fold_left (fun ps u => map (restock (su_batchId u) (su_newStock u)) ps) su
              (map (mapProduct rows) prows).
Proof.
  revert rows. induction su as [|u su IH]; intros rows; [done|]. simpl.
  unfold apply_stock_updates in *. simpl. rewrite IH. f_equal.
  rewrite map_map. apply map_ext. intros prow. apply mapProduct_set_stock.
Qed.

Lemma set_batches_same p : set_batches (prod_batches p) p = p.
Proof. by destruct p. Qed.

Lemma restock_one (ps : list Product) k p i b s :
  distinct_batch_ids ps ->
  ps !! k = Some p -> prod_batches p !! i = Some b ->
  map (restock (batch_id b) s) ps
  = <[k := set_batches (<[i := set_stock s b]> (prod_batches p)) p]> ps.
Proof.
  intros Hd Hk Hi. apply list_eq. intros j.
  change (map ?f ?l) with (f <$> l). rewrite list_lookup_fmap.
  destruct (decide (j = k)) as [->|Hjk].
  - rewrite list_lookup_insert_eq by (by eapply lookup_lt_Some).
    rewrite Hk. simpl. f_equal. unfold restock. f_equal.
    apply list_eq. intros i'.
    change (map ?f ?l) with (f <$> l). rewrite list_lookup_fmap.
    destruct (decide (i' = i)) as [->|Hii].
    + rewrite list_lookup_insert_eq by (by eapply lookup_lt_Some).
      rewrite Hi. simpl. by rewrite bool_decide_eq_true_2.
    + rewrite list_lookup_insert_ne by done.
      destruct (prod_batches p !! i') as [b'|] eqn:Hi'; [|done]. simpl.
      rewrite bool_decide_eq_false_2; [done|].
      intros Heq. destruct (Hd k p i' b' k p i b Hk Hi' Hk Hi Heq). done.
  - rewrite list_lookup_insert_ne by done.
    destruct (ps !! j) as [q|] eqn:Hj; [|done]. simpl. f_equal.
    rewrite <- (set_batches_same q) at 2. unfold restock. f_equal.
    rewrite <- (map_id (prod_batches q)) at 2. apply map_ext_in.
    intros b' Hb'. rewrite bool_decide_eq_false_2; [done|].
    intros Heq. apply list_elem_of_In, list_elem_of_lookup in Hb' as [i' Hi'].
    destruct (Hd j q i' b' k p i b Hj Hi' Hk Hi Heq). done.
Qed.

Lemma distinct_batch_ids_insert (ps : list Product) k p bs :
  distinct_batch_ids ps -> ps !! k = Some p ->
  map batch_id bs = map batch_id (prod_batches p) ->
  distinct_batch_ids (<[k := set_batches bs p]> ps).
Proof.
  intros Hd Hk Hids.
  assert (forall j q i b, <[k := set_batches bs p]> ps !! j = Some q ->
            prod_batches q !! i = Some b ->
            exists q' b', ps !! j = Some q' /\ prod_batches q' !! i = Some b' /\
                          batch_id b' = batch_id b) as Hback.
  { intros j q i b Hj Hi. destruct (decide (j = k)) as [->|Hjk].
    - rewrite list_lookup_insert_eq in Hj by (by eapply lookup_lt_Some).
      injection Hj as <-. simpl in Hi.
      assert ((batch_id <$> bs) !! i = Some (batch_id b)) as Hl
        by (by rewrite list_lookup_fmap, Hi).
      change (map ?f ?l) with (f <$> l) in Hids. rewrite Hids in Hl.
      rewrite list_lookup_fmap in Hl.
      destruct (prod_batches p !! i) as [b'|] eqn:Hb'; [|done].
      exists p, b'. split; [done|]. split; [done|]. by injection Hl.
    - rewrite list_lookup_insert_ne in Hj by done. by exists q, b. }
  intros k1 p1 i1 b1 k2 p2 i2 b2 H1 H1' H2 H2' Heq.
  destruct (Hback _ _ _ _ H1 H1') as (q1 & c1 & ? & ? & E1).
  destruct (Hback _ _ _ _ H2 H2') as (q2 & c2 & ? & ? & E2).
  eapply (Hd k1 q1 i1 c1 k2 q2 i2 c2); try done. congruence.
Qed.

Lemma deductLoop_updates (ps : list Product) k p order q tot su0 bs' q' tot' su :
  distinct_batch_ids ps -> ps !! k = Some p ->
  deductLoop order (prod_batches p) q tot su0 = (bs', q', tot', su) ->
  map batch_id bs' = map batch_id (prod_batches p) /\
  exists su', su = su0 ++ su' /\
    fold_left (fun ps u => map (restock (su_batchId u) (su_newStock u)) ps) su' ps
    = <[k := set_batches bs' p]> ps.
Proof.
  revert ps p q tot su0.
  induction order as [|i order IH]; intros ps p q tot su0 Hd Hk Hloop; simpl in Hloop.
  { injection Hloop as <- _ _ <-. split; [done|]. exists []. rewrite app_nil_r.
    split; [done|]. simpl. rewrite set_batches_same. by rewrite list_insert_id. }
  destruct (q <=? 0)%Z.
  { injection Hloop as <- _ _ <-. split; [done|]. exists []. rewrite app_nil_r.
    split; [done|]. simpl. rewrite set_batches_same. by rewrite list_insert_id. }
  destruct (prod_batches p !! i) as [batch|] eqn:Hi.
  2:{ injection Hloop as <- _ _ <-. split; [done|]. exists []. rewrite app_nil_r.
      split; [done|]. simpl. rewrite set_batches_same. by rewrite list_insert_id. }
  set (s := (batch_stock batch - Z.min q (batch_stock batch))%Z) in *.
  set (bs1 := <[i := set_stock s batch]> (prod_batches p)) in *.
  assert (map batch_id bs1 = map batch_id (prod_batches p)) as Hids1.
  { subst bs1. change (map ?f ?l) with (f <$> l). rewrite list_fmap_insert. simpl.
    apply list_insert_id. by rewrite list_lookup_fmap, Hi. }
  destruct (IH (<[k := set_batches bs1 p]> ps) (set_batches bs1 p) _ _ _
              (distinct_batch_ids_insert ps k p bs1 Hd Hk Hids1)
              ltac:(by rewrite list_lookup_insert_eq by (by eapply lookup_lt_Some))
              Hloop) as (Hids & su' & -> & Hfold).
  simpl in Hids. split; [congruence|].
  exists (mkStockUpdate (batch_id batch) s :: su'). rewrite <- app_assoc.
  split; [done|]. simpl.
  rewrite (restock_one ps k p i batch s Hd Hk Hi). fold bs1.
  rewrite Hfold. by rewrite list_insert_insert_eq.
Qed.

Lemma prepareLines_updates cart ps su0 items0 ups su items :
  distinct_batch_ids ps ->
  prepareLines cart ps su0 items0 = inr (ups, su, items) ->
  exists su', su = su0 ++ su' /\
    fold_left (fun ps u => map (restock (su_batchId u) (su_newStock u)) ps) su' ps
    = ups.
Proof.
  revert ps su0 items0.
  induction cart as [|item cart IH]; intros ps su0 items0 Hd Hprep; simpl in Hprep.
  { injection Hprep as <- <- _. exists []. by rewrite app_nil_r. }
  destruct (item_type item); [|by eapply IH].
  destruct (list_find _ ps) as [[k p]|] eqn:Hfind; [|discriminate].
  pose proof (proj1 (list_find_Some _ _ _ _) Hfind) as (Hk & _ & _).
  destruct (deductLoop _ _ _ _ _) as [[[bs qd] tot] su1] eqn:Hloop.
  destruct (0 <? qd)%Z; [discriminate|].
  destruct (deductLoop_updates ps k p _ _ _ _ _ _ _ _ Hd Hk Hloop)
    as (Hids & s1 & -> & Hfold1).
  destruct (IH _ _ _ (distinct_batch_ids_insert ps k p bs Hd Hk Hids) Hprep)
    as (s2 & -> & Hfold2).
  exists (s1 ++ s2). rewrite app_assoc. split; [done|].
  by rewrite fold_left_app, Hfold1.
Qed.

Lemma first_with_key {A} (key : A -> string) (l : list A) id k x y :
  NoDup (map key l) ->
  list_find (fun a => key a = id) l = Some (k, x) ->
  y ∈ l -> key y = id -> y = x.
Proof.
  intros Hnd (Hk & Hx & _)%list_find_Some Hy Hkey.
  apply list_elem_of_lookup in Hy as [i Hi].
  assert (i = k) as ->.
  { eapply NoDup_lookup; [exact Hnd| |].
    - change (map key l) with (key <$> l). by rewrite list_lookup_fmap, Hi.
    - change (map key l) with (key <$> l). rewrite list_lookup_fmap, Hk. simpl.
      congruence. }
  congruence.
Qed.

(** X21.  A new sale keeps the state and the database in step.  When the
    products and the customers of the state are those the database shows,
    no two batches share an id and no two customers share an id, then
    after [completeSale] has saved a new invoice (the customer of a credit
    sale being one of the customers) the products and the customers of
    the state are again those the database shows: the stock written batch
    by batch is the stock of the optimistic update, and so is the balance
    of the customer. *)
Theorem completeSale_keeps_database_in_step
    env env' state cashier customerId db toasts r :
  out_result (completeSale env state cashier customerId) = Some r ->
  success r = true ->
  truthy (editingSaleInvoiceId state) = None ->
  (forall cid, truthy customerId = Some cid ->
     cid ∈ map cust_id (customers state)) ->
  getProducts db = products state -> distinct_batch_ids (products state) ->
  getCustomers db = customers state -> NoDup (map cust_id (customers state)) ->
  let w := dispatch env' true (completeSale env state cashier customerId)
                    (mkWorld state db toasts) in
  getProducts (w_db w) = products (w_state w) /\
  getCustomers (w_db w) = customers (w_state w).
Proof.
  intros Hres Hok Hed Hcust Hps Hd Hcs Hnd.
  unfold completeSale in *.
  destruct (env_online env); simpl in *;
    [|injection Hres as <-; discriminate].
  destruct (bool_decide (cart state = []));
    [injection Hres as <-; discriminate|].
  destruct (prepareLines _ _ _ _) as [m|[[ups su] items]] eqn:Hprep;
    [injection Hres as <-; discriminate|].
  rewrite Hed in *. simpl in *. clear Hres Hok.
  destruct (prepareLines_updates _ _ _ _ _ _ _ Hd Hprep) as (su' & Hsu & Hfold).
  simpl in Hsu. subst su'.
  assert (map (mapProduct (apply_stock_updates su (t_product_batches db)))
              (t_products db) = ups) as Hmirror.
  { rewrite getProducts_apply. fold (getProducts db). by rewrite Hps. }
  unfold dispatch. simpl.
  destruct (truthy customerId) as [cid|] eqn:Hcid.
  - specialize (Hcust cid eq_refl).
    destruct (list_find (fun c => cust_id c = cid) (customers state))
      as [[k c]|] eqn:Hfind.
    2:{ exfalso. apply list_elem_of_fmap in Hcust as (c & -> & Hin).
        eapply list_find_None in Hfind. rewrite Forall_forall in Hfind.
        by apply (Hfind c). }
    simpl. split; [exact Hmirror|].
    unfold getCustomers in *. simpl. unfold update_where.
    rewrite <- Hcs. rewrite !map_map. apply map_ext_in. intros row Hrow.
    unfold add_balance. simpl.
    destruct (bool_decide (cr_id row = cid)) eqn:Hrowid; [|done].
    apply bool_decide_eq_true_1 in Hrowid. simpl. f_equal.
    assert (mkCustomer (cr_id row) (cr_name row) (cr_phone row) None (cr_balance row)
            = c) as <-; [|done].
    eapply (first_with_key cust_id (customers state)); [exact Hnd|exact Hfind| |done].
    rewrite <- Hcs. apply list_elem_of_In. apply in_map_iff. eexists. split; [done|].
    done.
  - simpl. split; [exact Hmirror|done].
Qed.

Lemma completeSale_keeps_database_in_step_witness :
  let w := dispatch online_env true
             (completeSale online_env credit_sale_state "cashier" (Some "c1"))
             (mkWorld credit_sale_state credit_db []) in
  (* three of the five pens are sold on credit to customer c1 *)
  getProducts (w_db w) = products (w_state w) /\
  getCustomers (w_db w) = customers (w_state w) /\
  map (fun p => map batch_stock (prod_batches p)) (products (w_state w)) = [[2%Z]] /\
  map cust_balance (customers (w_state w)) = [(120 + (20 * 3 + 0))%Q].
Proof.
  intros w.
  destruct (completeSale_keeps_database_in_step online_env online_env
              credit_sale_state "cashier" (Some "c1") credit_db [] _
              eq_refl eq_refl eq_refl) as [Hproducts Hcustomers].
  - intros cid [= <-]. apply elem_of_cons. by left.
  - reflexivity.
  - intros [|k1] p1 [|i1] b1 [|k2] p2 [|i2] b2; simpl; intros; simplify_eq; done.
  - reflexivity.
  - apply NoDup_singleton.
  - split; [exact Hproducts|]. split; [exact Hcustomers|]. split; reflexivity.
Defined.

Lemma mapProduct_new_row rows b prow :
  mapProduct (rows ++ [batchRow_of_new b]) prow
  = if bool_decide (pr_id prow = nb_productId b)
    then set_batches (prod_batches (mapProduct rows prow) ++ [batch_of_new b])
                     (mapProduct rows prow)
    else mapProduct rows prow.
Proof.
  unfold mapProduct, set_batches. simpl. rewrite List.filter_app. simpl.
  destruct (bool_decide (pr_id prow = nb_productId b)) eqn:Hid.
  - apply bool_decide_eq_true_1 in Hid.
    rewrite bool_decide_eq_true_2 by done. by rewrite map_app.
  - apply bool_decide_eq_false_1 in Hid.
    rewrite bool_decide_eq_false_2 by done. by rewrite app_nil_r.
Qed.

Lemma getProducts_new_batches nbs rows (prows : list ProductRow) :
  NoDup (map pr_id prows) ->
  map (mapProduct (rows ++ map batchRow_of_new nbs)) prows
  = fold_left push_batch nbs (map (mapProduct rows) prows).
Proof.
  intros Hnd. revert rows. induction nbs as [|b nbs IH]; intros rows.
  { simpl. by rewrite app_nil_r. }
  simpl. rewrite (cons_middle _ rows), app_assoc, IH. f_equal.
  rewrite push_batch_unique by (by rewrite map_map).
  rewrite map_map. apply map_ext. intros prow. apply mapProduct_new_row.
Qed.

(** X22.  A purchase keeps the state and the database in step.  When the
    products and the suppliers of the state are those the database shows,
    no two products share an id and no two suppliers share an id, then
    after [addPurchaseInvoice] has saved an invoice (a user being signed
    in) the products, with their new batches, and the suppliers of the
    state are again those the database shows. *)
Theorem addPurchaseInvoice_keeps_database_in_step
    env env' state invoiceData db toasts r :
  out_result (addPurchaseInvoice env state invoiceData) = Some r ->
  success r = true ->
  is_Some (currentUser state) ->
  getProducts db = products state -> NoDup (map prod_id (products state)) ->
  getSuppliers db = suppliers state -> NoDup (map sup_id (suppliers state)) ->
  let w := dispatch env' true (addPurchaseInvoice env state invoiceData)
                    (mkWorld state db toasts) in
  getProducts (w_db w) = products (w_state w) /\
  getSuppliers (w_db w) = suppliers (w_state w).
Proof.
  intros Hres Hok [user Huser] Hps Hnd Hss Hnds.
  unfold addPurchaseInvoice in *.
  destruct (env_online env); simpl in *; [|injection Hres as <-; discriminate].
  destruct (list_find _ (suppliers state)) as [[k supplier]|] eqn:Hfind;
    [|injection Hres as <-; discriminate].
  clear Hres Hok. unfold dispatch. simpl. rewrite Huser. simpl. split.
  - unfold getProducts in *. simpl. rewrite <- Hps.
    apply getProducts_new_batches. rewrite <- Hps in Hnd.
    by rewrite map_map in Hnd.
  - unfold getSuppliers in *. simpl. unfold update_where.
    rewrite <- Hss. rewrite !map_map. apply map_ext_in. intros row Hrow.
    unfold add_supplier_balance. simpl.
    destruct (bool_decide (spr_id row = sup_id supplier)) eqn:Hrowid; [|done].
    apply bool_decide_eq_true_1 in Hrowid. simpl. f_equal.
    assert (mkSupplier (spr_id row) (spr_name row) None (spr_phone row)
                       (spr_address row) (spr_balance row) = supplier) as <-; [|done].
    pose proof (proj1 (list_find_Some _ _ _ _) Hfind) as (_ & Hsup & _).
    eapply (first_with_key sup_id (suppliers state)); [exact Hnds|exact Hfind| |simpl; congruence].
    rewrite <- Hss. apply list_elem_of_In. apply in_map_iff. by eexists.
Qed.

Lemma addPurchaseInvoice_keeps_database_in_step_witness :
  let w := dispatch online_env true
             (addPurchaseInvoice online_env stocked_state usd_purchase)
             (mkWorld stocked_state stocked_db []) in
  (* ten notebooks at 2 USD and four pens at half a USD, at 70 AFN a USD;
     the pens are not among the products *)
  getProducts (w_db w) = products (w_state w) /\
  getSuppliers (w_db w) = suppliers (w_state w) /\
  map (fun p => map batch_stock (prod_batches p)) (products (w_state w))
    = [[10%Z; 10%Z]].
Proof.
  intros w.
  destruct (addPurchaseInvoice_keeps_database_in_step online_env online_env
              stocked_state usd_purchase stocked_db [] _ eq_refl eq_refl)
    as [Hproducts Hsuppliers].
  - by eexists.
  - reflexivity.
  - apply NoDup_singleton.
  - reflexivity.
  - apply NoDup_singleton.
  - split; [exact Hproducts|]. split; [exact Hsuppliers|]. reflexivity.
Defined.

(** ** A sale and its return *)

Lemma Zsum_insert (l : list Z) i x y :
  l !! i = Some x -> Zsum (<[i := y]> l) = (Zsum l - x + y)%Z.
Proof.
  revert i. induction l as [|a l IH]; intros [|i] Hi; try done.
  - injection Hi as ->. unfold Zsum. simpl. lia.
  - simpl in Hi. unfold Zsum in *. simpl. rewrite (IH i Hi). lia.
Qed.

Lemma deductLoop_total order (bs : list ProductBatch) q tot su bs' q' tot' su' :
  deductLoop order bs q tot su = (bs', q', tot', su') -> (0 <= q)%Z ->
  Zsum (map batch_stock bs') = (Zsum (map batch_stock bs) - (q - q'))%Z /\ (0 <= q')%Z.
Proof.
  revert bs q tot su.
  induction order as [|i order IH]; intros bs q tot su Hloop Hq; simpl in Hloop.
  { injection Hloop as <- <- _ _. split; lia. }
  destruct (q <=? 0)%Z; [injection Hloop as <- <- _ _; split; lia|].
  destruct (bs !! i) as [batch|] eqn:Hi; [|injection Hloop as <- <- _ _; split; lia].
  apply IH in Hloop as [Hsum Hq']; [|lia]. split; [|done].
  rewrite Hsum. change (map ?f ?l) with (f <$> l). rewrite list_fmap_insert. simpl.
  rewrite (Zsum_insert _ i (batch_stock batch)) by (by rewrite list_lookup_fmap, Hi).
  lia.
Qed.

Lemma sold_units_cons item rest pid :
  sold_units (item :: rest) pid
  = ((if is_product item && bool_decide (item_id item = pid)
      then item_quantity item else 0) + sold_units rest pid)%Z.
Proof.
  unfold sold_units. simpl.
  destruct (is_product item && bool_decide (item_id item = pid)); [|done].
  done.
Qed.

Lemma prepareLines_sold cart (ps : list Product) su items ups su' items' :
  prepareLines cart ps su items = inr (ups, su', items') ->
  NoDup (map prod_id ps) ->
  Forall (fun i => (0 <= item_quantity i)%Z) cart ->
  map total_stock ups
  = map (fun p => (total_stock p - sold_units cart (prod_id p))%Z) ps.
Proof.
  revert ps su items.
  induction cart as [|item cart IH]; intros ps su items Hprep Hnd Hq; simpl in Hprep.
  { injection Hprep as <- _ _. apply map_ext. intros p. unfold sold_units, Zsum. simpl. lia. }
  apply Forall_cons in Hq as [Hq Hqs].
  destruct (item_type item) eqn:Hty.
  2:{ rewrite (IH _ _ _ Hprep Hnd Hqs). apply map_ext. intros p.
      rewrite sold_units_cons. unfold is_product. rewrite Hty. simpl. lia. }
  destruct (list_find _ ps) as [[k p]|] eqn:Hfind; [|discriminate].
  pose proof (proj1 (list_find_Some _ _ _ _) Hfind) as (Hk & Hp & _).
  destruct (deductLoop _ _ _ _ _) as [[[bs qd] tot] su1] eqn:Hloop.
  destruct (Z.ltb_spec 0 qd) as [|Hqd]; [discriminate|].
  destruct (deductLoop_total _ _ _ _ _ _ _ _ _ Hloop Hq) as [Hsum Hqd'].
  assert (map prod_id (<[k := set_batches bs p]> ps) = map prod_id ps) as Hids.
  { change (map ?f ?l) with (f <$> l). rewrite list_fmap_insert. simpl.
    apply list_insert_id. by rewrite list_lookup_fmap, Hk. }
  rewrite (IH _ _ _ Hprep ltac:(by rewrite Hids) Hqs).
  apply list_eq. intros j. change (map ?f ?l) with (f <$> l).
  rewrite !list_lookup_fmap.
  destruct (decide (j = k)) as [->|Hjk].
  - rewrite list_lookup_insert_eq by (by eapply lookup_lt_Some).
    rewrite Hk. simpl. f_equal. rewrite sold_units_cons.
    unfold is_product. rewrite Hty. simpl. rewrite bool_decide_eq_true_2 by done.
    unfold total_stock at 1. simpl. rewrite Hsum. unfold total_stock. lia.
  - rewrite list_lookup_insert_ne by done.
    destruct (ps !! j) as [p'|] eqn:Hj; [|done]. simpl. f_equal.
    rewrite sold_units_cons. rewrite bool_decide_eq_false_2; [rewrite andb_false_r; lia|].
    intros Heq. apply Hjk. eapply (NoDup_lookup _ _ _ _ Hnd).
    + change (map ?f ?l) with (f <$> l). by rewrite list_lookup_fmap, Hj.
    + change (map ?f ?l) with (f <$> l). rewrite list_lookup_fmap, Hk. simpl. congruence.
Qed.

Lemma prepareLines_items cart ps su items0 ups su' items :
  prepareLines cart ps su items0 = inr (ups, su', items) ->
  map restore_key items = map restore_key items0 ++ map restore_key cart.
Proof.
  revert ps su items0.
  induction cart as [|item cart IH]; intros ps su items0 Hprep; simpl in Hprep.
  { injection Hprep as _ _ <-. by rewrite app_nil_r. }
  destruct (item_type item) eqn:Hty.
  2:{ rewrite (IH _ _ _ Hprep), map_app. simpl. by rewrite <- app_assoc. }
  destruct (list_find _ ps) as [[k p]|]; [|discriminate].
  destruct (deductLoop _ _ _ _ _) as [[[bs qd] tot] su1].
  destruct (0 <? qd)%Z; [discriminate|].
  rewrite (IH _ _ _ Hprep), map_app. simpl. by rewrite <- app_assoc.
Qed.

Lemma detailedReturnItems_cons inv ri ris :
  detailedReturnItems inv (ri :: ris)
  = match find_original_item inv ri with
    | Some o => set_quantity (ri_quantity ri) o :: detailedReturnItems inv ris
    | None => detailedReturnItems inv ris
    end.
Proof. unfold detailedReturnItems. simpl. by destruct (find_original_item inv ri). Qed.

Lemma detailed_full_return_keys inv (l : list CartItem) :
  (forall i, i ∈ l -> i ∈ inv_items inv) ->
  map restore_key (detailedReturnItems inv
              (map (fun i => mkReturnItem (item_id i) (item_type i) (item_quantity i)) l))
  = map restore_key l.
Proof.
  induction l as [|i l IH]; intros Hin; [done|].
  rewrite map_cons, detailedReturnItems_cons. unfold find_original_item.
  destruct (list_find _ (inv_items inv)) as [[k o]|] eqn:Hfind.
  - apply list_find_Some in Hfind as (_ & [Hid Hty] & _). simpl in Hid, Hty.
    cbn [fmap option_fmap option_map snd]. rewrite !map_cons.
    rewrite IH by (intros; apply Hin; by apply elem_of_cons; right).
    unfold restore_key at 1 3. simpl. by rewrite Hid, Hty.
  - exfalso. apply list_find_None in Hfind. rewrite Forall_forall in Hfind.
    apply (Hfind i); [apply Hin; apply elem_of_cons; by left|done].
Qed.

Lemma restores_of_keys (l1 l2 : list CartItem) :
  map restore_key l1 = map restore_key l2 ->
  map (fun i => mkStockRestore (item_id i) (item_quantity i)) (List.filter is_product l1)
  = map (fun i => mkStockRestore (item_id i) (item_quantity i)) (List.filter is_product l2).
Proof.
  revert l2. induction l1 as [|a l1 IH]; intros [|b l2] Heq; try done.
  simpl in Heq. injection Heq as Hid Hty Hq Hrest. simpl.
  assert (is_product a = is_product b) as -> by (unfold is_product; by rewrite Hty).
  destruct (is_product b); simpl; [|by apply IH].
  rewrite Hid, Hq. f_equal. by apply IH.
Qed.

Lemma restored_sold cart pid :
  restored_units (map (fun i => mkStockRestore (item_id i) (item_quantity i))
                      (List.filter is_product cart)) pid
  = sold_units cart pid.
Proof.
  induction cart as [|i cart IH]; [done|].
  rewrite sold_units_cons, <- IH. unfold restored_units. simpl.
  destruct (is_product i); simpl; [|done].
  destruct (bool_decide (item_id i = pid)); simpl; [|done]. done.
Qed.

Lemma add_to_first_batch_products rows r :
  map br_product_id (add_to_first_batch rows r) = map br_product_id rows.
Proof.
  unfold add_to_first_batch.
  destruct (list_find _ rows) as [[n b]|] eqn:Hf; [|done].
  apply list_find_Some in Hf as (Hn & _ & _).
  change (map ?f ?l) with (f <$> l). rewrite list_fmap_insert. simpl.
  apply list_insert_id. by rewrite list_lookup_fmap, Hn.
Qed.

Lemma units_in_rows_none rows pid :
  pid ∉ map br_product_id rows -> units_in_rows rows pid = 0%Z.
Proof.
  intros Hno. unfold units_in_rows.
  rewrite filter_none; [done|]. intros r Hr.
  apply bool_decide_eq_false_2. intros Heq. apply Hno.
  apply list_elem_of_fmap. by exists r.
Qed.

Lemma units_in_rows_insert (rows : list BatchRow) n b s pid :
  rows !! n = Some b ->
  units_in_rows (<[n := set_row_stock s b]> rows) pid
  = (units_in_rows rows pid
     + if bool_decide (br_product_id b = pid) then s - br_stock b else 0)%Z.
Proof.
  revert n. induction rows as [|a rows IH]; intros [|n] Hn; try done.
  - injection Hn as ->. unfold units_in_rows. simpl.
    destruct (bool_decide (br_product_id b = pid)); simpl; unfold Zsum; simpl; lia.
  - simpl in Hn. specialize (IH n Hn). unfold units_in_rows in *. simpl.
    destruct (bool_decide (br_product_id a = pid)); simpl; [|done].
    unfold Zsum in *. simpl. lia.
Qed.

Lemma units_in_rows_add rows r pid :
  pid ∈ map br_product_id rows ->
  units_in_rows (add_to_first_batch rows r) pid
  = (units_in_rows rows pid
     + if bool_decide (sr_productId r = pid) then sr_quantity r else 0)%Z.
Proof.
  intros Hin. unfold add_to_first_batch.
  destruct (list_find _ rows) as [[n b]|] eqn:Hf.
  - apply list_find_Some in Hf as (Hn & Hb & _).
    rewrite (units_in_rows_insert rows n b _ pid Hn). rewrite Hb.
    destruct (bool_decide (sr_productId r = pid)); lia.
  - rewrite bool_decide_eq_false_2; [lia|]. intros Heq.
    apply list_find_None in Hf. rewrite Forall_forall in Hf.
    apply list_elem_of_fmap in Hin as (row & Hrow & Hin).
    apply (Hf row Hin). congruence.
Qed.

Lemma units_in_rows_restores restores rows pid :
  pid ∈ map br_product_id rows ->
  units_in_rows (fold_left add_to_first_batch restores rows) pid
  = (units_in_rows rows pid + restored_units restores pid)%Z.
Proof.
  revert rows. induction restores as [|r rs IH]; intros rows Hin.
  { unfold restored_units, Zsum. simpl. lia. }
  simpl. rewrite IH by (by rewrite add_to_first_batch_products).
  rewrite units_in_rows_add by done. unfold restored_units. simpl.
  destruct (bool_decide (sr_productId r = pid)); simpl; unfold Zsum; simpl; lia.
Qed.

Lemma restores_products restores rows :
  map br_product_id (fold_left add_to_first_batch restores rows)
  = map br_product_id rows.
Proof.
  revert rows. induction restores as [|r rs IH]; intros rows; [done|].
  simpl. by rewrite IH, add_to_first_batch_products.
Qed.

Lemma apply_stock_updates_columns su rows :
  map br_product_id (apply_stock_updates su rows) = map br_product_id rows /\
  map br_id (apply_stock_updates su rows) = map br_id rows.
Proof.
  revert rows. induction su as [|u su IH]; intros rows; [done|].
  unfold apply_stock_updates in *. simpl.
  destruct (IH (set_stock_by_id (su_batchId u) (su_newStock u) rows)) as [-> ->].
  unfold set_stock_by_id, update_where. rewrite !map_map.
  split; apply map_ext; intros r; by destruct (bool_decide _).
Qed.

Lemma total_stock_mapProduct rows prow :
  total_stock (mapProduct rows prow) = units_in_rows rows (pr_id prow).
Proof. unfold total_stock, mapProduct, units_in_rows. simpl. by rewrite map_map. Qed.

Lemma distinct_batch_ids_rows rows (prows : list ProductRow) :
  NoDup (map pr_id prows) -> NoDup (map br_id rows) ->
  distinct_batch_ids (map (mapProduct rows) prows).
Proof.
  intros Hp Hr k1 p1 i1 b1 k2 p2 i2 b2 H1 H1' H2 H2' Heq.
  change (map ?f ?l) with (f <$> l) in H1, H2.
  rewrite list_lookup_fmap in H1, H2.
  destruct (prows !! k1) as [r1|] eqn:Hk1; [|done].
  destruct (prows !! k2) as [r2|] eqn:Hk2; [|done].
  injection H1 as <-. injection H2 as <-. simpl in H1', H2'.
  change (map ?f ?l) with (f <$> l) in H1', H2'.
  rewrite list_lookup_fmap in H1', H2'.
  destruct (List.filter _ rows !! i1) as [x1|] eqn:Hx1; [|done].
  destruct (List.filter _ rows !! i2) as [x2|] eqn:Hx2; [|done].
  injection H1' as <-. injection H2' as <-. simpl in Heq.
  assert (x1 ∈ List.filter (fun b => bool_decide (br_product_id b = pr_id r1)) rows)
    as Hin1 by (by eapply list_elem_of_lookup_2).
  assert (x2 ∈ List.filter (fun b => bool_decide (br_product_id b = pr_id r2)) rows)
    as Hin2 by (by eapply list_elem_of_lookup_2).
  apply list_elem_of_In, filter_In in Hin1 as [Hin1 Hp1].
  apply list_elem_of_In, filter_In in Hin2 as [Hin2 Hp2].
  apply bool_decide_eq_true_1 in Hp1, Hp2.
  assert (x1 = x2) as <-.
  { apply list_elem_of_In, list_elem_of_lookup in Hin1 as [n1 Hn1].
    apply list_elem_of_In, list_elem_of_lookup in Hin2 as [n2 Hn2].
    assert (n1 = n2) as <-; [|congruence].
    eapply (NoDup_lookup _ _ _ _ Hr).
    - change (map ?f ?l) with (f <$> l). by rewrite list_lookup_fmap, Hn1.
    - change (map ?f ?l) with (f <$> l). rewrite list_lookup_fmap, Hn2. simpl.
      by rewrite Heq. }
  assert (k1 = k2) as <-.
  { eapply (NoDup_lookup _ _ _ _ Hp).
    - change (map ?f ?l) with (f <$> l). by rewrite list_lookup_fmap, Hk1.
    - change (map ?f ?l) with (f <$> l). rewrite list_lookup_fmap, Hk2. simpl.
      congruence. }
  split; [done|]. assert (r2 = r1) as -> by congruence.
  assert (NoDup (map br_id
            (List.filter (fun b => bool_decide (br_product_id b = pr_id r1)) rows)))
    as Hnd.
  { eapply sublist_NoDup; [exact Hr|].
    change (map ?f ?l) with (f <$> l). apply fmap_sublist. apply List_filter_sublist. }
  eapply (NoDup_lookup _ _ _ _ Hnd).
  - change (map ?f ?l) with (f <$> l). by rewrite list_lookup_fmap, Hx1.
  - change (map ?f ?l) with (f <$> l). by rewrite list_lookup_fmap, Hx2.
Qed.

Lemma completeSale_created env env1 state cashier customerId db toasts r inv :
  out_result (completeSale env state cashier customerId) = Some r ->
  success r = true -> invoice r = Some inv ->
  truthy (editingSaleInvoiceId state) = None ->
  (forall cid, truthy customerId = Some cid ->
     cid ∈ map cust_id (customers state)) ->
  exists ups su,
    prepareLines (cart state) (products state) [] [] = inr (ups, su, inv_items inv) /\
    let w1 := dispatch env1 true (completeSale env state cashier customerId)
                       (mkWorld state db toasts) in
    products (w_state w1) = ups /\
    saleInvoices (w_state w1) = inv :: saleInvoices state /\
    t_products (w_db w1) = t_products db /\
    t_product_batches (w_db w1) = apply_stock_updates su (t_product_batches db) /\
    t_store_settings (w_db w1) = t_store_settings db.
Proof.
  intros Hres Hok Hinv Hed Hcust.
  unfold completeSale in *.
  destruct (env_online env); simpl in *; [|injection Hres as <-; discriminate].
  destruct (bool_decide (cart state = []));
    [injection Hres as <-; discriminate|].
  destruct (prepareLines _ _ _ _) as [m|[[ups su] items]] eqn:Hprep;
    [injection Hres as <-; discriminate|].
  rewrite Hed in *. simpl in *. injection Hres as <-. simpl in Hinv.
  injection Hinv as <-. simpl. exists ups, su. split; [done|].
  unfold dispatch. simpl.
  destruct (truthy customerId) as [cid|] eqn:Hcid.
  - specialize (Hcust cid eq_refl).
    destruct (list_find (fun c => cust_id c = cid) (customers state))
      as [[k c]|] eqn:Hfind.
    2:{ exfalso. apply list_elem_of_fmap in Hcust as (c & -> & Hin).
        eapply list_find_None in Hfind. rewrite Forall_forall in Hfind.
        by apply (Hfind c). }
    simpl. done.
  - simpl. done.
Qed.

Lemma addSaleReturn_batches env2 env3 inv rest ris cashier (w : World) :
  env_online env2 = true ->
  saleInvoices (w_state w) = inv :: rest ->
  let w2 := dispatch env3 true
              (addSaleReturn env2 (w_state w) (inv_id inv) ris cashier) w in
  t_products (w_db w2) = t_products (w_db w) /\
  t_product_batches (w_db w2)
    = fold_left restore_to_first_batch
        (map (fun i => mkStockRestore (item_id i) (item_quantity i))
             (List.filter is_product (detailedReturnItems inv ris)))
        (t_product_batches (w_db w)) /\
  (t_store_settings (w_db w) <> None ->
   products (w_state w2) = getProducts (w_db w2)).
Proof.
  intros Honline Hinvs. unfold addSaleReturn. rewrite Honline, Hinvs. simpl.
  rewrite decide_True by done. simpl.
  unfold dispatch. simpl.
  unfold api_createSaleReturn. simpl.
  assert (forall d s, t_store_settings d <> None ->
            products (fetchData env3 d s).1 = getProducts d) as Hfetch.
  { intros d s Hd. unfold fetchData. by destruct (t_store_settings d). }
  destruct (truthy (inv_customerId inv)) as [cid|]; simpl;
    [destruct (single _); simpl|].
  all: match goal with |- context [fetchData ?e ?d ?s] =>
         pose proof (Hfetch d s) as Hf; destruct (fetchData e d s) as [s' ts] end.
  all: simpl in *; split; [done|]; split; [done|]; intros Hs; by apply Hf.
Qed.

(** X23.  A sale followed by the return of all its lines gives every
    product its total stock back.  After the sale the database shows, for
    each product, the total stock it had less the units on the cart; after
    [addSaleReturn] of every line at its full quantity it shows the total
    stock it had before the sale (the units return to the first batch of
    the product, so the batches themselves may differ); and the reloaded
    state shows what the database holds. *)
Theorem sale_then_full_return_restores_total_stock
    env env1 env2 env3 state cashier cashier' customerId db toasts r inv :
  out_result (completeSale env state cashier customerId) = Some r ->
  success r = true -> invoice r = Some inv ->
  truthy (editingSaleInvoiceId state) = None ->
  (forall cid, truthy customerId = Some cid ->
     cid ∈ map cust_id (customers state)) ->
  Forall (fun i => (0 <= item_quantity i)%Z) (cart state) ->
  getProducts db = products state ->
  NoDup (map prod_id (products state)) ->
  NoDup (map br_id (t_product_batches db)) ->
  env_online env2 = true ->
  let w1 := dispatch env1 true (completeSale env state cashier customerId)
                     (mkWorld state db toasts) in
  let w2 := dispatch env3 true
              (addSaleReturn env2 (w_state w1) (inv_id inv) (full_return inv) cashier')
              w1 in
  map total_stock (getProducts (w_db w1))
    = map (fun p => (total_stock p - sold_units (cart state) (prod_id p))%Z)
          (getProducts db) /\
  map total_stock (getProducts (w_db w2)) = map total_stock (getProducts db) /\
  (t_store_settings db <> None -> products (w_state w2) = getProducts (w_db w2)).
Proof.
  intros Hres Hok Hinv Hed Hcust Hq Hps Hnd Hrows Honline w1 w2.
  destruct (completeSale_created env env1 state cashier customerId db toasts r inv
              Hres Hok Hinv Hed Hcust)
    as (ups & su & Hprep & Hups & Hinvs & Hprods & Hbatches & Hsettings).
  fold w1 in Hups, Hinvs, Hprods, Hbatches, Hsettings.
  destruct (addSaleReturn_batches env2 env3 inv (saleInvoices state)
              (full_return inv) cashier' w1 Honline Hinvs)
    as (Hprods2 & Hbatches2 & Hstate2).
  fold w2 in Hprods2, Hbatches2, Hstate2.
  set (rows := t_product_batches db) in *.
  set (prows := t_products db) in *.
  set (rows1 := apply_stock_updates su rows) in *.
  assert (products state = map (mapProduct rows) prows) as Hview by (by rewrite <- Hps).
  assert (distinct_batch_ids (products state)) as Hd.
  { rewrite Hview. apply distinct_batch_ids_rows; [|done].
    rewrite Hview, map_map in Hnd. exact Hnd. }
  (* the updates of the sale, read through the product view *)
  destruct (prepareLines_updates _ _ _ _ _ _ _ Hd Hprep) as (su' & Hsu & Hfold).
  simpl in Hsu. subst su'.
  assert (map (mapProduct rows1) prows = ups) as Hmirror.
  { subst rows1. rewrite getProducts_apply. by rewrite <- Hview. }
  pose proof (prepareLines_sold _ _ _ _ _ _ _ Hprep Hnd Hq) as Hsold.
  assert (getProducts (w_db w1) = ups) as Hw1.
  { unfold getProducts. by rewrite Hprods, Hbatches. }
  split; [by rewrite Hw1, Hps|].
  split; [|by rewrite Hsettings in Hstate2].
  (* the restores of the return are those of the cart *)
  pose proof (prepareLines_items _ _ _ _ _ _ _ Hprep) as Hitems. simpl in Hitems.
  rewrite (restores_of_keys _ (cart state)) in Hbatches2.
  2:{ unfold full_return. by rewrite detailed_full_return_keys. }
  rewrite Hbatches, restores_spec in Hbatches2
    by (unfold rows1; by rewrite (proj2 (apply_stock_updates_columns su rows))).
  unfold getProducts. rewrite Hprods2, Hprods, Hbatches2. fold rows prows rows1.
  rewrite !map_map. apply map_ext_in. intros prow Hprow.
  rewrite !total_stock_mapProduct.
  assert (units_in_rows rows1 (pr_id prow)
          = (units_in_rows rows (pr_id prow) - sold_units (cart state) (pr_id prow))%Z)
    as Hone.
  { rewrite <- Hmirror, Hview, !map_map in Hsold.
    pose proof (ext_in_map Hsold prow Hprow) as H. simpl in H.
    by rewrite !total_stock_mapProduct in H. }
  destruct (decide (pr_id prow ∈ map br_product_id rows1)) as [Hin|Hno].
  - rewrite units_in_rows_restores by done. rewrite restored_sold. lia.
  - rewrite !units_in_rows_none; [done| |].
    + rewrite <- (proj1 (apply_stock_updates_columns su rows)). exact Hno.
    + by rewrite restores_products.
Qed.

Lemma sale_then_full_return_restores_total_stock_witness :
  let w1 := dispatch online_env true
              (completeSale online_env ink_sale_state "cashier" None)
              (mkWorld ink_sale_state ink_sale_db []) in
  exists inv,
    (out_result (completeSale online_env ink_sale_state "cashier" None) ≫= invoice)
      = Some inv /\
    let w2 := dispatch online_env true
                (addSaleReturn online_env (w_state w1) (inv_id inv) (full_return inv)
                               "cashier") w1 in
    (* 4 + 3 units before, two sold from the dated batch, two returned to
       the batch stored first *)
    map total_stock (getProducts ink_sale_db) = [7%Z] /\
    map total_stock (getProducts (w_db w1)) = [5%Z] /\
    map total_stock (getProducts (w_db w2)) = [7%Z] /\
    map (fun p => map batch_stock (prod_batches p)) (getProducts (w_db w2))
      = [[6%Z; 1%Z]] /\
    products (w_state w2) = getProducts (w_db w2).
Proof.
  intros w1. eexists. split; [reflexivity|].
  destruct (sale_then_full_return_restores_total_stock online_env online_env
              online_env online_env ink_sale_state "cashier" "cashier" None
              ink_sale_db [] _ _ eq_refl eq_refl eq_refl eq_refl)
    as (Hsale & Hreturn & Hstate).
  - intros cid Hcid. discriminate Hcid.
  - repeat constructor. discriminate.
  - reflexivity.
  - apply NoDup_singleton.
  - apply (bool_decide_unpack _). vm_compute. reflexivity.
  - reflexivity.
  - split; [reflexivity|]. split; [exact (eq_trans Hsale eq_refl)|].
    split; [exact (eq_trans Hreturn eq_refl)|]. split; [reflexivity|].
    apply Hstate. discriminate.
Defined.

Lemma prepareLines_lines cart ps su items0 ups su' items :
  prepareLines cart ps su items0 = inr (ups, su', items) ->
  map (set_purchasePrice None) items
  = map (set_purchasePrice None) items0 ++ map (set_purchasePrice None) cart.
Proof.
  revert ps su items0.
  induction cart as [|item cart IH]; intros ps su items0 Hprep; simpl in Hprep.
  { injection Hprep as _ _ <-. by rewrite app_nil_r. }
  destruct (item_type item) eqn:Hty.
  2:{ rewrite (IH _ _ _ Hprep), map_app. simpl. by rewrite <- app_assoc. }
  destruct (list_find _ ps) as [[k p]|]; [|discriminate].
  destruct (deductLoop _ _ _ _ _) as [[[bs qd] tot] su1].
  destruct (0 <? qd)%Z; [discriminate|].
  rewrite (IH _ _ _ Hprep), map_app. simpl. by rewrite <- app_assoc.
Qed.

Lemma sold_price_effective i : sold_price i = effective_price i.
Proof.
  unfold sold_price, effective_price, list_price.
  destruct (item_type i); [|done]. by destruct (item_finalPrice i).
Qed.

Lemma find_original_item_self inv i :
  NoDup (line_key <$> inv_items inv) -> i ∈ inv_items inv ->
  find_original_item inv (mkReturnItem (item_id i) (item_type i) (item_quantity i))
  = Some i.
Proof.
  intros Hnd Hin. unfold find_original_item. simpl.
  destruct (list_find _ (inv_items inv)) as [[k o]|] eqn:Hfind.
  - apply list_find_Some in Hfind as (Hk & [Hid Hty] & _). simpl. f_equal.
    apply list_elem_of_lookup in Hin as [j Hj].
    assert (k = j) as ->; [|congruence].
    eapply (NoDup_lookup _ _ _ _ Hnd).
    + by rewrite list_lookup_fmap, Hk.
    + rewrite list_lookup_fmap, Hj. simpl. unfold line_key. by rewrite Hid, Hty.
  - exfalso. apply list_find_None in Hfind. rewrite Forall_forall in Hfind.
    by apply (Hfind i).
Qed.

Lemma completeSale_credit_created env env1 state cashier customerId cid db toasts r inv :
  out_result (completeSale env state cashier customerId) = Some r ->
  success r = true -> invoice r = Some inv ->
  truthy (editingSaleInvoiceId state) = None ->
  truthy customerId = Some cid -> cid ∈ map cust_id (customers state) ->
  exists k c tx ups su,
    list_find (fun c => cust_id c = cid) (customers state) = Some (k, c) /\
    prepareLines (cart state) (products state) [] [] = inr (ups, su, inv_items inv) /\
    inv_customerId inv = customerId /\
    inv_totalAmount inv = newTotalAmount (cart state) /\
    let w1 := dispatch env1 true (completeSale env state cashier customerId)
                       (mkWorld state db toasts) in
    saleInvoices (w_state w1) = inv :: saleInvoices state /\
    t_customers (w_db w1)
      = update_where (fun r => bool_decide (cr_id r = cid))
          (set_customer_balance (cust_balance c + inv_totalAmount inv)%Q)
          (t_customers db) /\
    t_customer_transactions (w_db w1) = t_customer_transactions db ++ [tx] /\
    ctx_customerId tx = cid /\ ctx_type tx = CTCreditSale /\
    ctx_amount tx = inv_totalAmount inv.
Proof.
  intros Hres Hok Hinv Hed Hcid Hcust.
  unfold completeSale in *.
  destruct (env_online env); simpl in *; [|injection Hres as <-; discriminate].
  destruct (bool_decide (cart state = []));
    [injection Hres as <-; discriminate|].
  destruct (prepareLines _ _ _ _) as [m|[[ups su] items]] eqn:Hprep;
    [injection Hres as <-; discriminate|].
  rewrite Hed, Hcid in *. simpl in *. injection Hres as <-. simpl in Hinv.
  injection Hinv as <-. simpl.
  destruct (list_find (fun c => cust_id c = cid) (customers state))
    as [[k c]|] eqn:Hfind.
  2:{ exfalso. apply list_elem_of_fmap in Hcust as (c & -> & Hin).
      eapply list_find_None in Hfind. rewrite Forall_forall in Hfind.
      by apply (Hfind c). }
  eexists k, c, _, ups, su. do 4 (split; [reflexivity|]).
  unfold dispatch. simpl. do 2 (split; [reflexivity|]). split; [reflexivity|]. done.
Qed.

Lemma addSaleReturn_customers env2 env3 inv rest ris cashier cid row (w : World) :
  env_online env2 = true ->
  saleInvoices (w_state w) = inv :: rest ->
  truthy (inv_customerId inv) = Some cid ->
  single (List.filter (fun r => bool_decide (cr_id r = cid)) (t_customers (w_db w)))
    = Some row ->
  let w2 := dispatch env3 true
              (addSaleReturn env2 (w_state w) (inv_id inv) ris cashier) w in
  t_customers (w_db w2)
    = update_where (fun r => bool_decide (cr_id r = cid))
        (set_customer_balance (cr_balance row - returnTotal inv ris)%Q)
        (t_customers (w_db w)) /\
  exists tx,
    t_customer_transactions (w_db w2) = t_customer_transactions (w_db w) ++ [tx] /\
    ctx_customerId tx = cid /\ ctx_type tx = CTSaleReturn /\
    ctx_amount tx = returnTotal inv ris.
Proof.
  intros Honline Hinvs Hcid Hrow. unfold addSaleReturn. rewrite Honline, Hinvs. simpl.
  rewrite decide_True by done. simpl. rewrite Hcid. simpl.
  unfold dispatch. simpl.
  unfold api_createSaleReturn. simpl. rewrite Hrow. simpl.
  match goal with |- context [fetchData ?e ?d ?s] =>
    destruct (fetchData e d s) as [s' ts] end.
  simpl. split; [done|]. eexists. split; [reflexivity|]. done.
Qed.

Lemma returnTotal_full_in_order inv :
  NoDup (line_key <$> inv_items inv) ->
  returnTotal inv (full_return inv) = sum_over (line_total effective_price) (inv_items inv).
Proof.
  intros Hnd. unfold returnTotal, full_return, sum_over. generalize 0%Q.
  assert (forall (l : list CartItem) acc,
            (forall i, i ∈ l -> i ∈ inv_items inv) ->
            fold_left (fun total ri =>
               match find_original_item inv ri with
               | Some originalItem =>
                   (total + sold_price originalItem * inject_Z (ri_quantity ri))%Q
               | None => total
               end)
               (map (fun i => mkReturnItem (item_id i) (item_type i) (item_quantity i)) l)
               acc
            = fold_left (fun total x => (line_total effective_price x + total)%Q) l acc)
    as H.
  { induction l as [|i l IH]; intros acc Hin; [done|].
    rewrite map_cons. cbn [fold_left].
    rewrite find_original_item_self by (done || apply Hin, elem_of_cons; by left).
    rewrite IH by (intros; apply Hin, elem_of_cons; by right).
    cbn [ri_quantity]. rewrite sold_price_effective. unfold line_total.
    by rewrite Qplus_comm_eq. }
  intros a. by apply H.
Qed.

(** X24.  A credit sale followed by the return of all its lines.  The
    return is valued at the prices the lines were sold at, and its total
    is the total of the invoice.  The row of the customer ends with the
    balance it had, plus the total, minus the total, computed in this
    order; every other customer row is as it was; and the ledger has
    gained a credit sale and a sale return of the customer, both of the
    total of the invoice. *)
Theorem credit_sale_then_full_return_balance
    env env1 env2 env3 state cashier cashier' customerId cid db toasts r inv :
  out_result (completeSale env state cashier customerId) = Some r ->
  success r = true -> invoice r = Some inv ->
  truthy (editingSaleInvoiceId state) = None ->
  truthy customerId = Some cid -> cid ∈ map cust_id (customers state) ->
  NoDup (line_key <$> cart state) ->
  getCustomers db = customers state ->
  NoDup (map cust_id (customers state)) ->
  env_online env2 = true ->
  let w1 := dispatch env1 true (completeSale env state cashier customerId)
                     (mkWorld state db toasts) in
  let w2 := dispatch env3 true
              (addSaleReturn env2 (w_state w1) (inv_id inv) (full_return inv) cashier')
              w1 in
  let total := inv_totalAmount inv in
  returnTotal inv (full_return inv) = total /\
  t_customers (w_db w2)
    = update_where (fun r => bool_decide (cr_id r = cid))
        (fun r => set_customer_balance (cr_balance r + total - total)%Q r)
        (t_customers db) /\
  exists sale ret,
    t_customer_transactions (w_db w2) = t_customer_transactions db ++ [sale; ret] /\
    ctx_customerId sale = cid /\ ctx_type sale = CTCreditSale /\
    ctx_amount sale = total /\
    ctx_customerId ret = cid /\ ctx_type ret = CTSaleReturn /\
    ctx_amount ret = total.
Proof.
  intros Hres Hok Hinv Hed Hcid Hcust Hkeys Hcs Hnd Honline w1 w2 total.
  destruct (completeSale_credit_created env env1 state cashier customerId cid db
              toasts r inv Hres Hok Hinv Hed Hcid Hcust)
    as (k & c & tx & ups & su & Hfind & Hprep & Hinvc & Htot & Hinvs & Hrows1 & Htxs1
        & Htx1 & Htx2 & Htx3).
  fold w1 in Hinvs, Hrows1, Htxs1.
  set (rows := t_customers db) in *.
  set (P := fun r : CustomerRow => bool_decide (cr_id r = cid)) in *.
  (* the return is priced as the sale *)
  pose proof (prepareLines_lines _ _ _ _ _ _ _ Hprep) as Hlines. simpl in Hlines.
  assert (returnTotal inv (full_return inv) = total) as Hsame.
  { rewrite returnTotal_full_in_order.
    - subst total. rewrite Htot, newTotalAmount_in_order.
      apply sum_over_map.
      apply (f_equal (map (line_total effective_price))) in Hlines.
      by rewrite !map_map in Hlines.
    - apply (f_equal (map line_key)) in Hlines. rewrite !map_map in Hlines.
      change (map ?f ?l) with (f <$> l) in Hlines.
      change (line_key <$> inv_items inv = line_key <$> cart state) in Hlines.
      by rewrite Hlines. }
  split; [exact Hsame|].
  (* the one row of the customer *)
  pose proof (proj1 (list_find_Some _ _ _ _) Hfind) as (Hk & Hc & _).
  assert (c ∈ customers state) as Hin by (by eapply list_elem_of_lookup_2).
  rewrite <- Hcs in Hin. unfold getCustomers in Hin. fold rows in Hin.
  apply list_elem_of_fmap in Hin as (row & Hrow & Hin).
  assert (NoDup (map cr_id rows)) as Hndr.
  { rewrite <- Hcs in Hnd. unfold getCustomers in Hnd. by rewrite map_map in Hnd. }
  assert (cr_id row = cid) as Hrowid by (rewrite <- Hc, Hrow; done).
  assert (List.filter P rows = [row]) as Hone.
  { rewrite <- (filter_unique cr_id rows row Hndr Hin). unfold P. by rewrite Hrowid. }
  assert (cr_balance row = cust_balance c) as Hbal by (by rewrite Hrow).
  destruct (addSaleReturn_customers env2 env3 inv (saleInvoices state)
              (full_return inv) cashier' cid
              (set_customer_balance (cust_balance c + inv_totalAmount inv)%Q row)
              w1 Honline Hinvs)
    as (Hrows2 & ret & Htxs2 & Hret1 & Hret2 & Hret3).
  { by rewrite Hinvc. }
  { rewrite Hrows1. apply single_filter_update; [done|]. fold P. by rewrite Hone. }
  fold w2 in Hrows2, Htxs2. split.
  - rewrite Hrows2, Hrows1. unfold update_where. rewrite map_map.
    apply map_ext_in. intros x Hx. simpl. destruct (P x) eqn:HPx.
    + assert (x = row) as ->.
      { assert (x ∈ List.filter P rows) as Hxf
          by (apply list_elem_of_In, filter_In; split; [done|done]).
        rewrite Hone in Hxf. by apply list_elem_of_singleton in Hxf. }
      rewrite bool_decide_eq_true_2 by done. simpl.
      rewrite Hsame, <- Hbal. done.
    + unfold P in HPx. by rewrite HPx.
  - exists tx, ret. rewrite Htxs2, Htxs1, <- app_assoc.
    split; [done|]. rewrite Hret3, Hsame. done.
Qed.

Lemma credit_sale_then_full_return_balance_witness :
  let w1 := dispatch online_env true
              (completeSale online_env credit_sale_state "cashier" (Some "c1"))
              (mkWorld credit_sale_state credit_db []) in
  exists inv,
    (out_result (completeSale online_env credit_sale_state "cashier" (Some "c1"))
       ≫= invoice) = Some inv /\
    let w2 := dispatch online_env true
                (addSaleReturn online_env (w_state w1) (inv_id inv) (full_return inv)
                               "cashier") w1 in
    (* customer c1 owes 120; three pens at 20 are sold on credit and
       returned *)
    inv_totalAmount inv = (20 * 3 + 0)%Q /\
    map cr_balance (t_customers (w_db w2)) = [(120 + (20 * 3 + 0) - (20 * 3 + 0))%Q].
Proof.
  intros w1. eexists. split; [reflexivity|].
  destruct (credit_sale_then_full_return_balance online_env online_env
              online_env online_env credit_sale_state "cashier" "cashier"
              (Some "c1") "c1" credit_db [] _ _ eq_refl eq_refl eq_refl eq_refl
              eq_refl)
    as (_ & Hbalance & _).
  - apply elem_of_cons. by left.
  - apply NoDup_singleton.
  - reflexivity.
  - apply NoDup_singleton.
  - reflexivity.
  - intros w2. split; [reflexivity|]. subst w2 w1. rewrite Hbalance. reflexivity.
Defined.

(** ** A purchase and its return *)

Lemma find_purchased_self inv i :
  NoDup (map pitem_productId (pinv_items inv)) -> i ∈ pinv_items inv ->
  find_purchased inv (mkPurchaseReturnItem (pitem_productId i) (pitem_quantity i))
  = Some i.
Proof.
  intros Hnd Hin. unfold find_purchased. simpl.
  destruct (list_find _ (pinv_items inv)) as [[k o]|] eqn:Hfind.
  - simpl. f_equal. symmetry.
    by eapply (first_with_key pitem_productId (pinv_items inv)).
  - exfalso. apply list_find_None in Hfind. rewrite Forall_forall in Hfind.
    by apply (Hfind i).
Qed.

(** The value of a full return is the total of the invoice, computed the
    same way. *)
Lemma full_purchase_return_total inv :
  NoDup (map pitem_productId (pinv_items inv)) ->
  fold_left (fun total ri =>
      match find_purchased inv ri with
      | Some o => (total + pitem_purchasePrice o * inject_Z (pri_quantity ri))%Q
      | None => total
      end) (full_purchase_return inv) 0%Q
  = purchase_total (pinv_items inv).
Proof.
  intros Hnd. unfold full_purchase_return, purchase_total.
  assert (forall (l : list PurchaseInvoiceItem) acc,
            (forall i, i ∈ l -> i ∈ pinv_items inv) ->
            fold_left (fun total ri =>
               match find_purchased inv ri with
               | Some o => (total + pitem_purchasePrice o * inject_Z (pri_quantity ri))%Q
               | None => total
               end)
               (map (fun i => mkPurchaseReturnItem (pitem_productId i) (pitem_quantity i)) l)
               acc
            = fold_left (fun total item =>
                (total + pitem_purchasePrice item * inject_Z (pitem_quantity item))%Q)
                l acc) as H.
  { induction l as [|i l IH]; intros acc Hin; [done|].
    rewrite map_cons. cbn [fold_left].
    rewrite find_purchased_self by (done || apply Hin, elem_of_cons; by left).
    apply IH. intros; apply Hin, elem_of_cons; by right. }
  by apply H.
Qed.

Lemma addPurchaseInvoice_created env env1 state invoiceData db toasts r :
  out_result (addPurchaseInvoice env state invoiceData) = Some r ->
  success r = true ->
  is_Some (currentUser state) ->
  exists k supplier invoice tx,
    list_find (fun s => sup_id s = pin_supplierId invoiceData) (suppliers state)
      = Some (k, supplier) /\
    let w1 := dispatch env1 true (addPurchaseInvoice env state invoiceData)
                       (mkWorld state db toasts) in
    purchaseInvoices (w_state w1) = invoice :: purchaseInvoices state /\
    t_supplier_transactions (w_db w1) = t_supplier_transactions db ++ [tx] /\
    currentUser (w_state w1) = currentUser state /\
    t_suppliers (w_db w1)
      = update_where (fun r => bool_decide (spr_id r = sup_id supplier))
          (set_supplier_balance (sup_balance supplier + pinv_totalAmount invoice)%Q)
          (t_suppliers db) /\
    pinv_supplierId invoice = pin_supplierId invoiceData /\
    pinv_items invoice = finalItems (products state) invoiceData /\
    pinv_totalAmount invoice = purchase_total (pinv_items invoice) /\
    stx_supplierId tx = sup_id supplier /\ stx_type tx = STPurchase.
Proof.
  intros Hres Hok [user Huser].
  unfold addPurchaseInvoice in *.
  destruct (env_online env); simpl in *; [|injection Hres as <-; discriminate].
  destruct (list_find _ (suppliers state)) as [[k supplier]|] eqn:Hfind;
    [|injection Hres as <-; discriminate].
  clear Hres Hok. eexists k, supplier, _, _. split; [reflexivity|].
  unfold dispatch. simpl. rewrite Huser. simpl.
  do 2 (split; [reflexivity|]). split; [by rewrite ?Huser|].
  do 4 (split; [reflexivity|]). done.
Qed.

Lemma addPurchaseReturn_suppliers env2 env3 inv rest ris row (w : World) :
  env_online env2 = true ->
  purchaseInvoices (w_state w) = inv :: rest ->
  is_Some (currentUser (w_state w)) ->
  single (List.filter (fun r => bool_decide (spr_id r = pinv_supplierId inv))
                      (t_suppliers (w_db w))) = Some row ->
  let total :=
    fold_left (fun total ri =>
      match find_purchased inv ri with
      | Some o => (total + pitem_purchasePrice o * inject_Z (pri_quantity ri))%Q
      | None => total
      end) ris 0%Q in
  let w2 := dispatch env3 true
              (addPurchaseReturn env2 (w_state w) (pinv_id inv) ris) w in
  t_suppliers (w_db w2)
    = update_where (fun r => bool_decide (spr_id r = pinv_supplierId inv))
        (set_supplier_balance (spr_balance row - total)%Q)
        (t_suppliers (w_db w)) /\
  exists tx,
    t_supplier_transactions (w_db w2) = t_supplier_transactions (w_db w) ++ [tx] /\
    stx_supplierId tx = pinv_supplierId inv /\ stx_type tx = STPurchaseReturn /\
    stx_amount tx = total.
Proof.
  intros Honline Hinvs [user Huser] Hrow. unfold addPurchaseReturn.
  rewrite Honline, Hinvs. simpl. rewrite decide_True by done. simpl.
  unfold dispatch. simpl. rewrite Huser. simpl.
  unfold api_createPurchaseReturn. simpl. rewrite Hrow. simpl.
  match goal with |- context [fetchData ?e ?d ?s] =>
    destruct (fetchData e d s) as [s' ts] end.
  simpl. split; [done|]. eexists. split; [reflexivity|]. done.
Qed.

(** X25.  A purchase followed by the return of all its lines.  The
    return is valued at the purchase prices of the invoice, in the base
    currency, and its total is the total of the invoice.  The row of the
    supplier ends with the balance it had, plus the total, minus the
    total, computed in this order; every other supplier row is as it was;
    and the ledger has gained a purchase and a purchase return of the
    supplier, the return of the total of the invoice. *)
Theorem purchase_then_full_return_supplier_balance
    env env1 env2 env3 state invoiceData db toasts r :
  out_result (addPurchaseInvoice env state invoiceData) = Some r ->
  success r = true ->
  is_Some (currentUser state) ->
  NoDup (map pitem_productId (pin_items invoiceData)) ->
  getSuppliers db = suppliers state ->
  NoDup (map sup_id (suppliers state)) ->
  env_online env2 = true ->
  let w1 := dispatch env1 true (addPurchaseInvoice env state invoiceData)
                     (mkWorld state db toasts) in
  exists invoice,
    head (purchaseInvoices (w_state w1)) = Some invoice /\
    let w2 := dispatch env3 true
                (addPurchaseReturn env2 (w_state w1) (pinv_id invoice)
                                   (full_purchase_return invoice)) w1 in
    let total := pinv_totalAmount invoice in
    t_suppliers (w_db w2)
      = update_where (fun r => bool_decide (spr_id r = pin_supplierId invoiceData))
          (fun r => set_supplier_balance (spr_balance r + total - total)%Q r)
          (t_suppliers db) /\
    exists purchase ret,
      t_supplier_transactions (w_db w2)
        = t_supplier_transactions db ++ [purchase; ret] /\
      stx_supplierId purchase = pin_supplierId invoiceData /\
      stx_type purchase = STPurchase /\
      stx_supplierId ret = pin_supplierId invoiceData /\
      stx_type ret = STPurchaseReturn /\
      stx_amount ret = total.
Proof.
  intros Hres Hok Huser Hlines Hss Hnd Honline w1.
  destruct (addPurchaseInvoice_created env env1 state invoiceData db toasts r
              Hres Hok Huser)
    as (k & supplier & invoice & tx & Hfind & Hinvs & Htxs1 & Huser1 & Hrows1
        & Hsup & Hitems & Htot & Htx1 & Htx2).
  fold w1 in Hinvs, Htxs1, Huser1, Hrows1.
  exists invoice. split; [by rewrite Hinvs|].
  pose proof (proj1 (list_find_Some _ _ _ _) Hfind) as (Hk & Hs & _).
  set (rows := t_suppliers db) in *.
  set (P := fun r : SupplierRow => bool_decide (spr_id r = sup_id supplier)) in *.
  (* the one row of the supplier *)
  assert (supplier ∈ suppliers state) as Hin by (by eapply list_elem_of_lookup_2).
  rewrite <- Hss in Hin. unfold getSuppliers in Hin. fold rows in Hin.
  apply list_elem_of_fmap in Hin as (row & Hrow & Hin).
  assert (NoDup (map spr_id rows)) as Hndr.
  { rewrite <- Hss in Hnd. unfold getSuppliers in Hnd. by rewrite map_map in Hnd. }
  assert (spr_id row = sup_id supplier) as Hrowid by (by rewrite Hrow).
  assert (List.filter P rows = [row]) as Hone.
  { rewrite <- (filter_unique spr_id rows row Hndr Hin). unfold P. by rewrite Hrowid. }
  assert (spr_balance row = sup_balance supplier) as Hbal by (by rewrite Hrow).
  assert (NoDup (map pitem_productId (pinv_items invoice))) as Hkeys.
  { rewrite Hitems. unfold finalItems. by rewrite map_map. }
  destruct (addPurchaseReturn_suppliers env2 env3 invoice (purchaseInvoices state)
              (full_purchase_return invoice)
              (set_supplier_balance (sup_balance supplier + pinv_totalAmount invoice)%Q
                                    row)
              w1 Honline Hinvs)
    as (Hrows2 & ret & Htxs2 & Hret1 & Hret2 & Hret3).
  { by rewrite Huser1. }
  { rewrite Hrows1, Hsup, <- Hs. apply single_filter_update; [done|].
    fold P. by rewrite Hone. }
  rewrite (full_purchase_return_total invoice Hkeys), <- Htot in Hrows2, Hret3.
  intros w2 total. fold w2 in Hrows2, Htxs2. split.
  - rewrite Hrows2, Hrows1, Hsup, <- Hs. fold P. unfold update_where.
    rewrite map_map. apply map_ext_in. intros x Hx. simpl. destruct (P x) eqn:HPx.
    + assert (x = row) as ->.
      { assert (x ∈ List.filter P rows) as Hxf
          by (apply list_elem_of_In, filter_In; split; [done|done]).
        rewrite Hone in Hxf. by apply list_elem_of_singleton in Hxf. }
      change (P (set_supplier_balance
                   (sup_balance supplier + pinv_totalAmount invoice) row))
        with (P row).
      rewrite HPx. simpl. by rewrite <- Hbal.
    + by rewrite HPx.
  - exists tx, ret. rewrite Htxs2, Htxs1, <- app_assoc.
    split; [done|]. rewrite Htx1, Hret1, Hsup, Hs. done.
Qed.

Lemma purchase_then_full_return_supplier_balance_witness :
  let w1 := dispatch online_env true
              (addPurchaseInvoice online_env stocked_state usd_purchase)
              (mkWorld stocked_state stocked_db []) in
  exists invoice,
    head (purchaseInvoices (w_state w1)) = Some invoice /\
    let w2 := dispatch online_env true
                (addPurchaseReturn online_env (w_state w1) (pinv_id invoice)
                                   (full_purchase_return invoice)) w1 in
    (* the supplier is owed 1000; ten notebooks at 2 USD and four pens at
       half a USD are bought at 70 AFN a USD and returned *)
    (pinv_totalAmount invoice == 1540)%Q /\
    map spr_balance (t_suppliers (w_db w2))
    = [(1000 + pinv_totalAmount invoice - pinv_totalAmount invoice)%Q].
Proof.
  intros w1.
  destruct (purchase_then_full_return_supplier_balance online_env online_env
              online_env online_env stocked_state usd_purchase stocked_db [] _
              eq_refl eq_refl)
    as (invoice & Hhead & Hbalance & _).
  - by eexists.
  - apply (bool_decide_unpack _). vm_compute. reflexivity.
  - reflexivity.
  - apply NoDup_singleton.
  - reflexivity.
  - fold w1 in Hhead, Hbalance. exists invoice. split; [exact Hhead|].
    intros w2. subst w2. rewrite Hbalance.
    vm_compute in Hhead. injection Hhead as <-. split; reflexivity.
Defined.

(** ** Reports *)

Lemma Qsum_app l1 l2 : (Qsum (l1 ++ l2) == Qsum l1 + Qsum l2)%Q.
Proof.
  induction l1 as [|x l1 IH]; unfold Qsum in *; simpl; [ring|]. rewrite IH. ring.
Qed.

Lemma Qsum_insert {A} (f : A -> Q) (l : list A) k x y :
  l !! k = Some x ->
  (Qsum (map f (<[k := y]> l)) == Qsum (map f l) - f x + f y)%Q.
Proof.
  revert k. induction l as [|a l IH]; intros [|k] Hk; try done.
  - injection Hk as ->. unfold Qsum. simpl. ring.
  - simpl in Hk. unfold Qsum in *. simpl. rewrite (IH k Hk). ring.
Qed.

Lemma report_invoice_totals l t :
  let t' := fold_left report_invoice l t in
  (grossRevenue t' == grossRevenue t + Qsum (map inv_totalAmount (List.filter is_sale l)))%Q /\
  ((0 <= totalDiscountsGiven t)%Q -> (0 <= totalDiscountsGiven t')%Q).
Proof.
  revert t. induction l as [|inv l IH]; intros t; simpl.
  { split; [unfold Qsum; simpl; ring|done]. }
  destruct (IH (report_invoice t inv)) as [Hg Hd]. split.
  - rewrite Hg. unfold report_invoice, is_sale.
    destruct (inv_type inv); simpl; unfold Qsum; simpl; ring.
  - intros H0. apply Hd. unfold report_invoice.
    destruct (inv_type inv); simpl; [|done].
    destruct (Qlt_le_dec 0 (inv_totalDiscount inv)); [|done]. lra.
Qed.

Lemma count_sale_spec acc inv :
  NoDup (map cs_cashier acc) ->
  Forall (fun e => (1 <= cs_invoiceCount e)%Z) acc ->
  NoDup (map cs_cashier (count_sale acc inv)) /\
  Forall (fun e => (1 <= cs_invoiceCount e)%Z) (count_sale acc inv) /\
  (Qsum (map cs_totalSales (count_sale acc inv))
   == Qsum (map cs_totalSales acc) + inv_totalAmount inv)%Q /\
  Zsum (map cs_invoiceCount (count_sale acc inv))
  = (Zsum (map cs_invoiceCount acc) + 1)%Z /\
  (forall c, c ∈ map cs_cashier (count_sale acc inv)
             <-> c ∈ map cs_cashier acc \/ c = inv_cashier inv).
Proof.
  intros Hnd Hpos. unfold count_sale.
  destruct (list_find _ acc) as [[k e]|] eqn:Hfind.
  - apply list_find_Some in Hfind as (Hk & He & _).
    assert (map cs_cashier (<[k := mkCashierSales (cs_cashier e)
                 (cs_totalSales e + inv_totalAmount inv) (cs_invoiceCount e + 1)]> acc)
            = map cs_cashier acc) as Hsame.
    { change (map ?f ?l) with (f <$> l). rewrite list_fmap_insert. simpl.
      apply list_insert_id. by rewrite list_lookup_fmap, Hk. }
    rewrite Hsame. split; [done|].
    pose proof (proj1 (Forall_lookup _ _) Hpos k e Hk) as Hone. simpl in Hone.
    split; [apply Forall_insert; [done|simpl; lia]|].
    split; [rewrite (Qsum_insert cs_totalSales acc k e) by done; simpl; ring|].
    split.
    + change (map ?f ?l) with (f <$> l). rewrite list_fmap_insert. simpl.
      rewrite (Zsum_insert _ k (cs_invoiceCount e))
        by (by rewrite list_lookup_fmap, Hk). lia.
    + intros c. split; [by left|]. intros [Hc| ->]; [done|].
      rewrite <- He. apply list_elem_of_fmap. exists e.
      split; [done|]. by eapply list_elem_of_lookup_2.
  - apply list_find_None in Hfind. rewrite !map_app. simpl.
    split.
    { apply NoDup_app. split; [done|]. split; [|apply NoDup_singleton].
      intros c Hc Hc'. apply list_elem_of_singleton in Hc' as ->.
      apply list_elem_of_fmap in Hc as (e & He & Hin).
      rewrite Forall_forall in Hfind. by apply (Hfind e Hin). }
    split; [apply Forall_app; split; [done|]; by repeat constructor|].
    split; [rewrite Qsum_app; unfold Qsum; simpl; ring|].
    split.
    { unfold Zsum. rewrite foldr_app. simpl.
      generalize (map cs_invoiceCount acc). intros l.
      induction l as [|z l IH]; simpl; lia. }
    intros c. rewrite elem_of_app, list_elem_of_singleton. done.
Qed.

Lemma salesByEmployee_spec l acc :
  NoDup (map cs_cashier acc) ->
  Forall (fun e => (1 <= cs_invoiceCount e)%Z) acc ->
  let r := fold_left count_sale l acc in
  NoDup (map cs_cashier r) /\
  Forall (fun e => (1 <= cs_invoiceCount e)%Z) r /\
  (Qsum (map cs_totalSales r)
   == Qsum (map cs_totalSales acc) + Qsum (map inv_totalAmount l))%Q /\
  Zsum (map cs_invoiceCount r)
  = (Zsum (map cs_invoiceCount acc) + Z.of_nat (length l))%Z /\
  (forall c, c ∈ map cs_cashier r <-> c ∈ map cs_cashier acc \/ c ∈ map inv_cashier l).
Proof.
  revert acc. induction l as [|inv l IH]; intros acc Hnd Hpos; simpl.
  { split; [done|]. split; [done|]. split; [unfold Qsum; simpl; ring|].
    split; [lia|]. intros c. rewrite elem_of_nil. tauto. }
  destruct (count_sale_spec acc inv Hnd Hpos) as (Hnd1 & Hpos1 & Hq1 & Hz1 & Hin1).
  destruct (IH _ Hnd1 Hpos1) as (Hnd2 & Hpos2 & Hq2 & Hz2 & Hin2).
  split; [done|]. split; [done|].
  split; [rewrite Hq2, Hq1; unfold Qsum; simpl; ring|].
  split; [rewrite Hz2, Hz1; lia|].
  intros c. rewrite Hin2, Hin1, elem_of_cons. tauto.
Qed.

Lemma Qplus_0_l_eq (x : Q) : (0 + x)%Q = x.
Proof.
  destruct x as [n d]. unfold Qplus. simpl. f_equal. lia.
Qed.

Lemma report_invoice_in_order l t :
  let t' := fold_left report_invoice l t in
  grossRevenue t'
  = fold_left Qplus (map inv_totalAmount (List.filter is_sale l)) (grossRevenue t) /\
  returnsAmount t'
  = fold_left Qplus (map inv_totalAmount (List.filter (fun inv => negb (is_sale inv)) l))
              (returnsAmount t).
Proof.
  revert t. induction l as [|inv l IH]; intros t; simpl; [done|].
  destruct (IH (report_invoice t inv)) as [Hg Hr]. rewrite Hg, Hr.
  unfold report_invoice, is_sale. by destruct (inv_type inv).
Qed.

Lemma count_sale_cashiers acc inv :
  map cs_cashier (count_sale acc inv)
  = if bool_decide (inv_cashier inv ∈ map cs_cashier acc)
    then map cs_cashier acc else map cs_cashier acc ++ [inv_cashier inv].
Proof.
  unfold count_sale.
  destruct (list_find _ acc) as [[k e]|] eqn:Hfind.
  - apply list_find_Some in Hfind as (Hk & He & _).
    rewrite bool_decide_eq_true_2.
    + change (map ?f ?l) with (f <$> l). rewrite list_fmap_insert. simpl.
      apply list_insert_id. by rewrite list_lookup_fmap, Hk.
    + rewrite <- He. change (map ?f ?l) with (f <$> l). apply list_elem_of_fmap.
      exists e. split; [done|]. by eapply list_elem_of_lookup_2.
  - apply list_find_None in Hfind. rewrite bool_decide_eq_false_2.
    + by rewrite map_app.
    + intros Hin. change (map ?f ?l) with (f <$> l) in Hin.
      apply list_elem_of_fmap in Hin as (e & He & Hin).
      rewrite Forall_forall in Hfind. by apply (Hfind e Hin).
Qed.

Lemma count_sale_NoDup acc inv :
  NoDup (map cs_cashier acc) -> NoDup (map cs_cashier (count_sale acc inv)).
Proof.
  intros Hnd. rewrite count_sale_cashiers. case_bool_decide as Hin; [done|].
  apply NoDup_app. split; [done|]. split; [|apply NoDup_singleton].
  intros c Hc Hc'. by apply list_elem_of_singleton in Hc' as ->.
Qed.

(** The entry of a cashier after one more invoice. *)
Lemma count_sale_entry acc inv e0 :
  NoDup (map cs_cashier acc) -> e0 ∈ acc ->
  (if bool_decide (inv_cashier inv = cs_cashier e0)
   then mkCashierSales (cs_cashier e0) (cs_totalSales e0 + inv_totalAmount inv)%Q
                       (cs_invoiceCount e0 + 1)%Z
   else e0) ∈ count_sale acc inv.
Proof.
  intros Hnd Hin. unfold count_sale.
  apply list_elem_of_lookup in Hin as [i Hi].
  destruct (list_find _ acc) as [[k e]|] eqn:Hfind.
  - apply list_find_Some in Hfind as (Hk & He & _).
    case_bool_decide as Hc.
    + assert (k = i) as ->.
      { eapply (NoDup_lookup _ _ _ _ Hnd).
        - change (map ?f ?l) with (f <$> l). by rewrite list_lookup_fmap, Hk.
        - change (map ?f ?l) with (f <$> l). by rewrite list_lookup_fmap, Hi, He, Hc. }
      assert (e = e0) as -> by congruence.
      apply list_elem_of_lookup. exists i. apply list_lookup_insert_eq.
      by eapply lookup_lt_Some.
    + apply list_elem_of_lookup. exists i.
      rewrite list_lookup_insert_ne; [done|]. intros ->. congruence.
  - apply list_find_None in Hfind. rewrite Forall_forall in Hfind.
    rewrite bool_decide_eq_false_2.
    + apply elem_of_app. left. by eapply list_elem_of_lookup_2.
    + intros Hc. apply (Hfind e0); [by eapply list_elem_of_lookup_2|done].
Qed.

Lemma count_sale_entries l : forall acc,
  NoDup (map cs_cashier acc) ->
  forall e, e ∈ fold_left count_sale l acc ->
    let mine := List.filter (fun inv => bool_decide (inv_cashier inv = cs_cashier e)) l in
    (forall e0, e0 ∈ acc -> cs_cashier e0 = cs_cashier e ->
       cs_totalSales e = fold_left Qplus (map inv_totalAmount mine) (cs_totalSales e0) /\
       cs_invoiceCount e = (cs_invoiceCount e0 + Z.of_nat (length mine))%Z) /\
    (cs_cashier e ∉ map cs_cashier acc ->
       cs_totalSales e = fold_left Qplus (map inv_totalAmount mine) 0%Q /\
       cs_invoiceCount e = Z.of_nat (length mine)).
Proof.
  induction l as [|inv l IH]; intros acc Hnd e He; simpl in *.
  { split.
    - intros e0 He0 Hc.
      assert (e0 = e) as ->; [|split; [done|lia]].
      apply list_elem_of_lookup in He0 as [i Hi], He as [j Hj].
      assert (i = j) as ->; [|congruence].
      eapply (NoDup_lookup _ _ _ _ Hnd).
      + change (map ?f ?l) with (f <$> l). by rewrite list_lookup_fmap, Hi.
      + change (map ?f ?l) with (f <$> l). by rewrite list_lookup_fmap, Hj, Hc.
    - intros Hnot. exfalso. apply Hnot.
      change (map ?f ?l) with (f <$> l). apply list_elem_of_fmap. by exists e. }
  pose proof (count_sale_NoDup acc inv Hnd) as Hnd1.
  destruct (IH _ Hnd1 e He) as [IH1 IH2]. split.
  - intros e0 He0 Hc.
    pose proof (count_sale_entry acc inv e0 Hnd He0) as Hin1. rewrite Hc in Hin1.
    destruct (bool_decide (inv_cashier inv = cs_cashier e)) eqn:Hmine; simpl.
    + destruct (IH1 _ Hin1 eq_refl) as [Ht Hn]. simpl in Ht, Hn.
      split; [done|]. rewrite Hn. lia.
    + by apply IH1.
  - intros Hnot.
    destruct (bool_decide (inv_cashier inv = cs_cashier e)) eqn:Hmine; simpl.
    + apply bool_decide_eq_true in Hmine.
      assert (mkCashierSales (inv_cashier inv) (inv_totalAmount inv) 1%Z
                ∈ count_sale acc inv) as Hin1.
      { unfold count_sale.
        destruct (list_find _ acc) as [[k x]|] eqn:Hfind.
        - exfalso. apply list_find_Some in Hfind as (Hk & Hx & _). apply Hnot.
          rewrite <- Hmine, <- Hx. change (map ?f ?l) with (f <$> l).
          apply list_elem_of_fmap. exists x. split; [done|].
          by eapply list_elem_of_lookup_2.
        - apply elem_of_app. right. by apply list_elem_of_singleton. }
      destruct (IH1 _ Hin1 Hmine) as [Ht Hn]. simpl in Ht, Hn.
      rewrite Qplus_0_l_eq. split; [done|]. rewrite Hn. lia.
    + apply bool_decide_eq_false in Hmine. apply IH2.
      rewrite count_sale_cashiers. case_bool_decide; [done|].
      rewrite elem_of_app, list_elem_of_singleton. intros [?|?]; [done|].
      by apply Hmine.
Qed.

(** X26.  The sales report by cashier.  Each cashier with a sale in the
    period is listed, once, and no one else; a cashier is listed with the
    number of the sale invoices of the period that are theirs and with the
    totals of these invoices, added up in the order of the invoices; the
    invoice counts sum to the number of sale invoices in the period.  The
    returns reported are the totals of the returns of the period added up
    in order, net sales are the totals of the sales added up in order
    less the returns, and the discounts reported are never negative. *)
Theorem salesData_by_cashier saleInvoices expenses start end_ :
  let d := salesData saleInvoices expenses start end_ in
  let sales :=
    List.filter (fun inv => is_sale inv && in_range start end_ (inv_timestamp inv))
                saleInvoices in
  let returns :=
    List.filter (fun inv => negb (is_sale inv) && in_range start end_ (inv_timestamp inv))
                saleInvoices in
  NoDup (map cs_cashier (sd_salesByEmployee d)) /\
  (forall c, c ∈ map cs_cashier (sd_salesByEmployee d) <-> c ∈ map inv_cashier sales) /\
  (forall e, e ∈ sd_salesByEmployee d ->
     let mine :=
       List.filter (fun inv => bool_decide (inv_cashier inv = cs_cashier e)) sales in
     cs_totalSales e = added_up (map inv_totalAmount mine) /\
     cs_invoiceCount e = Z.of_nat (length mine)) /\
  Zsum (map cs_invoiceCount (sd_salesByEmployee d)) = Z.of_nat (length sales) /\
  sd_returnsAmount d = added_up (map inv_totalAmount returns) /\
  sd_netSales d
  = (added_up (map inv_totalAmount sales) - added_up (map inv_totalAmount returns))%Q /\
  (0 <= sd_totalDiscountsGiven d)%Q.
Proof.
  intros d sales returns. subst d. unfold salesData. simpl.
  set (filtered := List.filter (fun inv => in_range start end_ (inv_timestamp inv))
                               saleInvoices).
  assert (List.filter is_sale filtered = sales) as Hsales.
  { subst filtered sales. induction saleInvoices as [|inv l IH]; [done|]. simpl.
    destruct (in_range start end_ (inv_timestamp inv)); simpl;
      destruct (is_sale inv); simpl; by rewrite ?IH. }
  assert (List.filter (fun inv => negb (is_sale inv)) filtered = returns) as Hreturns.
  { subst filtered returns. clear. induction saleInvoices as [|inv l IH]; [done|]. simpl.
    destruct (in_range start end_ (inv_timestamp inv)); simpl;
      destruct (is_sale inv); simpl; by rewrite ?IH. }
  destruct (report_invoice_totals filtered (mkSalesTotals 0 0 0 0)) as [_ Hd].
  destruct (report_invoice_in_order filtered (mkSalesTotals 0 0 0 0)) as [Hg Hr].
  simpl in Hg, Hr, Hd. rewrite Hsales in Hg. rewrite Hreturns in Hr.
  destruct (salesByEmployee_spec (List.filter is_sale filtered) []
              (NoDup_nil_2) (Forall_nil_2 _))
    as (Hnd & Hpos & _ & Hz & Hin).
  rewrite Hsales in *. simpl in Hz.
  split; [done|]. split; [intros c; rewrite Hin, elem_of_nil; tauto|].
  split.
  { intros e He. apply (count_sale_entries sales [] (NoDup_nil_2) e He).
    apply not_elem_of_nil. }
  split; [rewrite Hz; unfold Zsum; simpl; lia|].
  split; [exact Hr|]. split; [rewrite Hg, Hr; reflexivity|]. apply Hd. lra.
Qed.

Lemma Qsum_ext {A} (f g : A -> Q) (l : list A) :
  (forall x, f x == g x)%Q -> (Qsum (map f l) == Qsum (map g l))%Q.
Proof.
  intros H. induction l as [|x l IH]; unfold Qsum in *; simpl; [reflexivity|].
  rewrite IH, H. reflexivity.
Qed.

Lemma products_items_sum ps :
  fold_left (fun sum p => (sum + totalStock (prod_batches p))%Z) ps 0%Z
  = Zsum (map total_stock ps).
Proof.
  assert (forall l a, fold_left (fun sum p => (sum + totalStock (prod_batches p))%Z) l a
                      = (a + Zsum (map total_stock l))%Z) as H.
  { induction l as [|p l IH]; intros a; unfold Zsum in *; simpl; [lia|].
    rewrite IH, totalStock_total_stock. lia. }
  by rewrite H.
Qed.

Lemma prepareLines_found cart (ps : list Product) su items0 ups su' items :
  prepareLines cart ps su items0 = inr (ups, su', items) ->
  Forall (fun i => is_product i = true -> item_id i ∈ map prod_id ps) cart.
Proof.
  revert ps su items0.
  induction cart as [|item cart IH]; intros ps su items0 Hprep; simpl in Hprep;
    [done|].
  destruct (item_type item) eqn:Hty.
  2:{ constructor; [|by eapply IH]. unfold is_product. by rewrite Hty. }
  destruct (list_find _ ps) as [[k p]|] eqn:Hfind; [|discriminate].
  pose proof (proj1 (list_find_Some _ _ _ _) Hfind) as (Hk & Hp & _).
  destruct (deductLoop _ _ _ _ _) as [[[bs qd] tot] su1].
  destruct (0 <? qd)%Z; [discriminate|].
  assert (map prod_id (<[k := set_batches bs p]> ps) = map prod_id ps) as Hids.
  { change (map ?f ?l) with (f <$> l). rewrite list_fmap_insert. simpl.
    apply list_insert_id. by rewrite list_lookup_fmap, Hk. }
  constructor.
  - intros _. rewrite <- Hp. apply list_elem_of_fmap. exists p.
    split; [done|]. by eapply list_elem_of_lookup_2.
  - rewrite <- Hids. by eapply IH.
Qed.

Lemma Zsum_one_key {A} (key : A -> string) (l : list A) x q :
  NoDup (map key l) -> x ∈ map key l ->
  Zsum (map (fun p => if bool_decide (x = key p) then q else 0%Z) l) = q.
Proof.
  induction l as [|a l IH]; intros Hnd Hin; [by apply elem_of_nil in Hin|].
  simpl in Hnd, Hin. apply NoDup_cons in Hnd as [Ha Hnd].
  unfold Zsum in *. simpl.
  apply elem_of_cons in Hin as [->|Hin].
  - rewrite bool_decide_eq_true_2 by done.
    assert (foldr Z.add 0%Z
              (map (fun p => if bool_decide (key a = key p) then q else 0%Z) l) = 0%Z)
      as ->; [|lia].
    clear IH Hnd. induction l as [|b l IH]; [done|]. simpl.
    rewrite bool_decide_eq_false_2.
    + rewrite IH; [done|]. intros H. apply Ha. by apply elem_of_cons; right.
    + intros Heq. apply Ha. rewrite Heq. apply elem_of_cons. by left.
  - rewrite bool_decide_eq_false_2 by (intros ->; done).
    rewrite IH by done. lia.
Qed.

Lemma sold_units_all cart (ps : list Product) :
  NoDup (map prod_id ps) ->
  Forall (fun i => is_product i = true -> item_id i ∈ map prod_id ps) cart ->
  Zsum (map (fun p => sold_units cart (prod_id p)) ps)
  = Zsum (map item_quantity (List.filter is_product cart)).
Proof.
  intros Hnd. induction 1 as [|i cart Hi _ IH]; simpl.
  { unfold sold_units, Zsum. simpl. clear. induction ps; simpl; [done|lia]. }
  assert (Zsum (map (fun p => sold_units (i :: cart) (prod_id p)) ps)
          = (Zsum (map (fun p => if is_product i && bool_decide (item_id i = prod_id p)
                                 then item_quantity i else 0%Z) ps)
             + Zsum (map (fun p => sold_units cart (prod_id p)) ps))%Z) as ->.
  { clear. induction ps as [|p ps IHp]; [done|]. unfold Zsum in *. simpl.
    rewrite sold_units_cons, IHp. lia. }
  rewrite IH. destruct (is_product i) eqn:Hprod; simpl.
  - rewrite (Zsum_one_key prod_id ps (item_id i)) by auto. unfold Zsum. simpl. lia.
  - assert (Zsum (map (fun _ : Product => 0%Z) ps) = 0%Z) as ->; [|lia].
    unfold Zsum. clear. induction ps; simpl; [done|lia].
Qed.

Lemma Zsum_map_sub {A} (f g : A -> Z) (l : list A) :
  Zsum (map (fun x => (f x - g x)%Z) l) = (Zsum (map f l) - Zsum (map g l))%Z.
Proof. induction l as [|x l IH]; unfold Zsum in *; simpl; lia. Qed.

Lemma completeSale_created_invoice env env1 state cashier customerId db toasts r inv :
  out_result (completeSale env state cashier customerId) = Some r ->
  success r = true -> invoice r = Some inv ->
  truthy (editingSaleInvoiceId state) = None ->
  (forall cid, truthy customerId = Some cid ->
     cid ∈ map cust_id (customers state)) ->
  inv_type inv = KSale /\ inv_timestamp inv = env_now env /\
  expenses (w_state (dispatch env1 true (completeSale env state cashier customerId)
                              (mkWorld state db toasts)))
    = expenses state.
Proof.
  intros Hres Hok Hinv Hed Hcust.
  unfold completeSale in *.
  destruct (env_online env); simpl in *; [|injection Hres as <-; discriminate].
  destruct (bool_decide (cart state = []));
    [injection Hres as <-; discriminate|].
  destruct (prepareLines _ _ _ _) as [m|[[ups su] items]] eqn:Hprep;
    [injection Hres as <-; discriminate|].
  rewrite Hed in *. simpl in *. injection Hres as <-. simpl in Hinv.
  injection Hinv as <-. simpl. do 2 (split; [done|]).
  unfold dispatch. simpl.
  destruct (truthy customerId) as [cid|] eqn:Hcid; [|done].
  specialize (Hcust cid eq_refl).
  destruct (list_find (fun c => cust_id c = cid) (customers state))
    as [[k c]|] eqn:Hfind; [done|].
  exfalso. apply list_elem_of_fmap in Hcust as (c & -> & Hin).
  eapply list_find_None in Hfind. rewrite Forall_forall in Hfind.
  by apply (Hfind c).
Qed.

Lemma prepareLines_ids cart (ps : list Product) su items0 ups su' items :
  prepareLines cart ps su items0 = inr (ups, su', items) ->
  map prod_id ups = map prod_id ps.
Proof.
  revert ps su items0.
  induction cart as [|item cart IH]; intros ps su items0 Hprep; simpl in Hprep.
  { by injection Hprep as <- _ _. }
  destruct (item_type item) eqn:Hty; [|by eapply IH].
  destruct (list_find _ ps) as [[k p]|] eqn:Hfind; [|discriminate].
  pose proof (proj1 (list_find_Some _ _ _ _) Hfind) as (Hk & Hp & _).
  destruct (deductLoop _ _ _ _ _) as [[[bs qd] tot] su1].
  destruct (0 <? qd)%Z; [discriminate|].
  rewrite (IH _ _ _ Hprep).
  change (map ?f ?l) with (f <$> l). rewrite list_fmap_insert. simpl.
  apply list_insert_id. by rewrite list_lookup_fmap, Hk.
Qed.

Lemma filter_by_key {A} (key : A -> string) (P Q : string -> bool) (l l' : list A) :
  map key l' = map key l ->
  (forall x, x ∈ map key l -> P x = Q x) ->
  map key (List.filter (fun a => P (key a)) l')
  = List.filter Q (map key l).
Proof.
  revert l'. induction l as [|a l IH]; intros [|b l'] Hk HPQ; try done.
  simpl in *. injection Hk as Hb Hk. rewrite Hb.
  rewrite (HPQ (key a)) by (apply elem_of_cons; by left).
  destruct (Q (key a)); simpl; rewrite ?Hb; f_equal; apply IH; try done;
    intros x Hx; apply HPQ, elem_of_cons; by right.
Qed.

Lemma List_filter_and {A} (P Q : A -> bool) (l : list A) :
  List.filter Q (List.filter P l) = List.filter (fun x => P x && Q x) l.
Proof.
  induction l as [|x l IH]; [done|]. simpl.
  destruct (P x); simpl; [destruct (Q x)|]; by rewrite IH.
Qed.

(** X27.  A sale as the reports show it.  When a new sale dated within
    the period has been saved, the inventory report counts as many items
    fewer as the product lines of the cart hold; the products it lists as
    stagnant are those it listed before that are not on the cart; and the
    sales report lists the cashier of the sale with one sale invoice more
    than the cashier had in the period.  Every line asks for a positive
    quantity and no two products share an id. *)
Theorem sale_in_the_reports
    env env1 state cashier customerId db toasts start end_ r inv :
  out_result (completeSale env state cashier customerId) = Some r ->
  success r = true -> invoice r = Some inv ->
  truthy (editingSaleInvoiceId state) = None ->
  (forall cid, truthy customerId = Some cid ->
     cid ∈ map cust_id (customers state)) ->
  Forall (fun i => (0 < item_quantity i)%Z) (cart state) ->
  NoDup (map prod_id (products state)) ->
  in_range start end_ (env_now env) = true ->
  let w1 := dispatch env1 true (completeSale env state cashier customerId)
                     (mkWorld state db toasts) in
  let stock_before := inventoryData (products state) (saleInvoices state) start end_ in
  let stock_after :=
    inventoryData (products (w_state w1)) (saleInvoices (w_state w1)) start end_ in
  let sales_after :=
    salesData (saleInvoices (w_state w1)) (expenses (w_state w1)) start end_ in
  id_totalItems stock_after
    = (id_totalItems stock_before
       - Zsum (map item_quantity (List.filter is_product (cart state))))%Z /\
  map prod_id (id_stagnantProducts stock_after)
    = List.filter (fun id => negb (bool_decide (id ∈ map item_id (cart state))))
                  (map prod_id (id_stagnantProducts stock_before)) /\
  (forall p, p ∈ id_stagnantProducts stock_after ->
     prod_id p ∉ map item_id (cart state)) /\
  exists e,
    e ∈ sd_salesByEmployee sales_after /\ cs_cashier e = cashier /\
    cs_invoiceCount e
    = (1 + Z.of_nat (length
             (List.filter
                (fun i => bool_decide (inv_cashier i = cashier))
                (List.filter
                   (fun i => is_sale i && in_range start end_ (inv_timestamp i))
                   (saleInvoices state)))))%Z.
Proof.
  intros Hres Hok Hinv Hed Hcust Hq Hnd Hrange w1.
  destruct (completeSale_created env env1 state cashier customerId db toasts r inv
              Hres Hok Hinv Hed Hcust)
    as (ups & su & Hprep & Hups & Hinvs & _).
  destruct (completeSale_created_invoice env env1 state cashier customerId db toasts
              r inv Hres Hok Hinv Hed Hcust) as (Hty & Htime & Hexp).
  destruct (completeSale_invoice _ _ _ _ _ _ Hres Hinv)
    as (_ & _ & _ & _ & _ & _ & _ & _ & _ & _ & Hcashier & _).
  fold w1 in Hups, Hinvs, Hexp. simpl.
  rewrite Hups, Hinvs, ?Hexp. unfold inventoryData, salesData. simpl.
  rewrite Htime, Hrange. simpl.
  pose proof (prepareLines_lines _ _ _ _ _ _ _ Hprep) as Hlines. simpl in Hlines.
  apply (f_equal (map item_id)) in Hlines. rewrite !map_map in Hlines.
  simpl in Hlines.
  change (map item_id (inv_items inv) = map item_id (cart state)) in Hlines.
  set (sold := flat_map (fun i => map item_id (inv_items i))
                 (List.filter (fun i => in_range start end_ (inv_timestamp i))
                              (saleInvoices state))).
  assert (map prod_id
            (List.filter (fun p => negb (bool_decide
                            (prod_id p ∈ map item_id (inv_items inv) ++ sold))) ups)
          = List.filter (fun id => negb (bool_decide (id ∈ map item_id (cart state))))
              (map prod_id
                 (List.filter (fun p => negb (bool_decide (prod_id p ∈ sold)))
                              (products state)))) as Hstagnant.
  { pose proof (filter_by_key prod_id
               (fun id => negb (bool_decide (id ∈ sold)))
               (fun id => negb (bool_decide (id ∈ sold))) (products state)
               (products state) eq_refl (fun _ _ => eq_refl)) as H1.
    cbv beta in H1. rewrite H1. clear H1.
    rewrite List_filter_and.
    pose proof (filter_by_key prod_id
               (fun id => negb (bool_decide (id ∈ map item_id (inv_items inv) ++ sold)))
               (fun id => negb (bool_decide (id ∈ sold))
                          && negb (bool_decide (id ∈ map item_id (cart state))))
               (products state) ups) as H2.
    cbv beta in H2. rewrite H2; [done|by eapply prepareLines_ids|].
    intros x _. rewrite Hlines.
    destruct (bool_decide_reflect (x ∈ sold)),
             (bool_decide_reflect (x ∈ map item_id (cart state)));
      simpl; [rewrite bool_decide_eq_true_2|rewrite bool_decide_eq_true_2
             |rewrite bool_decide_eq_true_2|rewrite bool_decide_eq_false_2];
      try done; rewrite elem_of_app; tauto. }
  split.
  { rewrite !products_items_sum.
    rewrite (prepareLines_sold _ _ _ _ _ _ _ Hprep Hnd)
      by (eapply Forall_impl; [exact Hq|]; simpl; intros; lia).
    rewrite Zsum_map_sub. f_equal.
    apply sold_units_all; [done|]. by eapply prepareLines_found. }
  split; [exact Hstagnant|]. split.
  { intros p Hp Hcart.
    apply list_elem_of_In, filter_In in Hp as [_ Hp].
    apply negb_true_iff, bool_decide_eq_false_1 in Hp. apply Hp.
    apply elem_of_app. left. by rewrite Hlines. }
  assert (is_sale inv = true) as Hsale by (unfold is_sale; by rewrite Hty).
  rewrite Hsale.
  set (old := List.filter is_sale
                (List.filter (fun i => in_range start end_ (inv_timestamp i))
                             (saleInvoices state))).
  assert (old = List.filter
                  (fun i => is_sale i && in_range start end_ (inv_timestamp i))
                  (saleInvoices state)) as Hold.
  { subst old. clear. induction (saleInvoices state) as [|i l IH]; [done|]. simpl.
    destruct (in_range start end_ (inv_timestamp i)); simpl;
      destruct (is_sale i); simpl; by rewrite ?IH. }
  rewrite <- Hold.
  destruct (salesByEmployee_spec (inv :: old) [] (NoDup_nil_2) (Forall_nil_2 _))
    as (_ & _ & _ & _ & Hin).
  assert (cashier ∈ map cs_cashier (fold_left count_sale (inv :: old) [])) as Hlisted.
  { apply Hin. right. simpl. rewrite Hcashier. apply elem_of_cons. by left. }
  change (map ?f ?l) with (f <$> l) in Hlisted.
  apply list_elem_of_fmap in Hlisted as (e & He & Hine).
  exists e. split; [exact Hine|]. split; [done|].
  destruct (count_sale_entries (inv :: old) [] (NoDup_nil_2) e Hine) as [_ Hcount].
  destruct Hcount as [_ ->]; [apply not_elem_of_nil|].
  simpl. rewrite Hcashier, <- He, bool_decide_eq_true_2 by done. simpl. lia.
Qed.

Lemma sale_in_the_reports_witness :
  let w1 := dispatch online_env true
              (completeSale online_env ink_sale_state "cashier" None)
              (mkWorld ink_sale_state ink_sale_db []) in
  let stock_before :=
    inventoryData (products ink_sale_state) (saleInvoices ink_sale_state) 0 10 in
  let stock_after :=
    inventoryData (products (w_state w1)) (saleInvoices (w_state w1)) 0 10 in
  let sales_after :=
    salesData (saleInvoices (w_state w1)) (expenses (w_state w1)) 0 10 in
  (* two bottles of ink are sold, of a stock of 6 and 1 *)
  id_totalItems stock_before = 7%Z /\ id_totalItems stock_after = 5%Z /\
  map prod_id (id_stagnantProducts stock_before) = ["p-ink"] /\
  id_stagnantProducts stock_after = [] /\
  map (fun e => (cs_cashier e, cs_invoiceCount e)) (sd_salesByEmployee sales_after)
  = [("cashier", 1%Z)].
Proof.
  intros w1 stock_before stock_after sales_after.
  destruct (sale_in_the_reports online_env online_env ink_sale_state "cashier" None
              ink_sale_db [] 0 10 _ _ eq_refl eq_refl eq_refl eq_refl)
    as (Hitems & _).
  - intros cid Hcid. discriminate Hcid.
  - repeat constructor.
  - apply NoDup_singleton.
  - reflexivity.
  - split; [reflexivity|]. split; [exact (eq_trans Hitems eq_refl)|].
    split; [reflexivity|]. split; reflexivity.
Defined.

(** ** The dashboard *)





(** ** The return form *)

Lemma split_last_dash_type t : split_last_dash (type_name t) = None.
Proof. by destruct t. Qed.

Lemma split_last_dash_key id tn :
  split_last_dash tn = None ->
  split_last_dash (String.append id (String.append "-" tn)) = Some (id, tn).
Proof.
  intros Htn. induction id as [|c id IH].
  - change (split_last_dash (String "-" tn) = Some (EmptyString, tn)).
    simpl. by rewrite Htn.
  - change (split_last_dash (String c (String.append id (String.append "-" tn)))
            = Some (String c id, tn)).
    simpl. by rewrite IH.
Qed.

(** The key of a line is read back as the id and the type of the line,
    whatever dashes the id has. *)
Lemma parse_return_key_of item :
  parse_return_key (return_key item) = (item_id item, type_name (item_type item)).
Proof.
  unfold parse_return_key, return_key.
  by rewrite split_last_dash_key by apply split_last_dash_type.
Qed.

Lemma type_name_inj a b : type_name a = type_name b -> a = b.
Proof. by destruct a, b. Qed.

Lemma return_key_inj a b : return_key a = return_key b -> line_key a = line_key b.
Proof.
  intros H. apply (f_equal parse_return_key) in H.
  rewrite !parse_return_key_of in H. injection H as Hid Hty.
  unfold line_key. by rewrite Hid, (type_name_inj _ _ Hty).
Qed.

Lemma set_entry_keys key v s :
  map fst (set_entry key v s)
  = if bool_decide (key ∈ map fst s) then map fst s else map fst s ++ [key].
Proof.
  induction s as [|[k x] s IH].
  { rewrite bool_decide_eq_false_2 by apply not_elem_of_nil. done. }
  cbn [set_entry map fst].
  destruct (decide (k = key)) as [->|Hk].
  - rewrite bool_decide_eq_true_2 by done.
    rewrite bool_decide_eq_true_2 by (apply elem_of_cons; by left). done.
  - rewrite bool_decide_eq_false_2 by done. cbn [map fst]. rewrite IH.
    destruct (decide (key ∈ map fst s)) as [Hin|Hno].
    + rewrite bool_decide_eq_true_2 by done.
      rewrite bool_decide_eq_true_2 by (apply elem_of_cons; by right). done.
    + rewrite bool_decide_eq_false_2 by done.
      rewrite bool_decide_eq_false_2; [done|].
      intros [?|?]%elem_of_cons; [congruence|done].
Qed.

Lemma set_entry_NoDup key v s :
  NoDup (map fst s) -> NoDup (map fst (set_entry key v s)).
Proof.
  intros Hnd. rewrite set_entry_keys. case_bool_decide as Hin; [done|].
  apply NoDup_app. split; [done|]. split; [|apply NoDup_singleton].
  intros k Hk ->%list_elem_of_singleton. done.
Qed.

Lemma set_entry_Forall (P : string * Z -> Prop) key v s :
  Forall P s -> P (key, v) -> Forall P (set_entry key v s).
Proof.
  intros Hs Hkv. induction Hs as [|[k x] s Hx Hs IH]; simpl.
  { by repeat constructor. }
  case_bool_decide as Hk; [subst k|]; by constructor.
Qed.

Lemma set_entry_new key v s :
  key ∉ map fst s -> set_entry key v s = s ++ [(key, v)].
Proof.
  induction s as [|[k x] s IH]; intros Hno; [done|]. simpl.
  rewrite bool_decide_eq_false_2.
  - rewrite IH; [done|]. intros H. apply Hno. apply elem_of_cons. by right.
  - intros ->. apply Hno. apply elem_of_cons. by left.
Qed.

Lemma handleQuantityChange_entries inv events :
  Forall (fun e : CartItem * Z => e.1 ∈ inv_items inv) events ->
  forall s, NoDup (map fst s) -> Forall (entry_of inv) s ->
    let s' := fold_left (fun s e => handleQuantityChange e.1 e.2 s) events s in
    NoDup (map fst s') /\ Forall (entry_of inv) s'.
Proof.
  induction 1 as [|[item q] events Hitem _ IH]; intros s Hnd Hs; simpl; [done|].
  apply IH.
  - by apply set_entry_NoDup.
  - apply set_entry_Forall; [done|]. exists item. simpl in *.
    split; [done|]. split; [done|]. lia.
Qed.

Lemma handleSubmit_entries inv s :
  NoDup (map fst s) -> Forall (entry_of inv) s ->
  exists returnItems,
    handleSubmit s = map submitted returnItems /\
    NoDup (map (fun ri => (ri_id ri, ri_type ri)) returnItems) /\
    Forall (fun ri => exists item,
              item ∈ inv_items inv /\ item_id item = ri_id ri /\
              item_type item = ri_type ri /\
              (1 <= ri_quantity ri <= item_quantity item)%Z) returnItems /\
    (forall ri, ri ∈ returnItems ->
       String.append (ri_id ri) (String.append "-" (type_name (ri_type ri)))
       ∈ map fst s).
Proof.
  intros Hnd Hs. induction Hs as [|[k q] s (item & Hitem & Hk & Hq) Hs IH].
  { exists []. repeat split; try done; try constructor.
    intros ri Hri. by apply elem_of_nil in Hri. }
  simpl in Hnd. apply NoDup_cons in Hnd as [Hfresh Hnd].
  destruct (IH Hnd) as (ris & Heq & Hnd' & Hall & Hkeys). simpl in Hk, Hq.
  unfold handleSubmit in *. simpl. destruct (Z.ltb_spec 0 q) as [Hpos|Hnon].
  - exists (mkReturnItem (item_id item) (item_type item) q :: ris). simpl.
    split; [rewrite Heq, Hk, parse_return_key_of; done|].
    split.
    { apply NoDup_cons. split; [|done]. intros Hin.
      apply list_elem_of_fmap in Hin as (ri & Hri & Hin). apply Hfresh.
      rewrite Hk. unfold return_key. injection Hri as -> ->. by apply Hkeys. }
    split.
    { constructor; [|done]. exists item. simpl. repeat split; try done; lia. }
    intros ri [->|Hri]%elem_of_cons.
    + simpl. apply elem_of_cons. left. by rewrite Hk.
    + apply elem_of_cons. right. by apply Hkeys.
  - exists ris. split; [done|]. split; [done|]. split; [done|].
    intros ri Hri. apply elem_of_cons. right. by apply Hkeys.
Qed.

Lemma fill_all (l : list CartItem) s :
  NoDup (map fst s ++ map return_key l) ->
  Forall (fun i => (0 < item_quantity i)%Z) l ->
  fold_left (fun s e => handleQuantityChange e.1 e.2 s)
            (map (fun i => (i, item_quantity i)) l) s
  = s ++ map (fun i => (return_key i, item_quantity i)) l.
Proof.
  revert s. induction l as [|i l IH]; intros s Hnd Hq; simpl.
  { by rewrite app_nil_r. }
  apply Forall_cons in Hq as [Hq Hqs].
  unfold handleQuantityChange at 2. simpl.
  simpl in Hnd. apply NoDup_app in Hnd as (Hs & Hdis & Hl).
  apply NoDup_cons in Hl as [Hi Hl].
  rewrite set_entry_new by (intros H; apply (Hdis _ H); apply elem_of_cons; by left).
  rewrite IH.
  - rewrite <- app_assoc. simpl. do 3 f_equal. lia.
  - rewrite map_app. simpl. rewrite <- app_assoc. simpl.
    apply NoDup_app. split; [done|]. split.
    + intros k Hk [->|Hin]%elem_of_cons.
      * apply (Hdis _ Hk). apply elem_of_cons. by left.
      * apply (Hdis _ Hk). apply elem_of_cons. by right.
    + by apply NoDup_cons.
  - done.
Qed.

Lemma return_keys_NoDup (l : list CartItem) :
  NoDup (line_key <$> l) -> NoDup (map return_key l).
Proof.
  induction l as [|i l IH]; intros Hnd; [constructor|].
  rewrite fmap_cons in Hnd. apply NoDup_cons in Hnd as [Hi Hnd]. simpl.
  apply NoDup_cons. split; [|by apply IH].
  intros Hin. apply Hi. apply list_elem_of_fmap in Hin as (j & Hj & Hin).
  apply list_elem_of_fmap. exists j. split; [by apply return_key_inj|done].
Qed.

(** X29.  The return form submits lines of the invoice.  Whatever
    quantities are entered for the lines of an invoice, in whatever
    order, the entries submitted are lines of that invoice, each (id,
    type) once, with a quantity of at least one and at most the quantity
    sold; the id and the type are read back from the key of the entry at
    its last dash, so an id with dashes comes back whole.  Entering the
    full quantity of every line, the lines having distinct (id, type) and
    positive quantities, submits the full return of the invoice. *)
Theorem return_form_submits_lines_of_the_invoice inv :
  (forall events : list (CartItem * Z),
     Forall (fun e => e.1 ∈ inv_items inv) events ->
     let returnQuantities :=
       fold_left (fun s e => handleQuantityChange e.1 e.2 s) events [] in
     exists returnItems,
       handleSubmit returnQuantities = map submitted returnItems /\
       NoDup (map (fun ri => (ri_id ri, ri_type ri)) returnItems) /\
       Forall (fun ri => exists item,
                 item ∈ inv_items inv /\ item_id item = ri_id ri /\
                 item_type item = ri_type ri /\
                 (1 <= ri_quantity ri <= item_quantity item)%Z) returnItems) /\
  (NoDup (line_key <$> inv_items inv) ->
   Forall (fun i => (0 < item_quantity i)%Z) (inv_items inv) ->
   handleSubmit
     (fold_left (fun s e => handleQuantityChange e.1 e.2 s)
                (map (fun i => (i, item_quantity i)) (inv_items inv)) [])
   = map submitted (full_return inv)).
Proof.
  split.
  - intros events Hevents returnQuantities.
    destruct (handleQuantityChange_entries inv events Hevents [] (NoDup_nil_2)
                (Forall_nil_2 _)) as [Hnd Hs].
    destruct (handleSubmit_entries inv _ Hnd Hs) as (ris & Heq & Hnd' & Hall & _).
    by exists ris.
  - intros Hkeys Hq. rewrite fill_all; [|by apply return_keys_NoDup|done].
    simpl. unfold handleSubmit, full_return.
    induction Hq as [|i l Hi Hq IH]; [done|]. simpl.
    rewrite fmap_cons in Hkeys. apply NoDup_cons in Hkeys as [_ Hkeys].
    destruct (Z.ltb_spec 0 (item_quantity i)); [|lia]. simpl.
    rewrite parse_return_key_of. unfold submitted at 1. simpl. f_equal.
    by apply IH.
Qed.

Lemma return_form_submits_lines_of_the_invoice_witness :
  (* five of the three glues are asked for, then two; no binding *)
  handleSubmit
    (fold_left (fun s e => handleQuantityChange e.1 e.2 s)
               [(glue_line, 5%Z); (binding_line, 0%Z); (glue_line, 2%Z)] [])
    = [("3f2a-77", "product", 2%Z)] /\
  (exists returnItems,
     handleSubmit
       (fold_left (fun s e => handleQuantityChange e.1 e.2 s)
                  [(glue_line, 5%Z); (binding_line, 0%Z); (glue_line, 2%Z)] [])
       = map submitted returnItems /\
     Forall (fun ri => exists item,
               item ∈ inv_items dashed_invoice /\ item_id item = ri_id ri /\
               item_type item = ri_type ri /\
               (1 <= ri_quantity ri <= item_quantity item)%Z) returnItems) /\
  handleSubmit
    (fold_left (fun s e => handleQuantityChange e.1 e.2 s)
               (map (fun i => (i, item_quantity i)) (inv_items dashed_invoice)) [])
    = [("3f2a-77", "product", 3%Z); ("3f2a-77", "service", 1%Z)].
Proof.
  split; [reflexivity|]. split.
  - destruct (proj1 (return_form_submits_lines_of_the_invoice dashed_invoice)
                [(glue_line, 5%Z); (binding_line, 0%Z); (glue_line, 2%Z)])
      as (returnItems & Heq & _ & Hall).
    + repeat constructor.
    + by exists returnItems.
  - rewrite (proj2 (return_form_submits_lines_of_the_invoice dashed_invoice)).
    + reflexivity.
    + apply (bool_decide_unpack _). vm_compute. reflexivity.
    + repeat constructor.
Defined.
